(** * Agora supply-chain simulator: message bus, scheduler and actors

    A shallow embedding of the coordination engine of the simulator
    (src/agents/message_bus.py, src/agents/base_agent.py,
    src/models/{message,order,location}.py, src/agents/truck_agent.py,
    src/agents/warehouse_agent.py, src/agents/factory_agent.py,
    src/simulation/simulation_manager.py) together with the properties
    of the natural-language specification that concern it.

    Conventions of the embedding.
    - Python objects are records; a method becomes a function that takes
      the object (and the shared message bus) and returns the updated
      ones.  Code that can raise runs in the state-and-exception monad
      [M]: an exception keeps every mutation made before it, as in
      Python.
    - A [dict] that the code iterates over is an insertion-ordered
      association list ([PyDict]); a [dict] that is only looked up is a
      [gmap].
    - Wall-clock readings ([time.time()]), logging and the telemetry bag
      [BaseAgent.state] do not influence control flow and are left out;
      the wall clock needed to mint factory-order identifiers is a field
      of the bus environment.
    - Python floats (distances, speed) are rendered as rationals [Q].
    - Payloads are maps from field names to Python values; following the
      annotations of the code, identifier slots hold strings (or [None])
      and quantity slots hold any value, a non-integer raising
      [TypeError] where the code compares or adds it. *)

From stdpp Require Import gmap strings list fin_maps pretty.
From Stdlib Require Import ZArith QArith Qminmax Lia Lqa.

(* ===================================================================== *)
(** * Part I: the embedding                                               *)
(* ===================================================================== *)

(** ** Python-level notions *)

(** Values carried by message payloads: identifiers are strings,
    quantities are integers, and a slot may hold [None]. *)
Inductive pyval : Type :=
  | VNone
  | VStr (s : string)
  | VInt (z : Z).

#[global] Instance pyval_eq_dec : EqDecision pyval.
Proof. solve_decision. Defined.

(** The exceptions the modelled code can raise. *)
Inductive exn : Type :=
  | ValueError
  | TypeError
  | KeyError.

Inductive outcome (A : Type) : Type :=
  | Ok (a : A)
  | Raise (e : exn).
Arguments Ok {A} a.
Arguments Raise {A} e.

(** State-and-exception monad: the state survives a raise. *)
Definition M (S A : Type) : Type := S -> outcome A * S.

Definition ret {S A} (a : A) : M S A := fun s => (Ok a, s).

Definition bind {S A B} (c : M S A) (k : A -> M S B) : M S B :=
  fun s =>
    match c s with
    | (Ok a, s') => k a s'
    | (Raise e, s') => (Raise e, s')
    end.

Definition raise {S A} (e : exn) : M S A := fun s => (Raise e, s).

Definition modify {S} (f : S -> S) : M S unit := fun s => (Ok tt, f s).

(** [try: c  except Exception: pass] *)
Definition try_except {S} (c : M S unit) : M S unit :=
  fun s =>
    match c s with
    | (Ok _, s') => (Ok tt, s')
    | (Raise _, s') => (Ok tt, s')
    end.

Declare Scope py_scope.
Delimit Scope py_scope with py.
Notation "x <~ c ; k" := (bind c (fun x => k))
  (at level 20, c at level 100, k at level 200, only parsing) : py_scope.
Notation "c ;;; k" := (bind c (fun _ => k))
  (at level 100, k at level 200, right associativity, only parsing) : py_scope.

(** [for x in xs: body x] *)
Fixpoint for_each {S A} (xs : list A) (body : A -> M S unit) : M S unit :=
  match xs with
  | [] => ret tt
  | x :: xs' => bind (body x) (fun _ => for_each xs' body)
  end.

(** [a == b] on [Optional[str]]. *)
Definition opt_eqb (a b : option string) : bool :=
  match a, b with
  | None, None => true
  | Some x, Some y => String.eqb x y
  | _, _ => false
  end.

(** Insertion-ordered dictionaries with string keys. *)
Module PyDict.

Definition t (V : Type) : Type := list (string * V).

Fixpoint get {V} (k : string) (d : t V) : option V :=
  match d with
  | [] => None
  | (k', v) :: d' => if String.eqb k k' then Some v else get k d'
  end.

(** [d[k] = v]: an existing key keeps its position, a new key goes last. *)
Fixpoint set {V} (k : string) (v : V) (d : t V) : t V :=
  match d with
  | [] => [(k, v)]
  | (k', v') :: d' =>
      if String.eqb k k' then (k', v) :: d' else (k', v') :: set k v d'
  end.

(** [del d[k]] for a key that is present. *)
Fixpoint del {V} (k : string) (d : t V) : t V :=
  match d with
  | [] => []
  | (k', v') :: d' =>
      if String.eqb k k' then d' else (k', v') :: del k d'
  end.

Definition keys {V} (d : t V) : list string := map fst d.
Definition values {V} (d : t V) : list V := map snd d.

End PyDict.

(** Insertion-ordered dictionaries whose keys are strings or [None]: a
    table that the code indexes with a value read from a payload, where
    an absent field reads as [None]. *)
Module PyDictO.

Definition t (V : Type) : Type := list (option string * V).

Fixpoint get {V} (k : option string) (d : t V) : option V :=
  match d with
  | [] => None
  | (k', v) :: d' => if opt_eqb k k' then Some v else get k d'
  end.

(** [d[k] = v]: an existing key keeps its position, a new key goes last. *)
Fixpoint set {V} (k : option string) (v : V) (d : t V) : t V :=
  match d with
  | [] => [(k, v)]
  | (k', v') :: d' =>
      if opt_eqb k k' then (k', v) :: d' else (k', v') :: set k v d'
  end.

Definition values {V} (d : t V) : list V := map snd d.

(** A dictionary given with string keys. *)
Definition of_str {V} (d : PyDict.t V) : t V :=
  map (fun kv => (Some (fst kv), snd kv)) d.

End PyDictO.

(** ** models/message.py *)
Module Message.

Record t : Type := mk {
  sender : string;
  recipient : string;
  message_type : string;
  data : gmap string pyval
}.

(** The constructor's validation: empty sender, recipient or type
    raise [ValueError]. *)
Definition init (sender recipient message_type : string)
    (data : gmap string pyval) : outcome t :=
  if String.eqb sender "" then Raise ValueError
  else if String.eqb recipient "" then Raise ValueError
  else if String.eqb message_type "" then Raise ValueError
  else Ok (mk sender recipient message_type data).

(** [data.get(k)] *)
Definition data_get (m : t) (k : string) : pyval :=
  default VNone (data m !! k).

(** [data.get(k, d)] *)
Definition data_get_default (m : t) (k : string) (d : pyval) : pyval :=
  default d (data m !! k).

End Message.

(** ** Observation trace

    A ghost journal, kept next to the bus, records what happens during a
    run so that temporal claims can be stated: an envelope is published,
    an actor's message handler is fed an envelope, the scheduler invokes
    an actor's per-tick advance. It is never read by the modelled code. *)
Inductive event : Type :=
  | Published (m : Message.t)
  | Handled (agent_id : string) (m : Message.t)
  | Advance (agent_id : string).

(** ** agents/message_bus.py *)
Module MessageBus.

Record t : Type := mk {
  _subscribers : gmap string (list string);
  _agent_queues : gmap string (list Message.t);
  wall_clock_ms : Z;
  journal : list event
}.

(** Set once in [__init__] and never reassigned. *)
Definition _max_queue_size : nat := 100.

Definition init (clock : Z) : t := mk ∅ ∅ clock [].

Definition log (e : event) (b : t) : t :=
  mk (_subscribers b) (_agent_queues b) (wall_clock_ms b) (journal b ++ [e]).

Definition set_queues (qs : gmap string (list Message.t)) (b : t) : t :=
  mk (_subscribers b) qs (wall_clock_ms b) (journal b).

(** [self._agent_queues[agent_id]] on the [defaultdict]. *)
Definition queue (b : t) (agent_id : string) : list Message.t :=
  default [] (_agent_queues b !! agent_id).

(** The handler is the subscriber's own bound method; it is recorded by
    the subscriber's id. *)
Definition subscribe (agent_id : string) (b : t) : t :=
  mk (<[agent_id := default [] (_subscribers b !! agent_id) ++ [agent_id]]>
        (_subscribers b))
     (_agent_queues b) (wall_clock_ms b) (journal b).

Definition unsubscribe (agent_id : string) (b : t) : t :=
  mk (delete agent_id (_subscribers b))
     (delete agent_id (_agent_queues b)) (wall_clock_ms b) (journal b).

Definition publish (message : Message.t) (b : t) : t :=
  let recipient := Message.recipient message in
  let q := queue b recipient in
  let q' := if (_max_queue_size <=? length q)%nat then tail q else q in
  log (Published message)
      (set_queues (<[recipient := q' ++ [message]]> (_agent_queues b)) b).

Definition deliver_messages (agent_id : string) (b : t)
    : list Message.t * t :=
  let messages := queue b agent_id in
  (messages, set_queues (<[agent_id := []]> (_agent_queues b)) b).

(** Reading [self._agent_queues[agent_id]] on the [defaultdict] creates
    an empty mailbox for an id that has none. *)
Definition get_queue_size (agent_id : string) (b : t) : nat * t :=
  (length (queue b agent_id),
   set_queues (<[agent_id := queue b agent_id]> (_agent_queues b)) b).

Definition clear_all_queues (b : t) : t := set_queues ∅ b.

(** The dictionary returned by [get_stats]. *)
Record stats : Type := mk_stats {
  total_subscribers : nat;
  total_queued_messages : nat;
  queue_sizes : gmap string nat;
  max_queue_size : nat
}.

Definition get_stats (b : t) : stats :=
  mk_stats (size (_subscribers b))
    (sum_list_with (fun kv => length (snd kv)) (map_to_list (_agent_queues b)))
    (length <$> _agent_queues b)
    _max_queue_size.

(** A run of publishes with no drain in between. *)
Definition publish_all (ms : list Message.t) (b : t) : t :=
  fold_left (fun b m => publish m b) ms b.

End MessageBus.

(** Reading an identifier slot of a payload. The code tests an identifier
    for truth, compares it, uses it as a key and prints it, and its
    annotations make it a string. A string is read as it is and [None] as
    [None]; an integer, which the annotations rule out, is read by what
    the code can see of it: [0] is as false as [None], and any other
    integer is true and is carried by its digits. *)
Definition as_id (v : pyval) : option string :=
  match v with
  | VStr s => Some s
  | VInt z => if (z =? 0)%Z then None else Some (pretty z)
  | VNone => None
  end.

(** [not x] for an [Optional[str]]. *)
Definition falsy_id (o : option string) : bool :=
  match o with
  | None => true
  | Some s => String.eqb s ""
  end.

(** ** models/order.py *)
Module Order.

Record t : Type := mk {
  order_id : string;
  product_id : string;
  quantity : Z;
  requester : string;
  status : string;
  (** attribute attached by the warehouse after construction *)
  delivery_location : option string
}.

Definition valid_statuses : list string :=
  ["pending"; "processing"; "shipped"; "delivered"; "cancelled"].

Definition init (order_id product_id : option string) (quantity : pyval)
    (requester : option string) : outcome t :=
  match order_id with
  | None => Raise ValueError
  | Some oid =>
    if String.eqb oid "" then Raise ValueError else
    match product_id with
    | None => Raise ValueError
    | Some pid =>
      if String.eqb pid "" then Raise ValueError else
      match quantity with
      | VInt q =>
        if (q <=? 0)%Z then Raise ValueError else
        match requester with
        | None => Raise ValueError
        | Some r =>
          if String.eqb r "" then Raise ValueError
          else Ok (mk oid pid q r "pending" None)
        end
      | _ => Raise TypeError
      end
    end
  end.

Definition set_status (s : string) (o : t) : t :=
  mk (order_id o) (product_id o) (quantity o) (requester o) s
     (delivery_location o).

Definition set_delivery_location (l : option string) (o : t) : t :=
  mk (order_id o) (product_id o) (quantity o) (requester o) (status o) l.

Definition update_status (new_status : string) (o : t) : outcome t :=
  if existsb (String.eqb new_status) valid_statuses
  then Ok (set_status new_status o)
  else Raise ValueError.

End Order.

(** ** models/location.py *)
Module Location.

Record t : Type := mk {
  location_id : string;
  name : string;
  x : Q;
  y : Q;
  location_type : string
}.

(** The constructor's validation. *)
Definition init (location_id name : string) (x y : Q)
    (location_type : string) : outcome t :=
  if String.eqb location_id "" then Raise ValueError
  else if String.eqb name "" then Raise ValueError
  else if negb (existsb (String.eqb location_type)
                  ["factory"; "warehouse"; "store"])
  then Raise ValueError
  else Ok (mk location_id name x y location_type).

(** [distance_to] for a given rendering [pow_half] of [** 0.5]. *)
Definition distance_to (pow_half : Q -> Q) (self other : t) : Q :=
  pow_half ((x self - x other) ^ 2 + (y self - y other) ^ 2)%Q.

End Location.

(** ** simulation/city_map.py

    [distance_to] takes a square root, which has no rational rendering;
    the map carries the root function it uses. The memo table
    [_distance_cache] only replays earlier results and is left out. *)
Module CityMap.

Record t : Type := mk {
  locations : gmap string Location.t;
  pow_half : Q -> Q
}.

Definition get_location (cm : t) (location_id : option string)
    : option Location.t :=
  match location_id with
  | Some l => locations cm !! l
  | None => None
  end.

Definition distance_to (cm : t) (a b : Location.t) : Q :=
  pow_half cm ((Location.x a - Location.x b) ^ 2
               + (Location.y a - Location.y b) ^ 2)%Q.

Definition calculate_distance (cm : t) (location_id1 location_id2 : option string)
    : outcome Q :=
  match get_location cm location_id1 with
  | None => Raise KeyError
  | Some loc1 =>
    match get_location cm location_id2 with
    | None => Raise KeyError
    | Some loc2 =>
      if opt_eqb location_id1 location_id2 then Ok 0%Q
      else Ok (distance_to cm loc1 loc2)
    end
  end.

End CityMap.

(** ** agents/base_agent.py

    The methods of the abstract base class that do not depend on the
    role. An actor method runs on the pair of the actor's own fields and
    the shared bus. *)
Module BaseAgent.

(** [send_message]: building the envelope can raise [ValueError]. *)
Definition send_message {A} (agent_id : string) (recipient : option string)
    (message_type : string) (data : gmap string pyval)
    : M (A * MessageBus.t) unit :=
  fun '(a, bus) =>
    match recipient with
    | None => (Raise ValueError, (a, bus))
    | Some r =>
      match Message.init agent_id r message_type data with
      | Ok m => (Ok tt, (a, MessageBus.publish m bus))
      | Raise e => (Raise e, (a, bus))
      end
    end.

(** [process_messages]: drain the mailbox and feed each envelope to the
    handler, continuing past a handler that raises. *)
Definition process_messages {A} (agent_id : string)
    (handle_message : Message.t -> M (A * MessageBus.t) unit)
    : M (A * MessageBus.t) unit :=
  fun '(a, bus) =>
    let '(messages, bus') := MessageBus.deliver_messages agent_id bus in
    for_each messages
      (fun m =>
         bind (modify (fun '(a, b) => (a, MessageBus.log (Handled agent_id m) b)))
              (fun _ => try_except (handle_message m)))
      (a, bus').

End BaseAgent.

(** The interface every role implements ([BaseAgent] is abstract in
    [step] and [handle_message]). *)
Class Agent (A : Type) : Type := {
  agent_id : A -> string;
  is_active : A -> bool;
  set_active : bool -> A -> A;
  step : M (A * MessageBus.t) unit;
  handle_message : Message.t -> M (A * MessageBus.t) unit
}.

(** [BaseAgent.process_messages] and [BaseAgent.deactivate] for an
    implementation of the interface. *)
Definition process_messages `{Agent A} : M (A * MessageBus.t) unit :=
  fun '(a, bus) => BaseAgent.process_messages (agent_id a) handle_message (a, bus).

Definition deactivate `{Agent A} : M (A * MessageBus.t) unit :=
  modify (fun '(a, bus) =>
            (set_active false a, MessageBus.unsubscribe (agent_id a) bus)).

(** ** agents/truck_agent.py *)
Module TruckAgent.

(** The dictionary [current_order] always has the same four keys. *)
Record order_info : Type := mk_order {
  order_id : string;
  product_id : string;
  quantity : Z;
  recipient : string
}.

Record t : Type := mk {
  agent_id : string;
  location : Location.t;
  active : bool;
  city_map : CityMap.t;
  speed : Q;
  capacity : Z;
  current_location_id : option string;
  destination_location_id : option string;
  status : string;
  cargo : gmap string Z;
  current_cargo_weight : Z;
  current_order : option order_info;
  pickup_location_id : option string;
  delivery_location_id : option string;
  dispatcher_id : option string;
  movement_progress : Q;
  total_distance : Q;
  remaining_distance : Q;
  deliveries_completed : Z;
  total_distance_traveled : Q;
  total_cargo_delivered : Z
}.

Definition set_location (v : Location.t) (a : t) : t :=
  mk (agent_id a) v (active a) (city_map a) (speed a) (capacity a)
     (current_location_id a) (destination_location_id a) (status a)
     (cargo a) (current_cargo_weight a) (current_order a)
     (pickup_location_id a) (delivery_location_id a) (dispatcher_id a)
     (movement_progress a) (total_distance a) (remaining_distance a)
     (deliveries_completed a) (total_distance_traveled a)
     (total_cargo_delivered a).

Definition set_active (v : bool) (a : t) : t :=
  mk (agent_id a) (location a) v (city_map a) (speed a) (capacity a)
     (current_location_id a) (destination_location_id a) (status a)
     (cargo a) (current_cargo_weight a) (current_order a)
     (pickup_location_id a) (delivery_location_id a) (dispatcher_id a)
     (movement_progress a) (total_distance a) (remaining_distance a)
     (deliveries_completed a) (total_distance_traveled a)
     (total_cargo_delivered a).

Definition set_current_location_id (v : option string) (a : t) : t :=
  mk (agent_id a) (location a) (active a) (city_map a) (speed a)
     (capacity a) v (destination_location_id a) (status a) (cargo a)
     (current_cargo_weight a) (current_order a) (pickup_location_id a)
     (delivery_location_id a) (dispatcher_id a) (movement_progress a)
     (total_distance a) (remaining_distance a) (deliveries_completed a)
     (total_distance_traveled a) (total_cargo_delivered a).

Definition set_destination_location_id (v : option string) (a : t) : t :=
  mk (agent_id a) (location a) (active a) (city_map a) (speed a)
     (capacity a) (current_location_id a) v (status a) (cargo a)
     (current_cargo_weight a) (current_order a) (pickup_location_id a)
     (delivery_location_id a) (dispatcher_id a) (movement_progress a)
     (total_distance a) (remaining_distance a) (deliveries_completed a)
     (total_distance_traveled a) (total_cargo_delivered a).

Definition set_status (v : string) (a : t) : t :=
  mk (agent_id a) (location a) (active a) (city_map a) (speed a)
     (capacity a) (current_location_id a) (destination_location_id a) v
     (cargo a) (current_cargo_weight a) (current_order a)
     (pickup_location_id a) (delivery_location_id a) (dispatcher_id a)
     (movement_progress a) (total_distance a) (remaining_distance a)
     (deliveries_completed a) (total_distance_traveled a)
     (total_cargo_delivered a).

Definition set_cargo (v : gmap string Z) (a : t) : t :=
  mk (agent_id a) (location a) (active a) (city_map a) (speed a)
     (capacity a) (current_location_id a) (destination_location_id a)
     (status a) v (current_cargo_weight a) (current_order a)
     (pickup_location_id a) (delivery_location_id a) (dispatcher_id a)
     (movement_progress a) (total_distance a) (remaining_distance a)
     (deliveries_completed a) (total_distance_traveled a)
     (total_cargo_delivered a).

Definition set_current_cargo_weight (v : Z) (a : t) : t :=
  mk (agent_id a) (location a) (active a) (city_map a) (speed a)
     (capacity a) (current_location_id a) (destination_location_id a)
     (status a) (cargo a) v (current_order a) (pickup_location_id a)
     (delivery_location_id a) (dispatcher_id a) (movement_progress a)
     (total_distance a) (remaining_distance a) (deliveries_completed a)
     (total_distance_traveled a) (total_cargo_delivered a).

Definition set_current_order (v : option order_info) (a : t) : t :=
  mk (agent_id a) (location a) (active a) (city_map a) (speed a)
     (capacity a) (current_location_id a) (destination_location_id a)
     (status a) (cargo a) (current_cargo_weight a) v (pickup_location_id a)
     (delivery_location_id a) (dispatcher_id a) (movement_progress a)
     (total_distance a) (remaining_distance a) (deliveries_completed a)
     (total_distance_traveled a) (total_cargo_delivered a).

Definition set_pickup_location_id (v : option string) (a : t) : t :=
  mk (agent_id a) (location a) (active a) (city_map a) (speed a)
     (capacity a) (current_location_id a) (destination_location_id a)
     (status a) (cargo a) (current_cargo_weight a) (current_order a) v
     (delivery_location_id a) (dispatcher_id a) (movement_progress a)
     (total_distance a) (remaining_distance a) (deliveries_completed a)
     (total_distance_traveled a) (total_cargo_delivered a).

Definition set_delivery_location_id (v : option string) (a : t) : t :=
  mk (agent_id a) (location a) (active a) (city_map a) (speed a)
     (capacity a) (current_location_id a) (destination_location_id a)
     (status a) (cargo a) (current_cargo_weight a) (current_order a)
     (pickup_location_id a) v (dispatcher_id a) (movement_progress a)
     (total_distance a) (remaining_distance a) (deliveries_completed a)
     (total_distance_traveled a) (total_cargo_delivered a).

Definition set_dispatcher_id (v : option string) (a : t) : t :=
  mk (agent_id a) (location a) (active a) (city_map a) (speed a)
     (capacity a) (current_location_id a) (destination_location_id a)
     (status a) (cargo a) (current_cargo_weight a) (current_order a)
     (pickup_location_id a) (delivery_location_id a) v (movement_progress a)
     (total_distance a) (remaining_distance a) (deliveries_completed a)
     (total_distance_traveled a) (total_cargo_delivered a).

Definition set_movement_progress (v : Q) (a : t) : t :=
  mk (agent_id a) (location a) (active a) (city_map a) (speed a)
     (capacity a) (current_location_id a) (destination_location_id a)
     (status a) (cargo a) (current_cargo_weight a) (current_order a)
     (pickup_location_id a) (delivery_location_id a) (dispatcher_id a) v
     (total_distance a) (remaining_distance a) (deliveries_completed a)
     (total_distance_traveled a) (total_cargo_delivered a).

Definition set_total_distance (v : Q) (a : t) : t :=
  mk (agent_id a) (location a) (active a) (city_map a) (speed a)
     (capacity a) (current_location_id a) (destination_location_id a)
     (status a) (cargo a) (current_cargo_weight a) (current_order a)
     (pickup_location_id a) (delivery_location_id a) (dispatcher_id a)
     (movement_progress a) v (remaining_distance a) (deliveries_completed a)
     (total_distance_traveled a) (total_cargo_delivered a).

Definition set_remaining_distance (v : Q) (a : t) : t :=
  mk (agent_id a) (location a) (active a) (city_map a) (speed a)
     (capacity a) (current_location_id a) (destination_location_id a)
     (status a) (cargo a) (current_cargo_weight a) (current_order a)
     (pickup_location_id a) (delivery_location_id a) (dispatcher_id a)
     (movement_progress a) (total_distance a) v (deliveries_completed a)
     (total_distance_traveled a) (total_cargo_delivered a).

Definition set_deliveries_completed (v : Z) (a : t) : t :=
  mk (agent_id a) (location a) (active a) (city_map a) (speed a)
     (capacity a) (current_location_id a) (destination_location_id a)
     (status a) (cargo a) (current_cargo_weight a) (current_order a)
     (pickup_location_id a) (delivery_location_id a) (dispatcher_id a)
     (movement_progress a) (total_distance a) (remaining_distance a) v
     (total_distance_traveled a) (total_cargo_delivered a).

Definition set_total_distance_traveled (v : Q) (a : t) : t :=
  mk (agent_id a) (location a) (active a) (city_map a) (speed a)
     (capacity a) (current_location_id a) (destination_location_id a)
     (status a) (cargo a) (current_cargo_weight a) (current_order a)
     (pickup_location_id a) (delivery_location_id a) (dispatcher_id a)
     (movement_progress a) (total_distance a) (remaining_distance a)
     (deliveries_completed a) v (total_cargo_delivered a).

Definition set_total_cargo_delivered (v : Z) (a : t) : t :=
  mk (agent_id a) (location a) (active a) (city_map a) (speed a)
     (capacity a) (current_location_id a) (destination_location_id a)
     (status a) (cargo a) (current_cargo_weight a) (current_order a)
     (pickup_location_id a) (delivery_location_id a) (dispatcher_id a)
     (movement_progress a) (total_distance a) (remaining_distance a)
     (deliveries_completed a) (total_distance_traveled a) v.

Definition St : Type := (t * MessageBus.t)%type.

Definition self : M St t := fun '(a, b) => (Ok a, (a, b)).

Definition upd (f : t -> t) : M St unit := modify (fun '(a, b) => (f a, b)).

Definition of_opt (o : option string) : pyval :=
  match o with
  | Some s => VStr s
  | None => VNone
  end.

(** [__init__] (the subscription to the bus is made by [init_bus]). *)
Definition init (agent_id : string) (location : Location.t)
    (city_map : CityMap.t) (speed : Q) (capacity : Z) : t :=
  mk agent_id location true city_map speed capacity
     (Some (Location.location_id location)) None "available"
     ∅ 0%Z None None None None 0%Q 0%Q 0%Q 0%Z 0%Q 0%Z.

Definition init_bus (agent_id : string) (b : MessageBus.t) : MessageBus.t :=
  MessageBus.subscribe agent_id b.

Definition _reset_to_available : M St unit :=
  (upd (fun a =>
     set_remaining_distance 0%Q
       (set_total_distance 0%Q
         (set_movement_progress 0%Q
           (set_dispatcher_id None
             (set_destination_location_id None
               (set_delivery_location_id None
                 (set_pickup_location_id None
                   (set_current_order None
                     (set_status "available" a))))))))) ;;;
   (* Notify dispatcher that truck is available *)
   a <~ self ;
   if negb (falsy_id (dispatcher_id a))
   then BaseAgent.send_message (agent_id a) (dispatcher_id a)
          "TRUCK_AVAILABLE" ∅
   else ret tt)%py.

(** The body shared by the two [_start_movement_to_*] methods once the
    destination and the status are set. *)
Definition start_movement : M St unit :=
  (a <~ self ;
   match CityMap.calculate_distance (city_map a)
           (current_location_id a) (destination_location_id a) with
   | Ok d => upd (fun a => set_remaining_distance d (set_total_distance d a))
   | Raise KeyError => _reset_to_available
   | Raise e => raise e
   end)%py.

Definition _start_movement_to_pickup : M St unit :=
  (upd (fun a =>
     set_movement_progress 0%Q
       (set_status "moving_to_pickup"
         (set_destination_location_id (pickup_location_id a) a))) ;;;
   start_movement)%py.

Definition _start_movement_to_delivery : M St unit :=
  (upd (fun a =>
     set_movement_progress 0%Q
       (set_status "moving_to_delivery"
         (set_destination_location_id (delivery_location_id a) a))) ;;;
   start_movement)%py.

Definition _move_towards_destination : M St unit :=
  (a <~ self ;
   if Qle_bool (total_distance a) 0 then ret tt
   else
     let distance_this_step := Qmin (speed a) (remaining_distance a) in
     let remaining := (remaining_distance a - distance_this_step)%Q in
     upd (fun a =>
       set_total_distance_traveled
         (total_distance_traveled a + distance_this_step)%Q
         (set_movement_progress (1 - remaining / total_distance a)%Q
           (set_remaining_distance remaining a))))%py.

Definition _has_reached_destination (a : t) : bool :=
  Qle_bool (remaining_distance a) (1 # 100).

Definition arrive (target : option string) (new_status : string) : M St unit :=
  upd (fun a =>
    let a' :=
      set_remaining_distance 0%Q
        (set_movement_progress 1%Q
          (set_status new_status
            (set_current_location_id target a))) in
    match CityMap.get_location (city_map a) target with
    | Some l => set_location l a'
    | None => a'
    end).

Definition _arrive_at_pickup : M St unit :=
  (a <~ self ; arrive (pickup_location_id a) "loading")%py.

Definition _arrive_at_delivery : M St unit :=
  (a <~ self ; arrive (delivery_location_id a) "unloading")%py.

Definition _complete_loading : M St unit :=
  (a <~ self ;
   match current_order a with
   | None => _reset_to_available
   | Some o =>
     let product_id := product_id o in
     let quantity := quantity o in
     upd (fun a =>
       set_current_cargo_weight (current_cargo_weight a + quantity)%Z
         (set_cargo
            (<[product_id := (default 0%Z (cargo a !! product_id) + quantity)%Z]>
               (cargo a)) a)) ;;;
     BaseAgent.send_message (agent_id a) (dispatcher_id a) "PICKUP_COMPLETE"
       (<["order_id" := VStr (order_id o)]>
         (<["product_id" := VStr product_id]>
           (<["quantity" := VInt quantity]> ∅))) ;;;
     if opt_eqb (current_location_id a) (delivery_location_id a)
     then _arrive_at_delivery
     else _start_movement_to_delivery
   end)%py.

Definition _complete_unloading : M St unit :=
  (a <~ self ;
   match current_order a with
   | None => _reset_to_available
   | Some o =>
     let product_id := product_id o in
     let quantity := quantity o in
     (match cargo a !! product_id with
      | Some held =>
        if (quantity <=? held)%Z then
          upd (fun a =>
            set_deliveries_completed (deliveries_completed a + 1)%Z
              (set_total_cargo_delivered (total_cargo_delivered a + quantity)%Z
                (set_current_cargo_weight (current_cargo_weight a - quantity)%Z
                  (set_cargo
                     (if (held - quantity =? 0)%Z
                      then delete product_id (cargo a)
                      else <[product_id := (held - quantity)%Z]> (cargo a))
                     a))))
        else ret tt
      | None => ret tt
      end) ;;;
     BaseAgent.send_message (agent_id a) (dispatcher_id a) "DELIVERY_COMPLETE"
       (<["order_id" := VStr (order_id o)]>
         (<["product_id" := VStr product_id]>
           (<["quantity" := VInt quantity]>
             (<["delivery_location" := of_opt (delivery_location_id a)]> ∅)))) ;;;
     BaseAgent.send_message (agent_id a) (Some (recipient o))
       "DELIVERY_NOTIFICATION"
       (<["order_id" := VStr (order_id o)]>
         (<["product_id" := VStr product_id]>
           (<["quantity" := VInt quantity]> ∅))) ;;;
     _reset_to_available
   end)%py.

Definition _handle_dispatch_order (message : Message.t) : M St unit :=
  (a <~ self ;
   if negb (String.eqb (status a) "available") then ret tt
   else
     let order_id := as_id (Message.data_get message "order_id") in
     let product_id := as_id (Message.data_get message "product_id") in
     let quantity := Message.data_get_default message "quantity" (VInt 0) in
     let pickup_location := as_id (Message.data_get message "pickup_location") in
     let delivery_location :=
       as_id (Message.data_get message "delivery_location") in
     let recipient := as_id (Message.data_get message "recipient") in
     match order_id, product_id, pickup_location, delivery_location, recipient with
     | Some oid, Some pid, Some pick, Some deliv, Some rcpt =>
       if forallb (fun s => negb (String.eqb s "")) [oid; pid; pick; deliv; rcpt]
       then
         match quantity with
         | VInt q =>
           if (capacity a <? q)%Z then ret tt
           else
             upd (fun a =>
               set_dispatcher_id (Some (Message.sender message))
                 (set_delivery_location_id (Some deliv)
                   (set_pickup_location_id (Some pick)
                     (set_current_order (Some (mk_order oid pid q rcpt)) a)))) ;;;
             if opt_eqb (current_location_id a) (Some pick)
             then _arrive_at_pickup
             else _start_movement_to_pickup
         | _ => raise TypeError
         end
       else ret tt
     | _, _, _, _, _ => ret tt
     end)%py.

Definition handle_message (message : Message.t) : M St unit :=
  try_except
    (if String.eqb (Message.message_type message) "DISPATCH_ORDER"
     then _handle_dispatch_order message
     else ret tt).

Definition step : M St unit :=
  (a0 <~ self ;
   BaseAgent.process_messages (agent_id a0) handle_message ;;;
   a <~ self ;
   if String.eqb (status a) "moving_to_pickup" then
     _move_towards_destination ;;;
     a' <~ self ;
     if _has_reached_destination a' then _arrive_at_pickup else ret tt
   else if String.eqb (status a) "loading" then
     _complete_loading
   else if String.eqb (status a) "moving_to_delivery" then
     _move_towards_destination ;;;
     a' <~ self ;
     if _has_reached_destination a' then _arrive_at_delivery else ret tt
   else if String.eqb (status a) "unloading" then
     _complete_unloading
   else ret tt)%py.

(** [get_current_location]: a [Location] object is always truthy, so the
    [or] falls back to [self.location] only for an unknown id. *)
Definition get_current_location (a : t) : Location.t :=
  match CityMap.get_location (city_map a) (current_location_id a) with
  | Some l => l
  | None => location a
  end.

(** The dictionary returned by [get_interpolated_position]. *)
Record position : Type := mk_position {
  pos_x : Q;
  pos_y : Q;
  from_location : option string;
  to_location : option string;
  progress : Q;
  is_moving : bool
}.

Definition get_interpolated_position (a : t) : position :=
  let resting :=
    let current_loc := get_current_location a in
    mk_position (Location.x current_loc) (Location.y current_loc)
      (current_location_id a) None 1%Q false in
  if (String.eqb (status a) "moving_to_pickup"
      || String.eqb (status a) "moving_to_delivery")
     && negb (falsy_id (destination_location_id a))
  then
    match CityMap.get_location (city_map a) (current_location_id a),
          CityMap.get_location (city_map a) (destination_location_id a) with
    | Some current_loc, Some dest_loc =>
      let progress := movement_progress a in
      mk_position
        (Location.x current_loc
         + (Location.x dest_loc - Location.x current_loc) * progress)%Q
        (Location.y current_loc
         + (Location.y dest_loc - Location.y current_loc) * progress)%Q
        (current_location_id a) (destination_location_id a) progress true
    | _, _ => resting
    end
  else resting.

Definition is_available (a : t) : bool := String.eqb (status a) "available".

Definition get_cargo_capacity_remaining (a : t) : Z :=
  (capacity a - current_cargo_weight a)%Z.

End TruckAgent.


(** [raise] or continue, from a constructor's outcome. *)
Definition lift {S A} (o : outcome A) : M S A :=
  fun s => (o, s).

(** ** agents/warehouse_agent.py

    The performance tracker is an optional collaborator attached from
    outside ([_record_storage_costs] only reports to it) and is left out. *)
Module WarehouseAgent.

Record t : Type := mk {
  agent_id : string;
  location : Location.t;
  active : bool;
  inventory : PyDictO.t Z;
  reorder_threshold : Z;
  reorder_quantity : Z;
  max_trucks : nat;
  pending_store_orders : PyDict.t Order.t;
  pending_factory_orders : PyDict.t Order.t;
  processing_orders : PyDict.t Order.t;
  available_trucks : list string;
  assigned_trucks : gmap string string;
  orders_processed : Z;
  orders_fulfilled : Z;
  orders_rejected : Z
}.

Definition set_active (v : bool) (a : t) : t :=
  mk (agent_id a) (location a) v (inventory a) (reorder_threshold a)
     (reorder_quantity a) (max_trucks a) (pending_store_orders a)
     (pending_factory_orders a) (processing_orders a) (available_trucks a)
     (assigned_trucks a) (orders_processed a) (orders_fulfilled a)
     (orders_rejected a).

Definition set_inventory (v : PyDictO.t Z) (a : t) : t :=
  mk (agent_id a) (location a) (active a) v (reorder_threshold a)
     (reorder_quantity a) (max_trucks a) (pending_store_orders a)
     (pending_factory_orders a) (processing_orders a) (available_trucks a)
     (assigned_trucks a) (orders_processed a) (orders_fulfilled a)
     (orders_rejected a).

Definition set_pending_store_orders (v : PyDict.t Order.t) (a : t) : t :=
  mk (agent_id a) (location a) (active a) (inventory a)
     (reorder_threshold a) (reorder_quantity a) (max_trucks a) v
     (pending_factory_orders a) (processing_orders a) (available_trucks a)
     (assigned_trucks a) (orders_processed a) (orders_fulfilled a)
     (orders_rejected a).

Definition set_pending_factory_orders (v : PyDict.t Order.t) (a : t) : t :=
  mk (agent_id a) (location a) (active a) (inventory a)
     (reorder_threshold a) (reorder_quantity a) (max_trucks a)
     (pending_store_orders a) v (processing_orders a) (available_trucks a)
     (assigned_trucks a) (orders_processed a) (orders_fulfilled a)
     (orders_rejected a).

Definition set_processing_orders (v : PyDict.t Order.t) (a : t) : t :=
  mk (agent_id a) (location a) (active a) (inventory a)
     (reorder_threshold a) (reorder_quantity a) (max_trucks a)
     (pending_store_orders a) (pending_factory_orders a) v
     (available_trucks a) (assigned_trucks a) (orders_processed a)
     (orders_fulfilled a) (orders_rejected a).

Definition set_available_trucks (v : list string) (a : t) : t :=
  mk (agent_id a) (location a) (active a) (inventory a)
     (reorder_threshold a) (reorder_quantity a) (max_trucks a)
     (pending_store_orders a) (pending_factory_orders a)
     (processing_orders a) v (assigned_trucks a) (orders_processed a)
     (orders_fulfilled a) (orders_rejected a).

Definition set_assigned_trucks (v : gmap string string) (a : t) : t :=
  mk (agent_id a) (location a) (active a) (inventory a)
     (reorder_threshold a) (reorder_quantity a) (max_trucks a)
     (pending_store_orders a) (pending_factory_orders a)
     (processing_orders a) (available_trucks a) v (orders_processed a)
     (orders_fulfilled a) (orders_rejected a).

Definition set_orders_processed (v : Z) (a : t) : t :=
  mk (agent_id a) (location a) (active a) (inventory a)
     (reorder_threshold a) (reorder_quantity a) (max_trucks a)
     (pending_store_orders a) (pending_factory_orders a)
     (processing_orders a) (available_trucks a) (assigned_trucks a) v
     (orders_fulfilled a) (orders_rejected a).

Definition set_orders_fulfilled (v : Z) (a : t) : t :=
  mk (agent_id a) (location a) (active a) (inventory a)
     (reorder_threshold a) (reorder_quantity a) (max_trucks a)
     (pending_store_orders a) (pending_factory_orders a)
     (processing_orders a) (available_trucks a) (assigned_trucks a)
     (orders_processed a) v (orders_rejected a).

Definition set_orders_rejected (v : Z) (a : t) : t :=
  mk (agent_id a) (location a) (active a) (inventory a)
     (reorder_threshold a) (reorder_quantity a) (max_trucks a)
     (pending_store_orders a) (pending_factory_orders a)
     (processing_orders a) (available_trucks a) (assigned_trucks a)
     (orders_processed a) (orders_fulfilled a) v.

Definition St : Type := (t * MessageBus.t)%type.

Definition self : M St t := fun '(a, b) => (Ok a, (a, b)).

Definition upd (f : t -> t) : M St unit := modify (fun '(a, b) => (f a, b)).

(** [f"truck_{agent_id}_{i}"] for [i] in [range(1, max_trucks + 1)]. *)
Definition truck_name (agent_id : string) (i : nat) : string :=
  "truck_" +:+ agent_id +:+ "_" +:+ pretty i.

Definition init (agent_id : string) (location : Location.t)
    (initial_inventory : PyDict.t Z)
    (reorder_threshold reorder_quantity : Z) (max_trucks : nat) : t :=
  mk agent_id location true (PyDictO.of_str initial_inventory)
     reorder_threshold reorder_quantity max_trucks [] [] []
     (map (truck_name agent_id) (seq 1 max_trucks)) ∅ 0%Z 0%Z 0%Z.

Definition _handle_store_order (message : Message.t) : M St unit :=
  (let order_id := as_id (Message.data_get message "order_id") in
   let product_id := as_id (Message.data_get message "product_id") in
   let quantity := Message.data_get_default message "quantity" (VInt 0) in
   let requester := as_id (Message.data_get message "requester") in
   let delivery_location :=
     as_id (Message.data_get message "delivery_location") in
   order <~ lift (Order.init order_id product_id quantity requester) ;
   let order := Order.set_delivery_location delivery_location order in
   upd (fun a =>
     set_orders_processed (orders_processed a + 1)%Z
       (set_pending_store_orders
          (PyDict.set (Order.order_id order) order (pending_store_orders a))
          a)))%py.

Definition get_inventory_level (a : t) (product_id : string) : Z :=
  default 0%Z (PyDictO.get (Some product_id) (inventory a)).

Definition _can_fulfill_order (a : t) (order : Order.t) : bool :=
  (Order.quantity order <=? get_inventory_level a (Order.product_id order))%Z.

Definition _dispatch_truck_for_order (order : Order.t) : M St bool :=
  (a <~ self ;
   match available_trucks a with
   | [] => ret false
   | truck_id :: rest =>
     upd (fun a =>
       set_assigned_trucks
         (<[truck_id := Order.order_id order]> (assigned_trucks a))
         (set_available_trucks rest a)) ;;;
     BaseAgent.send_message (agent_id a) (Some truck_id) "DISPATCH_ORDER"
       (<["order_id" := VStr (Order.order_id order)]>
         (<["product_id" := VStr (Order.product_id order)]>
           (<["quantity" := VInt (Order.quantity order)]>
             (<["pickup_location" :=
                  VStr (Location.location_id (location a))]>
               (<["delivery_location" :=
                    TruckAgent.of_opt (Order.delivery_location order)]>
                 (<["recipient" := VStr (Order.requester order)]> ∅)))))) ;;;
     ret true
   end)%py.

Definition rejection_reason (available requested : Z) : string :=
  "Insufficient inventory. Available: " +:+ pretty available
    +:+ ", Requested: " +:+ pretty requested.

Definition _reject_order (order : Order.t) : M St unit :=
  (a <~ self ;
   BaseAgent.send_message (agent_id a) (Some (Order.requester order))
     "ORDER_REJECTED"
     (<["order_id" := VStr (Order.order_id order)]>
       (<["reason" :=
            VStr (rejection_reason
                    (get_inventory_level a (Order.product_id order))
                    (Order.quantity order))]> ∅)))%py.

(** The body of the loop of [_process_pending_orders] for one entry of the
    pending table; the result tells whether the entry joins
    [orders_to_remove]. The order object is shared by the pending and the
    processing tables, so its new status shows in both. *)
Definition process_pending_order (order_id : string) (order : Order.t)
    : M St bool :=
  (a <~ self ;
   if _can_fulfill_order a order then
     dispatched <~ _dispatch_truck_for_order order ;
     if dispatched then
       order' <~ lift (Order.update_status "processing" order) ;
       upd (fun a =>
         let current_inventory :=
           get_inventory_level a (Order.product_id order) in
         set_inventory
           (PyDictO.set (Some (Order.product_id order))
              (current_inventory - Order.quantity order)%Z (inventory a))
           (set_orders_fulfilled (orders_fulfilled a + 1)%Z
             (set_pending_store_orders
                (PyDict.set order_id order' (pending_store_orders a))
                (set_processing_orders
                   (PyDict.set order_id order' (processing_orders a)) a)))) ;;;
       ret true
     else ret false
   else
     _reject_order order ;;;
     upd (fun a => set_orders_rejected (orders_rejected a + 1)%Z a) ;;;
     ret true)%py.

Fixpoint process_pending_loop (items : list (string * Order.t))
    (orders_to_remove : list string) : M St (list string) :=
  match items with
  | [] => ret orders_to_remove
  | (order_id, order) :: items' =>
    (remove <~ process_pending_order order_id order ;
     process_pending_loop items'
       (if remove : bool then orders_to_remove ++ [order_id]
        else orders_to_remove))%py
  end.

Definition _process_pending_orders : M St unit :=
  (a <~ self ;
   orders_to_remove <~ process_pending_loop (pending_store_orders a) [] ;
   for_each orders_to_remove
     (fun order_id =>
        upd (fun a =>
          set_pending_store_orders
            (PyDict.del order_id (pending_store_orders a)) a)))%py.

Definition _handle_delivery_complete (message : Message.t) : M St unit :=
  (let truck_id := Message.sender message in
   let order_id := as_id (Message.data_get message "order_id") in
   a <~ self ;
   (match assigned_trucks a !! truck_id with
    | Some _ =>
      upd (fun a =>
        set_available_trucks (available_trucks a ++ [truck_id])
          (set_assigned_trucks (delete truck_id (assigned_trucks a)) a))
    | None => ret tt
    end) ;;;
   match order_id with
   | Some oid =>
     match PyDict.get oid (processing_orders a) with
     | Some order =>
       order' <~ lift (Order.update_status "delivered" order) ;
       upd (fun a =>
         set_processing_orders
           (PyDict.set oid order' (processing_orders a)) a) ;;;
       BaseAgent.send_message (agent_id a) (Some (Order.requester order))
         "DELIVERY_NOTIFICATION"
         (<["order_id" := VStr oid]>
           (<["product_id" := VStr (Order.product_id order)]>
             (<["quantity" := VInt (Order.quantity order)]> ∅))) ;;;
       upd (fun a =>
         set_processing_orders (PyDict.del oid (processing_orders a)) a)
     | None => ret tt
     end
   | None => ret tt
   end)%py.

(** [f"{agent_id}_factory_order_{int(time.time() * 1000)}"] *)
Definition factory_order_id (agent_id : string) (clock_ms : Z) : string :=
  agent_id +:+ "_factory_order_" +:+ pretty clock_ms.

(** The product is a key of the stock table, so it can be [None]; the
    constructor of [Order] then raises. *)
Definition _place_factory_order (product_id : option string) (quantity : Z)
    : M St unit :=
  (a <~ self ;
   now_ms <~ (fun '(a, b) => (Ok (MessageBus.wall_clock_ms b), (a, b))) ;
   let order_id := factory_order_id (agent_id a) now_ms in
   order <~ lift (Order.init (Some order_id) product_id (VInt quantity)
                    (Some (agent_id a))) ;
   upd (fun a =>
     set_pending_factory_orders
       (PyDict.set order_id order (pending_factory_orders a)) a) ;;;
   BaseAgent.send_message (agent_id a) (Some "factory_1") "FACTORY_ORDER"
     (<["order_id" := VStr order_id]>
       (<["product_id" := TruckAgent.of_opt product_id]>
         (<["quantity" := VInt quantity]>
           (<["requester" := VStr (agent_id a)]> ∅)))))%py.

Definition _check_and_reorder_from_factory : M St unit :=
  (a0 <~ self ;
   for_each (inventory a0)
     (fun '(product_id, quantity) =>
        a <~ self ;
        if (quantity <=? reorder_threshold a)%Z then
          let pending_for_product :=
            existsb
              (fun order =>
                 opt_eqb (Some (Order.product_id order)) product_id
                 && String.eqb (Order.status order) "pending")
              (PyDict.values (pending_factory_orders a)) in
          if negb pending_for_product
          then _place_factory_order product_id (reorder_quantity a)
          else ret tt
        else ret tt))%py.

(** The quantity is credited under whatever the product slot holds: a
    payload without a product id credits the key [None]. Adding a
    quantity that is not a number raises [TypeError] before anything is
    changed. *)
Definition _handle_production_complete (message : Message.t) : M St unit :=
  (let order_id := as_id (Message.data_get message "order_id") in
   let product_id := as_id (Message.data_get message "product_id") in
   let quantity := Message.data_get_default message "quantity" (VInt 0) in
   a <~ self ;
   match order_id with
   | Some oid =>
     match PyDict.get oid (pending_factory_orders a) with
     | Some order =>
       match quantity with
       | VInt q =>
         upd (fun a =>
           let current_inventory :=
             default 0%Z (PyDictO.get product_id (inventory a)) in
           set_inventory
             (PyDictO.set product_id (current_inventory + q)%Z (inventory a))
             a) ;;;
         order' <~ lift (Order.update_status "delivered" order) ;
         upd (fun a =>
           set_pending_factory_orders
             (PyDict.del oid (pending_factory_orders a)) a)
       | _ => raise TypeError
       end
     | None => ret tt
     end
   | None => ret tt
   end)%py.

Definition _handle_truck_available (message : Message.t) : M St unit :=
  (let truck_id := Message.sender message in
   a <~ self ;
   (match assigned_trucks a !! truck_id with
    | Some _ =>
      upd (fun a =>
        set_assigned_trucks (delete truck_id (assigned_trucks a)) a)
    | None => ret tt
    end) ;;;
   a <~ self ;
   if existsb (String.eqb truck_id) (available_trucks a) then ret tt
   else upd (fun a =>
          set_available_trucks (available_trucks a ++ [truck_id]) a))%py.

Definition handle_message (message : Message.t) : M St unit :=
  try_except
    (let ty := Message.message_type message in
     if String.eqb ty "ORDER_REQUEST" then _handle_store_order message
     else if String.eqb ty "DELIVERY_COMPLETE"
     then _handle_delivery_complete message
     else if String.eqb ty "PRODUCTION_COMPLETE"
     then _handle_production_complete message
     else if String.eqb ty "TRUCK_AVAILABLE"
     then _handle_truck_available message
     else ret tt).

Definition step : M St unit :=
  (a <~ self ;
   BaseAgent.process_messages (agent_id a) handle_message ;;;
   _check_and_reorder_from_factory ;;;
   _process_pending_orders)%py.

Definition add_product (product_id : string) (initial_quantity : Z) (a : t)
    : t :=
  set_inventory
    (PyDictO.set (Some product_id) initial_quantity (inventory a)) a.

(** The dictionary returned by [get_truck_status]. *)
Record truck_status : Type := mk_truck_status {
  status_available_trucks : list string;
  status_assigned_trucks : gmap string string;
  total_trucks : nat
}.

Definition get_truck_status (a : t) : truck_status :=
  mk_truck_status (available_trucks a) (assigned_trucks a) (max_trucks a).

(** The dictionary returned by [get_performance_metrics]; [/] is
    Python's true division. *)
Record metrics : Type := mk_metrics {
  metrics_orders_processed : Z;
  metrics_orders_fulfilled : Z;
  metrics_orders_rejected : Z;
  fulfillment_rate : Q;
  total_inventory : Z;
  metrics_pending_store_orders : nat;
  metrics_pending_factory_orders : nat;
  metrics_processing_orders : nat;
  truck_utilization : Q;
  inventory_by_product : PyDictO.t Z
}.

Definition get_performance_metrics (a : t) : metrics :=
  mk_metrics (orders_processed a) (orders_fulfilled a) (orders_rejected a)
    (inject_Z (orders_fulfilled a) / inject_Z (Z.max (orders_processed a) 1))
    (fold_right Z.add 0%Z (PyDictO.values (inventory a)))
    (length (pending_store_orders a))
    (length (pending_factory_orders a))
    (length (processing_orders a))
    (inject_Z (Z.of_nat (size (assigned_trucks a)))
     / inject_Z (Z.max (Z.of_nat (max_trucks a)) 1))
    (inventory a).

End WarehouseAgent.


(** ** agents/factory_agent.py *)
Module FactoryAgent.

(** An entry of [active_production]. *)
Record production_info : Type := mk_info {
  order : Order.t;
  start_time : Z;
  completion_time : Z
}.

Record t : Type := mk {
  agent_id : string;
  location : Location.t;
  active : bool;
  production_capacity : Z;
  production_time : Z;
  finished_goods_inventory : gmap string Z;
  production_queue : list Order.t;
  active_production : PyDict.t production_info;
  current_time_step : Z;
  orders_received : Z;
  orders_completed : Z;
  total_production_time : Z
}.

Definition set_active (v : bool) (a : t) : t :=
  mk (agent_id a) (location a) v (production_capacity a) (production_time a)
     (finished_goods_inventory a) (production_queue a) (active_production a)
     (current_time_step a) (orders_received a) (orders_completed a)
     (total_production_time a).

Definition set_finished_goods_inventory (v : gmap string Z) (a : t) : t :=
  mk (agent_id a) (location a) (active a) (production_capacity a)
     (production_time a) v (production_queue a) (active_production a)
     (current_time_step a) (orders_received a) (orders_completed a)
     (total_production_time a).

Definition set_production_queue (v : list Order.t) (a : t) : t :=
  mk (agent_id a) (location a) (active a) (production_capacity a)
     (production_time a) (finished_goods_inventory a) v
     (active_production a) (current_time_step a) (orders_received a)
     (orders_completed a) (total_production_time a).

Definition set_active_production (v : PyDict.t production_info) (a : t) : t :=
  mk (agent_id a) (location a) (active a) (production_capacity a)
     (production_time a) (finished_goods_inventory a) (production_queue a) v
     (current_time_step a) (orders_received a) (orders_completed a)
     (total_production_time a).

Definition set_current_time_step (v : Z) (a : t) : t :=
  mk (agent_id a) (location a) (active a) (production_capacity a)
     (production_time a) (finished_goods_inventory a) (production_queue a)
     (active_production a) v (orders_received a) (orders_completed a)
     (total_production_time a).

Definition set_orders_received (v : Z) (a : t) : t :=
  mk (agent_id a) (location a) (active a) (production_capacity a)
     (production_time a) (finished_goods_inventory a) (production_queue a)
     (active_production a) (current_time_step a) v (orders_completed a)
     (total_production_time a).

Definition set_orders_completed (v : Z) (a : t) : t :=
  mk (agent_id a) (location a) (active a) (production_capacity a)
     (production_time a) (finished_goods_inventory a) (production_queue a)
     (active_production a) (current_time_step a) (orders_received a) v
     (total_production_time a).

Definition set_total_production_time (v : Z) (a : t) : t :=
  mk (agent_id a) (location a) (active a) (production_capacity a)
     (production_time a) (finished_goods_inventory a) (production_queue a)
     (active_production a) (current_time_step a) (orders_received a)
     (orders_completed a) v.

Definition set_production_capacity (v : Z) (a : t) : t :=
  mk (agent_id a) (location a) (active a) v (production_time a)
     (finished_goods_inventory a) (production_queue a) (active_production a)
     (current_time_step a) (orders_received a) (orders_completed a)
     (total_production_time a).

Definition set_production_time (v : Z) (a : t) : t :=
  mk (agent_id a) (location a) (active a) (production_capacity a) v
     (finished_goods_inventory a) (production_queue a) (active_production a)
     (current_time_step a) (orders_received a) (orders_completed a)
     (total_production_time a).

Definition St : Type := (t * MessageBus.t)%type.

Definition self : M St t := fun '(a, b) => (Ok a, (a, b)).

Definition upd (f : t -> t) : M St unit := modify (fun '(a, b) => (f a, b)).

Definition init (agent_id : string) (location : Location.t)
    (production_capacity production_time : Z)
    (initial_inventory : gmap string Z) : t :=
  mk agent_id location true production_capacity production_time
     initial_inventory [] [] 0%Z 0%Z 0%Z 0%Z.

Definition get_inventory_level (a : t) (product_id : string) : Z :=
  default 0%Z (finished_goods_inventory a !! product_id).

(** Sends the acknowledgement, then marks the order delivered; the
    updated order is returned to the caller that holds it. *)
Definition _notify_production_complete (order : Order.t) : M St Order.t :=
  (a <~ self ;
   BaseAgent.send_message (agent_id a) (Some (Order.requester order))
     "PRODUCTION_COMPLETE"
     (<["order_id" := VStr (Order.order_id order)]>
       (<["product_id" := VStr (Order.product_id order)]>
         (<["quantity" := VInt (Order.quantity order)]> ∅))) ;;;
   lift (Order.update_status "delivered" order))%py.

Definition _fulfill_from_inventory (order : Order.t) : M St unit :=
  (upd (fun a =>
     set_finished_goods_inventory
       (<[Order.product_id order :=
            (get_inventory_level a (Order.product_id order)
             - Order.quantity order)%Z]> (finished_goods_inventory a)) a) ;;;
   _notify_production_complete order ;;;
   ret tt)%py.

Definition _handle_factory_order (message : Message.t) : M St unit :=
  (let order_id := as_id (Message.data_get message "order_id") in
   let product_id := as_id (Message.data_get message "product_id") in
   let quantity := Message.data_get_default message "quantity" (VInt 0) in
   let requester := as_id (Message.data_get message "requester") in
   match quantity with
   | VInt q =>
     (* all([order_id, product_id, quantity > 0, requester]) *)
     if negb (falsy_id order_id) && negb (falsy_id product_id)
        && (0 <? q)%Z && negb (falsy_id requester)
     then
       order <~ lift (Order.init order_id product_id quantity requester) ;
       a <~ self ;
       if (q <=? get_inventory_level a (Order.product_id order))%Z
       then _fulfill_from_inventory order
       else
         upd (fun a =>
           set_orders_received (orders_received a + 1)%Z
             (set_production_queue (production_queue a ++ [order]) a))
     else ret tt
   | _ => raise TypeError
   end)%py.

(** The body of the second loop of [_check_production_completion]. *)
Definition complete_order (order_id : string) : M St unit :=
  (a <~ self ;
   match PyDict.get order_id (active_production a) with
   | None => raise KeyError
   | Some production_info =>
     let order := order production_info in
     upd (fun a =>
       set_finished_goods_inventory
         (<[Order.product_id order :=
              (get_inventory_level a (Order.product_id order)
               + Order.quantity order)%Z]> (finished_goods_inventory a)) a) ;;;
     order' <~ _notify_production_complete order ;
     upd (fun a =>
       set_total_production_time
         (total_production_time a
          + (completion_time production_info - start_time production_info))%Z
         (set_orders_completed (orders_completed a + 1)%Z
           (set_active_production
              (PyDict.del order_id (active_production a)) a)))
   end)%py.

Definition completed_orders (a : t) : list string :=
  map fst
    (filter (fun '(_, production_info) =>
               (completion_time production_info <= current_time_step a)%Z)
            (active_production a)).

Definition _check_production_completion : M St unit :=
  (a <~ self ;
   for_each (completed_orders a) complete_order)%py.

(** The [while] loop of [_start_new_production]; it consumes the queue. *)
Fixpoint start_loop (available_capacity : Z) (queue : list Order.t) (a : t)
    : t :=
  match queue with
  | [] => set_production_queue [] a
  | order :: rest =>
    if (0 <? available_capacity)%Z then
      let completion_time := (current_time_step a + production_time a)%Z in
      start_loop (available_capacity - 1)%Z rest
        (set_active_production
           (PyDict.set (Order.order_id order)
              (mk_info (Order.set_status "processing" order)
                 (current_time_step a) completion_time)
              (active_production a))
           (set_production_queue rest a))
    else set_production_queue queue a
  end.

Definition _start_new_production : M St unit :=
  upd (fun a =>
    let available_capacity :=
      (production_capacity a - Z.of_nat (length (active_production a)))%Z in
    start_loop available_capacity (production_queue a) a).

Definition handle_message (message : Message.t) : M St unit :=
  try_except
    (if String.eqb (Message.message_type message) "FACTORY_ORDER"
     then _handle_factory_order message
     else ret tt).

Definition step : M St unit :=
  (upd (fun a => set_current_time_step (current_time_step a + 1)%Z a) ;;;
   a <~ self ;
   BaseAgent.process_messages (agent_id a) handle_message ;;;
   _check_production_completion ;;;
   _start_new_production)%py.

(** The dictionaries returned by [get_production_status]. *)
Record queued_order : Type := mk_queued_order {
  queued_order_id : string;
  queued_product_id : string;
  queued_quantity : Z;
  queued_requester : string
}.

Record active_order : Type := mk_active_order {
  active_product_id : string;
  active_quantity : Z;
  active_requester : string;
  active_completion_time : Z;
  remaining_time : Z
}.

Record production_status : Type := mk_production_status {
  status_production_queue : list queued_order;
  status_active_production : PyDict.t active_order;
  status_capacity_utilization : Q;
  available_capacity : Z
}.

Definition get_production_status (a : t) : production_status :=
  mk_production_status
    (map (fun order =>
            mk_queued_order (Order.order_id order) (Order.product_id order)
              (Order.quantity order) (Order.requester order))
         (production_queue a))
    (fold_left
       (fun active_orders '(order_id, production_info) =>
          let order := order production_info in
          PyDict.set order_id
            (mk_active_order (Order.product_id order) (Order.quantity order)
               (Order.requester order) (completion_time production_info)
               (Z.max 0 (completion_time production_info
                         - current_time_step a)))
            active_orders)
       (active_production a) [])
    (inject_Z (Z.of_nat (length (active_production a)))
     / inject_Z (Z.max (production_capacity a) 1))
    (production_capacity a - Z.of_nat (length (active_production a)))%Z.

Definition add_product_to_inventory (product_id : string) (quantity : Z)
    (a : t) : t :=
  set_finished_goods_inventory
    (<[product_id := (get_inventory_level a product_id + quantity)%Z]>
       (finished_goods_inventory a)) a.

(** The dictionary returned by [get_performance_metrics]. *)
Record metrics : Type := mk_metrics {
  metrics_orders_received : Z;
  metrics_orders_completed : Z;
  orders_in_queue : nat;
  orders_in_production : nat;
  completion_rate : Q;
  average_production_time : Q;
  capacity_utilization : Q;
  total_finished_goods : Z;
  finished_goods_by_product : gmap string Z
}.

Definition get_performance_metrics (a : t) : metrics :=
  mk_metrics (orders_received a) (orders_completed a)
    (length (production_queue a)) (length (active_production a))
    (inject_Z (orders_completed a) / inject_Z (Z.max (orders_received a) 1))
    (if (0 <? orders_completed a)%Z
     then inject_Z (total_production_time a)
          / inject_Z (Z.max (orders_completed a) 1)
     else 0)
    (inject_Z (Z.of_nat (length (active_production a)))
     / inject_Z (Z.max (production_capacity a) 1))
    (map_fold (fun _ quantity total => (total + quantity)%Z) 0%Z
       (finished_goods_inventory a))
    (finished_goods_inventory a).

(** [None] stands for an argument left at its default. *)
Definition set_production_parameters (capacity production_time : option Z)
    (a : t) : t :=
  let a1 :=
    match capacity with
    | Some c => if (0 <? c)%Z then set_production_capacity c a else a
    | None => a
    end in
  match production_time with
  | Some p => if (0 <? p)%Z then set_production_time p a1 else a1
  | None => a1
  end.

End FactoryAgent.

(** ** The closed set of roles taking part in a run

    The retailer and the demand source draw random numbers and are not
    modelled. *)
Inductive Actor : Type :=
  | Truck (a : TruckAgent.t)
  | Warehouse (a : WarehouseAgent.t)
  | Factory (a : FactoryAgent.t).

(** Runs a role's method on the role's fields inside an [Actor]. *)
Definition on_truck (c : M TruckAgent.St unit) (a : TruckAgent.t)
    : M (Actor * MessageBus.t) unit :=
  fun '(_, b) => let '(r, (a', b')) := c (a, b) in (r, (Truck a', b')).

Definition on_warehouse (c : M WarehouseAgent.St unit) (a : WarehouseAgent.t)
    : M (Actor * MessageBus.t) unit :=
  fun '(_, b) => let '(r, (a', b')) := c (a, b) in (r, (Warehouse a', b')).

Definition on_factory (c : M FactoryAgent.St unit) (a : FactoryAgent.t)
    : M (Actor * MessageBus.t) unit :=
  fun '(_, b) => let '(r, (a', b')) := c (a, b) in (r, (Factory a', b')).

#[global] Instance Actor_Agent : Agent Actor := {
  agent_id x :=
    match x with
    | Truck a => TruckAgent.agent_id a
    | Warehouse a => WarehouseAgent.agent_id a
    | Factory a => FactoryAgent.agent_id a
    end;
  is_active x :=
    match x with
    | Truck a => TruckAgent.active a
    | Warehouse a => WarehouseAgent.active a
    | Factory a => FactoryAgent.active a
    end;
  set_active v x :=
    match x with
    | Truck a => Truck (TruckAgent.set_active v a)
    | Warehouse a => Warehouse (WarehouseAgent.set_active v a)
    | Factory a => Factory (FactoryAgent.set_active v a)
    end;
  step := fun '(x, b) =>
    match x with
    | Truck a => on_truck TruckAgent.step a (x, b)
    | Warehouse a => on_warehouse WarehouseAgent.step a (x, b)
    | Factory a => on_factory FactoryAgent.step a (x, b)
    end;
  handle_message m := fun '(x, b) =>
    match x with
    | Truck a => on_truck (TruckAgent.handle_message m) a (x, b)
    | Warehouse a => on_warehouse (WarehouseAgent.handle_message m) a (x, b)
    | Factory a => on_factory (FactoryAgent.handle_message m) a (x, b)
    end
}.

(** ** simulation/simulation_manager.py

    The roster is a list of actor objects; the bus is the one object
    shared by the manager and every actor. The float accumulator
    [simulation_time] and the wall-clock anchor are telemetry and are
    left out. *)
Module SimulationManager.

Section WithAgent.
Context {A : Type} `{Agent A}.

Record t : Type := mk {
  agents : list A;
  current_step : Z;
  is_running : bool;
  is_paused : bool;
  message_bus : MessageBus.t
}.

(** First loop of [step]: [agent.process_messages()] for every active
    agent; an exception is logged and the loop goes on. *)
Fixpoint deliver_all (agents : list A) (bus : MessageBus.t)
    : list A * MessageBus.t :=
  match agents with
  | [] => ([], bus)
  | agent :: rest =>
    let '(agent', bus') :=
      if is_active agent
      then snd (try_except process_messages (agent, bus))
      else (agent, bus) in
    let '(rest', bus'') := deliver_all rest bus' in
    (agent' :: rest', bus'')
  end.

(** Second loop of [step]: [agent.step()] for every active agent; an
    agent whose step raises is deactivated and the loop goes on. The
    third component counts the agents whose step returned. *)
Fixpoint advance_all (agents : list A) (bus : MessageBus.t)
    : list A * MessageBus.t * Z :=
  match agents with
  | [] => ([], bus, 0%Z)
  | agent :: rest =>
    let '(agent', bus', stepped) :=
      if is_active agent then
        match step (agent, MessageBus.log (Advance (agent_id agent)) bus) with
        | (Ok _, (agent', bus')) => (agent', bus', 1%Z)
        | (Raise _, s') =>
          let '(agent', bus') := snd (deactivate s') in (agent', bus', 0%Z)
        end
      else (agent, bus, 0%Z) in
    let '(rest', bus'', active_agents) := advance_all rest bus' in
    (agent' :: rest', bus'', (stepped + active_agents)%Z)
  end.

Fixpoint deactivate_all (agents : list A) (bus : MessageBus.t)
    : list A * MessageBus.t :=
  match agents with
  | [] => ([], bus)
  | agent :: rest =>
    let '(agent', bus') := snd (deactivate (agent, bus)) in
    let '(rest', bus'') := deactivate_all rest bus' in
    (agent' :: rest', bus'')
  end.

(** [register_agent] for an agent object that is not yet on the roster
    (the code tests object identity, which records do not have). *)
Definition register_agent (agent : A) (m : t) : t :=
  mk (agents m ++ [agent]) (current_step m) (is_running m) (is_paused m)
     (message_bus m).

Definition start_simulation (m : t) : t :=
  if is_running m then m
  else mk (agents m) 0%Z true false (message_bus m).

Definition pause_simulation (m : t) : t :=
  if negb (is_running m) then m
  else mk (agents m) (current_step m) (is_running m) true (message_bus m).

Definition resume_simulation (m : t) : t :=
  if negb (is_running m) then m
  else mk (agents m) (current_step m) (is_running m) false (message_bus m).

Definition stop_simulation (m : t) : t :=
  let '(agents', bus') := deactivate_all (agents m) (message_bus m) in
  mk agents' (current_step m) false false (MessageBus.clear_all_queues bus').

Definition step (m : t) : bool * t :=
  if negb (is_running m) || is_paused m then (false, m)
  else
    let '(agents1, bus1) := deliver_all (agents m) (message_bus m) in
    let '(agents2, bus2, active_agents) := advance_all agents1 bus1 in
    let m' :=
      mk agents2 (current_step m + 1)%Z (is_running m) (is_paused m) bus2 in
    if (active_agents =? 0)%Z then (false, stop_simulation m')
    else (true, m').

(** [n] successive calls of [step] (the loop of [run_for_steps] without
    its sleeps), stopping at the first call that returns [False]. *)
Fixpoint run_steps (n : nat) (m : t) : t :=
  match n with
  | O => m
  | S n' =>
    let '(ok, m') := step m in
    if ok then run_steps n' m' else m'
  end.

(** [run_for_steps] without its sleeps; [range] of a negative number is
    empty. *)
Definition run_for_steps (num_steps : Z) (m : t) : t :=
  run_steps (Z.to_nat num_steps)
    (if negb (is_running m) then start_simulation m else m).

(** The entries of [get_simulation_state] that do not read a clock:
    the step counter, the two flags, the size of the roster, the number
    of agents whose flag is set, and the statistics of the bus. *)
Record simulation_state : Type := mk_state {
  state_current_step : Z;
  state_is_running : bool;
  state_is_paused : bool;
  total_agents : nat;
  active_agents : nat;
  message_bus_stats : MessageBus.stats
}.

Definition get_simulation_state (m : t) : simulation_state :=
  mk_state (current_step m) (is_running m) (is_paused m)
    (length (agents m))
    (length (List.filter is_active (agents m)))
    (MessageBus.get_stats (message_bus m)).

(** [reset_simulation]: stop, rewind the counter and set every agent's
    flag again; nothing subscribes the agents again. *)
Definition reset_simulation (m : t) : t :=
  let m' := stop_simulation m in
  mk (map (set_active true) (agents m')) 0%Z (is_running m') (is_paused m')
     (message_bus m').

End WithAgent.

Arguments t A : clear implicits.

End SimulationManager.


(** ** Notions used in the statements *)

(** Drop-oldest admission on a bare queue. *)
Definition enqueue (q : list Message.t) (m : Message.t) : list Message.t :=
  (if (MessageBus._max_queue_size <=? length q)%nat then tail q else q) ++ [m].

(** Keeping the newest [_max_queue_size] entries. *)
Definition newest (q : list Message.t) : list Message.t :=
  drop (length q - MessageBus._max_queue_size) q.

(** [n] numbered envelopes for one recipient. *)
Definition numbered (r : string) (n : nat) : list Message.t :=
  map (fun i => Message.mk "market_1" r "DEMAND_UPDATE"
                  {[ "timestamp" := VInt (Z.of_nat i) ]})
      (seq 1 n).

(** The lattice pending → processing → {delivered, cancelled}: a status
    may stay, or move one edge along it. *)
Definition lattice_step (s s' : string) : bool :=
  String.eqb s s'
  || (String.eqb s "pending" && String.eqb s' "processing")
  || (String.eqb s "processing"
      && (String.eqb s' "delivered" || String.eqb s' "cancelled")).

(** An order as a retailer's request creates it. *)
Definition sample_order : Order.t :=
  Order.mk "order_1" "p1" 30 "store_1" "pending" (Some "store_loc_1").

(** The identifier slots that [_handle_dispatch_order] validates. *)
Definition dispatch_id_fields : list string :=
  ["order_id"; "product_id"; "pickup_location"; "delivery_location";
   "recipient"].

Definition field_present (m : Message.t) (k : string) : bool :=
  negb (falsy_id (as_id (Message.data_get m k))).

(** The guard under which a carrier takes a dispatch instruction:
    available, the five identifiers present, and the quantity (0 when the
    payload has none) an integer within capacity. *)
Definition dispatch_accepted (a : TruckAgent.t) (m : Message.t) : bool :=
  String.eqb (TruckAgent.status a) "available"
  && forallb (field_present m) dispatch_id_fields
  && match Message.data_get_default m "quantity" (VInt 0) with
     | VInt q => (q <=? TruckAgent.capacity a)%Z
     | _ => false
     end.

(** The claim's reading: the six fields of the DISPATCH_ORDER row are
    all required. *)
Definition dispatch_complete (m : Message.t) : bool :=
  forallb (field_present m) dispatch_id_fields
  && match Message.data m !! "quantity" with
     | Some (VInt _) => true
     | _ => false
     end.

(** A root that is exact on the squares used by the sample map. *)
Definition sample_root (q : Q) : Q :=
  Z.sqrt (Qnum q) # Pos.sqrt (Qden q).

Definition warehouse_loc : Location.t :=
  Location.mk "warehouse_loc_1" "Central Warehouse" 0 0 "warehouse".

Definition store_loc : Location.t :=
  Location.mk "store_loc_1" "Corner Store" 3 4 "store".

Definition sample_map : CityMap.t :=
  CityMap.mk (<["warehouse_loc_1" := warehouse_loc]>
                (<["store_loc_1" := store_loc]> ∅))
             sample_root.

(** A carrier parked at the warehouse, speed 10, capacity 100. *)
Definition sample_truck : TruckAgent.t :=
  TruckAgent.init "truck_warehouse_1_1" warehouse_loc sample_map 10 100.

Definition dispatch_payload (order_id product_id : string) (delivery : string)
    : gmap string pyval :=
  <["order_id" := VStr order_id]>
    (<["product_id" := VStr product_id]>
      (<["pickup_location" := VStr "warehouse_loc_1"]>
        (<["delivery_location" := VStr delivery]>
          (<["recipient" := VStr "store_1"]> ∅)))).

(** A dispatch instruction whose payload has no quantity. *)
Definition dispatch_without_quantity : Message.t :=
  Message.mk "warehouse_1" "truck_warehouse_1_1" "DISPATCH_ORDER"
    (dispatch_payload "order_1" "p1" "store_loc_1").

Definition dispatch_of (order_id : string) (quantity : Z) (delivery : string)
    : Message.t :=
  Message.mk "warehouse_1" "truck_warehouse_1_1" "DISPATCH_ORDER"
    (<["quantity" := VInt quantity]>
       (dispatch_payload order_id "p1" delivery)).

(** A dispatch instruction whose order_id is the integer 0. *)
Definition dispatch_with_zero_id : Message.t :=
  Message.mk "warehouse_1" "truck_warehouse_1_1" "DISPATCH_ORDER"
    (<["order_id" := VInt 0]>
       (<["quantity" := VInt 30]>
          (dispatch_payload "order_1" "p1" "store_loc_1"))).

(** The envelopes published according to a journal, in order. *)
Definition published (j : list event) : list Message.t :=
  omap (fun e => match e with Published m => Some m | _ => None end) j.

(** The bus after a drain of [agent_id] whose envelopes were all fed to
    the handler without any effect on the bus. *)
Definition drained_bus (agent_id : string) (b : MessageBus.t) : MessageBus.t :=
  fold_left (fun b m => MessageBus.log (Handled agent_id m) b)
    (MessageBus.queue b agent_id)
    (snd (MessageBus.deliver_messages agent_id b)).

(** The two notifications of a completed delivery. *)
Definition delivery_complete_msg (a : TruckAgent.t) (o : TruckAgent.order_info)
    (dispatcher : string) : Message.t :=
  Message.mk (TruckAgent.agent_id a) dispatcher "DELIVERY_COMPLETE"
    (<["order_id" := VStr (TruckAgent.order_id o)]>
      (<["product_id" := VStr (TruckAgent.product_id o)]>
        (<["quantity" := VInt (TruckAgent.quantity o)]>
          (<["delivery_location" :=
               TruckAgent.of_opt (TruckAgent.delivery_location_id a)]> ∅)))).

Definition delivery_notification_msg (a : TruckAgent.t)
    (o : TruckAgent.order_info) : Message.t :=
  Message.mk (TruckAgent.agent_id a) (TruckAgent.recipient o)
    "DELIVERY_NOTIFICATION"
    (<["order_id" := VStr (TruckAgent.order_id o)]>
      (<["product_id" := VStr (TruckAgent.product_id o)]>
        (<["quantity" := VInt (TruckAgent.quantity o)]> ∅))).

(** A carrier that has just arrived at the store with 30 units of p1:
    the sample carrier after taking a dispatch instruction and two
    advances (loading, then the 5-unit trip at speed 10). *)
Definition unloading_truck : TruckAgent.t :=
  let s0 := (sample_truck,
             MessageBus.publish (dispatch_of "order_1" 30 "store_loc_1")
               (MessageBus.init 0)) in
  let s1 := snd (TruckAgent.step s0) in
  fst (snd (TruckAgent.step s1)).

(** The cargo hold after an unload of [o]: debited when the hold covers
    the quantity, untouched otherwise. *)
Definition unloaded_cargo (a : TruckAgent.t) (o : TruckAgent.order_info) : gmap string Z :=
  match TruckAgent.cargo a !! TruckAgent.product_id o with
  | Some held =>
    if (TruckAgent.quantity o <=? held)%Z then
      if (held - TruckAgent.quantity o =? 0)%Z
      then delete (TruckAgent.product_id o) (TruckAgent.cargo a)
      else <[TruckAgent.product_id o := (held - TruckAgent.quantity o)%Z]> (TruckAgent.cargo a)
    else TruckAgent.cargo a
  | None => TruckAgent.cargo a
  end.


(** Two dispatch instructions for the sample carrier: 80 units to a
    point the city map does not know, then 70 units to the store. The
    carrier advances once after each. *)
Definition after_failed_route : TruckAgent.St :=
  snd (TruckAgent.step
         (sample_truck,
          MessageBus.publish (dispatch_of "order_1" 80 "nowhere")
            (MessageBus.init 0))).

Definition after_second_dispatch : TruckAgent.St :=
  snd (TruckAgent.step
         (fst after_failed_route,
          MessageBus.publish (dispatch_of "order_2" 70 "store_loc_1")
            (snd after_failed_route))).

(** A computation keeps a property of the state, whatever its outcome. *)
Definition preserves {S A} (P : S -> Prop) (c : M S A) : Prop :=
  forall s, P s -> P (snd (c s)).

(** The distributor's carrier pool is consistent: no identifier is listed
    twice as available, and none is both available and assigned. *)
Definition pool_ok (a : WarehouseAgent.t) : Prop :=
  NoDup (WarehouseAgent.available_trucks a)
  /\ forall truck_id,
       In truck_id (WarehouseAgent.available_trucks a) ->
       WarehouseAgent.assigned_trucks a !! truck_id = None.

(** The states a distributor can be in: freshly built, or after handling
    any envelope or advancing, on whatever the bus holds at that time. *)
Inductive warehouse_reachable : WarehouseAgent.t -> Prop :=
  | reach_init agent_id location inventory threshold quantity max_trucks :
      warehouse_reachable
        (WarehouseAgent.init agent_id location inventory threshold quantity
           max_trucks)
  | reach_handle a b m :
      warehouse_reachable a ->
      warehouse_reachable (fst (snd (WarehouseAgent.handle_message m (a, b))))
  | reach_step a b :
      warehouse_reachable a ->
      warehouse_reachable (fst (snd (WarehouseAgent.step (a, b)))).

(** [pool_ok] as a property of the pair of distributor and bus. *)
Definition pool_inv (s : WarehouseAgent.St) : Prop := pool_ok (fst s).

(** The pool has the given contents. *)
Definition pool_is (available : list string) (assigned : gmap string string)
    (s : WarehouseAgent.St) : Prop :=
  WarehouseAgent.available_trucks (fst s) = available
  /\ WarehouseAgent.assigned_trucks (fst s) = assigned.

(** The envelope by which a distributor turns an order down. *)
Definition rejection_msg (a : WarehouseAgent.t) (o : Order.t) : Message.t :=
  Message.mk (WarehouseAgent.agent_id a) (Order.requester o) "ORDER_REJECTED"
    (<["order_id" := VStr (Order.order_id o)]>
      (<["reason" :=
           VStr (WarehouseAgent.rejection_reason
                   (WarehouseAgent.get_inventory_level a (Order.product_id o))
                   (Order.quantity o))]> ∅)).

(** The distributor after turning one order down. *)
Definition after_rejection (a : WarehouseAgent.t) : WarehouseAgent.t :=
  WarehouseAgent.set_orders_rejected (WarehouseAgent.orders_rejected a + 1)%Z a.

(** Scenario B: a distributor holding 5 units of p1 and one carrier, with
    the 30-unit sample order pending. *)
Definition short_warehouse : WarehouseAgent.t :=
  WarehouseAgent.set_pending_store_orders [("order_1", sample_order)]
    (WarehouseAgent.init "warehouse_1" warehouse_loc [("p1", 5%Z)] 20 100 1).

(** A distributor holding 50 units of p1 whose carriers are all out. *)
Definition busy_warehouse : WarehouseAgent.t :=
  WarehouseAgent.set_pending_store_orders [("order_1", sample_order)]
    (WarehouseAgent.init "warehouse_1" warehouse_loc [("p1", 50%Z)] 20 100 0).

(** The retailer's request for the sample order. *)
Definition sample_order_request : Message.t :=
  Message.mk "store_1" "warehouse_1" "ORDER_REQUEST"
    (<["order_id" := VStr "order_1"]>
      (<["product_id" := VStr "p1"]>
        (<["quantity" := VInt 30]>
          (<["requester" := VStr "store_1"]>
            (<["delivery_location" := VStr "store_loc_1"]> ∅))))).

(** The acknowledgement a producer sends for a finished order. *)
Definition ack_msg (a : FactoryAgent.t) (o : Order.t) : Message.t :=
  Message.mk (FactoryAgent.agent_id a) (Order.requester o)
    "PRODUCTION_COMPLETE"
    (<["order_id" := VStr (Order.order_id o)]>
      (<["product_id" := VStr (Order.product_id o)]>
        (<["quantity" := VInt (Order.quantity o)]> ∅))).

(** A job is due once the producer's tick counter has reached its
    completion tick. *)
Definition due_jobs (a : FactoryAgent.t)
    : list (string * FactoryAgent.production_info) :=
  filter (fun '(_, production_info) =>
            (FactoryAgent.completion_time production_info
             <= FactoryAgent.current_time_step a)%Z)
         (FactoryAgent.active_production a).

Definition pending_jobs (a : FactoryAgent.t)
    : list (string * FactoryAgent.production_info) :=
  filter (fun job =>
            ~ (let '(_, production_info) := job in
               (FactoryAgent.completion_time production_info
                <= FactoryAgent.current_time_step a)%Z))
         (FactoryAgent.active_production a).

(** Retiring one job: credit the finished goods, drop the job, count it. *)
Definition retire (a : FactoryAgent.t)
    (job : string * FactoryAgent.production_info) : FactoryAgent.t :=
  let o := FactoryAgent.order (snd job) in
  let a1 :=
    FactoryAgent.set_finished_goods_inventory
      (<[Order.product_id o :=
           (FactoryAgent.get_inventory_level a (Order.product_id o)
            + Order.quantity o)%Z]> (FactoryAgent.finished_goods_inventory a))
      a in
  FactoryAgent.set_total_production_time
    (FactoryAgent.total_production_time a1
     + (FactoryAgent.completion_time (snd job)
        - FactoryAgent.start_time (snd job)))%Z
    (FactoryAgent.set_orders_completed (FactoryAgent.orders_completed a1 + 1)%Z
      (FactoryAgent.set_active_production
         (PyDict.del (fst job) (FactoryAgent.active_production a1)) a1)).

(** The table entry of a job started at tick [now] with lead time [lead]. *)
Definition started_job (now lead : Z) (o : Order.t)
    : FactoryAgent.production_info :=
  FactoryAgent.mk_info (Order.set_status "processing" o) now (now + lead)%Z.

Definition start_jobs (now lead : Z) (orders : list Order.t)
    (active : PyDict.t FactoryAgent.production_info)
    : PyDict.t FactoryAgent.production_info :=
  fold_left
    (fun d o => PyDict.set (Order.order_id o) (started_job now lead o) d)
    orders active.

(** A producer can acknowledge every job it holds: it has a name, its
    jobs have requesters, and its job table has one entry per key. *)
Definition factory_wf (a : FactoryAgent.t) : Prop :=
  FactoryAgent.agent_id a <> ""
  /\ NoDup (PyDict.keys (FactoryAgent.active_production a))
  /\ Forall (fun job => Order.requester (FactoryAgent.order (snd job)) <> "")
       (FactoryAgent.active_production a).

(** Scenario C: capacity 2, lead time 3, and three orders arriving
    together before the first tick. *)
Definition factory_loc : Location.t :=
  Location.mk "factory_loc_1" "Plant" 6 8 "factory".

Definition factory_order_msg (order_id : string) : Message.t :=
  Message.mk "warehouse_1" "factory_1" "FACTORY_ORDER"
    (<["order_id" := VStr order_id]>
      (<["product_id" := VStr "p1"]>
        (<["quantity" := VInt 100]>
          (<["requester" := VStr "warehouse_1"]> ∅)))).

Definition scenario_c : SimulationManager.t Actor :=
  SimulationManager.mk
    [Factory (FactoryAgent.init "factory_1" factory_loc 2 3 ∅)]
    0 true false
    (MessageBus.publish_all
       [factory_order_msg "order_1"; factory_order_msg "order_2";
        factory_order_msg "order_3"]
       (MessageBus.subscribe "factory_1" (MessageBus.init 0))).

(** What an observer sees of the producer of [scenario_c] between ticks:
    the scheduler's tick counter, the jobs in production with their
    stored start and completion ticks, the queued orders, and the orders
    acknowledged so far. *)
Definition factory_view (m : SimulationManager.t Actor)
    : Z * list (string * Z * Z) * list string * list string :=
  let jobs :=
    match SimulationManager.agents m with
    | [Factory f] =>
      (map (fun '(k, i) => (k, FactoryAgent.start_time i,
                            FactoryAgent.completion_time i))
           (FactoryAgent.active_production f),
       map Order.order_id (FactoryAgent.production_queue f))
    | _ => ([], [])
    end in
  (SimulationManager.current_step m, fst jobs, snd jobs,
   omap (fun e =>
           match e with
           | Published msg =>
             if String.eqb (Message.message_type msg) "PRODUCTION_COMPLETE"
             then as_id (Message.data_get msg "order_id") else None
           | _ => None
           end)
        (MessageBus.journal (SimulationManager.message_bus m))).

(** What happened during tick [t] of a run from [m0], with [t] the
    scheduler's tick counter at the start of the tick: the counter, the
    orders that entered production and the orders acknowledged. *)
Definition tick_report (m0 : SimulationManager.t Actor) (t : nat)
    : Z * list string * list string :=
  let '(now, jobs, _, acked) :=
    factory_view (SimulationManager.run_steps t m0) in
  let '(_, jobs', _, acked') :=
    factory_view (SimulationManager.run_steps (S t) m0) in
  (now,
   List.filter (fun k => negb (existsb (String.eqb k) (map (fun j => fst (fst j)) jobs)))
     (map (fun j => fst (fst j)) jobs'),
   drop (length acked) acked').

(** The producer of [scenario_c] and the bus after [t] ticks. *)
Definition factory_after (t : nat) : FactoryAgent.St :=
  let m := SimulationManager.run_steps t scenario_c in
  match SimulationManager.agents m with
  | [Factory f] => (f, SimulationManager.message_bus m)
  | _ => (FactoryAgent.init "factory_1" factory_loc 2 3 ∅,
          SimulationManager.message_bus m)
  end.

(** A property of the bus that survives everything an actor can do to
    it: publishing, the journal entry of a handled envelope, a drain. *)
Definition bus_closed (Q : MessageBus.t -> Prop) : Prop :=
  (forall m b, Q b -> Q (MessageBus.publish m b))
  /\ (forall id m b, Q b -> Q (MessageBus.log (Handled id m) b))
  /\ (forall id b, Q b -> Q (snd (MessageBus.deliver_messages id b))).

(** The actor's activity flag has value [v] and the bus satisfies [Q]. *)
Definition keeps {R} (active : R -> bool) (v : bool)
    (Q : MessageBus.t -> Prop) (s : R * MessageBus.t) : Prop :=
  active (fst s) = v /\ Q (snd s).

(** What the scheduler may rely on for any role: [deactivate] really
    clears the activity flag, and neither the message handler nor the
    advance changes the flag or touches the bus other than through the
    bus's own operations. *)
Class AgentLaws (A : Type) `{Agent A} : Prop := {
  is_active_set_active : forall v a, is_active (set_active v a) = v;
  handle_message_keeps : forall v Q, bus_closed Q ->
    forall m, preserves (keeps is_active v Q) (handle_message m);
  step_keeps : forall v Q, bus_closed Q ->
    preserves (keeps is_active v Q) step
}.

(** The number of active agents of a roster. *)
Definition count_active {A} `{Agent A} (agents : list A) : Z :=
  Z.of_nat (length (List.filter is_active agents)).

(** A distributor whose reorder quantity is 0: its advance raises
    [ValueError] when it tries to build the producer order for p1. *)
Definition faulty_warehouse : WarehouseAgent.t :=
  WarehouseAgent.init "warehouse_1" warehouse_loc [("p1", 5%Z)] 20 0 1.

Definition fault_roster : SimulationManager.t Actor :=
  SimulationManager.mk [Warehouse faulty_warehouse; Truck sample_truck]
    0 true false
    (MessageBus.subscribe "truck_warehouse_1_1"
       (MessageBus.subscribe "warehouse_1" (MessageBus.init 0))).

(** Journal entries other than the start of an advance. *)
Definition not_advance (e : event) : Prop :=
  match e with
  | Advance _ => False
  | _ => True
  end.

(** The journal of a bus extends [j0] by entries satisfying [P]. *)
Definition journal_grows (P : event -> Prop) (j0 : list event)
    (b : MessageBus.t) : Prop :=
  exists ext, MessageBus.journal b = j0 ++ ext /\ Forall P ext.

(** C1 as the specification words it, on the journal of one tick: no
    envelope published during the tick is fed to its recipient's handler
    during the same tick. *)
Definition one_tick_latency (tick_journal : list event) : Prop :=
  forall m, In (Published m) tick_journal ->
            ~ In (Handled (Message.recipient m) m) tick_journal.

(** A carrier about to unload, listed before its dispatcher; every
    mailbox and the journal are empty when the tick starts. *)
Definition same_tick_roster : SimulationManager.t Actor :=
  SimulationManager.mk
    [Truck unloading_truck;
     Warehouse (WarehouseAgent.init "warehouse_1" warehouse_loc
                  [("p1", 50%Z)] 20 100 1)]
    0 true false
    (MessageBus.subscribe "warehouse_1"
       (MessageBus.subscribe "truck_warehouse_1_1" (MessageBus.init 0))).

(** What [process_messages] does with one envelope: the journal entry,
    then the handler under its [try]. *)
Definition feed {R} (id : string)
    (handle : Message.t -> M (R * MessageBus.t) unit) (m : Message.t)
    : M (R * MessageBus.t) unit :=
  bind (modify (fun '(a, b) => (a, MessageBus.log (Handled id m) b)))
       (fun _ => try_except (handle m)).

(** The buses that the operations of [MessageBus] produce from a fresh
    one. *)
Inductive bus_reachable : MessageBus.t -> Prop :=
  | bus_reach_init clock : bus_reachable (MessageBus.init clock)
  | bus_reach_subscribe id b :
      bus_reachable b -> bus_reachable (MessageBus.subscribe id b)
  | bus_reach_unsubscribe id b :
      bus_reachable b -> bus_reachable (MessageBus.unsubscribe id b)
  | bus_reach_publish m b :
      bus_reachable b -> bus_reachable (MessageBus.publish m b)
  | bus_reach_deliver id b :
      bus_reachable b ->
      bus_reachable (snd (MessageBus.deliver_messages id b))
  | bus_reach_size id b :
      bus_reachable b -> bus_reachable (snd (MessageBus.get_queue_size id b))
  | bus_reach_clear b :
      bus_reachable b -> bus_reachable (MessageBus.clear_all_queues b).

(** Every mailbox is within the bound. *)
Definition queues_bounded (b : MessageBus.t) : Prop :=
  forall id q, MessageBus._agent_queues b !! id = Some q ->
               (length q <= MessageBus._max_queue_size)%nat.



(** ** agents/store_agent.py

    The retailer's message handlers and inventory accessors. Its
    [step] draws random customer demand and [_place_order] picks the
    distributor with a regular expression; they are not modelled. *)
Module StoreAgent.

Record t : Type := mk {
  agent_id : string;
  location : Location.t;
  active : bool;
  inventory : PyDict.t Z;
  reorder_threshold : Z;
  reorder_quantity : Z;
  pending_orders : PyDict.t Order.t;
  demand_rate : Q;
  sales_revenue : Q;
  lost_sales : Z
}.

Definition set_inventory (v : PyDict.t Z) (a : t) : t :=
  mk (agent_id a) (location a) (active a) v (reorder_threshold a)
     (reorder_quantity a) (pending_orders a) (demand_rate a)
     (sales_revenue a) (lost_sales a).

Definition set_pending_orders (v : PyDict.t Order.t) (a : t) : t :=
  mk (agent_id a) (location a) (active a) (inventory a) (reorder_threshold a)
     (reorder_quantity a) v (demand_rate a) (sales_revenue a) (lost_sales a).

Definition set_demand_rate (v : Q) (a : t) : t :=
  mk (agent_id a) (location a) (active a) (inventory a) (reorder_threshold a)
     (reorder_quantity a) (pending_orders a) v (sales_revenue a)
     (lost_sales a).

Definition St : Type := (t * MessageBus.t)%type.

Definition self : M St t := fun '(a, b) => (Ok a, (a, b)).

Definition upd (f : t -> t) : M St unit := modify (fun '(a, b) => (f a, b)).

Definition init (agent_id : string) (location : Location.t)
    (initial_inventory : PyDict.t Z)
    (reorder_threshold reorder_quantity : Z) : t :=
  mk agent_id location true initial_inventory reorder_threshold
     reorder_quantity [] 1%Q 0%Q 0%Z.

Definition get_inventory_level (a : t) (product_id : string) : Z :=
  default 0%Z (PyDict.get product_id (inventory a)).

Definition add_product (product_id : string) (initial_quantity : Z) (a : t)
    : t :=
  set_inventory (PyDict.set product_id initial_quantity (inventory a)) a.

(** [_handle_delivery]. The inventory table of the model has the string
    keys; with a payload that has no product id the code credits the key
    [None], which no lookup by product reads, and goes on. *)
Definition _handle_delivery (message : Message.t) : M St unit :=
  (let order_id := as_id (Message.data_get message "order_id") in
   let product_id := as_id (Message.data_get message "product_id") in
   let quantity := Message.data_get_default message "quantity" (VInt 0) in
   a <~ self ;
   match order_id with
   | Some oid =>
     match PyDict.get oid (pending_orders a) with
     | Some order =>
       match quantity with
       | VInt q =>
         (match product_id with
          | Some pid =>
            upd (fun a =>
              set_inventory
                (PyDict.set pid (get_inventory_level a pid + q)%Z
                   (inventory a)) a)
          | None => ret tt
          end) ;;;
         order' <~ lift (Order.update_status "delivered" order) ;
         upd (fun a =>
           set_pending_orders (PyDict.set oid order' (pending_orders a)) a)
       | _ => raise TypeError
       end
     | None => ret tt
     end
   | None => ret tt
   end)%py.

(** [_handle_demand_update]: [max(0, new_demand_rate)] keeps 0 unless the
    new rate is greater. A payload value of the model is [None], a
    string or an integer; the first two cannot be compared with 0. *)
Definition _handle_demand_update (message : Message.t) : M St unit :=
  (a <~ self ;
   match Message.data message !! "demand_rate" with
   | None =>
     upd (set_demand_rate
            (if Qle_bool (demand_rate a) 0 then 0%Q else demand_rate a))
   | Some (VInt z) =>
     upd (set_demand_rate (if (z <=? 0)%Z then 0%Q else inject_Z z))
   | Some _ => raise TypeError
   end)%py.

Definition _handle_order_rejection (message : Message.t) : M St unit :=
  (let order_id := as_id (Message.data_get message "order_id") in
   a <~ self ;
   match order_id with
   | Some oid =>
     match PyDict.get oid (pending_orders a) with
     | Some order =>
       order' <~ lift (Order.update_status "cancelled" order) ;
       upd (fun a =>
         set_pending_orders (PyDict.set oid order' (pending_orders a)) a)
     | None => ret tt
     end
   | None => ret tt
   end)%py.

Definition handle_message (message : Message.t) : M St unit :=
  try_except
    (let ty := Message.message_type message in
     if String.eqb ty "DELIVERY_NOTIFICATION" then _handle_delivery message
     else if String.eqb ty "DEMAND_UPDATE"
     then _handle_demand_update message
     else if String.eqb ty "ORDER_REJECTED"
     then _handle_order_rejection message
     else ret tt).

End StoreAgent.

(** The notification a distributor sends to the requester of a delivered
    order. *)
Definition warehouse_notification_msg (w : WarehouseAgent.t) (ord : Order.t)
    (order_id : string) : Message.t :=
  Message.mk (WarehouseAgent.agent_id w) (Order.requester ord)
    "DELIVERY_NOTIFICATION"
    (<["order_id" := VStr order_id]>
      (<["product_id" := VStr (Order.product_id ord)]>
        (<["quantity" := VInt (Order.quantity ord)]> ∅))).

(** The retailer after crediting [q] units of [pid] for its order [oid]:
    what [_handle_delivery] does for a known order. *)
Definition credited (oid pid : string) (q : Z) (sord : Order.t)
    (s : StoreAgent.t) : StoreAgent.t :=
  StoreAgent.set_pending_orders
    (PyDict.set oid (Order.set_status "delivered" sord)
       (StoreAgent.pending_orders s))
    (StoreAgent.set_inventory
       (PyDict.set pid (StoreAgent.get_inventory_level s pid + q)%Z
          (StoreAgent.inventory s)) s).

(** The distributor and the retailer of the sample order while the
    carrier [unloading_truck] is at the retailer's door. *)
Definition processing_warehouse : WarehouseAgent.t :=
  WarehouseAgent.set_processing_orders
    [("order_1", Order.set_status "processing" sample_order)]
    (WarehouseAgent.init "warehouse_1" warehouse_loc [("p1", 20%Z)] 5 100 0).

Definition waiting_store : StoreAgent.t :=
  StoreAgent.set_pending_orders [("order_1", sample_order)]
    (StoreAgent.init "store_1" store_loc [("p1", 4%Z)] 10 30).

(** A run of a carrier: before each of its advances the other actors
    publish a batch of envelopes (to any recipients). *)
Fixpoint truck_run (incoming : list (list Message.t)) (s : TruckAgent.St)
    : TruckAgent.St :=
  match incoming with
  | [] => s
  | batch :: rest =>
    truck_run rest
      (snd (TruckAgent.step (fst s, MessageBus.publish_all batch (snd s))))
  end.

(** Two states of a carrier with the same identity, load, assignment and
    delivery record; they may differ in position and movement. *)
Definition same_assignment (a a' : TruckAgent.t) : Prop :=
  TruckAgent.agent_id a' = TruckAgent.agent_id a
  /\ TruckAgent.active a' = TruckAgent.active a
  /\ TruckAgent.city_map a' = TruckAgent.city_map a
  /\ TruckAgent.speed a' = TruckAgent.speed a
  /\ TruckAgent.capacity a' = TruckAgent.capacity a
  /\ TruckAgent.cargo a' = TruckAgent.cargo a
  /\ TruckAgent.current_cargo_weight a' = TruckAgent.current_cargo_weight a
  /\ TruckAgent.current_order a' = TruckAgent.current_order a
  /\ TruckAgent.pickup_location_id a' = TruckAgent.pickup_location_id a
  /\ TruckAgent.delivery_location_id a' = TruckAgent.delivery_location_id a
  /\ TruckAgent.dispatcher_id a' = TruckAgent.dispatcher_id a
  /\ TruckAgent.deliveries_completed a' = TruckAgent.deliveries_completed a
  /\ TruckAgent.total_cargo_delivered a' = TruckAgent.total_cargo_delivered a.

(** A phase of movement: its status, the status on arrival and the
    place of arrival. *)
Definition leg (phase st : string) (target : TruckAgent.t -> option string) : Prop :=
  (phase = "moving_to_pickup" /\ st = "loading"
   /\ target = TruckAgent.pickup_location_id)
  \/ (phase = "moving_to_delivery" /\ st = "unloading"
      /\ target = TruckAgent.delivery_location_id).

(** A carrier in [phase] reaches status [st] at the place [target] within
    the advances of the run [incoming]: it stays in [phase] until some
    advance [k], after which it stands at [target] with its load and
    assignment unchanged; the trip adds its remaining distance to the
    odometer, up to the arrival tolerance; and what the bus has seen
    published by then is just what the other actors published. *)
Definition arrives_within (incoming : list (list Message.t))
    (a : TruckAgent.t) (b : MessageBus.t) (phase st : string)
    (target : option string) : Prop :=
  exists k, (1 <= k <= length incoming)%nat
    /\ (forall j, (j < k)%nat ->
          TruckAgent.status (fst (truck_run (take j incoming) (a, b)))
          = phase)
    /\ TruckAgent.status (fst (truck_run (take k incoming) (a, b))) = st
    /\ TruckAgent.current_location_id
         (fst (truck_run (take k incoming) (a, b))) = target
    /\ same_assignment a (fst (truck_run (take k incoming) (a, b)))
    /\ TruckAgent.remaining_distance
         (fst (truck_run (take k incoming) (a, b))) = 0%Q
    /\ (TruckAgent.total_distance_traveled a + TruckAgent.remaining_distance a
        - (1 # 100)
        <= TruckAgent.total_distance_traveled
             (fst (truck_run (take k incoming) (a, b))))%Q
    /\ (TruckAgent.total_distance_traveled
          (fst (truck_run (take k incoming) (a, b)))
        <= TruckAgent.total_distance_traveled a
           + TruckAgent.remaining_distance a)%Q
    /\ published
         (MessageBus.journal (snd (truck_run (take k incoming) (a, b))))
       = published (MessageBus.journal b) ++ concat (take k incoming).

(** The envelope a carrier sends to its dispatcher once loaded. *)
Definition pickup_complete_msg (a : TruckAgent.t) (o : TruckAgent.order_info)
    (dispatcher : string) : Message.t :=
  Message.mk (TruckAgent.agent_id a) dispatcher "PICKUP_COMPLETE"
    (<["order_id" := VStr (TruckAgent.order_id o)]>
      (<["product_id" := VStr (TruckAgent.product_id o)]>
        (<["quantity" := VInt (TruckAgent.quantity o)]> ∅))).

(** The envelopes of a list that [agent_id] sent. *)
Definition sent_by (agent_id : string) (ms : list Message.t)
    : list Message.t :=
  List.filter (fun m => String.eqb (Message.sender m) agent_id) ms.

(** The sample carrier once it has taken the dispatch instruction for the
    sample order (it is parked at the pick-up point, so it is loading),
    and after its next advance (loaded and under way to the store, 5
    units away). *)
Definition loading_truck : TruckAgent.t :=
  fst (snd (TruckAgent.handle_message (dispatch_of "order_1" 30 "store_loc_1")
              (sample_truck, MessageBus.init 0))).

Definition loaded_truck : TruckAgent.t :=
  fst (snd (TruckAgent.step (loading_truck, MessageBus.init 0))).

(** The instruction a distributor sends to the carrier it assigns to an
    order. *)
Definition dispatch_order_msg (a : WarehouseAgent.t) (o : Order.t)
    (truck_id : string) : Message.t :=
  Message.mk (WarehouseAgent.agent_id a) truck_id "DISPATCH_ORDER"
    (<["order_id" := VStr (Order.order_id o)]>
      (<["product_id" := VStr (Order.product_id o)]>
        (<["quantity" := VInt (Order.quantity o)]>
          (<["pickup_location" :=
               VStr (Location.location_id (WarehouseAgent.location a))]>
            (<["delivery_location" :=
                 TruckAgent.of_opt (Order.delivery_location o)]>
              (<["recipient" := VStr (Order.requester o)]> ∅)))))).

(** The distributor after fulfilling the pending order [oid]: the head of
    the available carriers is assigned to it, the order is marked as
    being processed in both tables, the fulfilment is counted and the
    stock is debited. *)
Definition after_fulfilment (oid : string) (o : Order.t)
    (a : WarehouseAgent.t) : WarehouseAgent.t :=
  let a1 :=
    WarehouseAgent.set_assigned_trucks
      (<[hd "" (WarehouseAgent.available_trucks a) := Order.order_id o]>
         (WarehouseAgent.assigned_trucks a))
      (WarehouseAgent.set_available_trucks
         (tail (WarehouseAgent.available_trucks a)) a) in
  let o' := Order.set_status "processing" o in
  WarehouseAgent.set_inventory
    (PyDictO.set (Some (Order.product_id o))
       (WarehouseAgent.get_inventory_level a1 (Order.product_id o)
        - Order.quantity o)%Z (WarehouseAgent.inventory a1))
    (WarehouseAgent.set_orders_fulfilled
       (WarehouseAgent.orders_fulfilled a1 + 1)%Z
       (WarehouseAgent.set_pending_store_orders
          (PyDict.set oid o' (WarehouseAgent.pending_store_orders a1))
          (WarehouseAgent.set_processing_orders
             (PyDict.set oid o' (WarehouseAgent.processing_orders a1)) a1))).

(** No product is in negative stock. *)
Definition stock_ok (a : WarehouseAgent.t) : Prop :=
  Forall (fun kv => (0 <= snd kv)%Z) (WarehouseAgent.inventory a).

(** A PRODUCTION_COMPLETE envelope never announces a negative quantity
    (a producer announces the quantity of an order, which is positive);
    other envelopes do not touch the stock. *)
Definition credit_ok (m : Message.t) : Prop :=
  Message.message_type m = "PRODUCTION_COMPLETE" ->
  forall q, Message.data_get_default m "quantity" (VInt 0) = VInt q ->
            (0 <= q)%Z.

(** The order a distributor places with the producer. *)
Definition reorder_msg (a : WarehouseAgent.t) (order_id product_id : string)
    (quantity : Z) : Message.t :=
  Message.mk (WarehouseAgent.agent_id a) "factory_1" "FACTORY_ORDER"
    (<["order_id" := VStr order_id]>
      (<["product_id" := VStr product_id]>
        (<["quantity" := VInt quantity]>
          (<["requester" := VStr (WarehouseAgent.agent_id a)]> ∅)))).

(** A distributor holding 50 units of p1 and one carrier, with the
    30-unit sample order pending. *)
Definition stocked_warehouse : WarehouseAgent.t :=
  WarehouseAgent.set_pending_store_orders [("order_1", sample_order)]
    (WarehouseAgent.init "warehouse_1" warehouse_loc [("p1", 50%Z)] 20 100 1).

(** A producer with 500 finished units of p1. *)
Definition stocked_factory : FactoryAgent.t :=
  FactoryAgent.init "factory_1" factory_loc 2 3 {[ "p1" := 500%Z ]}.

(** What the distributor's order counters rely on: the distributor has
    a name, its pending table has one entry per key and only orders with
    a requester, its available carriers have names, and every order
    counted as fulfilled or rejected or still pending was counted as
    processed when it came in. *)
Definition accounts_ok (a : WarehouseAgent.t) : Prop :=
  WarehouseAgent.agent_id a <> ""
  /\ NoDup (PyDict.keys (WarehouseAgent.pending_store_orders a))
  /\ Forall (fun kv => Order.requester (snd kv) <> "")
       (WarehouseAgent.pending_store_orders a)
  /\ Forall (fun id => id <> "") (WarehouseAgent.available_trucks a)
  /\ (0 <= WarehouseAgent.orders_fulfilled a)%Z
  /\ (0 <= WarehouseAgent.orders_rejected a)%Z
  /\ (WarehouseAgent.orders_fulfilled a + WarehouseAgent.orders_rejected a
      + Z.of_nat (length (WarehouseAgent.pending_store_orders a))
      <= WarehouseAgent.orders_processed a)%Z.

(** The states of a named distributor in a run in which every envelope
    has a sender (as every envelope built by [Message] has). *)
Inductive warehouse_run : WarehouseAgent.t -> Prop :=
  | run_init agent_id location inventory threshold quantity max_trucks :
      agent_id <> "" ->
      warehouse_run
        (WarehouseAgent.init agent_id location inventory threshold quantity
           max_trucks)
  | run_handle a b m :
      warehouse_run a -> Message.sender m <> "" ->
      warehouse_run (fst (snd (WarehouseAgent.handle_message m (a, b))))
  | run_step a b :
      warehouse_run a ->
      Forall (fun m => Message.sender m <> "")
        (MessageBus.queue b (WarehouseAgent.agent_id a)) ->
      warehouse_run (fst (snd (WarehouseAgent.step (a, b)))).

(** The state of the distributor while the loop of
    [_process_pending_orders] runs: the pending table keeps the keys [K],
    and [c] orders have been counted as fulfilled or rejected. *)
Definition pending_loop_inv (K : list string) (c p : Z)
    (a : WarehouseAgent.t) : Prop :=
  WarehouseAgent.agent_id a <> ""
  /\ PyDict.keys (WarehouseAgent.pending_store_orders a) = K
  /\ Forall (fun kv => Order.requester (snd kv) <> "")
       (WarehouseAgent.pending_store_orders a)
  /\ Forall (fun id => id <> "") (WarehouseAgent.available_trucks a)
  /\ (0 <= WarehouseAgent.orders_fulfilled a)%Z
  /\ (0 <= WarehouseAgent.orders_rejected a)%Z
  /\ (WarehouseAgent.orders_fulfilled a + WarehouseAgent.orders_rejected a
      = c)%Z
  /\ WarehouseAgent.orders_processed a = p.

(** A distributor that received the sample request twice before its first
    tick. *)
Definition audited_bus : MessageBus.t :=
  MessageBus.publish sample_order_request
    (MessageBus.publish sample_order_request (MessageBus.init 0)).

Definition audited_warehouse : WarehouseAgent.t :=
  fst (snd (WarehouseAgent.step
              (WarehouseAgent.init "warehouse_1" warehouse_loc
                 [("p1", 50%Z)] 20 100 1, audited_bus))).

(** ** Producer books

    What [_check_production_completion] does to the producer's fields for
    one finished job before it acknowledges the requester. *)
Definition credit_goods (a : FactoryAgent.t)
    (info : FactoryAgent.production_info) : FactoryAgent.t :=
  let o := FactoryAgent.order info in
  FactoryAgent.set_finished_goods_inventory
    (<[Order.product_id o :=
         (FactoryAgent.get_inventory_level a (Order.product_id o)
          + Order.quantity o)%Z]> (FactoryAgent.finished_goods_inventory a))
    a.

(** What [_fulfill_from_inventory] does to the producer's fields. *)
Definition debit_goods (a : FactoryAgent.t) (o : Order.t) : FactoryAgent.t :=
  FactoryAgent.set_finished_goods_inventory
    (<[Order.product_id o :=
         (FactoryAgent.get_inventory_level a (Order.product_id o)
          - Order.quantity o)%Z]> (FactoryAgent.finished_goods_inventory a))
    a.

(** What the queueing branch of [_handle_factory_order] does. *)
Definition queue_order (a : FactoryAgent.t) (o : Order.t) : FactoryAgent.t :=
  FactoryAgent.set_orders_received (FactoryAgent.orders_received a + 1)%Z
    (FactoryAgent.set_production_queue
       (FactoryAgent.production_queue a ++ [o]) a).

(** The producer's counters account for the orders it holds. *)
Definition books_ok (a : FactoryAgent.t) : Prop :=
  (0 <= FactoryAgent.orders_completed a)%Z
  /\ (FactoryAgent.orders_completed a
      + Z.of_nat (length (FactoryAgent.active_production a))
      + Z.of_nat (length (FactoryAgent.production_queue a))
      <= FactoryAgent.orders_received a)%Z.

(** No finished-goods level is negative and every order held asks for a
    positive quantity. *)
Definition goods_ok (a : FactoryAgent.t) : Prop :=
  map_Forall (fun _ q => (0 <= q)%Z) (FactoryAgent.finished_goods_inventory a)
  /\ Forall (fun o => (0 < Order.quantity o)%Z)
       (FactoryAgent.production_queue a)
  /\ Forall (fun job => (0 < Order.quantity (FactoryAgent.order (snd job)))%Z)
       (FactoryAgent.active_production a).

(** The number of running jobs stays below [n] and the capacity is [cap]. *)
Definition jobs_within (n cap : Z) (a : FactoryAgent.t) : Prop :=
  FactoryAgent.production_capacity a = cap
  /\ (cap <= n)%Z
  /\ (Z.of_nat (length (FactoryAgent.active_production a)) <= n)%Z.

(** ** simulation/city_map.py: the class with its memo table

    [CityMap] above is the view of the map that the carriers read. This
    module is the class itself: the insertion-ordered table of locations,
    the memo table of distances keyed by the sorted pair of identifiers,
    and every method of the class. Identifiers are strings, as
    annotated. *)
Module CachedCityMap.

Record t : Type := mk {
  locations : PyDict.t Location.t;
  _distance_cache : gmap (string * string) Q;
  pow_half : Q -> Q
}.

Definition init (pow_half : Q -> Q) : t := mk [] ∅ pow_half.

(** [location_id in self.locations] *)
Definition has_location (location_id : string) (cm : t) : bool :=
  match PyDict.get location_id (locations cm) with
  | Some _ => true
  | None => false
  end.

Definition add_location (location : Location.t) : M t unit :=
  fun cm =>
    if has_location (Location.location_id location) cm
    then (Raise ValueError, cm)
    else (Ok tt,
          mk (PyDict.set (Location.location_id location) location
                (locations cm))
             ∅ (pow_half cm)).

Definition remove_location (location_id : string) : M t unit :=
  fun cm =>
    if negb (has_location location_id cm) then (Raise KeyError, cm)
    else (Ok tt, mk (PyDict.del location_id (locations cm)) ∅ (pow_half cm)).

Definition get_location (location_id : string) (cm : t)
    : option Location.t :=
  PyDict.get location_id (locations cm).

Definition get_all_locations (cm : t) : list Location.t :=
  PyDict.values (locations cm).

Definition get_locations_by_type (location_type : string) (cm : t)
    : list Location.t :=
  List.filter (fun loc => String.eqb (Location.location_type loc) location_type)
    (PyDict.values (locations cm)).

(** [tuple(sorted([location_id1, location_id2]))] *)
Definition cache_key (location_id1 location_id2 : string) : string * string :=
  if String.ltb location_id2 location_id1
  then (location_id2, location_id1)
  else (location_id1, location_id2).

Definition calculate_distance (location_id1 location_id2 : string) : M t Q :=
  fun cm =>
    match PyDict.get location_id1 (locations cm) with
    | None => (Raise KeyError, cm)
    | Some loc1 =>
      match PyDict.get location_id2 (locations cm) with
      | None => (Raise KeyError, cm)
      | Some loc2 =>
        if String.eqb location_id1 location_id2 then (Ok 0%Q, cm)
        else
          let cache_key := cache_key location_id1 location_id2 in
          match _distance_cache cm !! cache_key with
          | Some distance => (Ok distance, cm)
          | None =>
            let distance := Location.distance_to (pow_half cm) loc1 loc2 in
            (Ok distance,
             mk (locations cm)
                (<[cache_key := distance]> (_distance_cache cm))
                (pow_half cm))
          end
      end
    end.

(** The candidates of the two searches: the locations of the type asked
    for (all of them when no type or an empty one is given), the reference
    location left out. *)
Definition candidates (location_id : string) (location_type : option string)
    (cm : t) : list Location.t :=
  let candidates := PyDict.values (locations cm) in
  let candidates :=
    match location_type with
    | Some ty =>
      if String.eqb ty "" then candidates
      else List.filter (fun loc => String.eqb (Location.location_type loc) ty)
             candidates
    | None => candidates
    end in
  List.filter
    (fun loc => negb (String.eqb (Location.location_id loc) location_id))
    candidates.

(** [min(candidates, key=...)]: the key of every candidate is computed in
    turn, and a candidate replaces the current one when its key is
    strictly smaller. *)
Fixpoint nearest_loop (location_id : string) (nearest : Location.t)
    (nearest_distance : Q) (rest : list Location.t) : M t Location.t :=
  match rest with
  | [] => ret nearest
  | loc :: rest' =>
    (distance <~ calculate_distance location_id (Location.location_id loc) ;
     if negb (Qle_bool nearest_distance distance)
     then nearest_loop location_id loc distance rest'
     else nearest_loop location_id nearest nearest_distance rest')%py
  end.

Definition find_nearest_location (location_id : string)
    (location_type : option string) : M t (option Location.t) :=
  fun cm =>
    if negb (has_location location_id cm) then (Raise KeyError, cm)
    else
      match candidates location_id location_type cm with
      | [] => (Ok None, cm)
      | first :: rest =>
        (distance <~ calculate_distance location_id
                       (Location.location_id first) ;
         nearest <~ nearest_loop location_id first distance rest ;
         ret (Some nearest))%py cm
      end.

Fixpoint radius_loop (location_id : string) (radius : Q)
    (candidates within_radius : list Location.t) : M t (list Location.t) :=
  match candidates with
  | [] => ret within_radius
  | loc :: rest =>
    (distance <~ calculate_distance location_id (Location.location_id loc) ;
     radius_loop location_id radius rest
       (if Qle_bool distance radius then within_radius ++ [loc]
        else within_radius))%py
  end.

Definition find_locations_within_radius (location_id : string) (radius : Q)
    (location_type : option string) : M t (list Location.t) :=
  fun cm =>
    if negb (has_location location_id cm) then (Raise KeyError, cm)
    else radius_loop location_id radius
           (candidates location_id location_type cm) [] cm.

(** [min] and [max] of a non-empty sequence of floats: the first of the
    smallest (largest) values. *)
Definition py_min (first : Q) (rest : list Q) : Q :=
  fold_left (fun m v => if negb (Qle_bool m v) then v else m) rest first.

Definition py_max (first : Q) (rest : list Q) : Q :=
  fold_left (fun m v => if negb (Qle_bool v m) then v else m) rest first.

(** [(min_x, min_y, max_x, max_y)] *)
Definition get_map_bounds (cm : t) : Q * Q * Q * Q :=
  match PyDict.values (locations cm) with
  | [] => (0, 0, 0, 0)%Q
  | loc :: rest =>
    (py_min (Location.x loc) (map Location.x rest),
     py_min (Location.y loc) (map Location.y rest),
     py_max (Location.x loc) (map Location.x rest),
     py_max (Location.y loc) (map Location.y rest))
  end.

Definition get_map_center (cm : t) : Q * Q :=
  match locations cm with
  | [] => (0, 0)%Q
  | _ =>
    let '(min_x, min_y, max_x, max_y) := get_map_bounds cm in
    ((min_x + max_x) / 2, (min_y + max_y) / 2)%Q
  end.

Definition create_sample_city : M t unit :=
  (modify (fun cm => mk [] ∅ (pow_half cm)) ;;;
   for_each
     [("factory_1", "Electronics Factory", 10, 90, "factory");
      ("factory_2", "Textile Factory", 50, 90, "factory");
      ("warehouse_1", "North Warehouse", 20, 50, "warehouse");
      ("warehouse_2", "South Warehouse", 40, 50, "warehouse");
      ("store_1", "Downtown Store", 10, 20, "store");
      ("store_2", "Mall Store", 30, 20, "store");
      ("store_3", "Suburb Store", 50, 20, "store");
      ("store_4", "Corner Store", 15, 10, "store");
      ("store_5", "Plaza Store", 45, 10, "store")]%Q
     (fun '(location_id, name, x, y, location_type) =>
        location <~ lift (Location.init location_id name x y location_type) ;
        add_location location))%py.

(** The dictionary returned by [get_map_stats]. *)
Record map_stats : Type := mk_map_stats {
  total_locations : nat;
  factories : nat;
  warehouses : nat;
  stores : nat;
  cached_distances : nat
}.

Definition get_map_stats (cm : t) : map_stats :=
  mk_map_stats (length (locations cm))
    (length (get_locations_by_type "factory" cm))
    (length (get_locations_by_type "warehouse" cm))
    (length (get_locations_by_type "store" cm))
    (size (_distance_cache cm)).

Definition clear_distance_cache (cm : t) : t :=
  mk (locations cm) ∅ (pow_half cm).

End CachedCityMap.

(** The carriers' view of a map object. *)
Definition map_view (cm : CachedCityMap.t) : CityMap.t :=
  CityMap.mk (list_to_map (CachedCityMap.locations cm))
    (CachedCityMap.pow_half cm).

(** Every memoised distance is the distance of the two locations of its
    key. *)
Definition cache_ok (cm : CachedCityMap.t) : Prop :=
  forall k1 k2 d,
    CachedCityMap._distance_cache cm !! (k1, k2) = Some d ->
    exists l1 l2,
      PyDict.get k1 (CachedCityMap.locations cm) = Some l1
      /\ PyDict.get k2 (CachedCityMap.locations cm) = Some l2
      /\ d = Location.distance_to (CachedCityMap.pow_half cm) l1 l2.

(** Every location is filed under its own identifier, once. *)
Definition keys_ok (cm : CachedCityMap.t) : Prop :=
  NoDup (PyDict.keys (CachedCityMap.locations cm))
  /\ Forall (fun kv => fst kv = Location.location_id (snd kv))
       (CachedCityMap.locations cm).

(** The maps obtained from an empty one through the methods of the
    class. *)
Inductive map_run : CachedCityMap.t -> Prop :=
  | map_init pow_half : map_run (CachedCityMap.init pow_half)
  | map_add location cm :
      map_run cm -> map_run (snd (CachedCityMap.add_location location cm))
  | map_remove location_id cm :
      map_run cm ->
      map_run (snd (CachedCityMap.remove_location location_id cm))
  | map_distance id1 id2 cm :
      map_run cm ->
      map_run (snd (CachedCityMap.calculate_distance id1 id2 cm))
  | map_nearest location_id location_type cm :
      map_run cm ->
      map_run (snd (CachedCityMap.find_nearest_location location_id
                      location_type cm))
  | map_radius location_id radius location_type cm :
      map_run cm ->
      map_run (snd (CachedCityMap.find_locations_within_radius location_id
                      radius location_type cm))
  | map_sample cm :
      map_run cm -> map_run (snd (CachedCityMap.create_sample_city cm))
  | map_clear cm :
      map_run cm -> map_run (CachedCityMap.clear_distance_cache cm).

(** [cm'] is [cm] up to the memo table, which is still sound. *)
Definition same_map (cm cm' : CachedCityMap.t) : Prop :=
  CachedCityMap.locations cm' = CachedCityMap.locations cm
  /\ CachedCityMap.pow_half cm' = CachedCityMap.pow_half cm
  /\ cache_ok cm'.

(** A location as the constructor of [Location] leaves it. *)
Definition constructed (loc : Location.t) : Prop :=
  Location.init (Location.location_id loc) (Location.name loc)
    (Location.x loc) (Location.y loc) (Location.location_type loc)
  = Ok loc.

(** The sample city, with the root rounded down to a whole number. *)
Definition sample_city : CachedCityMap.t :=
  snd (CachedCityMap.create_sample_city (CachedCityMap.init sample_root)).

(* ===================================================================== *)
(** * Part II: properties                                                 *)
(* ===================================================================== *)

(** ** Message bus *)
Section BusProperties.
Import MessageBus.

Lemma queue_publish_same m b :
  queue (publish m b) (Message.recipient m)
  = enqueue (queue b (Message.recipient m)) m.
Proof.
  unfold publish, queue, enqueue; simpl. by rewrite lookup_insert_eq.
Qed.

Lemma queue_publish_other m b r :
  Message.recipient m ≠ r -> queue (publish m b) r = queue b r.
Proof.
  intros Hne. unfold publish, queue; simpl. by rewrite lookup_insert_ne.
Qed.

Lemma enqueue_length q m :
  (length q <= _max_queue_size)%nat ->
  (length (enqueue q m) <= _max_queue_size)%nat.
Proof.
  unfold enqueue. intros Hq.
  destruct (Nat.leb_spec _max_queue_size (length q));
    rewrite length_app; cbn [length].
  - rewrite length_tl. unfold _max_queue_size in *. lia.
  - lia.
Qed.

Lemma enqueue_newest q m :
  (length q <= _max_queue_size)%nat -> enqueue q m = newest (q ++ [m]).
Proof.
  unfold enqueue, newest. intros Hq.
  rewrite length_app; cbn [length].
  destruct (Nat.leb_spec _max_queue_size (length q)).
  - replace (length q + 1 - _max_queue_size)%nat with 1%nat by lia.
    destruct q as [|x q]; [cbn [length] in *; unfold _max_queue_size in *; lia|].
    reflexivity.
  - replace (length q + 1 - _max_queue_size)%nat with 0%nat by lia.
    reflexivity.
Qed.

Lemma newest_app_newest q ms :
  newest (newest q ++ ms) = newest (q ++ ms).
Proof.
  unfold newest.
  rewrite !length_app, length_drop.
  destruct (Nat.le_gt_cases (length q) _max_queue_size) as [Hle|Hgt].
  - replace (length q - _max_queue_size)%nat with 0%nat by lia.
    cbn [drop]. by rewrite Nat.sub_0_r.
  - set (k := (length q - _max_queue_size)%nat).
    replace (length q - k + length ms - _max_queue_size)%nat
      with (length ms) by lia.
    replace (length q + length ms - _max_queue_size)%nat
      with (k + length ms)%nat by lia.
    rewrite <- drop_drop. rewrite (drop_app_le q ms k) by lia. done.
Qed.

Lemma newest_length q : (length (newest q) <= _max_queue_size)%nat.
Proof.
  unfold newest. rewrite length_drop.
  destruct (Nat.le_gt_cases (length q) _max_queue_size); lia.
Qed.

Lemma newest_id q : (length q <= _max_queue_size)%nat -> newest q = q.
Proof.
  unfold newest. intros Hq.
  replace (length q - _max_queue_size)%nat with 0%nat by lia. reflexivity.
Qed.

(** The mailbox of [r] after any run of publishes addressed to [r]. *)
Lemma queue_publish_all ms : forall b r,
  Forall (fun m => Message.recipient m = r) ms ->
  (length (queue b r) <= _max_queue_size)%nat ->
  queue (publish_all ms b) r = newest (queue b r ++ ms).
Proof.
  induction ms as [|m ms IH]; intros b r Hall Hlen; simpl.
  - rewrite app_nil_r. by rewrite newest_id.
  - inversion Hall as [|? ? Hm Hms]; subst.
    unfold publish_all in *. simpl. rewrite IH; try assumption.
    + rewrite queue_publish_same, enqueue_newest by assumption.
      rewrite newest_app_newest. by rewrite <- app_assoc.
    + rewrite queue_publish_same. by apply enqueue_length.
Qed.

Lemma deliver_messages_fst r b : fst (deliver_messages r b) = queue b r.
Proof. reflexivity. Qed.

Lemma deliver_messages_drained r b :
  queue (snd (deliver_messages r b)) r = [].
Proof. unfold deliver_messages, queue; simpl. by rewrite lookup_insert_eq. Qed.

(** C2. For a run of publishes to one recipient [r] with no drain in
    between, starting from an empty mailbox: the mailbox never holds more
    than 100 envelopes; a publish that finds the mailbox full drops the
    oldest envelope and appends the new one; the drain returns the newest
    100 in publish order, so after 101 publishes it returns exactly the
    2nd to the 101st; a second drain returns nothing. *)
Theorem mailbox_drop_oldest (r : string) (ms : list Message.t) (b : t) :
  Forall (fun m => Message.recipient m = r) ms ->
  queue b r = [] ->
  let b' := publish_all ms b in
  (length (queue b' r) <= 100)%nat
  /\ (forall m b0, Message.recipient m = r ->
        length (queue b0 r) = 100%nat ->
        queue (publish m b0) r = tail (queue b0 r) ++ [m])
  /\ fst (deliver_messages r b') = drop (length ms - 100) ms
  /\ (length ms = 101%nat ->
        fst (deliver_messages r b') = tail ms
        /\ length (fst (deliver_messages r b')) = 100%nat)
  /\ fst (deliver_messages r (snd (deliver_messages r b'))) = [].
Proof.
  intros Hall Hempty b'.
  assert (queue b' r = drop (length ms - 100) ms) as Hq.
  { unfold b'. rewrite queue_publish_all; [|assumption|rewrite Hempty; simpl; lia].
    rewrite Hempty. reflexivity. }
  repeat split.
  - rewrite Hq, length_drop. lia.
  - intros m b0 Hm Hfull. rewrite <- Hm, queue_publish_same. unfold enqueue.
    rewrite Hm, Hfull. reflexivity.
  - by rewrite deliver_messages_fst.
  - rewrite deliver_messages_fst, Hq, H. destruct ms; reflexivity.
  - rewrite deliver_messages_fst, Hq, length_drop. lia.
  - rewrite deliver_messages_fst. apply deliver_messages_drained.
Qed.

Lemma mailbox_drop_oldest_witness :
  let b' := publish_all (numbered "store_1" 101) (init 0) in
  fst (deliver_messages "store_1" b') = tail (numbered "store_1" 101)
  /\ length (fst (deliver_messages "store_1" b')) = 100%nat.
Proof.
  refine (proj1 (proj2 (proj2 (proj2
    (mailbox_drop_oldest "store_1" (numbered "store_1" 101) (init 0) _ _)))) _).
  - unfold numbered. apply List.Forall_map, List.Forall_forall.
    intros i _. reflexivity.
  - reflexivity.
  - reflexivity.
Defined.

End BusProperties.

(** ** Orders *)
Section OrderProperties.

Lemma valid_status_cases s :
  existsb (String.eqb s) Order.valid_statuses = true <->
  In s Order.valid_statuses.
Proof.
  rewrite existsb_exists. split.
  - intros [x [Hin Heq]]. apply String.eqb_eq in Heq. by subst.
  - intros Hin. exists s. split; [done | apply String.eqb_refl].
Qed.

(** C3, as stated, fails: a pending order is moved directly to delivered
    by [update_status], and a delivered order is moved back to pending;
    neither step is on the lattice. *)
Lemma order_status_not_monotone :
  Order.update_status "delivered" sample_order
    = Ok (Order.set_status "delivered" sample_order)
  /\ lattice_step (Order.status sample_order) "delivered" = false
  /\ Order.update_status "pending" (Order.set_status "delivered" sample_order)
    = Ok sample_order
  /\ lattice_step "delivered" "pending" = false.
Proof. repeat split. Qed.

(** C3, amended. [update_status] checks the new status name only: from
    any current status each of the five names is accepted and becomes
    the status, the other fields being kept; any other name raises
    [ValueError] and nothing changes. No transition is refused. *)
Theorem update_status_unrestricted (o : Order.t) (s : string) :
  (In s Order.valid_statuses ->
     exists o', Order.update_status s o = Ok o'
       /\ Order.status o' = s
       /\ Order.order_id o' = Order.order_id o
       /\ Order.product_id o' = Order.product_id o
       /\ Order.quantity o' = Order.quantity o
       /\ Order.requester o' = Order.requester o
       /\ Order.delivery_location o' = Order.delivery_location o)
  /\ (~ In s Order.valid_statuses ->
        Order.update_status s o = Raise ValueError).
Proof.
  unfold Order.update_status. split; intros Hs.
  - apply valid_status_cases in Hs. rewrite Hs.
    exists (Order.set_status s o). repeat split.
  - destruct (existsb (String.eqb s) Order.valid_statuses) eqn:E; [|done].
    apply valid_status_cases in E. contradiction.
Qed.

Lemma update_status_unrestricted_witness :
  exists o', Order.update_status "cancelled" sample_order = Ok o'
    /\ Order.status o' = "cancelled"
    /\ Order.order_id o' = Order.order_id sample_order
    /\ Order.product_id o' = Order.product_id sample_order
    /\ Order.quantity o' = Order.quantity sample_order
    /\ Order.requester o' = Order.requester sample_order
    /\ Order.delivery_location o' = Order.delivery_location sample_order.
Proof.
  apply (proj1 (update_status_unrestricted sample_order "cancelled")).
  simpl. tauto.
Defined.

End OrderProperties.

(** ** Carrier *)
Section TruckProperties.
Import TruckAgent.

Ltac break_ids m :=
  destruct (as_id (Message.data_get m "order_id")) as [oid|] eqn:Eoid;
  destruct (as_id (Message.data_get m "product_id")) as [pid|] eqn:Epid;
  destruct (as_id (Message.data_get m "pickup_location")) as [pick|] eqn:Epick;
  destruct (as_id (Message.data_get m "delivery_location")) as [deliv|] eqn:Edeliv;
  destruct (as_id (Message.data_get m "recipient")) as [rcpt|] eqn:Ercpt.

Lemma dispatch_rejected_unchanged a m b :
  dispatch_accepted a m = false ->
  handle_message m (a, b) = (Ok tt, (a, b)).
Proof.
  intros Hrej. unfold handle_message, try_except.
  destruct (String.eqb (Message.message_type m) "DISPATCH_ORDER"); [|reflexivity].
  unfold _handle_dispatch_order, bind, self. cbn beta iota.
  unfold dispatch_accepted in Hrej.
  destruct (String.eqb (status a) "available"); cbn [negb andb] in *; [|reflexivity].
  cbn [forallb dispatch_id_fields] in Hrej. unfold field_present in Hrej.
  break_ids m; cbn [falsy_id negb andb] in Hrej; try reflexivity.
  cbn [forallb].
  destruct (String.eqb oid ""), (String.eqb pid ""), (String.eqb pick ""),
    (String.eqb deliv ""), (String.eqb rcpt ""); cbn [negb andb] in *;
    try reflexivity.
  destruct (Message.data_get_default m "quantity" (VInt 0)) as [|s|q];
    try reflexivity.
  rewrite Z.leb_antisym in Hrej. apply negb_false_iff in Hrej. rewrite Hrej.
  reflexivity.
Qed.

Lemma opt_eqb_eq x y : opt_eqb x y = true <-> x = y.
Proof.
  destruct x as [x|], y as [y|]; simpl; try (split; congruence).
  rewrite String.eqb_eq. split; congruence.
Qed.

Lemma opt_eqb_neq x y : opt_eqb x y = false <-> x <> y.
Proof.
  rewrite <- opt_eqb_eq. destruct (opt_eqb x y); split; congruence.
Qed.

Lemma field_present_inv m k :
  field_present m k = true ->
  exists s, as_id (Message.data_get m k) = Some s /\ String.eqb s "" = false.
Proof.
  unfold field_present. destruct (as_id (Message.data_get m k)) as [s|];
    cbn [falsy_id]; [|discriminate].
  intros Hs. exists s. split; [reflexivity|]. by apply negb_true_iff.
Qed.

Lemma dispatch_accepted_effect a m b :
  dispatch_accepted a m = true ->
  Message.message_type m = "DISPATCH_ORDER" ->
  exists oid pid pick deliv rcpt q,
    as_id (Message.data_get m "order_id") = Some oid
    /\ as_id (Message.data_get m "product_id") = Some pid
    /\ as_id (Message.data_get m "pickup_location") = Some pick
    /\ as_id (Message.data_get m "delivery_location") = Some deliv
    /\ as_id (Message.data_get m "recipient") = Some rcpt
    /\ Message.data_get_default m "quantity" (VInt 0) = VInt q
    /\ let a' := fst (snd (handle_message m (a, b))) in
       let taken :=
         current_order a' = Some (mk_order oid pid q rcpt)
         /\ pickup_location_id a' = Some pick
         /\ delivery_location_id a' = Some deliv
         /\ dispatcher_id a' = Some (Message.sender m) in
       snd (snd (handle_message m (a, b))) = b
       /\ (current_location_id a = Some pick ->
             status a' = "loading" /\ taken)
       /\ (current_location_id a <> Some pick ->
             forall d,
               CityMap.calculate_distance (city_map a)
                 (current_location_id a) (Some pick) = Ok d ->
               status a' = "moving_to_pickup"
               /\ remaining_distance a' = d /\ taken)
       /\ (current_location_id a <> Some pick ->
             CityMap.calculate_distance (city_map a)
               (current_location_id a) (Some pick) = Raise KeyError ->
             status a' = "available" /\ current_order a' = None).
Proof.
  intros Hacc Hty. unfold dispatch_accepted in Hacc.
  apply andb_prop in Hacc as [Hacc Hq]. apply andb_prop in Hacc as [Hst Hids].
  cbn [forallb dispatch_id_fields] in Hids.
  repeat match type of Hids with
         | (_ && _) = true => apply andb_prop in Hids as [?H Hids]
         end.
  apply field_present_inv in H as [oid [Eoid Noid]].
  apply field_present_inv in H0 as [pid [Epid Npid]].
  apply field_present_inv in H1 as [pick [Epick Npick]].
  apply field_present_inv in H2 as [deliv [Edeliv Ndeliv]].
  apply field_present_inv in H3 as [rcpt [Ercpt Nrcpt]].
  destruct (Message.data_get_default m "quantity" (VInt 0)) as [|s|q] eqn:Eq;
    try discriminate.
  exists oid, pid, pick, deliv, rcpt, q.
  repeat (split; [first [assumption | reflexivity]|]).
  unfold handle_message, try_except. rewrite Hty. cbn [String.eqb Ascii.eqb Bool.eqb].
  unfold _handle_dispatch_order, bind, self. cbn beta iota.
  rewrite Hst, Eoid, Epid, Epick, Edeliv, Ercpt, Eq. cbn [negb forallb].
  rewrite Noid, Npid, Npick, Ndeliv, Nrcpt. cbn [negb andb].
  rewrite Z.ltb_antisym, Hq. cbn [negb].
  unfold upd, modify. cbn beta iota.
  cbv zeta.
  destruct (opt_eqb (current_location_id a) (Some pick)) eqn:Eat.
  - apply opt_eqb_eq in Eat.
    unfold _arrive_at_pickup, arrive, bind, self, upd, modify. cbn beta iota.
    split; [reflexivity|]. split; [|split]; [|intros Hne; contradiction..].
    intros _. cbn.
    destruct (CityMap.locations (city_map a) !! pick); cbn; repeat split.
  - apply opt_eqb_neq in Eat.
    unfold _start_movement_to_pickup, start_movement, bind, self, upd, modify.
    cbn.
    destruct (CityMap.calculate_distance (city_map a) (current_location_id a)
                (Some pick)) as [d|e] eqn:Ed.
    + cbn. split; [reflexivity|]. split; [intros; contradiction|].
      split; [|intros _ Hk; discriminate].
      intros _ d' Hd'. injection Hd' as <-. repeat split.
    + assert (e = KeyError) as ->.
      { unfold CityMap.calculate_distance in Ed.
        repeat match type of Ed with
               | context [match ?x with _ => _ end] => destruct x
               end; congruence. }
      unfold _reset_to_available, bind, self, upd, modify. cbn.
      split; [reflexivity|]. split; [intros; contradiction|].
      split; [intros _ d' Hd'; discriminate|]. intros _ _. split; reflexivity.
Qed.

(** C8, as stated, fails: the payload below lacks [quantity], one of
    the six fields of the DISPATCH_ORDER row, yet the available carrier
    takes the instruction (with quantity 0) and starts loading. *)
Lemma dispatch_without_quantity_taken :
  Message.data dispatch_without_quantity !! "quantity" = None
  /\ dispatch_complete dispatch_without_quantity = false
  /\ status (fst (snd (handle_message dispatch_without_quantity
                         (sample_truck, MessageBus.init 0)))) = "loading"
  /\ current_order (fst (snd (handle_message dispatch_without_quantity
                                (sample_truck, MessageBus.init 0))))
     = Some (mk_order "order_1" "p1" 0 "store_1")
  /\ fst (snd (handle_message dispatch_without_quantity
                 (sample_truck, MessageBus.init 0))) <> sample_truck.
Proof.
  repeat split; try (vm_compute; reflexivity).
  intros Heq. apply (f_equal status) in Heq. vm_compute in Heq. discriminate.
Qed.

Lemma pretty_N_go_length x : forall s,
  (String.length s <= String.length (pretty_N_go x s))%nat.
Proof.
  induction (N.lt_wf_0 x) as [x _ IH]; intros s.
  assert (x = 0 \/ 0 < x)%N as [->|Hx] by lia.
  - by rewrite pretty_N_go_0.
  - rewrite pretty_N_go_step by done.
    etrans; [|apply IH; by apply N.div_lt]. cbn [String.length]. lia.
Qed.

Lemma pretty_Z_nonempty (z : Z) : String.eqb (pretty z) "" = false.
Proof.
  apply String.eqb_neq. destruct z as [|x|x].
  - discriminate.
  - unfold pretty, pretty_Z, pretty, pretty_positive, pretty, pretty_N.
    destruct (decide (N.pos x = 0%N)) as [E|_]; [discriminate E|].
    rewrite pretty_N_go_step by lia. intros E.
    pose proof (pretty_N_go_length (N.pos x `div` 10)
                  (String (pretty_N_char (N.pos x `mod` 10)) "")) as Hlen.
    rewrite E in Hlen. cbn [String.length] in Hlen. lia.
  - discriminate.
Qed.

(** What the guard [not all([...])] sees of an identifier slot: the slot
    counts as missing exactly when the payload has no such key or holds
    [None], the empty string or [0] under it. *)
Lemma field_present_false m k :
  field_present m k = false
  <-> Message.data_get m k = VNone \/ Message.data_get m k = VStr ""
      \/ Message.data_get m k = VInt 0.
Proof.
  unfold field_present. destruct (Message.data_get m k) as [|s|z]; cbn [as_id].
  - cbn. split; [by left|done].
  - cbn [falsy_id]. rewrite negb_false_iff, String.eqb_eq.
    split; [intros ->; right; by left|].
    intros [H|[H|H]]; congruence.
  - destruct (Z.eqb_spec z 0) as [->|Hz]; cbn [falsy_id].
    + split; [by right; right|done].
    + rewrite pretty_Z_nonempty. cbn. split; [done|].
      intros [H|[H|H]]; congruence.
Qed.

Lemma dispatch_taken a m b oid pid pick deliv rcpt q :
  Message.message_type m = "DISPATCH_ORDER" ->
  status a = "available" ->
  Message.data_get m "order_id" = VStr oid -> oid <> "" ->
  Message.data_get m "product_id" = VStr pid -> pid <> "" ->
  Message.data_get m "pickup_location" = VStr pick -> pick <> "" ->
  Message.data_get m "delivery_location" = VStr deliv -> deliv <> "" ->
  Message.data_get m "recipient" = VStr rcpt -> rcpt <> "" ->
  Message.data_get_default m "quantity" (VInt 0) = VInt q ->
  (q <= capacity a)%Z ->
  let a' := fst (snd (handle_message m (a, b))) in
  let taken :=
    current_order a' = Some (mk_order oid pid q rcpt)
    /\ pickup_location_id a' = Some pick
    /\ delivery_location_id a' = Some deliv
    /\ dispatcher_id a' = Some (Message.sender m) in
  fst (handle_message m (a, b)) = Ok tt
  /\ snd (snd (handle_message m (a, b))) = b
  /\ (current_location_id a = Some pick -> status a' = "loading" /\ taken)
  /\ (current_location_id a <> Some pick ->
        forall d,
          CityMap.calculate_distance (city_map a)
            (current_location_id a) (Some pick) = Ok d ->
          status a' = "moving_to_pickup" /\ remaining_distance a' = d /\ taken)
  /\ (current_location_id a <> Some pick ->
        CityMap.calculate_distance (city_map a)
          (current_location_id a) (Some pick) = Raise KeyError ->
        status a' = "available" /\ current_order a' = None).
Proof.
  intros Hty Hst Eoid Noid Epid Npid Epick Npick Edeliv Ndeliv Ercpt Nrcpt
    Eq Hq.
  assert (dispatch_accepted a m = true) as Hacc.
  { unfold dispatch_accepted. rewrite Hst, Eq. cbn [String.eqb Ascii.eqb Bool.eqb].
    cbn [forallb dispatch_id_fields]. unfold field_present.
    rewrite Eoid, Epid, Epick, Edeliv, Ercpt. cbn [as_id falsy_id].
    apply String.eqb_neq in Noid, Npid, Npick, Ndeliv, Nrcpt.
    rewrite Noid, Npid, Npick, Ndeliv, Nrcpt. cbn [negb andb].
    by apply Z.leb_le. }
  destruct (dispatch_accepted_effect a m b Hacc Hty)
    as (oid' & pid' & pick' & deliv' & rcpt' & q' & E1 & E2 & E3 & E4 & E5
        & E6 & Heff).
  rewrite Eoid in E1. rewrite Epid in E2. rewrite Epick in E3.
  rewrite Edeliv in E4. rewrite Ercpt in E5. rewrite Eq in E6.
  cbn [as_id] in *. simplify_eq.
  cbv zeta in Heff. destruct Heff as (Hb & Hload & Hmove & Hfail).
  cbv zeta.
  split; [|split; [exact Hb|split; [exact Hload|split;
           [exact Hmove|exact Hfail]]]].
  unfold handle_message, try_except.
  match goal with |- context [match ?c with _ => _ end] => by destruct c as [[] ?] end.
Qed.

(** C8, amended. A carrier takes a dispatch instruction only while
    available; the instruction is refused, leaving carrier and bus as
    they were, when the carrier is not available, when the quantity
    exceeds the capacity, or when one of order_id, product_id,
    pickup_location, delivery_location, recipient is missing, that is
    absent from the payload or held as None, the empty string or 0. A
    missing quantity counts as 0 and does not cause a refusal. An
    instruction with non-empty string identifiers and a quantity within
    the capacity is taken by an available carrier: the carrier records
    the order and its dispatcher and starts loading (already at the
    pick-up point) or moving to the pick-up point (route known), and
    falls back to available with no order when the city map does not
    know the route. *)
Theorem dispatch_acceptance (a : t) (m : Message.t) (b : MessageBus.t) :
  (dispatch_accepted a m = false ->
     handle_message m (a, b) = (Ok tt, (a, b)))
  /\ (status a <> "available" -> dispatch_accepted a m = false)
  /\ (forall q, Message.data_get_default m "quantity" (VInt 0) = VInt q ->
        (capacity a < q)%Z -> dispatch_accepted a m = false)
  /\ (forall k, In k dispatch_id_fields -> field_present m k = false ->
        dispatch_accepted a m = false)
  /\ (forall k,
        field_present m k = false
        <-> Message.data_get m k = VNone \/ Message.data_get m k = VStr ""
            \/ Message.data_get m k = VInt 0)
  /\ (Message.data m !! "quantity" = None ->
        Message.data_get_default m "quantity" (VInt 0) = VInt 0)
  /\ (forall oid pid pick deliv rcpt q,
        Message.message_type m = "DISPATCH_ORDER" ->
        status a = "available" ->
        Message.data_get m "order_id" = VStr oid -> oid <> "" ->
        Message.data_get m "product_id" = VStr pid -> pid <> "" ->
        Message.data_get m "pickup_location" = VStr pick -> pick <> "" ->
        Message.data_get m "delivery_location" = VStr deliv -> deliv <> "" ->
        Message.data_get m "recipient" = VStr rcpt -> rcpt <> "" ->
        Message.data_get_default m "quantity" (VInt 0) = VInt q ->
        (q <= capacity a)%Z ->
        let a' := fst (snd (handle_message m (a, b))) in
        let taken :=
          current_order a' = Some (mk_order oid pid q rcpt)
          /\ pickup_location_id a' = Some pick
          /\ delivery_location_id a' = Some deliv
          /\ dispatcher_id a' = Some (Message.sender m) in
        fst (handle_message m (a, b)) = Ok tt
        /\ snd (snd (handle_message m (a, b))) = b
        /\ (current_location_id a = Some pick ->
              status a' = "loading" /\ taken)
        /\ (current_location_id a <> Some pick ->
              forall d,
                CityMap.calculate_distance (city_map a)
                  (current_location_id a) (Some pick) = Ok d ->
                status a' = "moving_to_pickup"
                /\ remaining_distance a' = d /\ taken)
        /\ (current_location_id a <> Some pick ->
              CityMap.calculate_distance (city_map a)
                (current_location_id a) (Some pick) = Raise KeyError ->
              status a' = "available" /\ current_order a' = None)).
Proof.
  split; [apply dispatch_rejected_unchanged|].
  split.
  { intros Hst. unfold dispatch_accepted.
    destruct (String.eqb_spec (status a) "available"); [contradiction|done]. }
  split.
  { intros q Hq Hcap. unfold dispatch_accepted. rewrite Hq.
    replace (q <=? capacity a)%Z with false by (symmetry; apply Z.leb_gt; lia).
    by rewrite andb_false_r. }
  split.
  { intros k Hk Hmiss. unfold dispatch_accepted.
    replace (forallb (field_present m) dispatch_id_fields) with false.
    - by rewrite andb_false_r.
    - symmetry. apply not_true_is_false. intros Hall.
      rewrite forallb_forall in Hall. specialize (Hall k Hk). congruence. }
  split; [apply field_present_false|].
  split.
  { intros Hnone. unfold Message.data_get_default. by rewrite Hnone. }
  intros oid pid pick deliv rcpt q. apply dispatch_taken.
Qed.

(** An instruction for 130 units is refused by the sample carrier of
    capacity 100, as is one whose order_id is the integer 0; one for 30
    units is taken, and the carrier, parked at the pick-up point, starts
    loading. *)
Lemma dispatch_acceptance_witness :
  handle_message (dispatch_of "order_1" 130 "store_loc_1")
    (sample_truck, MessageBus.init 0)
  = (Ok tt, (sample_truck, MessageBus.init 0))
  /\ handle_message dispatch_with_zero_id (sample_truck, MessageBus.init 0)
     = (Ok tt, (sample_truck, MessageBus.init 0))
  /\ status (fst (snd (handle_message (dispatch_of "order_1" 30 "store_loc_1")
                         (sample_truck, MessageBus.init 0)))) = "loading"
  /\ current_order
       (fst (snd (handle_message (dispatch_of "order_1" 30 "store_loc_1")
                    (sample_truck, MessageBus.init 0))))
     = Some (mk_order "order_1" "p1" 30 "store_1").
Proof.
  split; [|split].
  - apply (proj1 (dispatch_acceptance sample_truck
                    (dispatch_of "order_1" 130 "store_loc_1")
                    (MessageBus.init 0))).
    vm_compute. reflexivity.
  - destruct (dispatch_acceptance sample_truck dispatch_with_zero_id
                (MessageBus.init 0)) as (Hrej & _ & _ & Hmiss & Hraw & _).
    apply Hrej, (Hmiss "order_id"); [by left|].
    apply Hraw. right; right. reflexivity.
  - destruct (dispatch_acceptance sample_truck
                (dispatch_of "order_1" 30 "store_loc_1") (MessageBus.init 0))
      as (_ & _ & _ & _ & _ & _ & Htake).
    destruct (Htake "order_1" "p1" "warehouse_loc_1" "store_loc_1" "store_1"
                30%Z) as (_ & _ & Hload & _);
      try reflexivity; try discriminate.
    destruct (Hload eq_refl) as (Hst & Hord & _). by split.
Defined.

Lemma published_app j1 j2 : published (j1 ++ j2) = published j1 ++ published j2.
Proof. unfold published. apply omap_app. Qed.

Lemma handle_message_busy a m b :
  status a <> "available" -> handle_message m (a, b) = (Ok tt, (a, b)).
Proof.
  intros Hst. apply dispatch_rejected_unchanged. unfold dispatch_accepted.
  destruct (String.eqb_spec (status a) "available"); [contradiction|done].
Qed.

Lemma for_each_busy id a (ms : list Message.t) : forall b,
  status a <> "available" ->
  for_each ms
    (fun m =>
       bind (modify (fun '(a0, b0) =>
                       (a0 : t, MessageBus.log (Handled id m) b0)))
            (fun _ => try_except (handle_message m))) (a, b)
  = (Ok tt,
     (a, fold_left (fun b m => MessageBus.log (Handled id m) b) ms b)).
Proof.
  induction ms as [|m ms IH]; intros b Hst; [reflexivity|].
  cbn [for_each fold_left]. unfold bind at 1. unfold bind at 1.
  unfold modify at 1. cbn beta iota.
  unfold try_except at 1. rewrite handle_message_busy by assumption.
  cbn beta iota. by apply IH.
Qed.

Lemma process_messages_busy a b :
  status a <> "available" ->
  BaseAgent.process_messages (agent_id a) handle_message (a, b)
  = (Ok tt, (a, drained_bus (agent_id a) b)).
Proof.
  intros Hst. unfold BaseAgent.process_messages, drained_bus.
  cbn [MessageBus.deliver_messages fst snd].
  by apply for_each_busy.
Qed.

Lemma published_fold_handled id (ms : list Message.t) : forall b,
  published (MessageBus.journal
               (fold_left (fun b m => MessageBus.log (Handled id m) b) ms b))
  = published (MessageBus.journal b).
Proof.
  induction ms as [|m ms IH]; intros b; [reflexivity|].
  cbn [fold_left]. rewrite IH. unfold MessageBus.log; cbn.
  rewrite published_app. cbn. by rewrite app_nil_r.
Qed.

Lemma published_drained id b :
  published (MessageBus.journal (drained_bus id b))
  = published (MessageBus.journal b).
Proof. unfold drained_bus. by rewrite published_fold_handled. Qed.

Lemma published_publish m b :
  published (MessageBus.journal (MessageBus.publish m b))
  = published (MessageBus.journal b) ++ [m].
Proof. unfold MessageBus.publish, MessageBus.log; cbn. by rewrite published_app. Qed.

Lemma unloading_step a b o d :
  status a = "unloading" ->
  current_order a = Some o ->
  dispatcher_id a = Some d ->
  agent_id a <> "" -> d <> "" -> recipient o <> "" ->
  exists a' b',
    step (a, b) = (Ok tt, (a', b'))
    /\ status a' = "available"
    /\ current_order a' = None
    /\ dispatcher_id a' = None
    /\ cargo a' = unloaded_cargo a o
    /\ published (MessageBus.journal b')
       = published (MessageBus.journal b)
         ++ [delivery_complete_msg a o d; delivery_notification_msg a o].
Proof.
  intros Hst Ho Hd Hid Hdne Hrne.
  assert (status a <> "available") as Hbusy by (rewrite Hst; discriminate).
  unfold step. unfold bind at 1. unfold self at 1. cbn beta iota.
  unfold bind at 1. rewrite process_messages_busy by assumption. cbn beta iota.
  unfold bind at 1. unfold self at 1. cbn beta iota. rewrite Hst.
  cbn [String.eqb Ascii.eqb Bool.eqb].
  unfold _complete_unloading. unfold bind at 1. unfold self at 1.
  cbn beta iota. rewrite Ho.
  apply String.eqb_neq in Hid, Hdne, Hrne.
  set (b1 := drained_bus (agent_id a) b).
  assert (forall a1 : t, agent_id a1 = agent_id a ->
            delivery_location_id a1 = delivery_location_id a ->
            dispatcher_id a1 = dispatcher_id a ->
    exists a' b',
      bind (BaseAgent.send_message (agent_id a) (dispatcher_id a) "DELIVERY_COMPLETE"
              (<["order_id" := VStr (order_id o)]>
                (<["product_id" := VStr (product_id o)]>
                  (<["quantity" := VInt (quantity o)]>
                    (<["delivery_location" := of_opt (delivery_location_id a)]> ∅)))))
        (fun _ => bind
           (BaseAgent.send_message (agent_id a) (Some (recipient o))
              "DELIVERY_NOTIFICATION"
              (<["order_id" := VStr (order_id o)]>
                (<["product_id" := VStr (product_id o)]>
                  (<["quantity" := VInt (quantity o)]> ∅))))
           (fun _ => _reset_to_available)) (a1, b1) = (Ok tt, (a', b'))
      /\ status a' = "available" /\ current_order a' = None
      /\ dispatcher_id a' = None /\ cargo a' = cargo a1
      /\ published (MessageBus.journal b')
         = published (MessageBus.journal b)
           ++ [delivery_complete_msg a o d; delivery_notification_msg a o]) as Hsend.
  { intros a1 E1 E2 E3.
    unfold bind, BaseAgent.send_message, Message.init. rewrite Hd.
    rewrite Hid, Hdne, Hrne. cbn [String.eqb Ascii.eqb Bool.eqb].
    unfold _reset_to_available, bind, upd, modify, self.
    cbn -[MessageBus.publish].
    eexists _, _. split; [reflexivity|]. cbn -[MessageBus.publish].
    do 4 (split; [reflexivity|]).
    rewrite !published_publish. unfold b1. rewrite published_drained.
    rewrite <- app_assoc. reflexivity. }
  unfold bind at 1.
  unfold unloaded_cargo.
  destruct (cargo a !! product_id o) as [held|] eqn:Eheld.
  - destruct (quantity o <=? held)%Z eqn:Ecov.
    + unfold upd at 1, modify at 1. cbn beta iota.
      match goal with
      | |- context [bind _ _ (?a1, b1)] =>
        destruct (Hsend a1) as (a' & b' & Hrun & H1 & H2 & H3 & H4 & H5);
          [reflexivity..|]
      end.
      exists a', b'. rewrite Hrun. repeat split; assumption.
    + unfold ret at 1. cbn beta iota.
      destruct (Hsend a) as (a' & b' & Hrun & H1 & H2 & H3 & H4 & H5);
        [reflexivity..|].
      exists a', b'. rewrite Hrun. repeat split; assumption.
  - unfold ret at 1. cbn beta iota.
    destruct (Hsend a) as (a' & b' & Hrun & H1 & H2 & H3 & H4 & H5);
      [reflexivity..|].
    exists a', b'. rewrite Hrun. repeat split; assumption.
Qed.

(** C4 (code defect). An advance of an unloading carrier that holds an
    order debits the hold when it covers the quantity (and leaves it
    untouched otherwise), publishes DELIVERY_COMPLETE to the dispatcher
    and DELIVERY_NOTIFICATION to the recipient, and resets to available
    in either case. These two envelopes are all it publishes:
    [_reset_to_available] clears [dispatcher_id] before testing it, so
    the TRUCK_AVAILABLE notification is never sent. *)
Theorem unloading_never_reports_available (a : t) (b : MessageBus.t)
    (o : order_info) (d : string) :
  status a = "unloading" ->
  current_order a = Some o ->
  dispatcher_id a = Some d ->
  agent_id a <> "" -> d <> "" -> recipient o <> "" ->
  exists a' b',
    step (a, b) = (Ok tt, (a', b'))
    /\ status a' = "available"
    /\ current_order a' = None
    /\ cargo a' = unloaded_cargo a o
    /\ published (MessageBus.journal b')
       = published (MessageBus.journal b)
         ++ [delivery_complete_msg a o d; delivery_notification_msg a o]
    /\ forall m,
         In m (drop (length (published (MessageBus.journal b)))
                 (published (MessageBus.journal b'))) ->
         Message.message_type m <> "TRUCK_AVAILABLE".
Proof.
  intros Hst Ho Hd Hid Hdne Hrne.
  destruct (unloading_step a b o d Hst Ho Hd Hid Hdne Hrne)
    as (a' & b' & Hrun & H1 & H2 & H3 & H4 & H5).
  exists a', b'. repeat (split; [assumption|]).
  intros m Hm. rewrite H5, drop_app_length in Hm.
  destruct Hm as [<-|[<-|[]]]; discriminate.
Qed.

Lemma unloading_never_reports_available_witness :
  exists a' b',
    step (unloading_truck, MessageBus.init 0) = (Ok tt, (a', b'))
    /\ status a' = "available"
    /\ current_order a' = None
    /\ cargo a' = unloaded_cargo unloading_truck
                    (mk_order "order_1" "p1" 30 "store_1")
    /\ published (MessageBus.journal b')
       = published (MessageBus.journal (MessageBus.init 0))
         ++ [delivery_complete_msg unloading_truck
               (mk_order "order_1" "p1" 30 "store_1") "warehouse_1";
             delivery_notification_msg unloading_truck
               (mk_order "order_1" "p1" 30 "store_1")]
    /\ forall m,
         In m (drop (length (published
                               (MessageBus.journal (MessageBus.init 0))))
                 (published (MessageBus.journal b'))) ->
         Message.message_type m <> "TRUCK_AVAILABLE".
Proof.
  apply (unloading_never_reports_available unloading_truck (MessageBus.init 0)
           (mk_order "order_1" "p1" 30 "store_1") "warehouse_1");
    vm_compute; first [reflexivity | discriminate].
Defined.

(** C9 (code defect). The capacity guard of [_handle_dispatch_order]
    compares the new quantity with the full capacity, and
    [_reset_to_available] keeps the hold: after a loaded carrier is
    reset because the city map does not know the delivery point, it is
    available with 80 units on board, takes a further 70, and travels
    with 150 units against a declared capacity of 100. *)
Theorem cargo_exceeds_capacity_after_failed_route :
  status (fst after_failed_route) = "available"
  /\ current_cargo_weight (fst after_failed_route) = 80%Z
  /\ status (fst after_second_dispatch) = "moving_to_delivery"
  /\ cargo (fst after_second_dispatch) !! "p1" = Some 150%Z
  /\ current_cargo_weight (fst after_second_dispatch) = 150%Z
  /\ capacity (fst after_second_dispatch) = 100%Z.
Proof. vm_compute. repeat split. Qed.

End TruckProperties.

(** ** Distributor: pending orders *)
Section WarehouseOrders.
Import WarehouseAgent.

Lemma reject_body oid o a b :
  (get_inventory_level a (Order.product_id o) < Order.quantity o)%Z ->
  agent_id a <> "" -> Order.requester o <> "" ->
  process_pending_order oid o (a, b)
  = (Ok true, (after_rejection a, MessageBus.publish (rejection_msg a o) b)).
Proof.
  intros Hshort Hid Hreq. unfold process_pending_order, bind, self.
  cbn beta iota. unfold _can_fulfill_order.
  replace (Order.quantity o <=? get_inventory_level a (Order.product_id o))%Z
    with false by (symmetry; apply Z.leb_gt; lia).
  unfold _reject_order, bind, self, BaseAgent.send_message, Message.init.
  cbn beta iota.
  apply String.eqb_neq in Hid, Hreq. rewrite Hid, Hreq.
  cbn [String.eqb Ascii.eqb Bool.eqb]. reflexivity.
Qed.

Lemma wait_body oid o a b :
  (Order.quantity o <= get_inventory_level a (Order.product_id o))%Z ->
  available_trucks a = [] ->
  process_pending_order oid o (a, b) = (Ok false, (a, b)).
Proof.
  intros Hcov Hnone. unfold process_pending_order, bind, self.
  cbn beta iota. unfold _can_fulfill_order.
  replace (Order.quantity o <=? get_inventory_level a (Order.product_id o))%Z
    with true by (symmetry; apply Z.leb_le; lia).
  unfold _dispatch_truck_for_order, bind, self. cbn beta iota.
  rewrite Hnone. reflexivity.
Qed.

Lemma process_pending_loop_app pre : forall post rm s,
  process_pending_loop (pre ++ post) rm s
  = match process_pending_loop pre rm s with
    | (Ok rm1, s1) => process_pending_loop post rm1 s1
    | (Raise e, s1) => (Raise e, s1)
    end.
Proof.
  induction pre as [|[oid o] pre IH]; intros post rm s; cbn [app process_pending_loop].
  - reflexivity.
  - unfold bind. destruct (process_pending_order oid o s) as [[r|e] s1];
      [apply IH | reflexivity].
Qed.




End WarehouseOrders.
(** ** Monadic plumbing *)
Section Preservation.
Context {S : Type} (P : S -> Prop).

Lemma preserves_ret {A} (x : A) : preserves P (ret x).
Proof. intros s Hs. exact Hs. Qed.

Lemma preserves_raise {A} e : preserves P (raise (A:=A) e).
Proof. intros s Hs. exact Hs. Qed.

Lemma preserves_lift {A} (o : outcome A) : preserves P (lift o).
Proof. intros s Hs. exact Hs. Qed.

Lemma preserves_bind {A B} (c : M S A) (k : A -> M S B) :
  preserves P c -> (forall x, preserves P (k x)) -> preserves P (bind c k).
Proof.
  intros Hc Hk s Hs. unfold bind. specialize (Hc s Hs).
  destruct (c s) as [[x|e] s']; cbn in *; [by apply Hk | assumption].
Qed.

Lemma preserves_try_except (c : M S unit) :
  preserves P c -> preserves P (try_except c).
Proof.
  intros Hc s Hs. unfold try_except. specialize (Hc s Hs).
  destruct (c s) as [[x|e] s']; assumption.
Qed.

Lemma preserves_for_each {A} (xs : list A) (body : A -> M S unit) :
  (forall x, preserves P (body x)) -> preserves P (for_each xs body).
Proof.
  intros Hbody. induction xs as [|x xs IH]; cbn [for_each].
  - apply preserves_ret.
  - apply preserves_bind; [apply Hbody | intros _; exact IH].
Qed.

Lemma preserves_modify (f : S -> S) :
  (forall s, P s -> P (f s)) -> preserves P (modify f).
Proof. intros Hf s Hs. by apply Hf. Qed.

End Preservation.

(** ** Distributor: carrier pool *)
Section PoolProperties.
Import WarehouseAgent.

Lemma preserves_self {A} (P : St -> Prop) (k : t -> M St A) :
  (forall x, preserves P (k x)) -> preserves P (bind self k).
Proof.
  intros Hk [a b] Hs. unfold bind, self. by apply Hk.
Qed.

Lemma preserves_send (P : St -> Prop) id r ty d :
  (forall a b m, P (a, b) -> P (a, MessageBus.publish m b)) ->
  preserves P (BaseAgent.send_message (A:=t) id r ty d).
Proof.
  intros Hpub [a b] Hs. unfold BaseAgent.send_message.
  destruct r as [r|]; [|exact Hs].
  destruct (Message.init id r ty d); [by apply Hpub | exact Hs].
Qed.

(** A field update that leaves the pool alone keeps its consistency. *)
Lemma preserves_upd_pool (f : t -> t) :
  (forall a, available_trucks (f a) = available_trucks a) ->
  (forall a, assigned_trucks (f a) = assigned_trucks a) ->
  preserves pool_inv (upd f).
Proof.
  intros Hav Has [a b] [Hnd Hdisj]. unfold pool_inv, pool_ok; cbn.
  rewrite Hav, Has. by split.
Qed.


Lemma existsb_eqb_In (x : string) (l : list string) :
  existsb (String.eqb x) l = true <-> In x l.
Proof.
  rewrite existsb_exists. split.
  - intros [y [Hy Heq]]. apply String.eqb_eq in Heq. by subst.
  - intros Hin. exists x. split; [done | apply String.eqb_refl].
Qed.

Lemma pool_ok_release a truck_id :
  pool_ok a ->
  ~ In truck_id (available_trucks a) ->
  pool_ok (set_available_trucks (available_trucks a ++ [truck_id])
             (set_assigned_trucks (delete truck_id (assigned_trucks a)) a)).
Proof.
  intros [Hnd Hdisj] Hfresh. split; cbn.
  - apply NoDup_app. split; [exact Hnd|]. split.
    + intros x Hx Hx'. apply list_elem_of_In in Hx.
      apply list_elem_of_singleton in Hx'. by subst.
    + apply NoDup_singleton.
  - intros t Ht. apply in_app_or in Ht as [Ht|[<-|[]]].
    + destruct (decide (truck_id = t)) as [<-|Hne]; [contradiction|].
      rewrite lookup_delete_ne by assumption. by apply Hdisj.
    + apply lookup_delete_eq.
Qed.

Lemma dispatch_truck_pool order :
  preserves pool_inv (_dispatch_truck_for_order order).
Proof.
  intros [a b] Hok0. pose proof Hok0 as [Hnd Hdisj]. cbn [fst] in Hnd, Hdisj.
  unfold _dispatch_truck_for_order, bind, self.
  cbn beta iota. destruct (available_trucks a) as [|truck_id rest] eqn:Eav.
  { exact Hok0. }
  unfold upd, modify. cbn beta iota.
  assert (pool_ok (set_assigned_trucks
                     (<[truck_id := Order.order_id order]> (assigned_trucks a))
                     (set_available_trucks rest a))) as Hok.
  { apply NoDup_cons in Hnd as [Hnotin Hnd]. split; cbn; [exact Hnd|].
    intros t Ht. rewrite lookup_insert_ne.
    - apply Hdisj. by right.
    - intros ->. apply Hnotin. by apply list_elem_of_In. }
  unfold BaseAgent.send_message, Message.init.
  repeat match goal with
         | |- context [if ?c then _ else _] => destruct c
         end; cbn; exact Hok.
Qed.

Ltac pool_auto :=
  repeat first
    [ apply preserves_ret
    | apply preserves_raise
    | apply preserves_lift
    | apply preserves_try_except
    | apply preserves_self; intros ?
    | apply preserves_send; intros ? ? ? ?; assumption
    | apply preserves_upd_pool; intros ?; reflexivity
    | apply preserves_bind; [|intros ?]
    | apply preserves_for_each; intros ?
    | match goal with
      | |- preserves _ (match ?x with _ => _ end) => destruct x
      | |- preserves _ (if ?x then _ else _) => destruct x
      | |- preserves _ (let '(_, _) := ?x in _) => destruct x
      end ].

Lemma handle_delivery_complete_pool m :
  preserves pool_inv (_handle_delivery_complete m).
Proof.
  intros [a b] Hok. unfold _handle_delivery_complete.
  unfold bind at 1. unfold self at 1. cbn beta iota.
  unfold bind at 1.
  match goal with
  | |- context [match ?c (a, b) with _ => _ end] =>
    assert (exists a1, c (a, b) = (Ok tt, (a1, b)) /\ pool_ok a1) as Hfirst
  end.
  { destruct (assigned_trucks a !! Message.sender m) eqn:Eas.
    - eexists. split; [reflexivity|]. apply pool_ok_release; [exact Hok|].
      intros Hin. destruct Hok as [_ Hdisj]. cbn [fst] in Hdisj.
      apply Hdisj in Hin. congruence.
    - exists a. split; [reflexivity | exact Hok]. }
  destruct Hfirst as (a1 & -> & Hok1).
  match goal with
  | |- pool_inv (snd (?k (a1, b))) =>
    assert (preserves pool_inv k) as Hrest by pool_auto
  end.
  by apply Hrest.
Qed.

Lemma handle_truck_available_pool m :
  preserves pool_inv (_handle_truck_available m).
Proof.
  intros [a b] Hok. unfold _handle_truck_available.
  unfold bind, self, upd, modify, ret. cbn beta iota.
  assert (pool_ok (set_assigned_trucks
                     (delete (Message.sender m) (assigned_trucks a)) a)) as Hdel.
  { destruct Hok as [Hnd Hdisj]. split; cbn; [exact Hnd|].
    intros t Ht. destruct (decide (Message.sender m = t)) as [<-|Hne].
    - apply lookup_delete_eq.
    - rewrite lookup_delete_ne by assumption. by apply Hdisj. }
  destruct (assigned_trucks a !! Message.sender m) eqn:Eas; cbn.
  - destruct (existsb (String.eqb (Message.sender m)) (available_trucks a)) eqn:Eav;
      cbn; [exact Hdel|].
    destruct Hok as [Hnd Hdisj], Hdel as [_ Hdisj']. split; cbn.
    + apply NoDup_app. split; [exact Hnd|]. split; [|apply NoDup_singleton].
      intros x Hx Hx'. apply list_elem_of_singleton in Hx'. subst x.
      apply list_elem_of_In, existsb_eqb_In in Hx. congruence.
    + intros t Ht. apply in_app_or in Ht as [Ht|[<-|[]]].
      * by apply Hdisj'.
      * apply lookup_delete_eq.
  - destruct (existsb (String.eqb (Message.sender m)) (available_trucks a)) eqn:Eav;
      cbn; [exact Hok|].
    destruct Hok as [Hnd Hdisj]. split; cbn.
    + apply NoDup_app. split; [exact Hnd|]. split; [|apply NoDup_singleton].
      intros x Hx Hx'. apply list_elem_of_singleton in Hx'. subst x.
      apply list_elem_of_In, existsb_eqb_In in Hx. congruence.
    + intros t Ht. apply in_app_or in Ht as [Ht|[<-|[]]]; [by apply Hdisj|].
      exact Eas.
Qed.

Lemma handle_store_order_pool m : preserves pool_inv (_handle_store_order m).
Proof. unfold _handle_store_order. pool_auto. Qed.

Lemma handle_production_complete_pool m :
  preserves pool_inv (_handle_production_complete m).
Proof. unfold _handle_production_complete. pool_auto. Qed.

Lemma handle_message_pool m : preserves pool_inv (handle_message m).
Proof.
  unfold handle_message. apply preserves_try_except. cbv zeta.
  repeat match goal with
         | |- preserves _ (if ?x then _ else _) => destruct x
         end;
    first [ apply handle_store_order_pool
          | apply handle_delivery_complete_pool
          | apply handle_production_complete_pool
          | apply handle_truck_available_pool
          | apply preserves_ret ].
Qed.

Lemma process_messages_pool id :
  preserves pool_inv (BaseAgent.process_messages id handle_message).
Proof.
  intros [a b] Hok. unfold BaseAgent.process_messages.
  destruct (MessageBus.deliver_messages id b) as [ms b'].
  apply preserves_for_each; [|exact Hok]. intros m.
  apply preserves_bind.
  - apply preserves_modify. intros [a0 b0] H0. exact H0.
  - intros _. apply preserves_try_except, handle_message_pool.
Qed.

Lemma place_factory_order_pool p q :
  preserves pool_inv (_place_factory_order p q).
Proof.
  unfold _place_factory_order. apply preserves_self; intros a.
  apply preserves_bind.
  - intros [a0 b0] H0. exact H0.
  - intros now_ms. pool_auto.
Qed.

Lemma check_and_reorder_pool :
  preserves pool_inv _check_and_reorder_from_factory.
Proof.
  unfold _check_and_reorder_from_factory. apply preserves_self; intros a0.
  apply preserves_for_each. intros [p q]. apply preserves_self; intros a.
  destruct (q <=? reorder_threshold a)%Z; [|apply preserves_ret].
  cbv zeta. destruct (negb _); [apply place_factory_order_pool|apply preserves_ret].
Qed.

Lemma process_pending_order_pool oid o :
  preserves pool_inv (process_pending_order oid o).
Proof.
  unfold process_pending_order, _reject_order.
  apply preserves_self; intros a.
  destruct (_can_fulfill_order a o).
  - apply preserves_bind; [apply dispatch_truck_pool|]. intros d. pool_auto.
  - pool_auto.
Qed.

Lemma process_pending_loop_pool items : forall rm,
  preserves pool_inv (process_pending_loop items rm).
Proof.
  induction items as [|[oid o] items IH]; intros rm; cbn [process_pending_loop].
  - apply preserves_ret.
  - apply preserves_bind; [apply process_pending_order_pool|]. intros r. apply IH.
Qed.

Lemma process_pending_orders_pool : preserves pool_inv _process_pending_orders.
Proof.
  unfold _process_pending_orders. apply preserves_self; intros a.
  apply preserves_bind; [apply process_pending_loop_pool|]. intros rm.
  pool_auto.
Qed.

Lemma step_pool : preserves pool_inv step.
Proof.
  unfold step. apply preserves_self; intros a.
  apply preserves_bind; [apply process_messages_pool|]. intros _.
  apply preserves_bind; [apply check_and_reorder_pool|]. intros _.
  apply process_pending_orders_pool.
Qed.


Lemma preserves_upd_pool_is av asg (f : t -> t) :
  (forall a, available_trucks (f a) = available_trucks a) ->
  (forall a, assigned_trucks (f a) = assigned_trucks a) ->
  preserves (pool_is av asg) (upd f).
Proof.
  intros Hav Has [a b] [H1 H2]. unfold pool_is; cbn in *.
  rewrite Hav, Has. by split.
Qed.

Ltac pool_is_auto :=
  repeat first
    [ apply preserves_ret
    | apply preserves_raise
    | apply preserves_lift
    | apply preserves_try_except
    | apply preserves_self; intros ?
    | apply preserves_send; intros ? ? ? ?; assumption
    | apply preserves_upd_pool_is; intros ?; reflexivity
    | apply preserves_bind; [|intros ?]
    | apply preserves_for_each; intros ?
    | match goal with
      | |- preserves _ (match ?x with _ => _ end) => destruct x
      | |- preserves _ (if ?x then _ else _) => destruct x
      end ].

Lemma truck_names_NoDup id n : NoDup (map (truck_name id) (seq 1 n)).
Proof.
  apply (NoDup_fmap_2_strong (truck_name id)); [|apply NoDup_seq].
  intros i j _ _ Hij. unfold truck_name in Hij.
  do 3 apply String.app_inj in Hij. by apply pretty_nat_inj in Hij.
Qed.

Lemma pool_ok_init id loc inv thr qty n : pool_ok (init id loc inv thr qty n).
Proof.
  split; cbn; [apply truck_names_NoDup | intros t _; apply lookup_empty].
Qed.

Lemma warehouse_reachable_pool a : warehouse_reachable a -> pool_ok a.
Proof.
  induction 1 as [| a b m _ IH | a b _ IH].
  - apply pool_ok_init.
  - by apply (handle_message_pool m (a, b)).
  - by apply (step_pool (a, b)).
Qed.

Lemma dispatch_truck_moves order a b truck_id rest :
  available_trucks a = truck_id :: rest ->
  pool_is rest (<[truck_id := Order.order_id order]> (assigned_trucks a))
    (snd (_dispatch_truck_for_order order (a, b))).
Proof.
  intros Eav. unfold _dispatch_truck_for_order, bind, self. cbn beta iota.
  rewrite Eav. unfold upd, modify. cbn beta iota.
  unfold BaseAgent.send_message, Message.init.
  repeat match goal with
         | |- context [if ?c then _ else _] => destruct c
         end; cbn; by split.
Qed.

Lemma delivery_complete_pool_effect m a b :
  pool_is
    (match assigned_trucks a !! Message.sender m with
     | Some _ => available_trucks a ++ [Message.sender m]
     | None => available_trucks a
     end)
    (delete (Message.sender m) (assigned_trucks a))
    (snd (_handle_delivery_complete m (a, b))).
Proof.
  unfold _handle_delivery_complete.
  unfold bind at 1. unfold self at 1. cbn beta iota. unfold bind at 1.
  destruct (assigned_trucks a !! Message.sender m) eqn:Eas.
  - unfold upd at 1, modify at 1. cbn beta iota.
    match goal with
    | |- pool_is ?av ?asg (snd (?k ?s)) =>
      assert (preserves (pool_is av asg) k) as Hrest by pool_is_auto;
      apply (Hrest s)
    end.
    by split.
  - unfold ret at 1. cbn beta iota.
    match goal with
    | |- pool_is ?av ?asg (snd (?k ?s)) =>
      assert (preserves (pool_is av asg) k) as Hrest by pool_is_auto;
      apply (Hrest s)
    end.
    split; [reflexivity|]. cbn. symmetry. by apply delete_id.
Qed.

Lemma truck_available_pool_effect m a b :
  pool_is
    (if existsb (String.eqb (Message.sender m)) (available_trucks a)
     then available_trucks a
     else available_trucks a ++ [Message.sender m])
    (delete (Message.sender m) (assigned_trucks a))
    (snd (_handle_truck_available m (a, b))).
Proof.
  unfold _handle_truck_available, bind, self, upd, modify, ret. cbn beta iota.
  destruct (assigned_trucks a !! Message.sender m) eqn:Eas; cbn;
    destruct (existsb (String.eqb (Message.sender m)) (available_trucks a));
    cbn; split; try reflexivity; cbn; symmetry; by apply delete_id.
Qed.




End PoolProperties.

(** ** Producer *)
Section FactoryProperties.
Import FactoryAgent.

Lemma PyDict_get_del_ne {V} (k k' : string) (d : PyDict.t V) :
  k <> k' -> PyDict.get k (PyDict.del k' d) = PyDict.get k d.
Proof.
  intros Hne. induction d as [|[k0 v0] d IH]; cbn; [reflexivity|].
  destruct (String.eqb_spec k' k0) as [->|Hk'].
  - destruct (String.eqb_spec k k0); [contradiction|reflexivity].
  - cbn. destruct (String.eqb k k0); [reflexivity|exact IH].
Qed.

Lemma PyDict_get_In {V} (k : string) (v : V) (d : PyDict.t V) :
  NoDup (PyDict.keys d) -> In (k, v) d -> PyDict.get k d = Some v.
Proof.
  induction d as [|[k0 v0] d IH]; cbn; [intros _ []|].
  intros Hnd [Heq|Hin].
  - injection Heq as -> ->. by rewrite String.eqb_refl.
  - apply NoDup_cons in Hnd as [Hnotin Hnd].
    destruct (String.eqb_spec k k0) as [->|Hne].
    + exfalso. apply Hnotin. apply list_elem_of_In.
      change k0 with (fst (k0, v)). by apply in_map.
    + by apply IH.
Qed.

Lemma complete_order_ok oid info a b :
  PyDict.get oid (active_production a) = Some info ->
  agent_id a <> "" -> Order.requester (order info) <> "" ->
  complete_order oid (a, b)
  = (Ok tt, (retire a (oid, info), MessageBus.publish (ack_msg a (order info)) b)).
Proof.
  intros Hget Hid Hreq. unfold complete_order, bind, self. cbn beta iota.
  rewrite Hget. unfold upd, modify, _notify_production_complete, bind, self.
  cbn beta iota. unfold BaseAgent.send_message, Message.init. cbn.
  apply String.eqb_neq in Hid, Hreq. rewrite Hid, Hreq. cbn. reflexivity.
Qed.

Lemma retire_all_ok jobs : forall a b,
  agent_id a <> "" ->
  NoDup (map fst jobs) ->
  Forall (fun job =>
            PyDict.get (fst job) (active_production a) = Some (snd job)
            /\ Order.requester (order (snd job)) <> "") jobs ->
  for_each (map fst jobs) complete_order (a, b)
  = (Ok tt,
     (fold_left retire jobs a,
      MessageBus.publish_all (map (fun job => ack_msg a (order (snd job))) jobs) b)).
Proof.
  induction jobs as [|[oid info] jobs IH]; intros a b Hid Hnd Hall;
    [reflexivity|].
  cbn [map for_each fold_left fst snd]. unfold bind.
  inversion Hall as [|? ? [Hget Hreq] Hrest]; subst. cbn [fst snd] in *.
  rewrite (complete_order_ok oid info a b Hget Hid Hreq).
  apply NoDup_cons in Hnd as [Hnotin Hnd].
  rewrite IH; [reflexivity | exact Hid | exact Hnd |].
  apply Forall_forall. intros [oid' info'] Hin.
  rewrite Forall_forall in Hrest. specialize (Hrest _ Hin) as [Hget' Hreq'].
  split; [|exact Hreq']. cbn [fst snd] in *.
  unfold retire. cbn. rewrite PyDict_get_del_ne; [exact Hget'|].
  intros ->. apply Hnotin. apply list_elem_of_In.
  change oid with (fst (oid, info')). apply in_map. by apply list_elem_of_In.
Qed.


Lemma fold_del_skip {V} (k : string) (v : V) (ks : list (string * V)) :
  forall d, ~ In k (map fst ks) ->
  fold_left (fun d j => PyDict.del (fst j) d) ks ((k, v) :: d)
  = (k, v) :: fold_left (fun d j => PyDict.del (fst j) d) ks d.
Proof.
  induction ks as [|[k' v'] ks IH]; intros d Hnotin; [reflexivity|].
  cbn [fold_left fst PyDict.del]. cbn [map fst] in Hnotin.
  destruct (String.eqb_spec k' k) as [->|Hne].
  - exfalso. apply Hnotin. by left.
  - apply IH. intros Hin. apply Hnotin. by right.
Qed.

Lemma fold_del_filter {V} (P : string * V -> Prop) `{!forall x, Decision (P x)}
    (d : list (string * V)) :
  NoDup (map fst d) ->
  fold_left (fun d j => PyDict.del (fst j) d) (filter P d) d
  = filter (fun x => ~ P x) d.
Proof.
  induction d as [|[k v] d IH]; intros Hnd; [reflexivity|].
  change (NoDup (k :: map fst d)) in Hnd.
  apply NoDup_cons in Hnd as [Hnotin Hnd].
  rewrite !filter_cons. destruct (decide (P (k, v))) as [HP|HP].
  - rewrite decide_False by tauto.
    cbn [fold_left fst PyDict.del]. rewrite String.eqb_refl. by apply IH.
  - rewrite decide_True by assumption. rewrite fold_del_skip; [by rewrite IH|].
    intros Hin. apply Hnotin. apply list_elem_of_In.
    apply in_map_iff in Hin as [[k' v'] [Hk Hin]]. cbn in Hk. subst k'.
    apply list_elem_of_In, list_elem_of_filter in Hin as [_ Hin].
    apply (in_map fst d (k, v')). by apply list_elem_of_In.
Qed.

Lemma retire_all_active jobs : forall a,
  active_production (fold_left retire jobs a)
  = fold_left (fun d j => PyDict.del (fst j) d) jobs (active_production a).
Proof.
  induction jobs as [|job jobs IH]; intros a; [reflexivity|].
  cbn [fold_left]. by rewrite IH.
Qed.

Lemma check_production_completion_ok a b :
  factory_wf a ->
  _check_production_completion (a, b)
  = (Ok tt,
     (fold_left retire (due_jobs a) a,
      MessageBus.publish_all
        (map (fun job => ack_msg a (order (snd job))) (due_jobs a)) b))
  /\ active_production (fold_left retire (due_jobs a) a) = pending_jobs a.
Proof.
  intros (Hid & Hnd & Hreq). split.
  - unfold _check_production_completion, bind, self. cbn beta iota.
    change (completed_orders a) with (map fst (due_jobs a)).
    apply retire_all_ok; [exact Hid | |].
    + unfold due_jobs. apply NoDup_fmap_fst.
      * intros k v1 v2 H1 H2.
        apply list_elem_of_filter in H1 as [_ H1], H2 as [_ H2].
        apply list_elem_of_In, (PyDict_get_In _ _ _ Hnd) in H1, H2. congruence.
      * apply NoDup_filter.
        eapply NoDup_fmap_1. exact Hnd.
    + apply Forall_forall. intros [k info] Hin.
      apply list_elem_of_filter in Hin as [_ Hin]. split.
      * apply PyDict_get_In; [exact Hnd | by apply list_elem_of_In].
      * rewrite Forall_forall in Hreq. by apply (Hreq (k, info)).
  - rewrite retire_all_active. unfold due_jobs, pending_jobs.
    by apply fold_del_filter.
Qed.


Lemma start_loop_spec queue : forall cap a,
  production_queue (start_loop cap queue a) = drop (Z.to_nat cap) queue
  /\ active_production (start_loop cap queue a)
     = start_jobs (current_time_step a) (production_time a)
         (take (Z.to_nat cap) queue) (active_production a)
  /\ current_time_step (start_loop cap queue a) = current_time_step a
  /\ finished_goods_inventory (start_loop cap queue a)
     = finished_goods_inventory a.
Proof.
  induction queue as [|o rest IH]; intros cap a; cbn [start_loop].
  - rewrite drop_nil, take_nil. repeat split.
  - destruct (Z.ltb_spec 0 cap) as [Hpos|Hnone].
    + replace (Z.to_nat cap) with (S (Z.to_nat (cap - 1))) by lia.
      cbn [drop take]. unfold start_jobs. cbn [fold_left].
      match goal with
      | |- context [start_loop _ rest ?a1] =>
        destruct (IH (cap - 1)%Z a1) as (H1 & H2 & H3 & H4)
      end.
      rewrite H1, H2, H3, H4. repeat split.
    + replace (Z.to_nat cap) with 0%nat by lia. repeat split.
Qed.

Lemma start_new_production_ok a b :
  let k := Z.to_nat (production_capacity a
                     - Z.of_nat (length (active_production a))) in
  exists a',
    _start_new_production (a, b) = (Ok tt, (a', b))
    /\ production_queue a' = drop k (production_queue a)
    /\ active_production a'
       = start_jobs (current_time_step a) (production_time a)
           (take k (production_queue a)) (active_production a)
    /\ current_time_step a' = current_time_step a
    /\ finished_goods_inventory a' = finished_goods_inventory a.
Proof.
  intros k. eexists. split; [reflexivity|]. apply start_loop_spec.
Qed.


Lemma retire_all_fields jobs : forall a,
  agent_id (fold_left retire jobs a) = agent_id a
  /\ production_capacity (fold_left retire jobs a) = production_capacity a
  /\ production_time (fold_left retire jobs a) = production_time a
  /\ production_queue (fold_left retire jobs a) = production_queue a
  /\ current_time_step (fold_left retire jobs a) = current_time_step a.
Proof.
  induction jobs as [|job jobs IH]; intros a; [repeat split|].
  cbn [fold_left]. destruct (IH (retire a job)) as (H1 & H2 & H3 & H4 & H5).
  rewrite H1, H2, H3, H4, H5. repeat split.
Qed.

Lemma process_messages_empty a b :
  MessageBus.queue b (agent_id a) = [] ->
  BaseAgent.process_messages (agent_id a) handle_message (a, b)
  = (Ok tt, (a, snd (MessageBus.deliver_messages (agent_id a) b))).
Proof.
  intros Hq. unfold BaseAgent.process_messages. cbn [MessageBus.deliver_messages].
  rewrite Hq. reflexivity.
Qed.

Lemma factory_step_ok a b :
  factory_wf a ->
  MessageBus.queue b (agent_id a) = [] ->
  let a1 := set_current_time_step (current_time_step a + 1)%Z a in
  let b1 := snd (MessageBus.deliver_messages (agent_id a) b) in
  let k := Z.to_nat (production_capacity a
                     - Z.of_nat (length (pending_jobs a1))) in
  exists a3,
    step (a, b)
    = (Ok tt,
       (a3, MessageBus.publish_all
              (map (fun job => ack_msg a (order (snd job))) (due_jobs a1)) b1))
    /\ active_production a3
       = start_jobs (current_time_step a + 1) (production_time a)
           (take k (production_queue a)) (pending_jobs a1)
    /\ production_queue a3 = drop k (production_queue a)
    /\ finished_goods_inventory a3
       = finished_goods_inventory (fold_left retire (due_jobs a1) a1)
    /\ current_time_step a3 = (current_time_step a + 1)%Z.
Proof.
  intros Hwf Hq a1 b1 k.
  assert (factory_wf a1) as Hwf1 by exact Hwf.
  destruct (check_production_completion_ok a1 b1 Hwf1) as [Hcheck Hactive].
  destruct (retire_all_fields (due_jobs a1) a1) as (F1 & F2 & F3 & F4 & F5).
  set (a2 := fold_left retire (due_jobs a1) a1) in *.
  destruct (start_new_production_ok a2
              (MessageBus.publish_all
                 (map (fun job => ack_msg a (order (snd job))) (due_jobs a1)) b1))
    as (a3 & Hstart & S1 & S2 & S3 & S4).
  exists a3. split.
  - unfold step. unfold bind at 1. unfold upd at 1, modify at 1. cbn beta iota.
    fold a1. unfold bind at 1. unfold self at 1. cbn beta iota.
    unfold bind at 1.
    rewrite (process_messages_empty a1 b Hq). cbn beta iota.
    change (snd (MessageBus.deliver_messages (agent_id a1) b)) with b1.
    unfold bind at 1. rewrite Hcheck. cbn beta iota. exact Hstart.
  - rewrite S1, S2, S3, S4, Hactive, F2, F3, F4, F5. repeat split.
Qed.




End FactoryProperties.

(** ** What every role leaves alone *)
Section Keeps.
Context {R : Type} (active : R -> bool) (v : bool) (Q : MessageBus.t -> Prop).
Hypothesis HQ : bus_closed Q.

Lemma keeps_self {A} (k : R -> M (R * MessageBus.t) A) :
  (forall x, preserves (keeps active v Q) (k x)) ->
  preserves (keeps active v Q) (bind (fun '(a, b) => (Ok a, (a, b))) k).
Proof. intros Hk [a b] Hs. unfold bind. by apply Hk. Qed.

Lemma keeps_upd (f : R -> R) :
  (forall a, active (f a) = active a) ->
  preserves (keeps active v Q) (modify (fun '(a, b) => (f a, b))).
Proof.
  intros Hf [a b] [Ha Hb]. split; cbn; [by rewrite Hf | exact Hb].
Qed.

Lemma keeps_send id r ty d :
  preserves (keeps active v Q) (BaseAgent.send_message (A:=R) id r ty d).
Proof.
  intros [a b] [Ha Hb]. unfold BaseAgent.send_message.
  destruct r as [r|]; [|by split].
  destruct (Message.init id r ty d); [|by split].
  split; [exact Ha | by apply HQ].
Qed.

Lemma keeps_process_messages id
    (handle : Message.t -> M (R * MessageBus.t) unit) :
  (forall m, preserves (keeps active v Q) (handle m)) ->
  preserves (keeps active v Q) (BaseAgent.process_messages id handle).
Proof.
  intros Hh [a b] [Ha Hb]. unfold BaseAgent.process_messages.
  pose proof (proj2 (proj2 HQ) id b Hb) as Hdrain.
  destruct (MessageBus.deliver_messages id b) as [ms b'].
  apply preserves_for_each; [|by split]. intros m.
  apply preserves_bind.
  - intros [a0 b0] [Ha0 Hb0]. split; [exact Ha0 | by apply HQ].
  - intros _. apply preserves_try_except, Hh.
Qed.

End Keeps.

Ltac keeps_step :=
  first
    [ assumption
    | solve [eauto 2 with keeps]
    | progress cbv zeta
    | apply preserves_ret
    | apply preserves_raise
    | apply preserves_lift
    | apply preserves_try_except
    | apply keeps_self; intros ?
    | apply keeps_send; assumption
    | apply keeps_process_messages; [assumption | intros ?]
    | apply keeps_upd; intros ?; cbn;
        repeat match goal with
               | |- context [match ?x with _ => _ end] => destruct x
               end; reflexivity
    | apply preserves_bind; [|intros ?]
    | apply preserves_for_each; intros ?
    | match goal with
      | |- preserves _ (match ?x with _ => _ end) => destruct x
      | |- preserves _ (if ?x then _ else _) => destruct x
      end ].

Ltac keeps_auto :=
  try unfold TruckAgent.upd, TruckAgent.self;
  try unfold WarehouseAgent.upd, WarehouseAgent.self;
  try unfold FactoryAgent.upd, FactoryAgent.self;
  cbv zeta; repeat keeps_step.

Create HintDb keeps.

Section TruckKeeps.
Import TruckAgent.
Context (v : bool) (Q : MessageBus.t -> Prop) (HQ : bus_closed Q).

Lemma truck_reset_keeps : preserves (keeps active v Q) _reset_to_available.
Proof. unfold _reset_to_available. keeps_auto. Qed.

#[local] Hint Resolve truck_reset_keeps : keeps.

Lemma truck_start_movement_keeps : preserves (keeps active v Q) start_movement.
Proof. unfold start_movement. keeps_auto. Qed.
#[local] Hint Resolve truck_start_movement_keeps : keeps.

Lemma truck_arrive_keeps target st : preserves (keeps active v Q) (arrive target st).
Proof. unfold arrive. keeps_auto. Qed.
#[local] Hint Resolve truck_arrive_keeps : keeps.

Lemma truck_complete_loading_keeps : preserves (keeps active v Q) _complete_loading.
Proof.
  unfold _complete_loading, _arrive_at_delivery, _start_movement_to_delivery.
  keeps_auto.
Qed.

Lemma truck_complete_unloading_keeps :
  preserves (keeps active v Q) _complete_unloading.
Proof. unfold _complete_unloading. keeps_auto. Qed.

Lemma truck_move_keeps : preserves (keeps active v Q) _move_towards_destination.
Proof. unfold _move_towards_destination. keeps_auto. Qed.

Lemma truck_handle_message_keeps m : preserves (keeps active v Q) (handle_message m).
Proof.
  unfold handle_message, _handle_dispatch_order, _arrive_at_pickup,
    _start_movement_to_pickup.
  keeps_auto.
Qed.

Lemma truck_step_keeps : preserves (keeps active v Q) step.
Proof.
  unfold step, _arrive_at_pickup, _arrive_at_delivery.
  pose proof truck_handle_message_keeps. pose proof truck_move_keeps.
  pose proof truck_complete_loading_keeps.
  pose proof truck_complete_unloading_keeps.
  keeps_auto.
Qed.

End TruckKeeps.

Section WarehouseKeeps.
Import WarehouseAgent.
Context (v : bool) (Q : MessageBus.t -> Prop) (HQ : bus_closed Q).

Lemma warehouse_handle_message_keeps m :
  preserves (keeps active v Q) (handle_message m).
Proof.
  unfold handle_message, _handle_store_order, _handle_delivery_complete,
    _handle_production_complete, _handle_truck_available.
  keeps_auto.
Qed.

Lemma warehouse_place_factory_order_keeps p q :
  preserves (keeps active v Q) (_place_factory_order p q).
Proof.
  unfold _place_factory_order. keeps_auto.
  intros [a b] Hs. exact Hs.
Qed.
#[local] Hint Resolve warehouse_place_factory_order_keeps : keeps.

Lemma warehouse_check_and_reorder_keeps :
  preserves (keeps active v Q) _check_and_reorder_from_factory.
Proof. unfold _check_and_reorder_from_factory. keeps_auto. Qed.

Lemma warehouse_process_pending_order_keeps oid o :
  preserves (keeps active v Q) (process_pending_order oid o).
Proof.
  unfold process_pending_order, _dispatch_truck_for_order, _reject_order.
  keeps_auto.
Qed.

Lemma warehouse_process_pending_loop_keeps items : forall rm,
  preserves (keeps active v Q) (process_pending_loop items rm).
Proof.
  induction items as [|[oid o] items IH]; intros rm; cbn [process_pending_loop].
  - apply preserves_ret.
  - apply preserves_bind; [apply warehouse_process_pending_order_keeps|].
    intros r. apply IH.
Qed.

Lemma warehouse_step_keeps : preserves (keeps active v Q) step.
Proof.
  unfold step, _process_pending_orders.
  pose proof warehouse_handle_message_keeps.
  pose proof warehouse_check_and_reorder_keeps.
  pose proof warehouse_process_pending_loop_keeps.
  keeps_auto.
Qed.

End WarehouseKeeps.

Section FactoryKeeps.
Import FactoryAgent.
Context (v : bool) (Q : MessageBus.t -> Prop) (HQ : bus_closed Q).

Lemma factory_notify_keeps o :
  preserves (keeps active v Q) (_notify_production_complete o).
Proof. unfold _notify_production_complete. keeps_auto. Qed.
#[local] Hint Resolve factory_notify_keeps : keeps.

Lemma factory_handle_message_keeps m :
  preserves (keeps active v Q) (handle_message m).
Proof.
  unfold handle_message, _handle_factory_order, _fulfill_from_inventory.
  keeps_auto.
Qed.

Lemma factory_complete_order_keeps oid :
  preserves (keeps active v Q) (complete_order oid).
Proof. unfold complete_order. keeps_auto. Qed.

Lemma start_loop_active queue : forall cap a,
  active (start_loop cap queue a) = active a.
Proof.
  induction queue as [|o rest IH]; intros cap a; cbn [start_loop];
    [reflexivity|].
  destruct (0 <? cap)%Z; [by rewrite IH | reflexivity].
Qed.

Lemma factory_start_keeps : preserves (keeps active v Q) _start_new_production.
Proof.
  unfold _start_new_production, upd. apply keeps_upd. intros a.
  apply start_loop_active.
Qed.

Lemma factory_step_keeps : preserves (keeps active v Q) step.
Proof.
  unfold step, _check_production_completion.
  pose proof factory_handle_message_keeps.
  pose proof factory_complete_order_keeps.
  pose proof factory_start_keeps.
  keeps_auto.
Qed.

End FactoryKeeps.

Section ActorLaws.

Lemma keeps_on_truck v Q (c : M TruckAgent.St unit) a :
  preserves (keeps TruckAgent.active v Q) c ->
  forall x b, TruckAgent.active a = v -> Q b ->
  keeps is_active v Q (snd (on_truck c a (x, b))).
Proof.
  intros Hc x b Ha Hb. unfold on_truck.
  specialize (Hc (a, b) (conj Ha Hb)).
  destruct (c (a, b)) as [r [a' b']]. exact Hc.
Qed.

Lemma keeps_on_warehouse v Q (c : M WarehouseAgent.St unit) a :
  preserves (keeps WarehouseAgent.active v Q) c ->
  forall x b, WarehouseAgent.active a = v -> Q b ->
  keeps is_active v Q (snd (on_warehouse c a (x, b))).
Proof.
  intros Hc x b Ha Hb. unfold on_warehouse.
  specialize (Hc (a, b) (conj Ha Hb)).
  destruct (c (a, b)) as [r [a' b']]. exact Hc.
Qed.

Lemma keeps_on_factory v Q (c : M FactoryAgent.St unit) a :
  preserves (keeps FactoryAgent.active v Q) c ->
  forall x b, FactoryAgent.active a = v -> Q b ->
  keeps is_active v Q (snd (on_factory c a (x, b))).
Proof.
  intros Hc x b Ha Hb. unfold on_factory.
  specialize (Hc (a, b) (conj Ha Hb)).
  destruct (c (a, b)) as [r [a' b']]. exact Hc.
Qed.

#[global] Instance Actor_laws : AgentLaws Actor.
Proof.
  split.
  - intros v [a|a|a]; reflexivity.
  - intros v Q HQ m [[a|a|a] b] [Ha Hb]; cbn in Ha, Hb.
    + apply keeps_on_truck; [by apply truck_handle_message_keeps|done..].
    + apply keeps_on_warehouse; [by apply warehouse_handle_message_keeps|done..].
    + apply keeps_on_factory; [by apply factory_handle_message_keeps|done..].
  - intros v Q HQ [[a|a|a] b] [Ha Hb]; cbn in Ha, Hb.
    + apply keeps_on_truck; [by apply truck_step_keeps|done..].
    + apply keeps_on_warehouse; [by apply warehouse_step_keeps|done..].
    + apply keeps_on_factory; [by apply factory_step_keeps|done..].
Qed.

End ActorLaws.


(** ** Scheduler *)
Section SchedulerProperties.
Context {A : Type} `{AgentLaws A}.

Lemma bus_closed_True : bus_closed (fun _ => True).
Proof. by repeat split. Qed.

Lemma step_active (a : A) b :
  is_active (fst (snd (step (a, b)))) = is_active a.
Proof.
  destruct (step_keeps (is_active a) (fun _ => True) bus_closed_True (a, b))
    as [Ha _]; [by split | exact Ha].
Qed.

Lemma advance_all_app (l1 l2 : list A) : forall bus,
  SimulationManager.advance_all (l1 ++ l2) bus
  = let '(l1', b1, n1) := SimulationManager.advance_all l1 bus in
    let '(l2', b2, n2) := SimulationManager.advance_all l2 b1 in
    (l1' ++ l2', b2, (n1 + n2)%Z).
Proof.
  induction l1 as [|a l1 IH]; intros bus.
  - cbn [app SimulationManager.advance_all].
    destruct (SimulationManager.advance_all l2 bus) as [[l2' b2] n2]. reflexivity.
  - cbn [app SimulationManager.advance_all].
    destruct (if is_active a then _ else _) as [[a' b'] stepped].
    rewrite IH.
    destruct (SimulationManager.advance_all l1 b') as [[l1' b1] n1].
    destruct (SimulationManager.advance_all l2 b1) as [[l2' b2] n2].
    cbn [app]. f_equal. lia.
Qed.

Lemma advance_all_count (l : list A) : forall bus,
  snd (SimulationManager.advance_all l bus)
  = count_active (fst (fst (SimulationManager.advance_all l bus))).
Proof.
  unfold count_active.
  induction l as [|a l IH]; intros bus; [reflexivity|].
  cbn [SimulationManager.advance_all].
  destruct (is_active a) eqn:Ea.
  - destruct (step (a, MessageBus.log (Advance (agent_id a)) bus))
      as [[[]|e] [a' b']] eqn:Estep.
    + specialize (IH b').
      destruct (SimulationManager.advance_all l b') as [[l' b''] n]. cbn [fst snd] in *.
      assert (is_active a' = true) as Ea'.
      { pose proof (step_active a (MessageBus.log (Advance (agent_id a)) bus))
          as Hk. rewrite Estep in Hk. cbn in Hk. congruence. }
      cbn [List.filter]. rewrite Ea'. cbn [length]. lia.
    + unfold deactivate, modify. cbn [snd].
      specialize (IH (MessageBus.unsubscribe (agent_id a') b')).
      destruct (SimulationManager.advance_all l _) as [[l' b''] n]. cbn [fst snd] in *.
      cbn [List.filter]. rewrite is_active_set_active. lia.
  - specialize (IH bus).
    destruct (SimulationManager.advance_all l bus) as [[l' b''] n]. cbn [fst snd] in *.
    cbn [List.filter]. rewrite Ea. lia.
Qed.

Lemma count_active_existsb (l : list A) :
  (count_active l =? 0)%Z = negb (existsb is_active l).
Proof.
  unfold count_active. induction l as [|a l IH]; [reflexivity|].
  cbn [List.filter existsb]. destruct (is_active a); cbn [length orb negb].
  - apply Z.eqb_neq. lia.
  - exact IH.
Qed.

Lemma deactivate_all_inactive (l : list A) : forall bus,
  existsb is_active (fst (SimulationManager.deactivate_all l bus)) = false.
Proof.
  induction l as [|a l IH]; intros bus; [reflexivity|].
  cbn [SimulationManager.deactivate_all]. unfold deactivate at 1, modify. cbn [snd].
  specialize (IH (MessageBus.unsubscribe (agent_id a) bus)).
  destruct (SimulationManager.deactivate_all l _) as [l' b']. cbn [fst existsb] in *.
  by rewrite is_active_set_active, IH.
Qed.

Lemma fault_is_isolated (pre post : list A) (a : A) bus pre' b1 n1 e a_f b_f :
  SimulationManager.advance_all pre bus = (pre', b1, n1) ->
  is_active a = true ->
  step (a, MessageBus.log (Advance (agent_id a)) b1) = (Raise e, (a_f, b_f)) ->
  exists post' b2 n2,
    SimulationManager.advance_all post (MessageBus.unsubscribe (agent_id a_f) b_f)
    = (post', b2, n2)
    /\ SimulationManager.advance_all (pre ++ a :: post) bus
       = (pre' ++ set_active false a_f :: post', b2, (n1 + n2)%Z)
    /\ is_active (set_active false a_f) = false.
Proof.
  intros Hpre Ha Hstep.
  destruct (SimulationManager.advance_all post (MessageBus.unsubscribe (agent_id a_f) b_f))
    as [[post' b2] n2] eqn:Hpost.
  exists post', b2, n2. split; [reflexivity|]. split.
  - rewrite advance_all_app, Hpre. cbn [SimulationManager.advance_all]. rewrite Ha, Hstep.
    unfold deactivate, modify. cbn [snd]. rewrite Hpost. reflexivity.
  - apply is_active_set_active.
Qed.

Lemma inactive_is_skipped (a : A) (rest : list A) bus :
  is_active a = false ->
  SimulationManager.advance_all (a :: rest) bus
  = (let '(rest', b', n) := SimulationManager.advance_all rest bus in (a :: rest', b', n))
  /\ SimulationManager.deliver_all (a :: rest) bus
     = (let '(rest', b') := SimulationManager.deliver_all rest bus in (a :: rest', b')).
Proof.
  intros Ha. cbn [SimulationManager.advance_all SimulationManager.deliver_all]. rewrite Ha. split.
  - destruct (SimulationManager.advance_all rest bus) as [[rest' b'] n]. reflexivity.
  - reflexivity.
Qed.

Lemma step_halts_iff_none_active (m : SimulationManager.t A) :
  SimulationManager.is_running m = true -> SimulationManager.is_paused m = false ->
  fst (SimulationManager.step m)
  = existsb is_active (SimulationManager.agents (snd (SimulationManager.step m)))
  /\ SimulationManager.is_running (snd (SimulationManager.step m))
     = fst (SimulationManager.step m)
  /\ SimulationManager.current_step (snd (SimulationManager.step m))
     = (SimulationManager.current_step m + 1)%Z.
Proof.
  intros Hrun Hpause. unfold SimulationManager.step. rewrite Hrun, Hpause. cbn [negb orb].
  destruct (SimulationManager.deliver_all (SimulationManager.agents m)
              (SimulationManager.message_bus m)) as [agents1 bus1].
  pose proof (advance_all_count agents1 bus1) as Hcount.
  destruct (SimulationManager.advance_all agents1 bus1) as [[agents2 bus2] n].
  cbn [fst snd] in Hcount. subst n. rewrite count_active_existsb.
  destruct (existsb is_active agents2) eqn:Eany; cbn [negb fst snd].
  - cbn. rewrite Eany. repeat split; exact Hrun.
  - unfold SimulationManager.stop_simulation. cbn.
    pose proof (deactivate_all_inactive agents2 bus2) as Hoff.
    destruct (SimulationManager.deactivate_all agents2 bus2) as [agents3 bus3]. cbn in *.
    rewrite Hoff. repeat split.
Qed.

Lemma advance_all_nonneg (l : list A) bus :
  (0 <= snd (SimulationManager.advance_all l bus))%Z.
Proof. rewrite advance_all_count. unfold count_active. lia. Qed.

Lemma advance_is_counted (pre post : list A) (a : A) bus pre' b1 n1 a' b' :
  SimulationManager.advance_all pre bus = (pre', b1, n1) ->
  is_active a = true ->
  step (a, MessageBus.log (Advance (agent_id a)) b1) = (Ok tt, (a', b')) ->
  exists post' b2 n2,
    SimulationManager.advance_all post b' = (post', b2, n2)
    /\ SimulationManager.advance_all (pre ++ a :: post) bus
       = (pre' ++ a' :: post', b2, (n1 + (1 + n2))%Z)
    /\ is_active a' = true.
Proof.
  intros Hpre Ha Hstep.
  destruct (SimulationManager.advance_all post b') as [[post' b2] n2] eqn:Hpost.
  exists post', b2, n2. split; [reflexivity|]. split.
  - rewrite advance_all_app, Hpre. cbn [SimulationManager.advance_all].
    rewrite Ha, Hstep, Hpost. reflexivity.
  - pose proof (step_active a (MessageBus.log (Advance (agent_id a)) b1)) as Hk.
    rewrite Hstep in Hk. cbn in Hk. congruence.
Qed.

Lemma step_follows_advance (m : SimulationManager.t A) :
  SimulationManager.is_running m = true -> SimulationManager.is_paused m = false ->
  let d := SimulationManager.deliver_all (SimulationManager.agents m)
             (SimulationManager.message_bus m) in
  let r := SimulationManager.advance_all (fst d) (snd d) in
  let m' := SimulationManager.mk (fst (fst r))
              (SimulationManager.current_step m + 1)%Z true false
              (snd (fst r)) in
  (existsb is_active (fst (fst r)) = true -> SimulationManager.step m = (true, m'))
  /\ (existsb is_active (fst (fst r)) = false ->
        SimulationManager.step m = (false, SimulationManager.stop_simulation m')).
Proof.
  intros Hrun Hpause d r m'. unfold SimulationManager.step.
  rewrite Hrun, Hpause. cbn [negb orb]. subst m' r d.
  destruct (SimulationManager.deliver_all (SimulationManager.agents m)
              (SimulationManager.message_bus m)) as [agents1 bus1].
  cbn [fst snd].
  pose proof (advance_all_count agents1 bus1) as Hcount.
  destruct (SimulationManager.advance_all agents1 bus1) as [[agents2 bus2] n].
  cbn [fst snd] in *. subst n. rewrite count_active_existsb.
  split; intros ->; reflexivity.
Qed.

Lemma tick_survives_faults (m : SimulationManager.t A) pre a post bus1 pre' b1
    n1 a' b' :
  SimulationManager.is_running m = true -> SimulationManager.is_paused m = false ->
  SimulationManager.deliver_all (SimulationManager.agents m)
    (SimulationManager.message_bus m) = (pre ++ a :: post, bus1) ->
  SimulationManager.advance_all pre bus1 = (pre', b1, n1) ->
  is_active a = true ->
  step (a, MessageBus.log (Advance (agent_id a)) b1) = (Ok tt, (a', b')) ->
  fst (SimulationManager.step m) = true
  /\ SimulationManager.is_running (snd (SimulationManager.step m)) = true
  /\ SimulationManager.is_paused (snd (SimulationManager.step m)) = false
  /\ In a' (SimulationManager.agents (snd (SimulationManager.step m))).
Proof.
  intros Hrun Hpause Hdel Hpre Ha Hstep.
  destruct (advance_is_counted pre post a bus1 pre' b1 n1 a' b' Hpre Ha Hstep)
    as (post' & b2 & n2 & Hpost & Hall & Ha').
  destruct (step_follows_advance m Hrun Hpause) as [Hgo _].
  cbv zeta in Hgo. rewrite Hdel in Hgo. cbn [fst snd] in Hgo.
  rewrite Hall in Hgo. cbn [fst snd] in Hgo.
  rewrite Hgo.
  - cbn. repeat split. apply in_or_app. right. by left.
  - rewrite existsb_app. cbn [existsb]. rewrite Ha'. by rewrite orb_true_r.
Qed.

End SchedulerProperties.

Section FaultClaim.

(** C5. When the advance of an active actor raises during a tick, the
    scheduler clears the actor's activity flag and unsubscribes it, and
    the advance pass goes on over the rest of the roster exactly as it
    would from that bus state; an actor whose advance returns stays
    active and is counted, and both passes of later ticks skip an
    inactive actor. A tick of a running scheduler is its delivery pass
    followed by its advance pass: when the advance pass leaves some
    actor active the tick returns [True] with the roster and the bus of
    that pass, the counter one higher and the scheduler running;
    otherwise it stops the scheduler with every actor inactive. So one
    actor whose advance returns is enough for the tick to return [True]
    and for the scheduler to stay running, whatever faults the other
    actors raise: a fault never halts it, only an empty set of active
    actors does. *)
Theorem actor_fault_does_not_halt_scheduler {A : Type} `{AgentLaws A}
    (m : SimulationManager.t A) :
  (forall (pre post : list A) (a : A) bus pre' b1 n1 e a_f b_f,
     SimulationManager.advance_all pre bus = (pre', b1, n1) ->
     is_active a = true ->
     step (a, MessageBus.log (Advance (agent_id a)) b1)
     = (Raise e, (a_f, b_f)) ->
     exists post' b2 n2,
       SimulationManager.advance_all post
         (MessageBus.unsubscribe (agent_id a_f) b_f) = (post', b2, n2)
       /\ SimulationManager.advance_all (pre ++ a :: post) bus
          = (pre' ++ set_active false a_f :: post', b2, (n1 + n2)%Z)
       /\ is_active (set_active false a_f) = false)
  /\ (forall (pre post : list A) (a : A) bus pre' b1 n1 a' b',
        SimulationManager.advance_all pre bus = (pre', b1, n1) ->
        is_active a = true ->
        step (a, MessageBus.log (Advance (agent_id a)) b1)
        = (Ok tt, (a', b')) ->
        exists post' b2 n2,
          SimulationManager.advance_all post b' = (post', b2, n2)
          /\ SimulationManager.advance_all (pre ++ a :: post) bus
             = (pre' ++ a' :: post', b2, (n1 + (1 + n2))%Z)
          /\ is_active a' = true)
  /\ (forall (a : A) (rest : list A) bus,
        is_active a = false ->
        SimulationManager.advance_all (a :: rest) bus
        = (let '(rest', b', n) := SimulationManager.advance_all rest bus in
           (a :: rest', b', n))
        /\ SimulationManager.deliver_all (a :: rest) bus
           = (let '(rest', b') := SimulationManager.deliver_all rest bus in
              (a :: rest', b')))
  /\ (SimulationManager.is_running m = true ->
      SimulationManager.is_paused m = false ->
      let d := SimulationManager.deliver_all (SimulationManager.agents m)
                 (SimulationManager.message_bus m) in
      let r := SimulationManager.advance_all (fst d) (snd d) in
      let m' := SimulationManager.mk (fst (fst r))
                  (SimulationManager.current_step m + 1)%Z true false
                  (snd (fst r)) in
      (existsb is_active (fst (fst r)) = true ->
         SimulationManager.step m = (true, m'))
      /\ (existsb is_active (fst (fst r)) = false ->
            SimulationManager.step m
            = (false, SimulationManager.stop_simulation m')))
  /\ (forall pre a post bus1 pre' b1 n1 a' b',
        SimulationManager.is_running m = true ->
        SimulationManager.is_paused m = false ->
        SimulationManager.deliver_all (SimulationManager.agents m)
          (SimulationManager.message_bus m) = (pre ++ a :: post, bus1) ->
        SimulationManager.advance_all pre bus1 = (pre', b1, n1) ->
        is_active a = true ->
        step (a, MessageBus.log (Advance (agent_id a)) b1)
        = (Ok tt, (a', b')) ->
        fst (SimulationManager.step m) = true
        /\ SimulationManager.is_running (snd (SimulationManager.step m)) = true
        /\ SimulationManager.is_paused (snd (SimulationManager.step m)) = false
        /\ In a' (SimulationManager.agents (snd (SimulationManager.step m))))
  /\ (SimulationManager.is_running m = true ->
      SimulationManager.is_paused m = false ->
      fst (SimulationManager.step m)
      = existsb is_active
          (SimulationManager.agents (snd (SimulationManager.step m)))
      /\ SimulationManager.is_running (snd (SimulationManager.step m))
         = fst (SimulationManager.step m)
      /\ SimulationManager.current_step (snd (SimulationManager.step m))
         = (SimulationManager.current_step m + 1)%Z).
Proof.
  split; [exact fault_is_isolated|].
  split; [exact advance_is_counted|].
  split; [exact inactive_is_skipped|].
  split; [exact (step_follows_advance m)|].
  split; [intros pre a post bus1 pre' b1 n1 a' b'; apply tick_survives_faults|].
  apply step_halts_iff_none_active.
Qed.

(** The tick of [fault_roster], where the distributor's advance raises
    and the carrier's returns: the tick returns [True], the scheduler
    stays running, the distributor is inactive and the carrier active. *)
Lemma actor_fault_does_not_halt_scheduler_witness :
  fst (SimulationManager.step fault_roster) = true
  /\ SimulationManager.is_running (snd (SimulationManager.step fault_roster))
     = true
  /\ map is_active
       (SimulationManager.agents (snd (SimulationManager.step fault_roster)))
     = [false; true]
  /\ SimulationManager.current_step (snd (SimulationManager.step fault_roster))
     = (SimulationManager.current_step fault_roster + 1)%Z.
Proof.
  destruct (actor_fault_does_not_halt_scheduler fault_roster)
    as (_ & _ & _ & Htick & _ & Hhalt).
  destruct (Htick eq_refl eq_refl) as [Hgo _].
  destruct (Hhalt eq_refl eq_refl) as (_ & _ & Hstep).
  cbv zeta in Hgo.
  rewrite (Hgo ltac:(vm_compute; reflexivity)).
  split; [reflexivity|]. split; [reflexivity|].
  split; [vm_compute; reflexivity|].
  rewrite <- (Hgo ltac:(vm_compute; reflexivity)). exact Hstep.
Defined.

(** The tick of [fault_roster]: the distributor's advance raises, the
    carrier is advanced all the same, and the scheduler keeps running. *)
Example faulty_distributor_is_retired :
  fst (SimulationManager.step fault_roster) = true
  /\ map is_active
       (SimulationManager.agents (snd (SimulationManager.step fault_roster)))
     = [false; true]
  /\ MessageBus.journal
       (SimulationManager.message_bus
          (snd (SimulationManager.step fault_roster)))
     = [Advance "warehouse_1"; Advance "truck_warehouse_1_1"]
  /\ SimulationManager.is_running (snd (SimulationManager.step fault_roster))
     = true.
Proof. vm_compute. repeat split. Qed.

End FaultClaim.

(** ** Delivery and advance within a tick *)
Section TickOrdering.

Lemma journal_grows_closed P j0 :
  (forall m, P (Published m)) -> (forall id m, P (Handled id m)) ->
  bus_closed (journal_grows P j0).
Proof.
  intros HP HH. split; [|split].
  - intros m b (ext & Hj & Hext). exists (ext ++ [Published m]). split.
    + cbn. rewrite Hj. by rewrite app_assoc.
    + apply Forall_app. split; [exact Hext | by constructor].
  - intros id m b (ext & Hj & Hext). exists (ext ++ [Handled id m]). split.
    + cbn. rewrite Hj. by rewrite app_assoc.
    + apply Forall_app. split; [exact Hext | by constructor].
  - intros id b Hb. exact Hb.
Qed.

Lemma in_journal_closed e : bus_closed (fun b => In e (MessageBus.journal b)).
Proof.
  split; [|split].
  - intros m b Hb. cbn. apply in_or_app. by left.
  - intros id m b Hb. cbn. apply in_or_app. by left.
  - intros id b Hb. exact Hb.
Qed.

Context {A : Type} `{AgentLaws A}.

(** The scheduler's delivery pass keeps any closed property of the bus. *)
Lemma deliver_all_closed Q (agents : list A) : forall bus,
  bus_closed Q -> Q bus -> Q (snd (SimulationManager.deliver_all agents bus)).
Proof.
  induction agents as [|a agents IH]; intros bus HQ Hb; [exact Hb|].
  cbn [SimulationManager.deliver_all].
  assert (Q (snd (if is_active a
                  then snd (try_except process_messages (a, bus))
                  else (a, bus)))) as Hstep.
  { destruct (is_active a) eqn:Ea; [|exact Hb].
    assert (preserves (keeps is_active true Q) (try_except process_messages))
      as Hp.
    { apply preserves_try_except. intros [a0 b0] Hs.
      unfold process_messages.
      apply (keeps_process_messages is_active true Q HQ); [|exact Hs].
      by apply handle_message_keeps. }
    apply (Hp (a, bus)). by split. }
  destruct (if is_active a then _ else _) as [a' b'].
  specialize (IH b' HQ Hstep).
  destruct (SimulationManager.deliver_all agents b') as [rest' b'']. exact IH.
Qed.

(** So does the advance pass, for a property that also survives the
    journal entry of an advance and an unsubscription. *)
Lemma advance_all_closed Q (agents : list A) : forall bus,
  bus_closed Q ->
  (forall id b, Q b -> Q (MessageBus.log (Advance id) b)) ->
  (forall id b, Q b -> Q (MessageBus.unsubscribe id b)) ->
  Q bus -> Q (snd (fst (SimulationManager.advance_all agents bus))).
Proof.
  induction agents as [|a agents IH]; intros bus HQ Hadv Hunsub Hb; [exact Hb|].
  cbn [SimulationManager.advance_all].
  destruct (is_active a) eqn:Ea.
  - pose proof (step_keeps true Q HQ
                  (a, MessageBus.log (Advance (agent_id a)) bus)
                  (conj Ea (Hadv _ _ Hb))) as [_ Hstep].
    destruct (step (a, MessageBus.log (Advance (agent_id a)) bus))
      as [[[]|e] [a' b']]; cbn [snd] in Hstep.
    + specialize (IH b' HQ Hadv Hunsub Hstep).
      destruct (SimulationManager.advance_all agents b') as [[rest' b''] n].
      exact IH.
    + unfold deactivate, modify. cbn [snd].
      specialize (IH _ HQ Hadv Hunsub (Hunsub (agent_id a') _ Hstep)).
      destruct (SimulationManager.advance_all agents _) as [[rest' b''] n].
      exact IH.
  - specialize (IH bus HQ Hadv Hunsub Hb).
    destruct (SimulationManager.advance_all agents bus) as [[rest' b''] n].
    exact IH.
Qed.

End TickOrdering.

Section Handles.
Context {R : Type} (active : R -> bool) (id : string)
  (handle : Message.t -> M (R * MessageBus.t) unit).
Hypothesis Hhandle : forall v Q, bus_closed Q ->
  forall m, preserves (keeps active v Q) (handle m).

Lemma handle_body_in e m s :
  In e (MessageBus.journal (snd s)) ->
  In e (MessageBus.journal (snd (snd (feed id handle m s)))).
Proof.
  intros He.
  assert (preserves (keeps active (active (fst s))
                       (fun b => In e (MessageBus.journal b))) (feed id handle m)) as Hp.
  { apply preserves_bind.
    - intros [a0 b0] [Ha0 Hb0]. split; [exact Ha0|].
      cbn. apply in_or_app. by left.
    - intros _. apply preserves_try_except, Hhandle, in_journal_closed. }
  by apply (Hp s).
Qed.

Lemma handle_body_ok m s : exists s1, feed id handle m s = (Ok tt, s1).
Proof.
  unfold feed, bind, modify, try_except. destruct s as [a b]. cbn beta iota.
  destruct (handle m (a, MessageBus.log (Handled id m) b)) as [[[]|e] s1];
    by eexists.
Qed.

Lemma for_each_handles msg ms : forall s,
  In msg ms \/ In (Handled id msg) (MessageBus.journal (snd s)) ->
  In (Handled id msg)
     (MessageBus.journal (snd (snd (for_each ms (feed id handle) s)))).
Proof.
  induction ms as [|m ms IH]; intros s Hs.
  - destruct Hs as [[]|Hs]. exact Hs.
  - cbn [for_each]. unfold bind at 1.
    assert (In msg ms
            \/ In (Handled id msg) (MessageBus.journal (snd (snd (feed id handle m s)))))
      as Hnext.
    { destruct Hs as [[->|Hin]|Hs].
      - right. unfold feed, bind, modify. destruct s as [a b]. cbn beta iota.
        assert (preserves (keeps active (active a)
                             (fun b => In (Handled id msg) (MessageBus.journal b)))
                  (try_except (handle msg))) as Hp
          by (apply preserves_try_except, Hhandle, in_journal_closed).
        apply (Hp (a, MessageBus.log (Handled id msg) b)). split; [reflexivity|].
        cbn. apply in_or_app. right. by left.
      - by left.
      - right. by apply handle_body_in. }
    destruct (handle_body_ok m s) as [s1 Hs1]. rewrite Hs1 in *.
    by apply IH.
Qed.

(** [process_messages] feeds every queued envelope to the handler, and
    whatever [rest] does afterwards keeps that on record. *)
Lemma process_then_rest_handles (rest : M (R * MessageBus.t) unit) a b msg :
  (forall v Q, bus_closed Q -> preserves (keeps active v Q) rest) ->
  In msg (MessageBus.queue b id) ->
  In (Handled id msg)
     (MessageBus.journal
        (snd (snd (bind (BaseAgent.process_messages id handle)
                     (fun _ => rest) (a, b))))).
Proof.
  intros Hrest Hin. unfold bind, BaseAgent.process_messages.
  cbn [MessageBus.deliver_messages].
  pose proof (for_each_handles msg (MessageBus.queue b id)
                (a, MessageBus.set_queues
                      (<[id := []]> (MessageBus._agent_queues b)) b)
                (or_introl Hin)) as Hdone.
  fold (feed id handle).
  destruct (for_each (MessageBus.queue b id) (feed id handle) _) as [[[]|e] [a1 b1]];
    cbn [snd] in *; [|exact Hdone].
  apply (Hrest (active a1) _ (in_journal_closed (Handled id msg)) (a1, b1)).
  by split.
Qed.

End Handles.

Section AdvanceDrainsFirst.

Ltac pose_keeps L v Q HQ :=
  first [pose proof (L v Q HQ) | pose proof (L v Q)].

Lemma truck_step_handles a b msg :
  In msg (MessageBus.queue b (TruckAgent.agent_id a)) ->
  In (Handled (TruckAgent.agent_id a) msg)
     (MessageBus.journal (snd (snd (TruckAgent.step (a, b))))).
Proof.
  intros Hin. unfold TruckAgent.step.
  unfold bind at 1. unfold TruckAgent.self at 1. cbn beta iota.
  apply (process_then_rest_handles TruckAgent.active); [| |exact Hin].
  - intros v Q HQ m. pose_keeps truck_handle_message_keeps v Q HQ. auto.
  - intros v Q HQ.
    pose_keeps truck_move_keeps v Q HQ.
    pose_keeps truck_complete_loading_keeps v Q HQ.
    pose_keeps truck_complete_unloading_keeps v Q HQ.
    pose_keeps truck_arrive_keeps v Q HQ.
    unfold TruckAgent._arrive_at_pickup, TruckAgent._arrive_at_delivery.
    keeps_auto.
Qed.

Lemma warehouse_step_handles a b msg :
  In msg (MessageBus.queue b (WarehouseAgent.agent_id a)) ->
  In (Handled (WarehouseAgent.agent_id a) msg)
     (MessageBus.journal (snd (snd (WarehouseAgent.step (a, b))))).
Proof.
  intros Hin. unfold WarehouseAgent.step.
  unfold bind at 1. unfold WarehouseAgent.self at 1. cbn beta iota.
  apply (process_then_rest_handles WarehouseAgent.active); [| |exact Hin].
  - intros v Q HQ m. pose_keeps warehouse_handle_message_keeps v Q HQ. auto.
  - intros v Q HQ.
    pose_keeps warehouse_check_and_reorder_keeps v Q HQ.
    pose_keeps warehouse_process_pending_loop_keeps v Q HQ.
    unfold WarehouseAgent._process_pending_orders.
    keeps_auto.
Qed.

Lemma factory_step_handles a b msg :
  In msg (MessageBus.queue b (FactoryAgent.agent_id a)) ->
  In (Handled (FactoryAgent.agent_id a) msg)
     (MessageBus.journal (snd (snd (FactoryAgent.step (a, b))))).
Proof.
  intros Hin. unfold FactoryAgent.step.
  unfold bind at 1. unfold FactoryAgent.upd at 1, modify at 1. cbn beta iota.
  unfold bind at 1. unfold FactoryAgent.self at 1. cbn beta iota.
  apply (process_then_rest_handles FactoryAgent.active); [| |exact Hin].
  - intros v Q HQ m. pose_keeps factory_handle_message_keeps v Q HQ. auto.
  - intros v Q HQ.
    pose_keeps factory_complete_order_keeps v Q HQ.
    pose_keeps factory_start_keeps v Q HQ.
    unfold FactoryAgent._check_production_completion.
    keeps_auto.
Qed.

Lemma actor_step_handles (x : Actor) b msg :
  In msg (MessageBus.queue b (agent_id x)) ->
  In (Handled (agent_id x) msg)
     (MessageBus.journal (snd (snd (step (x, b))))).
Proof.
  destruct x as [a|a|a]; intros Hin; cbn [step Actor_Agent agent_id] in *.
  - pose proof (truck_step_handles a b msg Hin) as Hs. unfold on_truck.
    destruct (TruckAgent.step (a, b)) as [r [a' b']]. exact Hs.
  - pose proof (warehouse_step_handles a b msg Hin) as Hs. unfold on_warehouse.
    destruct (WarehouseAgent.step (a, b)) as [r [a' b']]. exact Hs.
  - pose proof (factory_step_handles a b msg Hin) as Hs. unfold on_factory.
    destruct (FactoryAgent.step (a, b)) as [r [a' b']]. exact Hs.
Qed.

End AdvanceDrainsFirst.

Section TickClaims.

Lemma deactivate_all_journal {A} `{Agent A} (l : list A) : forall bus,
  MessageBus.journal (snd (SimulationManager.deactivate_all l bus))
  = MessageBus.journal bus.
Proof.
  induction l as [|a l IH]; intros bus; [reflexivity|].
  cbn [SimulationManager.deactivate_all]. unfold deactivate at 1, modify.
  cbn [snd]. specialize (IH (MessageBus.unsubscribe (agent_id a) bus)).
  destruct (SimulationManager.deactivate_all l _) as [l' b']. exact IH.
Qed.

Lemma step_journal {A} `{Agent A} (m : SimulationManager.t A) :
  SimulationManager.is_running m = true ->
  SimulationManager.is_paused m = false ->
  MessageBus.journal
    (SimulationManager.message_bus (snd (SimulationManager.step m)))
  = MessageBus.journal
      (snd (fst (SimulationManager.advance_all
                   (fst (SimulationManager.deliver_all
                           (SimulationManager.agents m)
                           (SimulationManager.message_bus m)))
                   (snd (SimulationManager.deliver_all
                           (SimulationManager.agents m)
                           (SimulationManager.message_bus m)))))).
Proof.
  intros Hrun Hpause. unfold SimulationManager.step. rewrite Hrun, Hpause.
  cbn [negb orb].
  destruct (SimulationManager.deliver_all _ _) as [agents1 bus1].
  cbn [fst snd].
  destruct (SimulationManager.advance_all agents1 bus1) as [[agents2 bus2] n].
  destruct (n =? 0)%Z; [|reflexivity].
  unfold SimulationManager.stop_simulation. cbn.
  pose proof (deactivate_all_journal agents2 bus2) as Hj.
  destruct (SimulationManager.deactivate_all agents2 bus2) as [agents3 bus3].
  exact Hj.
Qed.

Lemma advance_reaches_mailbox (pre post : list Actor) (x : Actor)
    bus pre' b1 n1 msg :
  SimulationManager.advance_all pre bus = (pre', b1, n1) ->
  is_active x = true ->
  In msg (MessageBus.queue b1 (agent_id x)) ->
  In (Handled (agent_id x) msg)
     (MessageBus.journal
        (snd (fst (SimulationManager.advance_all (pre ++ x :: post) bus)))).
Proof.
  intros Hpre Hx Hin. rewrite advance_all_app, Hpre.
  cbn [SimulationManager.advance_all]. rewrite Hx.
  pose proof (actor_step_handles x
                (MessageBus.log (Advance (agent_id x)) b1) msg Hin) as Hdone.
  assert (forall bus', In (Handled (agent_id x) msg) (MessageBus.journal bus') ->
            In (Handled (agent_id x) msg)
               (MessageBus.journal
                  (snd (fst (SimulationManager.advance_all post bus')))))
    as Hpost.
  { intros bus' Hb'.
    apply (advance_all_closed
             (fun b => In (Handled (agent_id x) msg) (MessageBus.journal b)));
      [apply in_journal_closed | | | exact Hb'].
    - intros id b Hb. cbn. apply in_or_app. by left.
    - intros id b Hb. exact Hb. }
  destruct (step (x, MessageBus.log (Advance (agent_id x)) b1))
    as [[[]|e] [x' b']]; cbn [snd] in Hdone.
  - specialize (Hpost b' Hdone).
    destruct (SimulationManager.advance_all post b') as [[post' b2] n2].
    exact Hpost.
  - unfold deactivate, modify. cbn [snd].
    specialize (Hpost (MessageBus.unsubscribe (agent_id x') b') Hdone).
    destruct (SimulationManager.advance_all post _) as [[post' b2] n2].
    exact Hpost.
Qed.




End TickClaims.

(** ** Message bus: subscriptions, bounds and totals *)
Section BusExtras.
Import MessageBus.

Lemma queue_unsubscribe_same r b : queue (unsubscribe r b) r = [].
Proof. unfold queue, unsubscribe. cbn. by rewrite lookup_delete_eq. Qed.

Lemma queue_unsubscribe_other r r' b :
  r' <> r -> queue (unsubscribe r b) r' = queue b r'.
Proof. intros. unfold queue, unsubscribe. cbn. by rewrite lookup_delete_ne. Qed.

(** X1. Delivery does not depend on subscription. [unsubscribe] removes
    the handlers and the backlog of an id, but [publish] never looks at
    the subscribers: an envelope published to an id right after its
    unsubscription (or to an id that never subscribed) is queued and is
    what the next drain returns, the id staying without subscribers;
    the mailboxes of the other ids are as they were. *)
Theorem unsubscribed_recipient_still_receives (m : Message.t)
    (b : MessageBus.t) :
  let r := Message.recipient m in
  let b1 := unsubscribe r b in
  _subscribers b1 !! r = None
  /\ queue b1 r = []
  /\ fst (deliver_messages r (publish m b1)) = [m]
  /\ _subscribers (publish m b1) !! r = None
  /\ (forall r', r' <> r -> queue (publish m b1) r' = queue b r')
  /\ forall clock, fst (deliver_messages r (publish m (init clock))) = [m].
Proof.
  intros r b1. subst r b1.
  split. { unfold unsubscribe. cbn. by rewrite lookup_delete_eq. }
  split. { apply queue_unsubscribe_same. }
  split.
  { rewrite deliver_messages_fst, queue_publish_same, queue_unsubscribe_same.
    reflexivity. }
  split. { unfold publish, unsubscribe. cbn. by rewrite lookup_delete_eq. }
  split.
  { intros r' Hne. rewrite queue_publish_other by congruence.
    by apply queue_unsubscribe_other. }
  intros clock. rewrite deliver_messages_fst, queue_publish_same. reflexivity.
Qed.


Lemma queues_publish m b :
  _agent_queues (publish m b)
  = <[Message.recipient m := enqueue (queue b (Message.recipient m)) m]>
      (_agent_queues b).
Proof. reflexivity. Qed.

Lemma total_insert (qs : gmap string (list Message.t)) r q :
  (sum_list_with (fun kv => length (snd kv)) (map_to_list (<[r := q]> qs))
   + length (default [] (qs !! r))
   = sum_list_with (fun kv => length (snd kv)) (map_to_list qs) + length q)%nat.
Proof.
  destruct (qs !! r) as [q0|] eqn:Hr; cbn [default].
  - rewrite <- (insert_delete_eq qs r q).
    rewrite map_to_list_insert by apply lookup_delete_eq.
    rewrite <- (map_to_list_delete qs r q0 Hr). cbn. lia.
  - rewrite map_to_list_insert by done. cbn. lia.
Qed.

Lemma total_bound (qs : gmap string (list Message.t)) n :
  (forall id q, qs !! id = Some q -> (length q <= n)%nat) ->
  (sum_list_with (fun kv => length (snd kv)) (map_to_list qs)
   <= n * size qs)%nat.
Proof.
  intros Hall. rewrite <- length_map_to_list.
  assert (Forall (fun kv => length (snd kv) <= n)%nat (map_to_list qs)) as HF.
  { apply Forall_forall. intros [id q] Hin.
    apply elem_of_map_to_list in Hin. cbn. eauto. }
  induction HF as [|kv l Hkv _ IH]; cbn; [lia|]. lia.
Qed.

Lemma bus_reachable_bounded b : bus_reachable b -> queues_bounded b.
Proof.
  induction 1 as [clock|id b _ IH|id b _ IH|m b _ IH|id b _ IH|id b _ IH|b _ IH];
    intros r q; cbn.
  - by rewrite lookup_empty.
  - apply IH.
  - intros Hq. apply lookup_delete_Some in Hq as [_ Hq]. eauto.
  - destruct (decide (Message.recipient m = r)) as [->|Hne].
    + rewrite lookup_insert_eq. intros [= <-].
      apply (enqueue_length _ m). unfold queue.
      destruct (_agent_queues b !! r) as [q0|] eqn:Hq0; cbn; [eauto|].
      unfold _max_queue_size. lia.
    + rewrite lookup_insert_ne by done. apply IH.
  - destruct (decide (id = r)) as [->|Hne].
    + rewrite lookup_insert_eq. intros [= <-]. cbn. lia.
    + rewrite lookup_insert_ne by done. apply IH.
  - destruct (decide (id = r)) as [->|Hne].
    + rewrite lookup_insert_eq. intros [= <-]. unfold queue.
      destruct (_agent_queues b !! r) as [q0|] eqn:Hq0; cbn; [eauto|].
      unfold _max_queue_size. lia.
    + rewrite lookup_insert_ne by done. apply IH.
  - by rewrite lookup_empty.
Qed.

Lemma bus_reachable_publish_all ms : forall b,
  bus_reachable b -> bus_reachable (publish_all ms b).
Proof.
  induction ms as [|m ms IH]; intros b Hb; [exact Hb|].
  apply IH, bus_reach_publish, Hb.
Qed.

(** X2. On every bus that the operations of the class can build
    (subscriptions, publishes, drains, size queries, clearing, in any
    order and for any ids) each mailbox holds at most 100 envelopes, and
    [get_stats] reports it: every entry of [queue_sizes] is the length
    of that mailbox and is at most [max_queue_size], and
    [total_queued_messages] is at most [max_queue_size] times the number
    of mailboxes. *)
Theorem reachable_bus_within_bounds (b : MessageBus.t) :
  bus_reachable b ->
  (forall id, length (queue b id) <= 100)%nat
  /\ (forall id n, queue_sizes (get_stats b) !! id = Some n ->
                   n = length (queue b id)
                   /\ (n <= max_queue_size (get_stats b))%nat)
  /\ (total_queued_messages (get_stats b)
      <= max_queue_size (get_stats b) * size (queue_sizes (get_stats b)))%nat.
Proof.
  intros Hb. pose proof (bus_reachable_bounded b Hb) as Hbound.
  split.
  { intros id. unfold queue.
    destruct (_agent_queues b !! id) as [q|] eqn:Hq; cbn; [|lia].
    apply (Hbound id q Hq). }
  split.
  { intros id n. cbn. rewrite lookup_fmap. unfold queue.
    destruct (_agent_queues b !! id) as [q|] eqn:Hq; cbn; [|discriminate].
    intros [= <-]. split; [reflexivity|]. apply (Hbound id q Hq). }
  unfold get_stats.
  cbn [total_queued_messages max_queue_size queue_sizes].
  rewrite map_size_fmap. by apply total_bound.
Qed.

(** X3. How [total_queued_messages] of [get_stats] moves: a publish adds
    one unless the recipient's mailbox is full, in which case the total
    stays (one envelope is dropped for the one admitted); a drain takes
    off exactly the envelopes it returns; an unsubscription takes off
    the backlog of that id; clearing leaves zero. *)
Theorem queued_total_accounting (m : Message.t) (id : string)
    (b : MessageBus.t) :
  total_queued_messages (get_stats (publish m b))
  = (if (_max_queue_size <=? length (queue b (Message.recipient m)))%nat
     then total_queued_messages (get_stats b)
     else S (total_queued_messages (get_stats b)))
  /\ (total_queued_messages (get_stats (snd (deliver_messages id b)))
      + length (fst (deliver_messages id b))
      = total_queued_messages (get_stats b))%nat
  /\ total_queued_messages (get_stats (unsubscribe id b))
     = (total_queued_messages (get_stats b) - length (queue b id))%nat
  /\ total_queued_messages (get_stats (clear_all_queues b)) = 0%nat.
Proof.
  unfold get_stats. cbn [total_queued_messages].
  split.
  { rewrite queues_publish.
    pose proof (total_insert (_agent_queues b) (Message.recipient m)
      (enqueue (queue b (Message.recipient m)) m)) as Hins.
    fold (queue b (Message.recipient m)) in Hins. unfold enqueue in Hins |- *.
    destruct (Nat.leb_spec _max_queue_size
                (length (queue b (Message.recipient m)))) as [Hfull|Hroom];
      rewrite length_app in Hins; cbn [length] in Hins.
    - rewrite length_tl in Hins. unfold _max_queue_size in Hfull. lia.
    - lia. }
  split.
  { cbn [deliver_messages fst snd set_queues _agent_queues].
    pose proof (total_insert (_agent_queues b) id []) as Hins.
    fold (queue b id) in Hins. cbn [length] in Hins. lia. }
  split.
  { cbn [unsubscribe _agent_queues]. unfold queue.
    destruct (_agent_queues b !! id) as [q|] eqn:Hq; cbn [default].
    - rewrite <- (map_to_list_delete _ _ _ Hq). cbn. lia.
    - rewrite delete_id by done. cbn. lia. }
  cbn. by rewrite map_to_list_empty.
Qed.

Lemma reachable_bus_within_bounds_witness :
  let b := snd (deliver_messages "store_1"
                  (publish_all (numbered "warehouse_1" 120)
                     (subscribe "warehouse_1" (init 0)))) in
  (forall id, length (queue b id) <= 100)%nat
  /\ (forall id n, queue_sizes (get_stats b) !! id = Some n ->
                   n = length (queue b id)
                   /\ (n <= max_queue_size (get_stats b))%nat)
  /\ (total_queued_messages (get_stats b)
      <= max_queue_size (get_stats b) * size (queue_sizes (get_stats b)))%nat.
Proof.
  apply reachable_bus_within_bounds.
  apply bus_reach_deliver, bus_reachable_publish_all.
  apply bus_reach_subscribe, bus_reach_init.
Defined.

End BusExtras.

(** ** Scheduler: stopping, restarting, resetting, pausing *)
Section SchedulerLifecycle.
Context {A : Type} `{AgentLaws A}.

Lemma deliver_all_inactive (l : list A) bus :
  existsb is_active l = false ->
  SimulationManager.deliver_all l bus = (l, bus).
Proof.
  revert bus. induction l as [|a l IH]; intros bus Hoff; [reflexivity|].
  cbn [existsb] in Hoff. apply orb_false_iff in Hoff as [Ha Hl].
  cbn [SimulationManager.deliver_all]. rewrite Ha, (IH bus Hl). reflexivity.
Qed.

Lemma advance_all_inactive (l : list A) bus :
  existsb is_active l = false ->
  SimulationManager.advance_all l bus = (l, bus, 0%Z).
Proof.
  revert bus. induction l as [|a l IH]; intros bus Hoff; [reflexivity|].
  cbn [existsb] in Hoff. apply orb_false_iff in Hoff as [Ha Hl].
  cbn [SimulationManager.advance_all]. rewrite Ha, (IH bus Hl). reflexivity.
Qed.

Lemma filter_inactive (l : list A) :
  existsb is_active l = false -> List.filter is_active l = [].
Proof.
  induction l as [|a l IH]; [reflexivity|]. cbn [existsb List.filter].
  intros Hoff. apply orb_false_iff in Hoff as [Ha Hl]. rewrite Ha. auto.
Qed.

Lemma stop_simulation_inactive (m : SimulationManager.t A) :
  existsb is_active
    (SimulationManager.agents (SimulationManager.stop_simulation m)) = false.
Proof.
  unfold SimulationManager.stop_simulation.
  pose proof (deactivate_all_inactive (SimulationManager.agents m)
                (SimulationManager.message_bus m)) as Hoff.
  destruct (SimulationManager.deactivate_all _ _) as [agents' bus']. exact Hoff.
Qed.

Lemma stop_simulation_flags (m : SimulationManager.t A) :
  SimulationManager.is_running (SimulationManager.stop_simulation m) = false
  /\ SimulationManager.is_paused (SimulationManager.stop_simulation m) = false
  /\ SimulationManager.current_step (SimulationManager.stop_simulation m)
     = SimulationManager.current_step m
  /\ MessageBus._agent_queues
       (SimulationManager.message_bus (SimulationManager.stop_simulation m))
     = ∅.
Proof.
  unfold SimulationManager.stop_simulation.
  destruct (SimulationManager.deactivate_all _ _) as [agents' bus'].
  repeat split.
Qed.

(** X4. [stop_simulation] clears every agent's flag and nothing in
    [start_simulation] sets it again: a stopped simulation that is started
    again reports itself running from step 0, but its first tick finds no
    active agent, returns [False] and stops it again. After the stop
    [get_simulation_state] counts no active agent. *)
Theorem stopped_simulation_cannot_be_restarted (m : SimulationManager.t A) :
  let m0 := SimulationManager.stop_simulation m in
  let m1 := SimulationManager.start_simulation m0 in
  SimulationManager.active_agents (SimulationManager.get_simulation_state m0)
  = 0%nat
  /\ SimulationManager.is_running m1 = true
  /\ SimulationManager.current_step m1 = 0%Z
  /\ fst (SimulationManager.step m1) = false
  /\ SimulationManager.is_running (snd (SimulationManager.step m1)) = false
  /\ existsb is_active
       (SimulationManager.agents (snd (SimulationManager.step m1))) = false.
Proof.
  intros m0 m1.
  pose proof (stop_simulation_inactive m) as Hoff. fold m0 in Hoff.
  destruct (stop_simulation_flags m) as (Hrun & Hpause & _ & _).
  fold m0 in Hrun, Hpause.
  assert (m1 = SimulationManager.mk (SimulationManager.agents m0) 0 true false
                 (SimulationManager.message_bus m0)) as Hm1.
  { unfold m1, SimulationManager.start_simulation. by rewrite Hrun. }
  split.
  { cbn. by rewrite filter_inactive. }
  split; [by rewrite Hm1|]. split; [by rewrite Hm1|].
  assert (SimulationManager.step m1
          = (false, SimulationManager.stop_simulation
                      (SimulationManager.mk (SimulationManager.agents m0) 1 true
                         false (SimulationManager.message_bus m0)))) as Hstep.
  { rewrite Hm1. unfold SimulationManager.step. cbn [SimulationManager.is_running
      SimulationManager.is_paused SimulationManager.agents
      SimulationManager.message_bus SimulationManager.current_step negb orb].
    rewrite (deliver_all_inactive _ _ Hoff), (advance_all_inactive _ _ Hoff).
    reflexivity. }
  rewrite Hstep. cbn [fst snd]. split; [reflexivity|].
  split; [apply stop_simulation_flags | apply stop_simulation_inactive].
Qed.

Lemma deactivate_all_spec (l : list A) : forall bus,
  SimulationManager.deactivate_all l bus
  = (map (set_active false) l,
     fold_left (fun b a => MessageBus.unsubscribe (agent_id a) b) l bus).
Proof.
  induction l as [|a l IH]; intros bus; [reflexivity|].
  cbn [SimulationManager.deactivate_all]. unfold deactivate at 1, modify.
  cbn [snd]. rewrite IH. reflexivity.
Qed.

Lemma unsubscribe_all_subscribers (l : list A) : forall bus id,
  (MessageBus._subscribers bus !! id = None \/ In id (map agent_id l)) ->
  MessageBus._subscribers
    (fold_left (fun b a => MessageBus.unsubscribe (agent_id a) b) l bus) !! id
  = None.
Proof.
  induction l as [|a l IH]; intros bus id Hid; cbn [fold_left map In] in *.
  - by destruct Hid.
  - apply IH. unfold MessageBus.unsubscribe.
    cbn [MessageBus._subscribers].
    destruct (decide (agent_id a = id)) as [->|Hne].
    + left. apply lookup_delete_eq.
    + destruct Hid as [Hid|[Hid|Hid]]; [|contradiction|by right].
      left. by rewrite lookup_delete_ne.
Qed.

(** X5. [reset_simulation] leaves a stopped simulation at step 0 with the
    same roster, every agent's flag set again (so [get_simulation_state]
    counts all of them as active) and every mailbox empty; the agents
    stay unsubscribed from the bus, since [stop_simulation] unsubscribed
    them and the reset does not subscribe them. The roles' identifiers
    do not depend on the flag. *)
Theorem reset_simulation_revives_without_subscribing
    (m : SimulationManager.t A) :
  (forall v a, agent_id (set_active v a) = agent_id a) ->
  let m' := SimulationManager.reset_simulation m in
  let st := SimulationManager.get_simulation_state m' in
  SimulationManager.state_current_step st = 0%Z
  /\ SimulationManager.state_is_running st = false
  /\ SimulationManager.state_is_paused st = false
  /\ map agent_id (SimulationManager.agents m')
     = map agent_id (SimulationManager.agents m)
  /\ SimulationManager.active_agents st = SimulationManager.total_agents st
  /\ SimulationManager.total_agents st = length (SimulationManager.agents m)
  /\ MessageBus.total_queued_messages (SimulationManager.message_bus_stats st)
     = 0%nat
  /\ forall a, In a (SimulationManager.agents m') ->
       is_active a = true
       /\ MessageBus._subscribers (SimulationManager.message_bus m')
            !! agent_id a = None.
Proof.
  intros Hid m' st. subst st m'.
  unfold SimulationManager.reset_simulation, SimulationManager.stop_simulation.
  rewrite deactivate_all_spec.
  cbn [SimulationManager.get_simulation_state SimulationManager.agents
       SimulationManager.current_step SimulationManager.is_running
       SimulationManager.is_paused SimulationManager.message_bus
       SimulationManager.state_current_step SimulationManager.state_is_running
       SimulationManager.state_is_paused SimulationManager.active_agents
       SimulationManager.total_agents SimulationManager.message_bus_stats].
  do 3 (split; [reflexivity|]).
  assert (map agent_id (map (set_active true)
            (map (set_active false) (SimulationManager.agents m)))
          = map agent_id (SimulationManager.agents m)) as Hids.
  { rewrite !map_map. apply map_ext. intros a. by rewrite !Hid. }
  split; [exact Hids|].
  assert (forall l : list A,
            List.filter is_active (map (set_active true) l)
            = map (set_active true) l) as Hall.
  { induction l as [|a l IH]; [reflexivity|]. cbn [map List.filter].
    rewrite is_active_set_active. by rewrite IH. }
  split; [by rewrite Hall|].
  split; [by rewrite !length_map|].
  split; [cbn; by rewrite map_to_list_empty|].
  intros a Ha. split.
  - apply in_map_iff in Ha as (a0 & <- & _). apply is_active_set_active.
  - cbn [MessageBus.clear_all_queues MessageBus.set_queues
         MessageBus._subscribers].
    apply unsubscribe_all_subscribers. right. rewrite <- Hids.
    by apply in_map.
Qed.

Lemma step_outcome (m : SimulationManager.t A) :
  SimulationManager.is_running m = true ->
  SimulationManager.is_paused m = false ->
  let m1 := snd (SimulationManager.step m) in
  SimulationManager.current_step m1 = (SimulationManager.current_step m + 1)%Z
  /\ SimulationManager.is_paused m1 = false
  /\ SimulationManager.is_running m1 = fst (SimulationManager.step m)
  /\ (fst (SimulationManager.step m) = false ->
        existsb is_active (SimulationManager.agents m1) = false
        /\ MessageBus._agent_queues (SimulationManager.message_bus m1) = ∅).
Proof.
  intros Hrun Hpause. unfold SimulationManager.step. rewrite Hrun, Hpause.
  cbn [negb orb].
  destruct (SimulationManager.deliver_all _ _) as [agents1 bus1].
  destruct (SimulationManager.advance_all agents1 bus1) as [[agents2 bus2] n].
  destruct (n =? 0)%Z; cbn [fst snd].
  - destruct (stop_simulation_flags
                (SimulationManager.mk agents2
                   (SimulationManager.current_step m + 1) true false bus2))
      as (H1 & H2 & H3 & H4).
    repeat split; try assumption.
    apply stop_simulation_inactive.
  - cbn. repeat split; try assumption; discriminate.
Qed.

Lemma run_steps_counts (k : nat) : forall m : SimulationManager.t A,
  SimulationManager.is_running m = true ->
  SimulationManager.is_paused m = false ->
  let m' := SimulationManager.run_steps k m in
  (SimulationManager.current_step m <= SimulationManager.current_step m'
   <= SimulationManager.current_step m + Z.of_nat k)%Z
  /\ (SimulationManager.is_running m' = true ->
        SimulationManager.current_step m'
        = (SimulationManager.current_step m + Z.of_nat k)%Z)
  /\ (SimulationManager.is_running m' = false ->
        existsb is_active (SimulationManager.agents m') = false
        /\ MessageBus._agent_queues (SimulationManager.message_bus m') = ∅).
Proof.
  induction k as [|k IH]; intros m Hrun Hpause; cbn zeta.
  - cbn [SimulationManager.run_steps]. split; [lia|]. split; [intros _; lia|].
    congruence.
  - cbn [SimulationManager.run_steps].
    destruct (step_outcome m Hrun Hpause) as (Hstep & Hp1 & Hr1 & Hhalt).
    destruct (SimulationManager.step m) as [ok m1]. cbn [fst snd] in *.
    destruct ok.
    + destruct (IH m1 Hr1 Hp1) as (Hle & Heq & Hoff). cbn zeta in *.
      split; [lia|]. split; [|exact Hoff].
      intros Hr. rewrite (Heq Hr). lia.
    + split; [lia|]. split; [congruence|]. intros _. by apply Hhalt.
Qed.

(** X6. [run_for_steps n] starts the simulation when it is not running
    (the counter then restarts at 0) and performs at most [n] ticks. If
    the simulation is still running afterwards, the step counter has
    advanced by exactly [n] (by 0 for a negative [n]); if it is not, some
    tick found no active agent, and the run ended with no active agent
    and no queued envelope. *)
Theorem run_for_steps_counts (n : Z) (m : SimulationManager.t A) :
  (SimulationManager.is_running m = true ->
   SimulationManager.is_paused m = false) ->
  let m0 := if negb (SimulationManager.is_running m)
            then SimulationManager.start_simulation m else m in
  let m' := SimulationManager.run_for_steps n m in
  SimulationManager.current_step m0
  = (if SimulationManager.is_running m
     then SimulationManager.current_step m else 0%Z)
  /\ (SimulationManager.current_step m0 <= SimulationManager.current_step m'
      <= SimulationManager.current_step m0 + Z.max 0 n)%Z
  /\ (SimulationManager.is_running m' = true ->
        SimulationManager.current_step m'
        = (SimulationManager.current_step m0 + Z.max 0 n)%Z)
  /\ (SimulationManager.is_running m' = false ->
        SimulationManager.active_agents
          (SimulationManager.get_simulation_state m') = 0%nat
        /\ MessageBus.total_queued_messages
             (SimulationManager.message_bus_stats
                (SimulationManager.get_simulation_state m')) = 0%nat).
Proof.
  intros Hp m0 m'.
  assert (SimulationManager.is_running m0 = true
          /\ SimulationManager.is_paused m0 = false) as [Hrun Hpause].
  { unfold m0, SimulationManager.start_simulation.
    destruct (SimulationManager.is_running m) eqn:Er; cbn; auto. }
  split.
  { unfold m0, SimulationManager.start_simulation.
    by destruct (SimulationManager.is_running m). }
  destruct (run_steps_counts (Z.to_nat n) m0 Hrun Hpause) as (Hle & Heq & Hoff).
  cbn zeta in *. fold m0 in Hle, Heq, Hoff.
  change (SimulationManager.run_steps (Z.to_nat n) m0) with m' in *.
  replace (Z.of_nat (Z.to_nat n)) with (Z.max 0 n) in * by lia.
  split; [exact Hle|]. split; [exact Heq|].
  intros Hr. destruct (Hoff Hr) as [Hin Hq]. cbn.
  rewrite (filter_inactive _ Hin), Hq. by rewrite map_to_list_empty.
Qed.

End SchedulerLifecycle.

Lemma stopped_simulation_cannot_be_restarted_witness :
  let m0 := SimulationManager.stop_simulation fault_roster in
  let m1 := SimulationManager.start_simulation m0 in
  SimulationManager.active_agents (SimulationManager.get_simulation_state m0)
  = 0%nat
  /\ SimulationManager.is_running m1 = true
  /\ SimulationManager.current_step m1 = 0%Z
  /\ fst (SimulationManager.step m1) = false
  /\ SimulationManager.is_running (snd (SimulationManager.step m1)) = false
  /\ existsb is_active
       (SimulationManager.agents (snd (SimulationManager.step m1))) = false.
Proof.
  exact (stopped_simulation_cannot_be_restarted fault_roster).
Defined.

Lemma reset_simulation_revives_without_subscribing_witness :
  let m' := SimulationManager.reset_simulation same_tick_roster in
  let st := SimulationManager.get_simulation_state m' in
  SimulationManager.state_current_step st = 0%Z
  /\ SimulationManager.state_is_running st = false
  /\ SimulationManager.state_is_paused st = false
  /\ map agent_id (SimulationManager.agents m')
     = map agent_id (SimulationManager.agents same_tick_roster)
  /\ SimulationManager.active_agents st = SimulationManager.total_agents st
  /\ SimulationManager.total_agents st
     = length (SimulationManager.agents same_tick_roster)
  /\ MessageBus.total_queued_messages (SimulationManager.message_bus_stats st)
     = 0%nat
  /\ forall a, In a (SimulationManager.agents m') ->
       is_active a = true
       /\ MessageBus._subscribers (SimulationManager.message_bus m')
            !! agent_id a = None.
Proof.
  apply (reset_simulation_revives_without_subscribing same_tick_roster).
  intros v [a|a|a]; reflexivity.
Defined.

Lemma run_for_steps_counts_witness :
  let m := scenario_c in
  let m0 := if negb (SimulationManager.is_running m)
            then SimulationManager.start_simulation m else m in
  let m' := SimulationManager.run_for_steps 7 m in
  SimulationManager.current_step m0
  = (if SimulationManager.is_running m
     then SimulationManager.current_step m else 0%Z)
  /\ (SimulationManager.current_step m0 <= SimulationManager.current_step m'
      <= SimulationManager.current_step m0 + Z.max 0 7)%Z
  /\ (SimulationManager.is_running m' = true ->
        SimulationManager.current_step m'
        = (SimulationManager.current_step m0 + Z.max 0 7)%Z)
  /\ (SimulationManager.is_running m' = false ->
        SimulationManager.active_agents
          (SimulationManager.get_simulation_state m') = 0%nat
        /\ MessageBus.total_queued_messages
             (SimulationManager.message_bus_stats
                (SimulationManager.get_simulation_state m')) = 0%nat).
Proof.
  apply (run_for_steps_counts 7 scenario_c). reflexivity.
Defined.

Section PauseResume.
Context {A : Type} `{Agent A}.

(** X7. A running simulation that is paused is frozen: [step] returns
    [False] and changes nothing, and so does [run_for_steps] for any
    number of steps ([start_simulation] does not lift the pause either).
    Resuming undoes the pause: the next tick is the one the simulation
    would have taken, and a simulation that was not paused before is
    back to the very same state. *)
Theorem pause_freezes_and_resume_restores (m : SimulationManager.t A)
    (n : Z) :
  SimulationManager.is_running m = true ->
  SimulationManager.step (SimulationManager.pause_simulation m)
  = (false, SimulationManager.pause_simulation m)
  /\ SimulationManager.run_for_steps n (SimulationManager.pause_simulation m)
     = SimulationManager.pause_simulation m
  /\ SimulationManager.step
       (SimulationManager.resume_simulation
          (SimulationManager.pause_simulation m))
     = SimulationManager.step (SimulationManager.resume_simulation m)
  /\ (SimulationManager.is_paused m = false ->
        SimulationManager.resume_simulation
          (SimulationManager.pause_simulation m) = m)
  /\ SimulationManager.start_simulation (SimulationManager.pause_simulation m)
     = SimulationManager.pause_simulation m.
Proof.
  intros Hrun. destruct m as [agents now running paused bus].
  cbn in Hrun. subst running.
  assert (SimulationManager.step
            (SimulationManager.pause_simulation
               (SimulationManager.mk agents now true paused bus))
          = (false, SimulationManager.pause_simulation
                      (SimulationManager.mk agents now true paused bus)))
    as Hstep by reflexivity.
  split; [exact Hstep|]. split.
  { unfold SimulationManager.run_for_steps.
    destruct (Z.to_nat n) as [|k]; [reflexivity|].
    cbn [SimulationManager.pause_simulation SimulationManager.is_running negb].
    cbn [SimulationManager.run_steps]. cbn [SimulationManager.pause_simulation
      SimulationManager.is_running negb] in Hstep. by rewrite Hstep. }
  split; [reflexivity|]. split; [|reflexivity].
  cbn. by intros ->.
Qed.

End PauseResume.

Lemma pause_freezes_and_resume_restores_witness :
  let m := scenario_c in
  SimulationManager.step (SimulationManager.pause_simulation m)
  = (false, SimulationManager.pause_simulation m)
  /\ SimulationManager.run_for_steps 5 (SimulationManager.pause_simulation m)
     = SimulationManager.pause_simulation m
  /\ SimulationManager.step
       (SimulationManager.resume_simulation
          (SimulationManager.pause_simulation m))
     = SimulationManager.step (SimulationManager.resume_simulation m)
  /\ (SimulationManager.is_paused m = false ->
        SimulationManager.resume_simulation
          (SimulationManager.pause_simulation m) = m)
  /\ SimulationManager.start_simulation (SimulationManager.pause_simulation m)
     = SimulationManager.pause_simulation m.
Proof.
  apply (pause_freezes_and_resume_restores scenario_c 5). reflexivity.
Defined.

(** ** Insertion-ordered dictionaries *)
Section PyDictFacts.
Context {V : Type}.

Lemma PyDict_get_set_eq (k : string) (v : V) (d : PyDict.t V) :
  PyDict.get k (PyDict.set k v d) = Some v.
Proof.
  induction d as [|[k' v'] d IH]; cbn.
  - by rewrite String.eqb_refl.
  - destruct (String.eqb_spec k k') as [->|Hne]; cbn.
    + by rewrite String.eqb_refl.
    + destruct (String.eqb_spec k k'); [contradiction|exact IH].
Qed.

Lemma PyDict_get_set_ne (k k' : string) (v : V) (d : PyDict.t V) :
  k <> k' -> PyDict.get k (PyDict.set k' v d) = PyDict.get k d.
Proof.
  intros Hne. induction d as [|[k0 v0] d IH]; cbn.
  - by destruct (String.eqb_spec k k').
  - destruct (String.eqb_spec k' k0) as [->|Hne0]; cbn.
    + by destruct (String.eqb_spec k k0).
    + destruct (String.eqb_spec k k0); [reflexivity|exact IH].
Qed.

Lemma opt_eqb_spec (x y : option string) : reflect (x = y) (opt_eqb x y).
Proof.
  destruct (opt_eqb x y) eqn:E; constructor.
  - by apply opt_eqb_eq.
  - by apply opt_eqb_neq.
Qed.

Lemma PyDictO_get_set_eq (k : option string) (v : V) (d : PyDictO.t V) :
  PyDictO.get k (PyDictO.set k v d) = Some v.
Proof.
  induction d as [|[k' v'] d IH]; cbn [PyDictO.get PyDictO.set].
  - by destruct (opt_eqb_spec k k).
  - destruct (opt_eqb_spec k k') as [->|Hne]; cbn [PyDictO.get].
    + by destruct (opt_eqb_spec k' k').
    + destruct (opt_eqb_spec k k'); [contradiction|exact IH].
Qed.

Lemma PyDictO_get_set_ne (k k' : option string) (v : V) (d : PyDictO.t V) :
  k <> k' -> PyDictO.get k (PyDictO.set k' v d) = PyDictO.get k d.
Proof.
  intros Hne. induction d as [|[k0 v0] d IH]; cbn [PyDictO.get PyDictO.set].
  - by destruct (opt_eqb_spec k k').
  - destruct (opt_eqb_spec k' k0) as [->|Hne0]; cbn [PyDictO.get].
    + by destruct (opt_eqb_spec k k0).
    + destruct (opt_eqb_spec k k0); [reflexivity|exact IH].
Qed.

Lemma PyDictO_get_of_str (k : string) (d : PyDict.t V) :
  PyDictO.get (Some k) (PyDictO.of_str d) = PyDict.get k d.
Proof.
  unfold PyDictO.of_str.
  induction d as [|[k' v'] d IH]; cbn; [reflexivity|].
  destruct (String.eqb k k'); [reflexivity|exact IH].
Qed.

End PyDictFacts.



(** ** One delivery seen by carrier, distributor and retailer *)
Section DeliveryNotifications.

Lemma unloading_step_bus a b o d :
  TruckAgent.status a = "unloading" ->
  TruckAgent.current_order a = Some o ->
  TruckAgent.dispatcher_id a = Some d ->
  TruckAgent.agent_id a <> "" -> d <> "" -> TruckAgent.recipient o <> "" ->
  exists a',
    TruckAgent.step (a, b)
    = (Ok tt,
       (a', MessageBus.publish (delivery_notification_msg a o)
              (MessageBus.publish (delivery_complete_msg a o d)
                 (drained_bus (TruckAgent.agent_id a) b)))).
Proof.
  intros Hst Ho Hd Hid Hdne Hrne.
  assert (TruckAgent.status a <> "available") as Hbusy
    by (rewrite Hst; discriminate).
  unfold TruckAgent.step. unfold bind at 1. unfold TruckAgent.self at 1.
  cbn beta iota.
  unfold bind at 1. rewrite process_messages_busy by assumption.
  cbn beta iota.
  unfold bind at 1. unfold TruckAgent.self at 1. cbn beta iota. rewrite Hst.
  cbn [String.eqb Ascii.eqb Bool.eqb].
  unfold TruckAgent._complete_unloading. unfold bind at 1.
  unfold TruckAgent.self at 1.
  cbn beta iota. rewrite Ho.
  apply String.eqb_neq in Hid, Hdne, Hrne.
  set (b1 := drained_bus (TruckAgent.agent_id a) b).
  assert (forall a1 : TruckAgent.t,
            exists a',
      bind (BaseAgent.send_message (TruckAgent.agent_id a)
              (TruckAgent.dispatcher_id a) "DELIVERY_COMPLETE"
              (<["order_id" := VStr (TruckAgent.order_id o)]>
                (<["product_id" := VStr (TruckAgent.product_id o)]>
                  (<["quantity" := VInt (TruckAgent.quantity o)]>
                    (<["delivery_location" :=
                         TruckAgent.of_opt (TruckAgent.delivery_location_id a)]>
                       ∅)))))
        (fun _ => bind
           (BaseAgent.send_message (TruckAgent.agent_id a)
              (Some (TruckAgent.recipient o))
              "DELIVERY_NOTIFICATION"
              (<["order_id" := VStr (TruckAgent.order_id o)]>
                (<["product_id" := VStr (TruckAgent.product_id o)]>
                  (<["quantity" := VInt (TruckAgent.quantity o)]> ∅))))
           (fun _ => TruckAgent._reset_to_available)) (a1, b1)
      = (Ok tt,
         (a', MessageBus.publish (delivery_notification_msg a o)
                (MessageBus.publish (delivery_complete_msg a o d) b1))))
    as Hsend.
  { intros a1.
    unfold bind, BaseAgent.send_message, Message.init. rewrite Hd.
    rewrite Hid, Hdne, Hrne. cbn [String.eqb Ascii.eqb Bool.eqb].
    unfold TruckAgent._reset_to_available, bind, TruckAgent.upd, modify,
      TruckAgent.self.
    cbn -[MessageBus.publish].
    eexists. reflexivity. }
  unfold bind at 1.
  destruct (TruckAgent.cargo a !! TruckAgent.product_id o) as [held|].
  - destruct (TruckAgent.quantity o <=? held)%Z.
    + unfold TruckAgent.upd at 1, modify at 1. cbn beta iota.
      match goal with
      | |- context [bind _ _ (?a1, b1)] =>
        destruct (Hsend a1) as (a' & Hrun)
      end.
      exists a'. by rewrite Hrun.
    + unfold ret at 1. cbn beta iota.
      destruct (Hsend a) as (a' & Hrun). exists a'. by rewrite Hrun.
  - unfold ret at 1. cbn beta iota.
    destruct (Hsend a) as (a' & Hrun). exists a'. by rewrite Hrun.
Qed.

Lemma queue_drained_bus_other id b r :
  r <> id -> MessageBus.queue (drained_bus id b) r = MessageBus.queue b r.
Proof.
  intros Hne. unfold drained_bus.
  assert (forall (ms : list Message.t) b0,
            MessageBus.queue
              (fold_left (fun b m => MessageBus.log (Handled id m) b) ms b0) r
            = MessageBus.queue b0 r) as Hfold.
  { induction ms as [|m ms IH]; intros b0; [reflexivity|]. cbn. by rewrite IH. }
  rewrite Hfold. unfold MessageBus.queue. cbn. by rewrite lookup_insert_ne.
Qed.

Lemma queue_publish_to m b r :
  Message.recipient m = r ->
  MessageBus.queue (MessageBus.publish m b) r
  = enqueue (MessageBus.queue b r) m.
Proof. intros <-. apply queue_publish_same. Qed.

Lemma process_messages_feed {R} id
    (handle : Message.t -> M (R * MessageBus.t) unit) (x : R) b :
  BaseAgent.process_messages id handle (x, b)
  = for_each (MessageBus.queue b id) (feed id handle)
      (x, snd (MessageBus.deliver_messages id b)).
Proof. reflexivity. Qed.

Lemma complete_fields a o d :
  Message.sender (delivery_complete_msg a o d) = TruckAgent.agent_id a
  /\ Message.message_type (delivery_complete_msg a o d) = "DELIVERY_COMPLETE"
  /\ as_id (Message.data_get (delivery_complete_msg a o d) "order_id")
     = Some (TruckAgent.order_id o).
Proof.
  unfold Message.data_get, delivery_complete_msg. cbn [Message.data].
  repeat split; by simplify_map_eq.
Qed.

Lemma notification_fields m oid pid q sender recipient :
  m = Message.mk sender recipient "DELIVERY_NOTIFICATION"
        (<["order_id" := VStr oid]>
          (<["product_id" := VStr pid]> (<["quantity" := VInt q]> ∅))) ->
  Message.message_type m = "DELIVERY_NOTIFICATION"
  /\ as_id (Message.data_get m "order_id") = Some oid
  /\ as_id (Message.data_get m "product_id") = Some pid
  /\ Message.data_get_default m "quantity" (VInt 0) = VInt q.
Proof.
  intros ->. unfold Message.data_get, Message.data_get_default.
  cbn [Message.data Message.message_type]. repeat split; by simplify_map_eq.
Qed.

(** The distributor's handler on DELIVERY_COMPLETE for an order it is
    processing: one DELIVERY_NOTIFICATION goes to the requester. *)
Lemma warehouse_notifies_requester w b m oid ord :
  Message.message_type m = "DELIVERY_COMPLETE" ->
  as_id (Message.data_get m "order_id") = Some oid ->
  PyDict.get oid (WarehouseAgent.processing_orders w) = Some ord ->
  WarehouseAgent.agent_id w <> "" -> Order.requester ord <> "" ->
  exists w',
    WarehouseAgent.handle_message m (w, b)
    = (Ok tt, (w', MessageBus.publish (warehouse_notification_msg w ord oid) b))
    /\ WarehouseAgent.inventory w' = WarehouseAgent.inventory w.
Proof.
  intros Hty Hoid Hget Hid Hreq.
  apply String.eqb_neq in Hid, Hreq.
  assert (exists w',
            WarehouseAgent._handle_delivery_complete m (w, b)
            = (Ok tt,
               (w', MessageBus.publish (warehouse_notification_msg w ord oid)
                      b))
            /\ WarehouseAgent.inventory w' = WarehouseAgent.inventory w)
    as (w' & Hrun & Hinv).
  { unfold WarehouseAgent._handle_delivery_complete. rewrite Hoid.
    unfold bind at 1. unfold WarehouseAgent.self at 1. cbn beta iota.
    rewrite Hget.
    assert (forall w1 : WarehouseAgent.t,
              WarehouseAgent.inventory w1 = WarehouseAgent.inventory w ->
              exists w',
                bind (lift (Order.update_status "delivered" ord))
                  (fun order' =>
                     bind (WarehouseAgent.upd (fun a =>
                             WarehouseAgent.set_processing_orders
                               (PyDict.set oid order'
                                  (WarehouseAgent.processing_orders a)) a))
                       (fun _ =>
                          bind (BaseAgent.send_message
                                  (WarehouseAgent.agent_id w)
                                  (Some (Order.requester ord))
                                  "DELIVERY_NOTIFICATION"
                                  (<["order_id" := VStr oid]>
                                    (<["product_id" :=
                                         VStr (Order.product_id ord)]>
                                      (<["quantity" :=
                                           VInt (Order.quantity ord)]> ∅))))
                            (fun _ =>
                               WarehouseAgent.upd (fun a =>
                                 WarehouseAgent.set_processing_orders
                                   (PyDict.del oid
                                      (WarehouseAgent.processing_orders a))
                                   a)))) (w1, b)
                = (Ok tt,
                   (w', MessageBus.publish
                          (warehouse_notification_msg w ord oid) b))
                /\ WarehouseAgent.inventory w' = WarehouseAgent.inventory w)
      as Hrest.
    { intros w1 Hinv.
      unfold bind, lift, Order.update_status, WarehouseAgent.upd,
        modify, BaseAgent.send_message, Message.init.
      cbn [existsb Order.valid_statuses String.eqb Ascii.eqb Bool.eqb orb].
      rewrite Hid, Hreq. cbn [String.eqb Ascii.eqb Bool.eqb].
      eexists. split; [reflexivity|]. exact Hinv. }
    destruct (WarehouseAgent.assigned_trucks w !! Message.sender m).
    - unfold bind at 1. unfold WarehouseAgent.upd at 1, modify at 1.
      cbn beta iota.
      match goal with
      | |- context [bind _ _ (?w1, b)] => exact (Hrest w1 eq_refl)
      end.
    - unfold bind at 1. unfold ret at 1. cbn beta iota.
      exact (Hrest w eq_refl). }
  exists w'. split; [|exact Hinv].
  unfold WarehouseAgent.handle_message, try_except. rewrite Hty.
  cbn [String.eqb Ascii.eqb Bool.eqb]. by rewrite Hrun.
Qed.

Lemma store_credits s b m oid pid q sord :
  Message.message_type m = "DELIVERY_NOTIFICATION" ->
  as_id (Message.data_get m "order_id") = Some oid ->
  as_id (Message.data_get m "product_id") = Some pid ->
  Message.data_get_default m "quantity" (VInt 0) = VInt q ->
  PyDict.get oid (StoreAgent.pending_orders s) = Some sord ->
  StoreAgent.handle_message m (s, b) = (Ok tt, (credited oid pid q sord s, b)).
Proof.
  intros Hty Hoid Hpid Hq Hget.
  unfold StoreAgent.handle_message, try_except. rewrite Hty.
  cbn [String.eqb Ascii.eqb Bool.eqb].
  unfold StoreAgent._handle_delivery. rewrite Hoid, Hpid, Hq.
  unfold bind at 1. unfold StoreAgent.self at 1. cbn beta iota.
  rewrite Hget. reflexivity.
Qed.

Lemma credited_level oid pid q sord s :
  StoreAgent.get_inventory_level (credited oid pid q sord s) pid
  = (StoreAgent.get_inventory_level s pid + q)%Z.
Proof.
  unfold credited, StoreAgent.get_inventory_level at 1.
  cbn [StoreAgent.inventory StoreAgent.set_pending_orders
       StoreAgent.set_inventory].
  by rewrite PyDict_get_set_eq.
Qed.

Lemma credited_pending oid pid q sord s :
  PyDict.get oid (StoreAgent.pending_orders (credited oid pid q sord s))
  = Some (Order.set_status "delivered" sord).
Proof.
  unfold credited.
  cbn [StoreAgent.pending_orders StoreAgent.set_pending_orders].
  apply PyDict_get_set_eq.
Qed.

(** X8. One delivery reaches the retailer twice. When a carrier unloads
    an order that its dispatcher still lists as being processed, the
    carrier's advance puts DELIVERY_COMPLETE in the distributor's mailbox
    and DELIVERY_NOTIFICATION in the retailer's; the distributor, on
    draining its mailbox, sends the retailer a second
    DELIVERY_NOTIFICATION for the same order. The retailer's handler
    credits its inventory for every notification of an order it knows
    (the order is marked delivered but never leaves [pending_orders]),
    so after draining its mailbox the retailer holds the delivered
    quantity twice. *)
Theorem one_delivery_is_credited_twice
    (a : TruckAgent.t) (w : WarehouseAgent.t) (s : StoreAgent.t)
    (b : MessageBus.t) (o : TruckAgent.order_info) (ord sord : Order.t) :
  let truck_id := TruckAgent.agent_id a in
  let warehouse_id := WarehouseAgent.agent_id w in
  let store_id := StoreAgent.agent_id s in
  let oid := TruckAgent.order_id o in
  let pid := TruckAgent.product_id o in
  let q := TruckAgent.quantity o in
  TruckAgent.status a = "unloading" ->
  TruckAgent.current_order a = Some o ->
  TruckAgent.dispatcher_id a = Some warehouse_id ->
  TruckAgent.recipient o = store_id ->
  PyDict.get oid (WarehouseAgent.processing_orders w) = Some ord ->
  Order.requester ord = store_id ->
  Order.product_id ord = pid ->
  Order.quantity ord = q ->
  PyDict.get oid (StoreAgent.pending_orders s) = Some sord ->
  truck_id <> "" -> warehouse_id <> "" -> store_id <> "" ->
  truck_id <> warehouse_id -> truck_id <> store_id ->
  warehouse_id <> store_id ->
  MessageBus.queue b warehouse_id = [] ->
  MessageBus.queue b store_id = [] ->
  let b1 := snd (snd (TruckAgent.step (a, b))) in
  let b2 :=
    snd (snd (BaseAgent.process_messages warehouse_id
                WarehouseAgent.handle_message (w, b1))) in
  let s3 :=
    fst (snd (BaseAgent.process_messages store_id
                StoreAgent.handle_message (s, b2))) in
  MessageBus.queue b1 warehouse_id = [delivery_complete_msg a o warehouse_id]
  /\ MessageBus.queue b2 store_id
     = [delivery_notification_msg a o; warehouse_notification_msg w ord oid]
  /\ s3 = credited oid pid q (Order.set_status "delivered" sord)
            (credited oid pid q sord s)
  /\ StoreAgent.get_inventory_level s3 pid
     = (StoreAgent.get_inventory_level s pid + 2 * q)%Z.
Proof.
  intros truck_id warehouse_id store_id oid pid q
    Hst Ho Hd Hrcpt Hproc Hreq Hpid Hq Hpend
    Htid Hwid Hsid Htw Hts Hws Hqw Hqs b1 b2 s3.
  destruct (unloading_step_bus a b o warehouse_id Hst Ho Hd Htid Hwid)
    as (a1 & Hstep); [by rewrite Hrcpt|].
  assert (b1 = MessageBus.publish (delivery_notification_msg a o)
                 (MessageBus.publish (delivery_complete_msg a o warehouse_id)
                    (drained_bus truck_id b))) as Hb1.
  { unfold b1. by rewrite Hstep. }
  clearbody b1. subst b1.
  set (bd := drained_bus truck_id b) in *.
  assert (MessageBus.queue bd warehouse_id = []) as Hqw'.
  { unfold bd. rewrite queue_drained_bus_other by congruence. exact Hqw. }
  assert (MessageBus.queue bd store_id = []) as Hqs'.
  { unfold bd. rewrite queue_drained_bus_other by congruence. exact Hqs. }
  set (mc := delivery_complete_msg a o warehouse_id) in *.
  set (mn := delivery_notification_msg a o) in *.
  assert (Message.recipient mc = warehouse_id) as Hrc by reflexivity.
  assert (Message.recipient mn = store_id) as Hrn by exact Hrcpt.
  set (bc := MessageBus.publish mc bd) in *.
  assert (MessageBus.queue bc warehouse_id = [mc]) as Hbcw.
  { unfold bc. rewrite (queue_publish_to _ _ _ Hrc), Hqw'. reflexivity. }
  assert (MessageBus.queue bc store_id = []) as Hbcs.
  { unfold bc. rewrite queue_publish_other by (rewrite Hrc; congruence).
    exact Hqs'. }
  set (bn := MessageBus.publish mn bc) in *.
  assert (MessageBus.queue bn warehouse_id = [mc]) as Hbnw.
  { unfold bn. rewrite queue_publish_other by (rewrite Hrn; congruence).
    exact Hbcw. }
  assert (MessageBus.queue bn store_id = [mn]) as Hbns.
  { unfold bn. rewrite (queue_publish_to _ _ _ Hrn), Hbcs. reflexivity. }
  split; [exact Hbnw|].
  (* the distributor drains its mailbox *)
  destruct (complete_fields a o warehouse_id) as (_ & Hcty & Hcoid).
  fold mc in Hcty, Hcoid.
  assert (Order.requester ord <> "") as Hreq' by (rewrite Hreq; exact Hsid).
  set (bw := MessageBus.log (Handled warehouse_id mc)
               (snd (MessageBus.deliver_messages warehouse_id bn))).
  destruct (warehouse_notifies_requester w bw mc oid ord Hcty Hcoid Hproc
              Hwid Hreq') as (w' & Hwrun & _).
  set (mw := warehouse_notification_msg w ord oid) in *.
  assert (b2 = MessageBus.publish mw bw) as Hb2.
  { unfold b2. rewrite process_messages_feed, Hbnw.
    cbn [for_each]. unfold bind at 1, feed at 1, bind at 1, modify at 1.
    cbn beta iota. fold bw. unfold try_except at 1. rewrite Hwrun.
    reflexivity. }
  clearbody b2. subst b2.
  assert (MessageBus.queue bw store_id = [mn]) as Hbws.
  { unfold bw, MessageBus.queue. cbn.
    rewrite lookup_insert_ne by exact Hws. exact Hbns. }
  assert (Message.recipient mw = store_id) as Hrw by exact Hreq.
  assert (MessageBus.queue (MessageBus.publish mw bw) store_id = [mn; mw])
    as Hq2.
  { rewrite (queue_publish_to _ _ _ Hrw), Hbws. reflexivity. }
  split; [exact Hq2|].
  (* the retailer drains its mailbox *)
  destruct (notification_fields mn oid pid q truck_id (TruckAgent.recipient o)
              eq_refl) as (Hn1 & Hn2 & Hn3 & Hn4).
  destruct (notification_fields mw oid pid q warehouse_id
              (Order.requester ord)) as (Hw1 & Hw2 & Hw3 & Hw4).
  { unfold mw, warehouse_notification_msg. by rewrite Hpid, Hq. }
  assert (s3 = credited oid pid q (Order.set_status "delivered" sord)
                 (credited oid pid q sord s)) as Hs3.
  { unfold s3. rewrite process_messages_feed, Hq2.
    cbn [for_each]. unfold bind at 1, feed at 1, bind at 1, modify at 1.
    cbn beta iota. unfold try_except at 1.
    rewrite (store_credits s _ mn oid pid q sord Hn1 Hn2 Hn3 Hn4 Hpend).
    unfold bind at 1, feed at 1, bind at 1, modify at 1.
    cbn beta iota. unfold try_except at 1.
    rewrite (store_credits _ _ mw oid pid q _ Hw1 Hw2 Hw3 Hw4
               (credited_pending oid pid q sord s)).
    reflexivity. }
  split; [exact Hs3|].
  rewrite Hs3, !credited_level. lia.
Qed.

Lemma one_delivery_is_credited_twice_witness :
  let b1 := snd (snd (TruckAgent.step (unloading_truck, MessageBus.init 0))) in
  let b2 :=
    snd (snd (BaseAgent.process_messages "warehouse_1"
                WarehouseAgent.handle_message (processing_warehouse, b1))) in
  let s3 :=
    fst (snd (BaseAgent.process_messages "store_1"
                StoreAgent.handle_message (waiting_store, b2))) in
  StoreAgent.get_inventory_level waiting_store "p1" = 4%Z
  /\ StoreAgent.get_inventory_level s3 "p1" = 64%Z.
Proof.
  pose proof (one_delivery_is_credited_twice unloading_truck
                processing_warehouse waiting_store (MessageBus.init 0)
                (TruckAgent.mk_order "order_1" "p1" 30 "store_1")
                (Order.set_status "processing" sample_order) sample_order)
    as Hx.
  cbv zeta in Hx.
  split; [reflexivity|].
  apply Hx; try reflexivity; vm_compute; discriminate.
Defined.

End DeliveryNotifications.

(** ** Carrier: movement *)
Section TruckMovement.
Import TruckAgent.

Lemma same_assignment_refl a : same_assignment a a.
Proof. by repeat split. Qed.

Lemma same_assignment_trans a1 a2 a3 :
  same_assignment a1 a2 -> same_assignment a2 a3 -> same_assignment a1 a3.
Proof.
  unfold same_assignment. intros H12 H23.
  destruct H12 as (?&?&?&?&?&?&?&?&?&?&?&?&?).
  destruct H23 as (?&?&?&?&?&?&?&?&?&?&?&?&?).
  repeat split; congruence.
Qed.

(** One call of [_move_towards_destination]. *)
Lemma move_spec a b :
  exists a',
    _move_towards_destination (a, b) = (Ok tt, (a', b))
    /\ same_assignment a a'
    /\ status a' = status a
    /\ current_location_id a' = current_location_id a
    /\ destination_location_id a' = destination_location_id a
    /\ total_distance a' = total_distance a
    /\ (total_distance a <= 0 -> a' = a)%Q
    /\ (0 < total_distance a ->
        remaining_distance a'
        = remaining_distance a - Qmin (speed a) (remaining_distance a)
        /\ total_distance_traveled a'
           = total_distance_traveled a
             + Qmin (speed a) (remaining_distance a)
        /\ movement_progress a'
           = 1 - remaining_distance a' / total_distance a)%Q.
Proof.
  unfold _move_towards_destination, bind, self.
  destruct (Qle_bool (total_distance a) 0) eqn:Etot.
  - exists a. split; [reflexivity|]. split; [apply same_assignment_refl|].
    do 4 (split; [reflexivity|]). split; [reflexivity|].
    intros Hpos. apply Qle_bool_iff in Etot. lra.
  - eexists. split; [reflexivity|]. cbn.
    split; [by repeat split|]. do 4 (split; [reflexivity|]).
    split; [|by repeat split].
    intros Hle. apply Qle_bool_iff in Hle. congruence.
Qed.

(** [arrive], the body shared by [_arrive_at_pickup] and
    [_arrive_at_delivery]. *)
Lemma arrive_spec target st a b :
  exists a',
    arrive target st (a, b) = (Ok tt, (a', b))
    /\ same_assignment a a'
    /\ status a' = st
    /\ current_location_id a' = target
    /\ remaining_distance a' = 0%Q
    /\ movement_progress a' = 1%Q
    /\ total_distance_traveled a' = total_distance_traveled a.
Proof.
  unfold arrive, upd, modify.
  destruct (CityMap.get_location (city_map a) target);
    (eexists; split; [reflexivity|]; cbn; by repeat split).
Qed.

(** An advance of a carrier that is under way: the mailbox is drained
    without effect, the carrier moves, and arrives if it is within the
    tolerance of its destination. *)
Lemma moving_step phase st target a b :
  leg phase st target -> status a = phase ->
  exists am,
    _move_towards_destination (a, drained_bus (agent_id a) b)
    = (Ok tt, (am, drained_bus (agent_id a) b))
    /\ step (a, b)
       = (if _has_reached_destination am
          then arrive (target am) st (am, drained_bus (agent_id a) b)
          else (Ok tt, (am, drained_bus (agent_id a) b))).
Proof.
  intros Hleg Hst.
  assert (status a <> "available") as Hbusy.
  { destruct Hleg as [(-> & _)|(-> & _)]; rewrite Hst; discriminate. }
  destruct (move_spec a (drained_bus (agent_id a) b)) as (am & Hmove & _).
  exists am. split; [exact Hmove|].
  unfold step. unfold bind at 1. unfold self at 1. cbn beta iota.
  unfold bind at 1. rewrite process_messages_busy by assumption.
  cbn beta iota. unfold bind at 1. unfold self at 1. cbn beta iota.
  destruct Hleg as [(-> & -> & ->)|(-> & -> & ->)]; rewrite Hst;
    cbn [String.eqb Ascii.eqb Bool.eqb];
    unfold bind at 1; rewrite Hmove; cbn beta iota;
    unfold bind at 1, self at 1; cbn beta iota;
    (destruct (_has_reached_destination am); [|reflexivity]);
    reflexivity.
Qed.

Lemma leg_target phase st target a a' :
  leg phase st target -> same_assignment a a' -> target a' = target a.
Proof.
  intros Hleg Hsame. destruct Hsame as (?&?&?&?&?&?&?&?&?&?&?&?&?).
  by destruct Hleg as [(_ & _ & ->)|(_ & _ & ->)].
Qed.

Lemma published_publish_all ms : forall b,
  published (MessageBus.journal (MessageBus.publish_all ms b))
  = published (MessageBus.journal b) ++ ms.
Proof.
  induction ms as [|m ms IH]; intros b; cbn [MessageBus.publish_all fold_left].
  - by rewrite app_nil_r.
  - change (fold_left (fun b m => MessageBus.publish m b) ms
              (MessageBus.publish m b))
      with (MessageBus.publish_all ms (MessageBus.publish m b)).
    rewrite IH, published_publish, <- app_assoc. reflexivity.
Qed.

Lemma leg_arrives phase st target :
  leg phase st target ->
  forall (n : nat) incoming a b,
    length incoming = S n ->
    status a = phase ->
    (0 < speed a)%Q ->
    (0 <= remaining_distance a)%Q ->
    (remaining_distance a <= total_distance a)%Q ->
    (remaining_distance a <= inject_Z (Z.of_nat n) * speed a + speed a)%Q ->
    arrives_within incoming a b phase st (target a).
Proof.
  intros Hleg. unfold arrives_within.
  induction n as [|n IH]; intros incoming a b Hlen Hst Hsp Hr0 Hrt Hrn.
  all: destruct incoming as [|batch rest]; [discriminate|].
  all: set (b0 := MessageBus.publish_all batch b).
  all: destruct (moving_step phase st target a b0 Hleg Hst)
         as (am & Hmove & Hstep).
  all: destruct (move_spec a (drained_bus (agent_id a) b0))
         as (am' & Hmove' & Hsame & Hst' & Hcur & Hdst & Htot & Hstill & Hgo).
  all: rewrite Hmove in Hmove'; injection Hmove' as <-.
  all: pose proof (Q.min_spec (speed a) (remaining_distance a)) as Hmin.
  all: destruct (arrive_spec (target am) st am (drained_bus (agent_id a) b0))
         as (a' & Harr & Hsame' & Hst'' & Hcur' & Hrem' & _ & Htrav').
  all: assert (_has_reached_destination am = true ->
               exists k, (1 <= k <= 1)%nat
      /\ (forall j, (j < k)%nat ->
            status (fst (truck_run (take j (batch :: rest)) (a, b))) = phase)
      /\ status (fst (truck_run (take k (batch :: rest)) (a, b))) = st
      /\ current_location_id (fst (truck_run (take k (batch :: rest)) (a, b)))
         = target a
      /\ same_assignment a (fst (truck_run (take k (batch :: rest)) (a, b)))
      /\ remaining_distance (fst (truck_run (take k (batch :: rest)) (a, b)))
         = 0%Q
      /\ (total_distance_traveled a + remaining_distance a - (1 # 100)
          <= total_distance_traveled
               (fst (truck_run (take k (batch :: rest)) (a, b))))%Q
      /\ (total_distance_traveled
            (fst (truck_run (take k (batch :: rest)) (a, b)))
          <= total_distance_traveled a + remaining_distance a)%Q
      /\ published
           (MessageBus.journal
              (snd (truck_run (take k (batch :: rest)) (a, b))))
         = published (MessageBus.journal b)
           ++ concat (take k (batch :: rest))) as Hreached.
  1,3: intros Hreach; exists 1%nat; split; [lia|];
    (split; [intros j Hj; replace j with 0%nat by lia; exact Hst|]);
    cbn [take truck_run fst snd concat]; fold b0;
    rewrite Hstep, Hreach, Harr, take_0; cbn [truck_run concat fst snd];
    (split; [exact Hst''|]);
    (split; [rewrite Hcur'; by apply (leg_target phase st)|]);
    (split; [by apply (same_assignment_trans a am)|]);
    (split; [exact Hrem'|]);
    rewrite Htrav', published_drained; unfold b0;
    rewrite published_publish_all, app_nil_r;
    unfold _has_reached_destination in Hreach;
    apply Qle_bool_iff in Hreach;
    (destruct (Qlt_le_dec 0 (total_distance a)) as [Hpos|Hnon];
     [destruct (Hgo Hpos) as (Hrem & Htrav & _); rewrite Hrem in Hreach;
      rewrite Htrav
     |rewrite (Hstill Hnon) in *]);
    (split; [|split; [|reflexivity]]); lra.
  - (* the last unit of the bound: the move reaches the destination *)
    destruct Hreached as (k & Hk & Hrest).
    { unfold _has_reached_destination. apply Qle_bool_iff.
      destruct (Qlt_le_dec 0 (total_distance a)) as [Hpos|Hnon].
      + destruct (Hgo Hpos) as (Hrem & _). rewrite Hrem.
        change (inject_Z (Z.of_nat 0)) with 0%Q in Hrn. lra.
      + rewrite (Hstill Hnon). lra. }
    exists k. split; [cbn [length]; lia|exact Hrest].
  - destruct (_has_reached_destination am) eqn:Hreach.
    + destruct (Hreached eq_refl) as (k & Hk & Hrest).
      exists k. split; [cbn [length]; lia|exact Hrest].
    + assert (~ (remaining_distance am <= 1 # 100)%Q) as Hfar.
      { intros Hle. apply Qle_bool_iff in Hle.
        unfold _has_reached_destination in Hreach. congruence. }
      apply Qnot_le_lt in Hfar.
      assert (0 < total_distance a)%Q as Hpos.
      { destruct (Qlt_le_dec 0 (total_distance a)) as [Hpos|Hnon];
          [exact Hpos|]. rewrite (Hstill Hnon) in Hfar. lra. }
      destruct (Hgo Hpos) as (Hrem & Htrav & _).
      pose proof Hsame as Hsame0.
      destruct Hsame as (Hid & Hact & Hmap & Hspeed & Hsame).
      assert (inject_Z (Z.of_nat (S n)) == inject_Z (Z.of_nat n) + 1)%Q
        as Hsucc.
      { rewrite Nat2Z.inj_succ. unfold Z.succ. rewrite inject_Z_plus.
        reflexivity. }
      destruct (IH rest am (drained_bus (agent_id a) b0))
        as (k & Hk & Hph & Hrest).
      { cbn [length] in Hlen. lia. }
      { by rewrite Hst'. }
      { by rewrite Hspeed. }
      { rewrite Hrem. lra. }
      { rewrite Hrem, Htot. lra. }
      { rewrite Hrem, Hspeed. rewrite Hrem in Hfar. rewrite Hsucc in Hrn.
        lra. }
      exists (S k). split; [cbn [length]; lia|]. split.
      { intros [|j] Hj; [exact Hst|]. cbn [take truck_run fst snd]. fold b0.
        rewrite Hstep. cbn [snd]. apply Hph. lia. }
      cbn [take truck_run fst snd concat]. fold b0. rewrite Hstep. cbn [snd].
      destruct Hrest as (H1 & H2 & H3 & H4 & H5 & H6 & H7).
      split; [exact H1|].
      split; [rewrite H2; by apply (leg_target phase st)|].
      split; [by apply (same_assignment_trans a am)|].
      split; [exact H4|].
      rewrite Hrem, Htrav in H5, H6.
      rewrite published_drained in H7. unfold b0 in H7.
      rewrite published_publish_all, <- app_assoc in H7.
      split; [|split; [|exact H7]]; lra.
Qed.

(** The advance of a loading carrier whose route to the delivery point
    is known. *)
Lemma loading_step a b o d dist :
  status a = "loading" ->
  current_order a = Some o ->
  dispatcher_id a = Some d ->
  agent_id a <> "" -> d <> "" ->
  current_location_id a <> delivery_location_id a ->
  CityMap.calculate_distance (city_map a) (current_location_id a)
    (delivery_location_id a) = Ok dist ->
  exists a1,
    step (a, b)
    = (Ok tt, (a1, MessageBus.publish (pickup_complete_msg a o d)
                     (drained_bus (agent_id a) b)))
    /\ status a1 = "moving_to_delivery"
    /\ remaining_distance a1 = dist
    /\ total_distance a1 = dist
    /\ total_distance_traveled a1 = total_distance_traveled a
    /\ current_location_id a1 = current_location_id a
    /\ cargo a1
       = <[product_id o :=
             (default 0%Z (cargo a !! product_id o) + quantity o)%Z]> (cargo a)
    /\ current_cargo_weight a1 = (current_cargo_weight a + quantity o)%Z
    /\ agent_id a1 = agent_id a
    /\ speed a1 = speed a
    /\ capacity a1 = capacity a
    /\ current_order a1 = current_order a
    /\ delivery_location_id a1 = delivery_location_id a
    /\ dispatcher_id a1 = dispatcher_id a
    /\ deliveries_completed a1 = deliveries_completed a
    /\ total_cargo_delivered a1 = total_cargo_delivered a.
Proof.
  intros Hst Ho Hd Hid Hdne Hloc Hdist.
  assert (status a <> "available") as Hbusy by (rewrite Hst; discriminate).
  apply String.eqb_neq in Hid, Hdne.
  apply opt_eqb_neq in Hloc.
  unfold step. unfold bind at 1. unfold self at 1. cbn beta iota.
  unfold bind at 1. rewrite process_messages_busy by assumption.
  cbn beta iota. unfold bind at 1. unfold self at 1. cbn beta iota.
  rewrite Hst. cbn [String.eqb Ascii.eqb Bool.eqb].
  unfold _complete_loading. unfold bind at 1. unfold self at 1.
  cbn beta iota. rewrite Ho, Hloc.
  unfold bind at 1. unfold upd at 1, modify at 1. cbn beta iota.
  unfold bind at 1. unfold BaseAgent.send_message at 1, Message.init.
  rewrite Hd, Hid, Hdne. cbn [String.eqb Ascii.eqb Bool.eqb].
  cbn beta iota.
  unfold _start_movement_to_delivery, start_movement, bind, upd, modify, self.
  cbn -[MessageBus.publish CityMap.calculate_distance].
  rewrite Hdist.
  eexists. split; [reflexivity|]. cbn. by repeat split.
Qed.

(** The advance of an unloading carrier whose hold covers the order. *)
Lemma unloading_step_covered a b o d held :
  status a = "unloading" ->
  current_order a = Some o ->
  dispatcher_id a = Some d ->
  agent_id a <> "" -> d <> "" -> recipient o <> "" ->
  cargo a !! product_id o = Some held ->
  (quantity o <= held)%Z ->
  exists a',
    step (a, b)
    = (Ok tt,
       (a', MessageBus.publish (delivery_notification_msg a o)
              (MessageBus.publish (delivery_complete_msg a o d)
                 (drained_bus (agent_id a) b))))
    /\ status a' = "available"
    /\ current_order a' = None
    /\ cargo a'
       = (if (held - quantity o =? 0)%Z then delete (product_id o) (cargo a)
          else <[product_id o := (held - quantity o)%Z]> (cargo a))
    /\ current_cargo_weight a' = (current_cargo_weight a - quantity o)%Z
    /\ deliveries_completed a' = (deliveries_completed a + 1)%Z
    /\ total_cargo_delivered a' = (total_cargo_delivered a + quantity o)%Z
    /\ current_location_id a' = current_location_id a
    /\ capacity a' = capacity a
    /\ total_distance_traveled a' = total_distance_traveled a
    /\ agent_id a' = agent_id a.
Proof.
  intros Hst Ho Hd Hid Hdne Hrne Hheld Hcov.
  assert (status a <> "available") as Hbusy by (rewrite Hst; discriminate).
  apply String.eqb_neq in Hid, Hdne, Hrne. apply Z.leb_le in Hcov.
  unfold step. unfold bind at 1. unfold self at 1. cbn beta iota.
  unfold bind at 1. rewrite process_messages_busy by assumption.
  cbn beta iota. unfold bind at 1. unfold self at 1. cbn beta iota.
  rewrite Hst. cbn [String.eqb Ascii.eqb Bool.eqb].
  unfold _complete_unloading. unfold bind at 1. unfold self at 1.
  cbn beta iota. rewrite Ho, Hheld, Hcov.
  unfold bind at 1. unfold upd at 1, modify at 1. cbn beta iota.
  unfold bind, BaseAgent.send_message, Message.init.
  rewrite Hd, Hid, Hdne, Hrne. cbn [String.eqb Ascii.eqb Bool.eqb].
  unfold _reset_to_available, bind, upd, modify, self.
  cbn -[MessageBus.publish].
  eexists. split; [reflexivity|]. cbn. by repeat split.
Qed.

Lemma truck_run_app l1 : forall l2 s,
  truck_run (l1 ++ l2) s = truck_run l2 (truck_run l1 s).
Proof.
  induction l1 as [|batch l1 IH]; intros l2 s; [reflexivity|].
  cbn [app truck_run]. apply IH.
Qed.

Lemma sent_by_app id l1 l2 : sent_by id (l1 ++ l2) = sent_by id l1 ++ sent_by id l2.
Proof. apply List.filter_app. Qed.

Lemma sent_by_others id ms :
  Forall (fun m => Message.sender m <> id) ms -> sent_by id ms = [].
Proof.
  induction 1 as [|m ms Hm _ IH]; [reflexivity|]. cbn.
  apply String.eqb_neq in Hm. by rewrite Hm.
Qed.

Lemma sent_by_others_concat id (batches : list (list Message.t)) :
  Forall (Forall (fun m => Message.sender m <> id)) batches ->
  sent_by id (concat batches) = [].
Proof.
  induction 1 as [|ms batches Hms _ IH]; [reflexivity|].
  cbn [concat]. by rewrite sent_by_app, sent_by_others, IH.
Qed.

(** X9. A carrier under way arrives. While it is moving to the pick-up
    or to the delivery point the carrier ignores every envelope it is
    sent; each advance covers [min(speed, remaining)], and once the
    remaining distance is within the tolerance 0.01 the carrier stands at
    its destination in status loading (resp. unloading). So with a
    positive speed and a remaining distance of at most [n] times the
    speed it arrives within [n] advances, whatever the other actors
    publish meanwhile, with load and assignment unchanged, nothing
    published by itself, and its odometer increased by the remaining
    distance up to the tolerance. *)
Theorem carrier_under_way_arrives (incoming : list (list Message.t))
    (a : t) (b : MessageBus.t) :
  (1 <= length incoming)%nat ->
  (0 < speed a)%Q ->
  (0 <= remaining_distance a)%Q ->
  (remaining_distance a <= total_distance a)%Q ->
  (remaining_distance a
   <= inject_Z (Z.of_nat (length incoming)) * speed a)%Q ->
  (status a = "moving_to_pickup" ->
   arrives_within incoming a b "moving_to_pickup" "loading"
     (pickup_location_id a))
  /\ (status a = "moving_to_delivery" ->
      arrives_within incoming a b "moving_to_delivery" "unloading"
        (delivery_location_id a)).
Proof.
  intros Hlen Hsp Hr0 Hrt Hrn.
  destruct (length incoming) as [|n] eqn:Hn; [lia|].
  assert (inject_Z (Z.of_nat (S n)) == inject_Z (Z.of_nat n) + 1)%Q as Hsucc.
  { rewrite Nat2Z.inj_succ. unfold Z.succ. rewrite inject_Z_plus.
    reflexivity. }
  assert (remaining_distance a <= inject_Z (Z.of_nat n) * speed a + speed a)%Q
    as Hrn' by (rewrite Hsucc in Hrn; lra).
  split; intros Hst.
  - apply (leg_arrives "moving_to_pickup" "loading" pickup_location_id)
      with (n := n); try assumption. left. by repeat split.
  - apply (leg_arrives "moving_to_delivery" "unloading" delivery_location_id)
      with (n := n); try assumption. right. by repeat split.
Qed.

(** X10. A delivery leaves the carrier as it found it. A loading carrier
    whose route to the delivery point is known, with positive speed and
    enough advances for the distance, is available again at the delivery
    point after at most all of them (one to load, the trip, one to
    unload), whatever the other actors publish meanwhile. Its hold and
    remaining capacity are what they were before loading (provided the
    hold had no empty entry for the product), it has counted one more
    delivery and the order's quantity as delivered, and during the trip
    it has sent exactly PICKUP_COMPLETE and DELIVERY_COMPLETE to its
    dispatcher and DELIVERY_NOTIFICATION to the recipient, in this
    order. *)
Theorem delivery_round_trip (incoming : list (list Message.t)) (a : t)
    (b : MessageBus.t) (o : order_info) (d : string) (dist : Q) :
  status a = "loading" ->
  current_order a = Some o ->
  dispatcher_id a = Some d ->
  agent_id a <> "" -> d <> "" -> recipient o <> "" ->
  current_location_id a <> delivery_location_id a ->
  CityMap.calculate_distance (city_map a) (current_location_id a)
    (delivery_location_id a) = Ok dist ->
  (0 < speed a)%Q -> (0 <= dist)%Q ->
  (3 <= length incoming)%nat ->
  (dist <= inject_Z (Z.of_nat (length incoming - 2)) * speed a)%Q ->
  (forall z, cargo a !! product_id o = Some z -> (0 < z)%Z) ->
  Forall (Forall (fun m => Message.sender m <> agent_id a)) incoming ->
  exists k, (3 <= k <= length incoming)%nat
    /\ is_available (fst (truck_run (take k incoming) (a, b))) = true
    /\ current_order (fst (truck_run (take k incoming) (a, b))) = None
    /\ current_location_id (fst (truck_run (take k incoming) (a, b)))
       = delivery_location_id a
    /\ cargo (fst (truck_run (take k incoming) (a, b))) = cargo a
    /\ get_cargo_capacity_remaining (fst (truck_run (take k incoming) (a, b)))
       = get_cargo_capacity_remaining a
    /\ deliveries_completed (fst (truck_run (take k incoming) (a, b)))
       = (deliveries_completed a + 1)%Z
    /\ total_cargo_delivered (fst (truck_run (take k incoming) (a, b)))
       = (total_cargo_delivered a + quantity o)%Z
    /\ (total_distance_traveled a + dist - (1 # 100)
        <= total_distance_traveled (fst (truck_run (take k incoming) (a, b))))%Q
    /\ (total_distance_traveled (fst (truck_run (take k incoming) (a, b)))
        <= total_distance_traveled a + dist)%Q
    /\ sent_by (agent_id a)
         (drop (length (published (MessageBus.journal b)))
            (published
               (MessageBus.journal
                  (snd (truck_run (take k incoming) (a, b))))))
       = [pickup_complete_msg a o d; delivery_complete_msg a o d;
          delivery_notification_msg a o].
Proof.
  intros Hst Ho Hd Hid Hdne Hrne Hloc Hdist Hsp Hd0 Hlen Hbound Hhold Hothers.
  destruct incoming as [|b1 rest]; [cbn in Hlen; lia|].
  cbn [length] in Hlen, Hbound.
  apply Forall_cons in Hothers as [Hb1 Hrest].
  set (b0 := MessageBus.publish_all b1 b).
  destruct (loading_step a b0 o d dist Hst Ho Hd Hid Hdne Hloc Hdist)
    as (a1 & Hstep1 & Hst1 & Hrem1 & Htot1 & Htrav1 & Hcur1 & Hcargo1 & Hw1
        & Hid1 & Hsp1 & Hcap1 & Ho1 & Hdl1 & Hdp1 & Hdc1 & Htc1).
  set (bus1 := MessageBus.publish (pickup_complete_msg a o d)
                 (drained_bus (agent_id a) b0)) in *.
  set (n := (length rest - 2)%nat).
  assert (inject_Z (Z.of_nat (S (length rest) - 2))
          == inject_Z (Z.of_nat n) + 1)%Q as Hsucc.
  { replace (S (length rest) - 2)%nat with (S n) by (unfold n; lia).
    rewrite Nat2Z.inj_succ. unfold Z.succ. rewrite inject_Z_plus.
    reflexivity. }
  destruct (leg_arrives "moving_to_delivery" "unloading" delivery_location_id
              (or_intror (conj eq_refl (conj eq_refl eq_refl)))
              n (take (S n) rest) a1 bus1)
    as (k1 & Hk1 & _ & Hst2 & Hcur2 & Hsame2 & _ & Hlo2 & Hhi2 & Hpub2).
  { rewrite length_take. unfold n. lia. }
  { exact Hst1. }
  { by rewrite Hsp1. }
  { by rewrite Hrem1. }
  { rewrite Hrem1, Htot1. lra. }
  { rewrite Hrem1, Hsp1. rewrite Hsucc in Hbound. lra. }
  rewrite length_take in Hk1.
  rewrite take_take in Hst2, Hcur2, Hsame2, Hlo2, Hhi2, Hpub2.
  replace (k1 `min` S n)%nat with k1 in * by lia.
  set (s2 := truck_run (take k1 rest) (a1, bus1)) in *.
  destruct Hsame2 as (Hid2 & _ & _ & _ & Hcap2 & Hcargo2 & Hw2 & Ho2 & _
                      & Hdl2 & Hdp2 & Hdc2 & Htc2).
  destruct (lookup_lt_is_Some_2 rest k1) as [x Hx]; [unfold n in Hk1; lia|].
  set (held := (default 0%Z (cargo a !! product_id o) + quantity o)%Z).
  destruct (unloading_step_covered (fst s2)
              (MessageBus.publish_all x (snd s2)) o d held)
    as (a3 & Hstep3 & Hst3 & Ho3 & Hcargo3 & Hw3 & Hdc3 & Htc3 & Hcur3
        & Hcap3 & Htrav3 & Hid3).
  { exact Hst2. }
  { by rewrite Ho2, Ho1. }
  { by rewrite Hdp2, Hdp1. }
  { by rewrite Hid2, Hid1. }
  { exact Hdne. }
  { exact Hrne. }
  { rewrite Hcargo2, Hcargo1. by rewrite lookup_insert_eq. }
  { unfold held. destruct (cargo a !! product_id o) as [z|] eqn:Ez;
      cbn [default id]; [specialize (Hhold z eq_refl)|]; lia. }
  exists (S (S k1)). split; [cbn [length]; unfold n in Hk1; lia|].
  assert (truck_run (take (S (S k1)) (b1 :: rest)) (a, b)
          = snd (step (fst s2, MessageBus.publish_all x (snd s2)))) as Hrun.
  { cbn [take truck_run fst snd]. fold b0. rewrite Hstep1. cbn [snd].
    rewrite (take_S_r _ _ _ Hx), truck_run_app. reflexivity. }
  rewrite Hrun, Hstep3. cbn [fst snd].
  split; [unfold is_available; by rewrite Hst3|].
  split; [exact Ho3|].
  split; [by rewrite Hcur3, Hcur2|].
  split.
  { rewrite Hcargo3, Hcargo2, Hcargo1. unfold held.
    destruct (cargo a !! product_id o) as [z|] eqn:Ez; cbn [default id].
    - specialize (Hhold z eq_refl).
      replace (z + quantity o - quantity o =? 0)%Z with false
        by (symmetry; apply Z.eqb_neq; lia).
      rewrite insert_insert_eq.
      replace (z + quantity o - quantity o)%Z with z by lia.
      by apply insert_id.
    - replace (0 + quantity o - quantity o =? 0)%Z with true
        by (symmetry; apply Z.eqb_eq; lia).
      by apply delete_insert_id. }
  split.
  { unfold get_cargo_capacity_remaining.
    rewrite Hcap3, Hw3, Hcap2, Hw2, Hcap1, Hw1. lia. }
  split; [rewrite Hdc3, Hdc2, Hdc1; reflexivity|].
  split; [rewrite Htc3, Htc2, Htc1; reflexivity|].
  rewrite Htrav3. rewrite Htrav1, Hrem1 in Hlo2, Hhi2.
  split; [exact Hlo2|]. split; [exact Hhi2|].
  rewrite !published_publish, published_drained, published_publish_all, Hpub2.
  unfold bus1. rewrite published_publish, published_drained. unfold b0.
  rewrite published_publish_all.
  rewrite <- !app_assoc, drop_app_length, !sent_by_app.
  rewrite (sent_by_others _ b1 Hb1).
  rewrite (sent_by_others_concat _ (take k1 rest))
    by (apply Forall_take; exact Hrest).
  rewrite (sent_by_others _ x)
    by (apply (Forall_lookup_1 _ _ _ _ Hrest Hx)).
  cbn [app]. unfold sent_by. cbn [List.filter].
  assert (delivery_complete_msg (fst s2) o d = delivery_complete_msg a o d)
    as ->.
  { unfold delivery_complete_msg. by rewrite Hid2, Hid1, Hdl2, Hdl1. }
  assert (delivery_notification_msg (fst s2) o = delivery_notification_msg a o)
    as ->.
  { unfold delivery_notification_msg. by rewrite Hid2, Hid1. }
  cbn [Message.sender pickup_complete_msg delivery_complete_msg
       delivery_notification_msg].
  rewrite String.eqb_refl. reflexivity.
Qed.

(** X11. One move of a carrier under way, on a route of positive length
    with the remaining distance between 0 and the total: the remaining
    distance shrinks and stays non-negative, what it loses goes to the
    odometer, the progress stays between 0 and 1, and the position that
    [get_interpolated_position] reports (both end points being on the
    map) is marked as moving and lies in the box spanned by the two end
    points. *)
Theorem movement_keeps_position_on_route (a : t) (b : MessageBus.t)
    (dest : string) (cur dst : Location.t) :
  (status a = "moving_to_pickup" \/ status a = "moving_to_delivery") ->
  destination_location_id a = Some dest -> dest <> "" ->
  CityMap.get_location (city_map a) (current_location_id a) = Some cur ->
  CityMap.get_location (city_map a) (Some dest) = Some dst ->
  (0 <= speed a)%Q ->
  (0 <= remaining_distance a)%Q ->
  (remaining_distance a <= total_distance a)%Q ->
  (0 < total_distance a)%Q ->
  let a' := fst (snd (_move_towards_destination (a, b))) in
  let p := get_interpolated_position a' in
  (0 <= remaining_distance a' <= remaining_distance a)%Q
  /\ (total_distance_traveled a' + remaining_distance a'
      == total_distance_traveled a + remaining_distance a)%Q
  /\ (0 <= movement_progress a' <= 1)%Q
  /\ is_moving p = true
  /\ progress p = movement_progress a'
  /\ (Qmin (Location.x cur) (Location.x dst) <= pos_x p
      <= Qmax (Location.x cur) (Location.x dst))%Q
  /\ (Qmin (Location.y cur) (Location.y dst) <= pos_y p
      <= Qmax (Location.y cur) (Location.y dst))%Q.
Proof.
  intros Hst Hdest Hne Hcur Hdst Hsp Hr0 Hrt Hpos a' p.
  destruct (move_spec a b)
    as (am & Hmove & Hsame & Hst' & Hcur' & Hdst' & Htot & _ & Hgo).
  assert (a' = am) as Ha' by (unfold a'; by rewrite Hmove).
  clearbody a'. subst a'.
  destruct (Hgo Hpos) as (Hrem & Htrav & Hprog).
  destruct Hsame as (_ & _ & Hmap & _).
  pose proof (Q.min_spec (speed a) (remaining_distance a)) as Hmin.
  assert (0 <= remaining_distance am <= remaining_distance a)%Q as Hrange
    by (rewrite Hrem; lra).
  split; [exact Hrange|].
  split; [rewrite Hrem, Htrav; lra|].
  assert (0 <= movement_progress am <= 1)%Q as Hp.
  { rewrite Hprog.
    assert (0 <= remaining_distance am / total_distance a)%Q as Hlo.
    { apply Qle_shift_div_l; [exact Hpos|]. lra. }
    assert (remaining_distance am / total_distance a <= 1)%Q as Hhi.
    { apply Qle_shift_div_r; [exact Hpos|]. lra. }
    lra. }
  split; [exact Hp|].
  assert (p = mk_position
                (Location.x cur
                 + (Location.x dst - Location.x cur) * movement_progress am)%Q
                (Location.y cur
                 + (Location.y dst - Location.y cur) * movement_progress am)%Q
                (current_location_id am) (Some dest) (movement_progress am)
                true) as Hpdef.
  { unfold p, get_interpolated_position.
    rewrite Hst', Hdst', Hdest, Hcur', Hmap, Hcur, Hdst.
    apply String.eqb_neq in Hne. cbn [falsy_id negb]. rewrite Hne.
    destruct Hst as [-> | ->]; reflexivity. }
  clearbody p. subst p. cbn [is_moving progress pos_x pos_y].
  split; [reflexivity|]. split; [reflexivity|].
  pose proof (Q.min_spec (Location.x cur) (Location.x dst)) as Hminx.
  pose proof (Q.max_spec (Location.x cur) (Location.x dst)) as Hmaxx.
  pose proof (Q.min_spec (Location.y cur) (Location.y dst)) as Hminy.
  pose proof (Q.max_spec (Location.y cur) (Location.y dst)) as Hmaxy.
  destruct Hp as [Hp0 Hp1].
  split; split; nra.
Qed.

Lemma movement_keeps_position_on_route_witness :
  let a' := fst (snd (_move_towards_destination
                        (loaded_truck, MessageBus.init 0))) in
  let p := get_interpolated_position a' in
  (0 <= remaining_distance a' <= remaining_distance loaded_truck)%Q
  /\ (total_distance_traveled a' + remaining_distance a'
      == total_distance_traveled loaded_truck
         + remaining_distance loaded_truck)%Q
  /\ (0 <= movement_progress a' <= 1)%Q
  /\ is_moving p = true
  /\ progress p = movement_progress a'
  /\ (Qmin (Location.x warehouse_loc) (Location.x store_loc) <= pos_x p
      <= Qmax (Location.x warehouse_loc) (Location.x store_loc))%Q
  /\ (Qmin (Location.y warehouse_loc) (Location.y store_loc) <= pos_y p
      <= Qmax (Location.y warehouse_loc) (Location.y store_loc))%Q.
Proof.
  apply (movement_keeps_position_on_route loaded_truck (MessageBus.init 0)
           "store_loc_1" warehouse_loc store_loc).
  - right. vm_compute. reflexivity.
  - vm_compute. reflexivity.
  - discriminate.
  - vm_compute. reflexivity.
  - vm_compute. reflexivity.
  - vm_compute. discriminate.
  - vm_compute. discriminate.
  - vm_compute. discriminate.
  - vm_compute. reflexivity.
Defined.

Lemma carrier_under_way_arrives_witness :
  arrives_within [[]] loaded_truck (MessageBus.init 0)
    "moving_to_delivery" "unloading" (delivery_location_id loaded_truck).
Proof.
  apply (carrier_under_way_arrives [[]] loaded_truck (MessageBus.init 0)).
  - cbn. lia.
  - vm_compute. reflexivity.
  - vm_compute. discriminate.
  - vm_compute. discriminate.
  - vm_compute. discriminate.
  - vm_compute. reflexivity.
Defined.

Lemma delivery_round_trip_witness :
  exists k, (3 <= k <= 3)%nat
    /\ is_available (fst (truck_run (take k [[]; []; []])
                             (loading_truck, MessageBus.init 0))) = true
    /\ cargo (fst (truck_run (take k [[]; []; []])
                      (loading_truck, MessageBus.init 0)))
       = cargo loading_truck
    /\ deliveries_completed
         (fst (truck_run (take k [[]; []; []])
                 (loading_truck, MessageBus.init 0))) = 1%Z.
Proof.
  destruct (delivery_round_trip [[]; []; []] loading_truck (MessageBus.init 0)
              (mk_order "order_1" "p1" 30 "store_1") "warehouse_1" 5)
    as (k & Hk & Hav & _ & _ & Hcargo & _ & Hdc & _).
  - vm_compute. reflexivity.
  - vm_compute. reflexivity.
  - vm_compute. reflexivity.
  - vm_compute. discriminate.
  - discriminate.
  - discriminate.
  - vm_compute. discriminate.
  - vm_compute. reflexivity.
  - vm_compute. reflexivity.
  - vm_compute. discriminate.
  - cbn. lia.
  - vm_compute. discriminate.
  - intros z Hz. vm_compute in Hz. discriminate.
  - repeat constructor.
  - exists k. repeat split; [lia|cbn in Hk; lia|exact Hav|exact Hcargo|].
    rewrite Hdc. vm_compute. reflexivity.
Defined.

End TruckMovement.

(** ** Distributor: fulfilment, stock, replenishment *)
Section WarehouseFulfilment.
Import WarehouseAgent.

Lemma fulfil_body oid o a b truck_id rest :
  agent_id a <> "" -> truck_id <> "" ->
  (Order.quantity o <= get_inventory_level a (Order.product_id o))%Z ->
  available_trucks a = truck_id :: rest ->
  process_pending_order oid o (a, b)
  = (Ok true, (after_fulfilment oid o a,
               MessageBus.publish (dispatch_order_msg a o truck_id) b)).
Proof.
  intros Hid Htruck Hcov Hav. unfold process_pending_order, bind, self.
  cbn beta iota. unfold _can_fulfill_order.
  replace (Order.quantity o <=? get_inventory_level a (Order.product_id o))%Z
    with true by (symmetry; apply Z.leb_le; lia).
  unfold _dispatch_truck_for_order, bind, self. cbn beta iota.
  rewrite Hav. unfold upd at 1, modify at 1. cbn beta iota.
  unfold BaseAgent.send_message, Message.init.
  apply String.eqb_neq in Hid, Htruck. rewrite Hid, Htruck.
  cbn [String.eqb Ascii.eqb Bool.eqb]. unfold ret at 1. cbn beta iota.
  unfold lift, Order.update_status.
  cbn [existsb Order.valid_statuses String.eqb Ascii.eqb Bool.eqb orb].
  unfold upd, modify, ret. cbn beta iota.
  unfold after_fulfilment. rewrite Hav. reflexivity.
Qed.

Lemma dispatch_truck_inventory o a b :
  inventory (fst (snd (_dispatch_truck_for_order o (a, b)))) = inventory a.
Proof.
  unfold _dispatch_truck_for_order, bind, self. cbn beta iota.
  destruct (available_trucks a) as [|truck_id rest]; [reflexivity|].
  unfold upd at 1, modify at 1. cbn beta iota.
  unfold BaseAgent.send_message.
  destruct (Message.init _ _ _ _); reflexivity.
Qed.

Lemma stock_ok_set a pid z :
  stock_ok a -> (0 <= z)%Z ->
  Forall (fun kv => (0 <= snd kv)%Z) (PyDictO.set pid z (inventory a)).
Proof.
  unfold stock_ok. intros Hok Hz.
  induction (inventory a) as [|[k v] d IH]; cbn [PyDictO.set].
  - by repeat constructor.
  - apply Forall_cons in Hok as [Hv Hd].
    destruct (opt_eqb pid k); constructor; auto.
Qed.

Lemma process_pending_order_stock oid o :
  preserves (fun s => stock_ok (fst s)) (process_pending_order oid o).
Proof.
  intros [a b] Hok. cbn [fst] in Hok.
  unfold process_pending_order. unfold bind at 1. unfold self at 1.
  cbn beta iota. destruct (_can_fulfill_order a o) eqn:Hcan.
  - unfold bind at 1.
    pose proof (dispatch_truck_inventory o a b) as Hinv.
    destruct (_dispatch_truck_for_order o (a, b)) as [[[]|e] [a1 b1]];
      cbn [fst snd] in *.
    + unfold bind, lift, Order.update_status.
      cbn [existsb Order.valid_statuses String.eqb Ascii.eqb Bool.eqb orb].
      unfold upd, modify, ret. cbn.
      assert (stock_ok a1) as Hok1 by (unfold stock_ok; by rewrite Hinv).
      apply (stock_ok_set a1); [exact Hok1|].
      unfold _can_fulfill_order in Hcan. apply Z.leb_le in Hcan.
      unfold get_inventory_level in *. rewrite Hinv. lia.
    + unfold ret. cbn. unfold stock_ok. by rewrite Hinv.
    + cbn. unfold stock_ok. by rewrite Hinv.
  - unfold _reject_order, bind, self. cbn beta iota.
    unfold BaseAgent.send_message.
    destruct (Message.init _ _ _ _); cbn; exact Hok.
Qed.

Lemma process_pending_loop_stock items : forall rm,
  preserves (fun s => stock_ok (fst s)) (process_pending_loop items rm).
Proof.
  induction items as [|[oid o] items IH]; intros rm;
    cbn [process_pending_loop].
  - apply preserves_ret.
  - apply preserves_bind; [apply process_pending_order_stock|].
    intros r. apply IH.
Qed.

Lemma process_pending_orders_stock :
  preserves (fun s => stock_ok (fst s)) _process_pending_orders.
Proof.
  unfold _process_pending_orders. apply preserves_self; intros a.
  apply preserves_bind; [apply process_pending_loop_stock|]. intros rm.
  apply preserves_for_each. intros oid.
  apply preserves_modify. intros [a0 b0] H0. exact H0.
Qed.

Lemma place_factory_order_inventory pid q a b :
  inventory (fst (snd (_place_factory_order pid q (a, b)))) = inventory a.
Proof.
  unfold _place_factory_order, bind, self. cbn beta iota.
  unfold lift. destruct (Order.init _ _ _ _); [|reflexivity].
  unfold upd at 1, modify at 1. cbn beta iota.
  unfold BaseAgent.send_message.
  destruct (Message.init _ _ _ _); reflexivity.
Qed.

Lemma check_and_reorder_stock :
  preserves (fun s => stock_ok (fst s)) _check_and_reorder_from_factory.
Proof.
  unfold _check_and_reorder_from_factory. apply preserves_self; intros a0.
  apply preserves_for_each. intros [pid q].
  apply preserves_self; intros a.
  destruct (q <=? reorder_threshold a)%Z; [|apply preserves_ret].
  destruct (negb _); [|apply preserves_ret].
  intros [a1 b1] Hok. cbn [fst] in *. unfold stock_ok.
  by rewrite place_factory_order_inventory.
Qed.

Lemma stock_ok_key a key :
  stock_ok a -> (0 <= default 0 (PyDictO.get key (inventory a)))%Z.
Proof.
  unfold stock_ok. intros Hok.
  induction (inventory a) as [|[k v] d IH]; cbn [PyDictO.get]; [cbn; lia|].
  apply Forall_cons in Hok as [Hv Hd].
  destruct (opt_eqb key k); cbn [default]; auto.
Qed.

Lemma stock_ok_level a pid : stock_ok a -> (0 <= get_inventory_level a pid)%Z.
Proof. apply stock_ok_key. Qed.

Lemma preserves_upd_stock (f : t -> t) :
  (forall a, inventory (f a) = inventory a) ->
  preserves (fun s => stock_ok (fst s)) (upd f).
Proof.
  intros Hinv [a b] Hok. cbn in *. unfold stock_ok. by rewrite Hinv.
Qed.

Ltac stock_auto :=
  repeat first
    [ apply preserves_ret
    | apply preserves_raise
    | apply preserves_lift
    | apply preserves_try_except
    | apply preserves_self; intros ?
    | apply preserves_send; intros ? ? ? ?; assumption
    | apply preserves_upd_stock; intros ?; reflexivity
    | apply preserves_bind; [|intros ?]
    | apply preserves_for_each; intros ?
    | match goal with
      | |- preserves _ (match ?x with _ => _ end) => destruct x
      | |- preserves _ (if ?x then _ else _) => destruct x
      | |- preserves _ (let '(_, _) := ?x in _) => destruct x
      end ].

Lemma handle_message_stock m :
  credit_ok m -> preserves (fun s => stock_ok (fst s)) (handle_message m).
Proof.
  intros Hm. unfold handle_message. apply preserves_try_except.
  destruct (String.eqb _ "ORDER_REQUEST");
    [unfold _handle_store_order; stock_auto|].
  destruct (String.eqb _ "DELIVERY_COMPLETE");
    [unfold _handle_delivery_complete; stock_auto|].
  destruct (String.eqb_spec (Message.message_type m) "PRODUCTION_COMPLETE")
    as [Hty|_].
  - unfold _handle_production_complete.
    apply preserves_self; intros a.
    destruct (as_id (Message.data_get m "order_id")); [|apply preserves_ret].
    destruct (PyDict.get _ _); [|apply preserves_ret].
    generalize (as_id (Message.data_get m "product_id")). intros key.
    destruct (Message.data_get_default m "quantity" (VInt 0)) as [| |q] eqn:Hq;
      try apply preserves_raise.
    apply preserves_bind; [|intros ?; stock_auto].
    intros [a1 b1] Hok. cbn [fst snd] in *. unfold upd, modify. cbn [fst snd].
    unfold stock_ok. cbn [inventory set_inventory].
    apply (stock_ok_set a1); [exact Hok|].
    pose proof (stock_ok_key a1 key Hok). specialize (Hm Hty q Hq). lia.
  - destruct (String.eqb _ "TRUCK_AVAILABLE");
      [unfold _handle_truck_available; stock_auto|apply preserves_ret].
Qed.

Lemma process_messages_stock id b a :
  Forall credit_ok (MessageBus.queue b id) ->
  stock_ok a ->
  stock_ok (fst (snd (BaseAgent.process_messages id handle_message (a, b)))).
Proof.
  intros Hq Hok. rewrite process_messages_feed.
  assert (forall ms s, Forall credit_ok ms -> stock_ok (fst s) ->
            stock_ok (fst (snd (for_each ms (feed id handle_message) s))))
    as Hloop.
  { induction ms as [|m ms IH]; intros s Hms Hs; [exact Hs|].
    apply Forall_cons in Hms as [Hm Hms]. cbn [for_each]. unfold bind at 1.
    assert (stock_ok (fst (snd (feed id handle_message m s)))) as H1.
    { unfold feed.
      apply (preserves_bind (fun s => stock_ok (fst s))); [| |exact Hs].
      - apply preserves_modify. intros [a0 b0] H0. exact H0.
      - intros _. by apply preserves_try_except, handle_message_stock. }
    destruct (feed id handle_message m s) as [[[]|e] s1]; cbn [fst snd] in *.
    - by apply IH.
    - exact H1. }
  by apply Hloop.
Qed.

(** X13. The fulfilment branch of [_process_pending_orders]: when the
    stock covers a pending order and a carrier is available, the head of
    the available list is assigned to the order and receives
    DISPATCH_ORDER, the stock of the product is debited by exactly the
    ordered quantity (other products are untouched), the order is entered
    in the processing table with status processing, one fulfilment is
    counted and no rejection, and the order is marked for removal; on a
    pending table holding just this order the whole method leaves the
    table empty. *)
Theorem fulfilment_dispatches_and_debits (a : t) (b : MessageBus.t)
    (oid : string) (o : Order.t) (truck_id : string) (rest : list string) :
  agent_id a <> "" -> truck_id <> "" ->
  (Order.quantity o <= get_inventory_level a (Order.product_id o))%Z ->
  available_trucks a = truck_id :: rest ->
  let a' := after_fulfilment oid o a in
  process_pending_order oid o (a, b)
  = (Ok true, (a', MessageBus.publish (dispatch_order_msg a o truck_id) b))
  /\ get_inventory_level a' (Order.product_id o)
     = (get_inventory_level a (Order.product_id o) - Order.quantity o)%Z
  /\ (forall pid, pid <> Order.product_id o ->
        get_inventory_level a' pid = get_inventory_level a pid)
  /\ available_trucks a' = rest
  /\ assigned_trucks a' !! truck_id = Some (Order.order_id o)
  /\ PyDict.get oid (processing_orders a')
     = Some (Order.set_status "processing" o)
  /\ orders_fulfilled a' = (orders_fulfilled a + 1)%Z
  /\ orders_rejected a' = orders_rejected a
  /\ (pending_store_orders a = [(oid, o)] ->
        _process_pending_orders (a, b)
        = (Ok tt, (set_pending_store_orders [] a',
                   MessageBus.publish (dispatch_order_msg a o truck_id) b))).
Proof.
  intros Hid Htruck Hcov Hav a'.
  pose proof (fulfil_body oid o a b truck_id rest Hid Htruck Hcov Hav)
    as Hbody.
  split; [exact Hbody|].
  split.
  { unfold a', after_fulfilment, get_inventory_level. cbn.
    by rewrite PyDictO_get_set_eq. }
  split.
  { intros pid Hne. unfold a', after_fulfilment, get_inventory_level. cbn.
    rewrite PyDictO_get_set_ne; [reflexivity|congruence]. }
  split; [unfold a', after_fulfilment; cbn; by rewrite Hav|].
  split.
  { unfold a', after_fulfilment. cbn. rewrite Hav. cbn.
    apply lookup_insert_eq. }
  split; [unfold a', after_fulfilment; cbn; apply PyDict_get_set_eq|].
  split; [reflexivity|]. split; [reflexivity|].
  intros Hpend.
  unfold _process_pending_orders, bind, self.
  cbn beta iota. rewrite Hpend. cbn [process_pending_loop].
  unfold bind. rewrite Hbody.
  cbn. rewrite Hpend. cbn. rewrite String.eqb_refl.
  cbn. rewrite String.eqb_refl. reflexivity.
Qed.

(** X14. Dispatching never drives a stock level below zero. If no
    product is in negative stock, and no PRODUCTION_COMPLETE envelope in
    the mailbox announces a negative quantity, then after
    [_process_pending_orders], after [_check_and_reorder_from_factory]
    and after a whole advance (whatever its outcome) no product is in
    negative stock, so [get_inventory_level] is non-negative for every
    product. *)
Theorem stock_never_negative (a : t) (b : MessageBus.t) :
  stock_ok a ->
  Forall credit_ok (MessageBus.queue b (agent_id a)) ->
  stock_ok (fst (snd (_process_pending_orders (a, b))))
  /\ stock_ok (fst (snd (_check_and_reorder_from_factory (a, b))))
  /\ stock_ok (fst (snd (step (a, b))))
  /\ forall pid,
       (0 <= get_inventory_level (fst (snd (step (a, b)))) pid)%Z.
Proof.
  intros Hok Hq.
  split; [by apply process_pending_orders_stock|].
  split; [by apply check_and_reorder_stock|].
  assert (stock_ok (fst (snd (step (a, b))))) as Hstep.
  { unfold step. unfold bind at 1. unfold self at 1. cbn beta iota.
    unfold bind at 1.
    pose proof (process_messages_stock (agent_id a) b a Hq Hok) as H1.
    destruct (BaseAgent.process_messages (agent_id a) handle_message (a, b))
      as [[[]|e] s1]; cbn [fst snd] in *; [|exact H1].
    apply (preserves_bind (fun s => stock_ok (fst s))); [| |exact H1].
    - apply check_and_reorder_stock.
    - intros _. apply process_pending_orders_stock. }
  split; [exact Hstep|].
  intros pid. by apply stock_ok_level.
Qed.

Lemma factory_order_id_nonempty id clock_ms :
  String.eqb (factory_order_id id clock_ms) "" = false.
Proof. unfold factory_order_id. destruct id; reflexivity. Qed.

Lemma place_factory_order_raises pid a b :
  (reorder_quantity a <= 0)%Z ->
  _place_factory_order pid (reorder_quantity a) (a, b)
  = (Raise ValueError, (a, b)).
Proof.
  intros Hq. unfold _place_factory_order, bind, self. cbn beta iota.
  unfold lift, Order.init. rewrite factory_order_id_nonempty.
  destruct pid as [pid|]; [|reflexivity].
  destruct (String.eqb pid ""); [reflexivity|].
  by replace (reorder_quantity a <=? 0)%Z with true
    by (symmetry; apply Z.leb_le; lia).
Qed.

Lemma reorder_loop_raises a b (items : list (option string * Z)) :
  (reorder_quantity a <= 0)%Z ->
  pending_factory_orders a = [] ->
  Exists (fun kv => (snd kv <= reorder_threshold a)%Z) items ->
  for_each items
    (fun '(product_id, quantity) =>
       bind self (fun a =>
         if (quantity <=? reorder_threshold a)%Z then
           let pending_for_product :=
             existsb
               (fun order =>
                  opt_eqb (Some (Order.product_id order)) product_id
                  && String.eqb (Order.status order) "pending")
               (PyDict.values (pending_factory_orders a)) in
           if negb pending_for_product
           then _place_factory_order product_id (reorder_quantity a)
           else ret tt
         else ret tt)) (a, b)
  = (Raise ValueError, (a, b)).
Proof.
  intros Hq Hpend. induction 1 as [[pid q] items Hlow|[pid q] items _ IH];
    cbn [for_each]; unfold bind at 1; unfold bind at 1, self at 1;
    cbn beta iota.
  - cbn [snd] in Hlow.
    replace (q <=? reorder_threshold a)%Z with true
      by (symmetry; apply Z.leb_le; lia).
    rewrite Hpend. cbn [PyDict.values map existsb negb].
    by rewrite place_factory_order_raises.
  - destruct (q <=? reorder_threshold a)%Z.
    + rewrite Hpend. cbn [PyDict.values map existsb negb].
      by rewrite place_factory_order_raises.
    + unfold ret at 1. cbn beta iota. exact IH.
Qed.

Lemma fulfilment_dispatches_and_debits_witness :
  get_inventory_level
    (fst (snd (process_pending_order "order_1" sample_order
                 (stocked_warehouse, MessageBus.init 0)))) "p1" = 20%Z
  /\ _process_pending_orders (stocked_warehouse, MessageBus.init 0)
     = (Ok tt,
        (set_pending_store_orders []
           (after_fulfilment "order_1" sample_order stocked_warehouse),
         MessageBus.publish
           (dispatch_order_msg stocked_warehouse sample_order
              "truck_warehouse_1_1") (MessageBus.init 0))).
Proof.
  destruct (fulfilment_dispatches_and_debits stocked_warehouse
              (MessageBus.init 0) "order_1" sample_order
              "truck_warehouse_1_1" [])
    as (Hbody & Hlevel & _ & _ & _ & _ & _ & _ & Hall).
  - discriminate.
  - discriminate.
  - vm_compute. discriminate.
  - reflexivity.
  - split; [rewrite Hbody; exact Hlevel|].
    apply Hall. reflexivity.
Defined.

Lemma stock_never_negative_witness :
  stock_ok (fst (snd (step (stocked_warehouse, MessageBus.init 0))))
  /\ (0 <= get_inventory_level
             (fst (snd (step (stocked_warehouse, MessageBus.init 0)))) "p1")%Z.
Proof.
  destruct (stock_never_negative stocked_warehouse (MessageBus.init 0))
    as (_ & _ & Hstep & Hlevel).
  - repeat constructor; cbn; lia.
  - constructor.
  - split; [exact Hstep|apply Hlevel].
Defined.

Lemma low_stock_step_raises a b :
  (reorder_quantity a <= 0)%Z ->
  pending_factory_orders a = [] ->
  Exists (fun kv => (snd kv <= reorder_threshold a)%Z) (inventory a) ->
  _check_and_reorder_from_factory (a, b) = (Raise ValueError, (a, b))
  /\ (MessageBus.queue b (agent_id a) = [] ->
      step (a, b)
      = (Raise ValueError,
         (a, snd (MessageBus.deliver_messages (agent_id a) b)))).
Proof.
  intros Hq Hpend Hlow.
  assert (forall b0, _check_and_reorder_from_factory (a, b0)
                     = (Raise ValueError, (a, b0))) as Hcheck.
  { intros b0. unfold _check_and_reorder_from_factory.
    unfold bind at 1, self at 1. cbn beta iota.
    by apply reorder_loop_raises. }
  split; [apply Hcheck|].
  intros Hq0. unfold step. unfold bind at 1, self at 1. cbn beta iota.
  unfold bind at 1. rewrite process_messages_feed, Hq0. cbn [for_each].
  unfold ret at 1. cbn beta iota. unfold bind at 1. by rewrite Hcheck.
Qed.

End WarehouseFulfilment.

(** X15. A distributor configured with a reorder quantity that is not
    positive cannot reorder: as soon as a product is at or below the
    threshold (with no factory order pending), building the order raises
    [ValueError]. [_check_and_reorder_from_factory] has no handler for
    it, so the distributor's advance raises after draining the mailbox,
    changing nothing else, and the scheduler's advance pass deactivates
    and unsubscribes the distributor and goes on with the rest of the
    roster. *)
Theorem non_positive_reorder_quantity_is_fatal (a : WarehouseAgent.t)
    (b : MessageBus.t) :
  (WarehouseAgent.reorder_quantity a <= 0)%Z ->
  WarehouseAgent.pending_factory_orders a = [] ->
  Exists (fun kv => (snd kv <= WarehouseAgent.reorder_threshold a)%Z)
    (WarehouseAgent.inventory a) ->
  MessageBus.queue b (WarehouseAgent.agent_id a) = [] ->
  WarehouseAgent._check_and_reorder_from_factory (a, b)
  = (Raise ValueError, (a, b))
  /\ WarehouseAgent.step (a, b)
     = (Raise ValueError,
        (a, snd (MessageBus.deliver_messages (WarehouseAgent.agent_id a) b)))
  /\ (WarehouseAgent.active a = true ->
      forall rest,
        SimulationManager.advance_all (Warehouse a :: rest) b
        = (let '(rest', b', n) :=
             SimulationManager.advance_all rest
               (MessageBus.unsubscribe (WarehouseAgent.agent_id a)
                  (snd (MessageBus.deliver_messages
                          (WarehouseAgent.agent_id a)
                          (MessageBus.log
                             (Advance (WarehouseAgent.agent_id a)) b)))) in
           (Warehouse (WarehouseAgent.set_active false a) :: rest', b', n))).
Proof.
  intros Hq Hpend Hlow Hempty.
  destruct (low_stock_step_raises a b Hq Hpend Hlow) as [Hcheck Hstep].
  split; [exact Hcheck|]. split; [by apply Hstep|].
  intros Hact rest. cbn [SimulationManager.advance_all].
  cbn [is_active Actor_Agent agent_id]. rewrite Hact.
  cbn [step Actor_Agent]. unfold on_warehouse.
  destruct (low_stock_step_raises a
              (MessageBus.log (Advance (WarehouseAgent.agent_id a)) b)
              Hq Hpend Hlow) as [_ Hstep'].
  rewrite Hstep' by exact Hempty.
  unfold deactivate, modify. cbn [snd set_active agent_id Actor_Agent].
  destruct (SimulationManager.advance_all rest _) as [[rest' b'] n].
  f_equal.
Qed.


Lemma non_positive_reorder_quantity_is_fatal_witness :
  WarehouseAgent.step (faulty_warehouse, MessageBus.init 0)
  = (Raise ValueError,
     (faulty_warehouse,
      snd (MessageBus.deliver_messages "warehouse_1" (MessageBus.init 0)))).
Proof.
  apply (non_positive_reorder_quantity_is_fatal faulty_warehouse
           (MessageBus.init 0)).
  - vm_compute. discriminate.
  - reflexivity.
  - left. vm_compute. discriminate.
  - reflexivity.
Defined.

(** ** Replenishment: distributor and producer *)
Section Replenishment.

Lemma PyDict_del_set_fresh {V} (k : string) (v : V) (d : PyDict.t V) :
  PyDict.get k d = None -> PyDict.del k (PyDict.set k v d) = d.
Proof.
  induction d as [|[k' v'] d IH]; cbn.
  - by rewrite String.eqb_refl.
  - destruct (String.eqb k k') eqn:E; [discriminate|]. cbn. rewrite E.
    intros Hd. by rewrite IH.
Qed.

Lemma place_factory_order_ok a b pid q :
  WarehouseAgent.agent_id a <> "" -> pid <> "" -> (0 < q)%Z ->
  let oid := WarehouseAgent.factory_order_id (WarehouseAgent.agent_id a)
               (MessageBus.wall_clock_ms b) in
  let order := Order.mk oid pid q (WarehouseAgent.agent_id a) "pending" None in
  WarehouseAgent._place_factory_order (Some pid) q (a, b)
  = (Ok tt,
     (WarehouseAgent.set_pending_factory_orders
        (PyDict.set oid order (WarehouseAgent.pending_factory_orders a)) a,
      MessageBus.publish (reorder_msg a oid pid q) b)).
Proof.
  intros Hid Hpid Hq oid order.
  apply String.eqb_neq in Hid, Hpid.
  unfold WarehouseAgent._place_factory_order, bind, WarehouseAgent.self.
  cbn beta iota. unfold lift, Order.init.
  rewrite factory_order_id_nonempty, Hpid, Hid.
  replace (q <=? 0)%Z with false by (symmetry; apply Z.leb_gt; lia).
  unfold WarehouseAgent.upd, modify. cbn beta iota.
  unfold BaseAgent.send_message, Message.init. rewrite Hid.
  reflexivity.
Qed.

Lemma factory_serves_from_stock f b m oid pid q requester :
  Message.message_type m = "FACTORY_ORDER" ->
  Message.data m
  = <["order_id" := VStr oid]>
      (<["product_id" := VStr pid]>
        (<["quantity" := VInt q]> (<["requester" := VStr requester]> ∅))) ->
  oid <> "" -> pid <> "" -> requester <> "" -> (0 < q)%Z ->
  FactoryAgent.agent_id f <> "" ->
  (q <= FactoryAgent.get_inventory_level f pid)%Z ->
  let order := Order.mk oid pid q requester "pending" None in
  FactoryAgent.handle_message m (f, b)
  = (Ok tt,
     (FactoryAgent.set_finished_goods_inventory
        (<[pid := (FactoryAgent.get_inventory_level f pid - q)%Z]>
           (FactoryAgent.finished_goods_inventory f)) f,
      MessageBus.publish (ack_msg f order) b)).
Proof.
  intros Hty Hdata Hoid Hpid Hreq Hq Hfid Hstock order.
  apply String.eqb_neq in Hoid, Hpid, Hreq, Hfid.
  unfold FactoryAgent.handle_message, try_except. rewrite Hty.
  cbn [String.eqb Ascii.eqb Bool.eqb].
  unfold FactoryAgent._handle_factory_order.
  unfold Message.data_get, Message.data_get_default. rewrite Hdata.
  rewrite lookup_insert_eq.
  rewrite (lookup_insert_ne _ "order_id" "product_id") by done.
  rewrite lookup_insert_eq.
  rewrite (lookup_insert_ne _ "order_id" "quantity") by done.
  rewrite (lookup_insert_ne _ "product_id" "quantity") by done.
  rewrite lookup_insert_eq.
  rewrite (lookup_insert_ne _ "order_id" "requester") by done.
  rewrite (lookup_insert_ne _ "product_id" "requester") by done.
  rewrite (lookup_insert_ne _ "quantity" "requester") by done.
  rewrite lookup_insert_eq.
  cbn [default id as_id falsy_id]. rewrite Hoid, Hpid, Hreq.
  replace (0 <? q)%Z with true by (symmetry; apply Z.ltb_lt; lia).
  cbn [negb andb].
  unfold bind at 1. unfold lift at 1, Order.init. rewrite Hoid, Hpid, Hreq.
  replace (q <=? 0)%Z with false by (symmetry; apply Z.leb_gt; lia).
  cbn beta iota. unfold bind at 1. unfold FactoryAgent.self at 1.
  cbn beta iota. cbn [Order.product_id].
  replace (q <=? FactoryAgent.get_inventory_level f pid)%Z with true
    by (symmetry; apply Z.leb_le; lia).
  unfold FactoryAgent._fulfill_from_inventory,
    FactoryAgent._notify_production_complete, bind, FactoryAgent.upd, modify,
    FactoryAgent.self, BaseAgent.send_message, Message.init, lift,
    Order.update_status.
  cbn [Order.product_id Order.quantity Order.requester Order.order_id
       FactoryAgent.agent_id FactoryAgent.set_finished_goods_inventory
       existsb Order.valid_statuses String.eqb Ascii.eqb Bool.eqb orb].
  rewrite Hfid, Hreq. reflexivity.
Qed.

Lemma warehouse_credits_production a b m oid pid q ord :
  Message.message_type m = "PRODUCTION_COMPLETE" ->
  as_id (Message.data_get m "order_id") = Some oid ->
  as_id (Message.data_get m "product_id") = Some pid ->
  Message.data_get_default m "quantity" (VInt 0) = VInt q ->
  PyDict.get oid (WarehouseAgent.pending_factory_orders a) = Some ord ->
  WarehouseAgent.handle_message m (a, b)
  = (Ok tt,
     (WarehouseAgent.set_pending_factory_orders
        (PyDict.del oid (WarehouseAgent.pending_factory_orders a))
        (WarehouseAgent.set_inventory
           (PyDictO.set (Some pid) (WarehouseAgent.get_inventory_level a pid + q)%Z
              (WarehouseAgent.inventory a)) a), b)).
Proof.
  intros Hty Hoid Hpid Hq Hget.
  unfold WarehouseAgent.handle_message, try_except. rewrite Hty.
  cbn [String.eqb Ascii.eqb Bool.eqb].
  unfold WarehouseAgent._handle_production_complete.
  rewrite Hoid, Hpid, Hq.
  unfold bind at 1. unfold WarehouseAgent.self at 1. cbn beta iota.
  rewrite Hget. reflexivity.
Qed.

(** X16. Replenishment from the producer's stock conserves the goods.
    A distributor that places a factory order for [q] units (with a
    fresh order id) puts FACTORY_ORDER in the mailbox of factory_1 and
    holds the order as pending. A producer named factory_1 with at least
    [q] finished units, on draining its mailbox, takes [q] units off its
    finished goods, answers PRODUCTION_COMPLETE at once and neither
    queues the order nor counts it as received. The distributor, on
    draining its mailbox, credits [q] units and drops the pending order,
    so its pending table is as before. *)
Theorem replenishment_from_producer_stock (a : WarehouseAgent.t)
    (f : FactoryAgent.t) (b : MessageBus.t) (pid : string) (q : Z) :
  let warehouse_id := WarehouseAgent.agent_id a in
  let oid :=
    WarehouseAgent.factory_order_id warehouse_id (MessageBus.wall_clock_ms b)
  in
  warehouse_id <> "" -> warehouse_id <> "factory_1" ->
  FactoryAgent.agent_id f = "factory_1" ->
  pid <> "" -> (0 < q)%Z ->
  (q <= FactoryAgent.get_inventory_level f pid)%Z ->
  PyDict.get oid (WarehouseAgent.pending_factory_orders a) = None ->
  MessageBus.queue b "factory_1" = [] ->
  MessageBus.queue b warehouse_id = [] ->
  let s1 := snd (WarehouseAgent._place_factory_order (Some pid) q (a, b)) in
  let s2 :=
    snd (BaseAgent.process_messages "factory_1" FactoryAgent.handle_message
           (f, snd s1)) in
  let s3 :=
    snd (BaseAgent.process_messages warehouse_id
           WarehouseAgent.handle_message (fst s1, snd s2)) in
  MessageBus.queue (snd s1) "factory_1" = [reorder_msg a oid pid q]
  /\ PyDict.get oid (WarehouseAgent.pending_factory_orders (fst s1))
     = Some (Order.mk oid pid q warehouse_id "pending" None)
  /\ FactoryAgent.get_inventory_level (fst s2) pid
     = (FactoryAgent.get_inventory_level f pid - q)%Z
  /\ FactoryAgent.production_queue (fst s2) = FactoryAgent.production_queue f
  /\ FactoryAgent.orders_received (fst s2) = FactoryAgent.orders_received f
  /\ MessageBus.queue (snd s2) warehouse_id
     = [ack_msg f (Order.mk oid pid q warehouse_id "pending" None)]
  /\ WarehouseAgent.get_inventory_level (fst s3) pid
     = (WarehouseAgent.get_inventory_level a pid + q)%Z
  /\ WarehouseAgent.pending_factory_orders (fst s3)
     = WarehouseAgent.pending_factory_orders a.
Proof.
  intros warehouse_id oid Hid Hnf Hfid Hpid Hq Hstock Hfresh Hqf Hqw s1 s2 s3.
  set (order := Order.mk oid pid q warehouse_id "pending" None).
  pose proof (place_factory_order_ok a b pid q Hid Hpid Hq) as Hplace.
  cbv zeta in Hplace. fold warehouse_id oid order in Hplace.
  set (a1 := WarehouseAgent.set_pending_factory_orders
               (PyDict.set oid order (WarehouseAgent.pending_factory_orders a))
               a) in *.
  set (mr := reorder_msg a oid pid q) in *.
  assert (s1 = (a1, MessageBus.publish mr b)) as Hs1
    by (unfold s1; by rewrite Hplace).
  clearbody s1. subst s1. cbn [fst snd] in *.
  assert (MessageBus.queue (MessageBus.publish mr b) "factory_1" = [mr])
    as Hq1.
  { rewrite (queue_publish_to mr b "factory_1" eq_refl), Hqf. reflexivity. }
  split; [exact Hq1|].
  split; [unfold a1; cbn; apply PyDict_get_set_eq|].
  (* the producer drains its mailbox *)
  set (bf := MessageBus.log (Handled "factory_1" mr)
               (snd (MessageBus.deliver_messages "factory_1"
                       (MessageBus.publish mr b)))).
  assert (oid <> "") as Hoid.
  { apply String.eqb_neq, factory_order_id_nonempty. }
  assert (FactoryAgent.agent_id f <> "") as Hfne by (rewrite Hfid; done).
  pose proof (factory_serves_from_stock f bf mr oid pid q warehouse_id
                eq_refl eq_refl Hoid Hpid Hid Hq Hfne Hstock) as Hserve.
  cbv zeta in Hserve. fold order in Hserve.
  set (f2 := FactoryAgent.set_finished_goods_inventory
               (<[pid := (FactoryAgent.get_inventory_level f pid - q)%Z]>
                  (FactoryAgent.finished_goods_inventory f)) f) in *.
  set (ma := ack_msg f order) in *.
  assert (s2 = (f2, MessageBus.publish ma bf)) as Hs2.
  { unfold s2. rewrite process_messages_feed, Hq1. cbn [for_each].
    unfold bind at 1, feed at 1, bind at 1, modify at 1. cbn beta iota.
    fold bf. unfold try_except at 1. rewrite Hserve. reflexivity. }
  clearbody s2. subst s2. cbn [fst snd] in *.
  split.
  { unfold f2, FactoryAgent.get_inventory_level. cbn.
    by rewrite lookup_insert_eq. }
  split; [reflexivity|]. split; [reflexivity|].
  assert (MessageBus.queue bf warehouse_id = []) as Hbfw.
  { unfold bf, MessageBus.queue. cbn.
    rewrite lookup_insert_ne by (intros E; apply Hnf; by rewrite E).
    rewrite lookup_insert_ne by (intros E; apply Hnf; by rewrite E).
    exact Hqw. }
  assert (MessageBus.queue (MessageBus.publish ma bf) warehouse_id = [ma])
    as Hq2.
  { rewrite (queue_publish_to ma bf warehouse_id eq_refl), Hbfw.
    reflexivity. }
  split; [exact Hq2|].
  (* the distributor drains its mailbox *)
  assert (Message.message_type ma = "PRODUCTION_COMPLETE"
          /\ as_id (Message.data_get ma "order_id") = Some oid
          /\ as_id (Message.data_get ma "product_id") = Some pid
          /\ Message.data_get_default ma "quantity" (VInt 0) = VInt q)
    as (Ha1 & Ha2 & Ha3 & Ha4).
  { unfold ma, ack_msg, Message.data_get, Message.data_get_default.
    cbn [Message.data Message.message_type Order.order_id Order.product_id
         Order.quantity order].
    repeat split; by simplify_map_eq. }
  assert (PyDict.get oid (WarehouseAgent.pending_factory_orders a1)
          = Some order) as Hp1
    by (unfold a1; cbn; apply PyDict_get_set_eq).
  assert (s3 = (WarehouseAgent.set_pending_factory_orders
                  (PyDict.del oid (WarehouseAgent.pending_factory_orders a1))
                  (WarehouseAgent.set_inventory
                     (PyDictO.set (Some pid)
                        (WarehouseAgent.get_inventory_level a1 pid + q)%Z
                        (WarehouseAgent.inventory a1)) a1),
                MessageBus.log (Handled warehouse_id ma)
                  (snd (MessageBus.deliver_messages warehouse_id
                          (MessageBus.publish ma bf))))) as Hs3.
  { unfold s3. rewrite process_messages_feed, Hq2. cbn [for_each].
    unfold bind at 1, feed at 1, bind at 1, modify at 1. cbn beta iota.
    unfold try_except at 1.
    rewrite (warehouse_credits_production a1 _ ma oid pid q order
               Ha1 Ha2 Ha3 Ha4 Hp1).
    reflexivity. }
  clearbody s3. subst s3. cbn [fst snd].
  split.
  { unfold WarehouseAgent.get_inventory_level at 1. cbn.
    by rewrite PyDictO_get_set_eq. }
  cbn. by apply PyDict_del_set_fresh.
Qed.

Lemma replenishment_from_producer_stock_witness :
  let s1 := snd (WarehouseAgent._place_factory_order (Some "p1") 100
                   (stocked_warehouse, MessageBus.init 0)) in
  let s2 :=
    snd (BaseAgent.process_messages "factory_1" FactoryAgent.handle_message
           (stocked_factory, snd s1)) in
  let s3 :=
    snd (BaseAgent.process_messages "warehouse_1"
           WarehouseAgent.handle_message (fst s1, snd s2)) in
  FactoryAgent.get_inventory_level (fst s2) "p1" = 400%Z
  /\ WarehouseAgent.get_inventory_level (fst s3) "p1" = 150%Z
  /\ WarehouseAgent.pending_factory_orders (fst s3) = [].
Proof.
  destruct (replenishment_from_producer_stock stocked_warehouse
              stocked_factory (MessageBus.init 0) "p1" 100)
    as (_ & _ & Hf & _ & _ & _ & Hw & Hp).
  - discriminate.
  - discriminate.
  - reflexivity.
  - discriminate.
  - lia.
  - vm_compute. discriminate.
  - reflexivity.
  - reflexivity.
  - reflexivity.
  - cbv zeta. split; [exact Hf|]. split; [exact Hw|exact Hp].
Defined.

End Replenishment.

(** ** Insertion-ordered dictionaries: keys and sizes *)
Section PyDictKeys.
Context {V : Type}.

Lemma PyDict_keys_set_in (k : string) (v : V) (d : PyDict.t V) :
  In k (PyDict.keys d) -> PyDict.keys (PyDict.set k v d) = PyDict.keys d.
Proof.
  unfold PyDict.keys. induction d as [|[k' v'] d IH]; cbn; [by intros []|].
  intros Hin. destruct (String.eqb_spec k k') as [->|Hne]; cbn; [reflexivity|].
  destruct Hin as [E|Hin]; [by subst|]. by rewrite IH.
Qed.

Lemma PyDict_keys_set_notin (k : string) (v : V) (d : PyDict.t V) :
  ~ In k (PyDict.keys d) ->
  PyDict.keys (PyDict.set k v d) = PyDict.keys d ++ [k].
Proof.
  unfold PyDict.keys. induction d as [|[k' v'] d IH]; cbn; [reflexivity|].
  intros Hin. destruct (String.eqb_spec k k') as [->|Hne]; cbn.
  - exfalso. apply Hin. by left.
  - rewrite IH; [reflexivity|]. intros Hd. apply Hin. by right.
Qed.

Lemma PyDict_set_NoDup (k : string) (v : V) (d : PyDict.t V) :
  NoDup (PyDict.keys d) -> NoDup (PyDict.keys (PyDict.set k v d)).
Proof.
  intros Hnd. destruct (in_dec String.string_dec k (PyDict.keys d)) as [Hin|Hin].
  - by rewrite PyDict_keys_set_in.
  - rewrite PyDict_keys_set_notin by exact Hin.
    apply NoDup_app. split; [exact Hnd|]. split.
    + intros x Hx Hk. apply list_elem_of_singleton in Hk as ->.
      apply Hin. by apply list_elem_of_In.
    + apply NoDup_singleton.
Qed.

Lemma PyDict_set_length (k : string) (v : V) (d : PyDict.t V) :
  (length (PyDict.set k v d) <= S (length d))%nat
  /\ (In k (PyDict.keys d) -> length (PyDict.set k v d) = length d).
Proof.
  assert (forall d0 : PyDict.t V, length d0 = length (PyDict.keys d0)) as Hlen
    by (intros d0; unfold PyDict.keys; by rewrite length_map).
  rewrite !Hlen.
  destruct (in_dec String.string_dec k (PyDict.keys d)) as [Hin|Hin].
  - rewrite PyDict_keys_set_in by exact Hin. split; [lia|reflexivity].
  - rewrite PyDict_keys_set_notin by exact Hin.
    split; [rewrite length_app; cbn; lia|contradiction].
Qed.

Lemma PyDict_set_Forall (P : V -> Prop) (k : string) (v : V)
    (d : PyDict.t V) :
  Forall (fun kv => P (snd kv)) d -> P v ->
  Forall (fun kv => P (snd kv)) (PyDict.set k v d).
Proof.
  intros Hd Hv. induction d as [|[k' v'] d IH]; cbn.
  - by repeat constructor.
  - apply Forall_cons in Hd as [Hv' Hd].
    destruct (String.eqb k k'); constructor; auto.
Qed.

Lemma PyDict_del_Forall (P : string * V -> Prop) (k : string)
    (d : PyDict.t V) :
  Forall P d -> Forall P (PyDict.del k d).
Proof.
  intros Hd. induction d as [|[k' v'] d IH]; cbn; [constructor|].
  apply Forall_cons in Hd as [Hv' Hd].
  destruct (String.eqb k k'); [exact Hd|]. constructor; auto.
Qed.

Lemma PyDict_del_keys (k : string) (d : PyDict.t V) :
  NoDup (PyDict.keys d) -> In k (PyDict.keys d) ->
  NoDup (PyDict.keys (PyDict.del k d))
  /\ S (length (PyDict.del k d)) = length d
  /\ forall k', In k' (PyDict.keys (PyDict.del k d))
                <-> In k' (PyDict.keys d) /\ k' <> k.
Proof.
  unfold PyDict.keys. induction d as [|[k0 v0] d IH]; cbn; [by intros _ []|].
  intros Hnd Hin. apply NoDup_cons in Hnd as [Hk0 Hnd].
  rewrite list_elem_of_In in Hk0.
  destruct (String.eqb_spec k k0) as [->|Hne].
  - split; [exact Hnd|]. split; [reflexivity|].
    intros k'. split.
    + intros Hk'. split; [by right|]. intros ->. contradiction.
    + intros [[E|Hk'] Hne']; [by subst|exact Hk'].
  - destruct Hin as [E|Hin]; [by subst|].
    destruct (IH Hnd Hin) as (Hnd' & Hlen & Hkeys). cbn. split.
    + apply NoDup_cons. split; [|exact Hnd'].
      rewrite list_elem_of_In. intros Hk. apply Hkeys in Hk as [Hk _].
      contradiction.
    + split; [lia|]. intros k'. rewrite Hkeys. split.
      * intros [E|[Hk' Hne']]; [subst; split; [by left|congruence]|].
        split; [by right|exact Hne'].
      * intros [[E|Hk'] Hne']; [by left|right; by split].
Qed.

End PyDictKeys.

(** ** Distributor: order accounting *)
Section WarehouseAccounts.
Import WarehouseAgent.

Lemma preserves_upd_accounts (f : t -> t) :
  (forall a, agent_id (f a) = agent_id a) ->
  (forall a, pending_store_orders (f a) = pending_store_orders a) ->
  (forall a, available_trucks (f a) = available_trucks a) ->
  (forall a, orders_fulfilled (f a) = orders_fulfilled a) ->
  (forall a, orders_rejected (f a) = orders_rejected a) ->
  (forall a, orders_processed (f a) = orders_processed a) ->
  preserves (fun s => accounts_ok (fst s)) (upd f).
Proof.
  intros H1 H2 H3 H4 H5 H6 [a b] Hok. cbn in *. unfold accounts_ok in *.
  by rewrite H1, H2, H3, H4, H5, H6.
Qed.

Ltac accounts_auto :=
  repeat first
    [ apply preserves_ret
    | apply preserves_raise
    | apply preserves_lift
    | apply preserves_try_except
    | apply preserves_self; intros ?
    | apply preserves_send; intros ? ? ? ?; assumption
    | apply preserves_upd_accounts; intros ?; reflexivity
    | apply preserves_bind; [|intros ?]
    | apply preserves_for_each; intros ?
    | match goal with
      | |- preserves _ (match ?x with _ => _ end) => destruct x
      | |- preserves _ (if ?x then _ else _) => destruct x
      | |- preserves _ (let '(_, _) := ?x in _) => destruct x
      end ].

Lemma Order_init_requester oid pid q r o :
  Order.init oid pid q r = Ok o -> Order.requester o <> "".
Proof.
  unfold Order.init. intros Hinit.
  destruct oid as [oid|]; [|discriminate].
  destruct (String.eqb oid ""); [discriminate|].
  destruct pid as [pid|]; [|discriminate].
  destruct (String.eqb pid ""); [discriminate|].
  destruct q as [| |q]; try discriminate.
  destruct (q <=? 0)%Z; [discriminate|].
  destruct r as [r|]; [|discriminate].
  destruct (String.eqb_spec r ""); [discriminate|].
  injection Hinit as <-. assumption.
Qed.

Lemma handle_store_order_accounts m :
  preserves (fun s => accounts_ok (fst s)) (_handle_store_order m).
Proof.
  unfold _handle_store_order. intros [a b] Hok. cbn [fst] in Hok.
  unfold bind, lift.
  destruct (Order.init _ _ _ _) as [o|e] eqn:Hinit; [|exact Hok].
  apply Order_init_requester in Hinit.
  unfold upd, modify. cbn.
  destruct Hok as (Hid & Hnd & Hreq & Hav & Hf & Hr & Hsum).
  unfold accounts_ok. cbn.
  repeat split; try assumption.
  - by apply PyDict_set_NoDup.
  - by apply (PyDict_set_Forall (fun o => Order.requester o <> "")).
  - match goal with
    | |- context [length (PyDict.set ?k ?v ?d)] =>
      pose proof (proj1 (PyDict_set_length k v d))
    end.
    lia.
Qed.

Lemma accounts_ok_truck_back a truck_id :
  accounts_ok a -> truck_id <> "" ->
  forall a', agent_id a' = agent_id a ->
    pending_store_orders a' = pending_store_orders a ->
    available_trucks a' = available_trucks a ++ [truck_id] ->
    orders_fulfilled a' = orders_fulfilled a ->
    orders_rejected a' = orders_rejected a ->
    orders_processed a' = orders_processed a ->
    accounts_ok a'.
Proof.
  intros (Hid & Hnd & Hreq & Hav & Hf & Hr & Hsum) Hne a' H1 H2 H3 H4 H5 H6.
  unfold accounts_ok. rewrite H1, H2, H3, H4, H5, H6.
  repeat split; try assumption.
  apply Forall_app. split; [assumption|]. by repeat constructor.
Qed.

Lemma handle_delivery_complete_accounts m :
  Message.sender m <> "" ->
  preserves (fun s => accounts_ok (fst s)) (_handle_delivery_complete m).
Proof.
  intros Hsender. unfold _handle_delivery_complete.
  apply preserves_self; intros a. apply preserves_bind.
  - destruct (assigned_trucks a !! Message.sender m); [|apply preserves_ret].
    intros [a1 b1] Hok. cbn in *.
    by apply (accounts_ok_truck_back a1 (Message.sender m)).
  - intros _. accounts_auto.
Qed.

Lemma handle_truck_available_accounts m :
  Message.sender m <> "" ->
  preserves (fun s => accounts_ok (fst s)) (_handle_truck_available m).
Proof.
  intros Hsender. unfold _handle_truck_available.
  apply preserves_self; intros a. apply preserves_bind; [accounts_auto|].
  intros _. apply preserves_self; intros a1.
  destruct (existsb _ _); [apply preserves_ret|].
  intros [a2 b2] Hok. cbn in *.
  by apply (accounts_ok_truck_back a2 (Message.sender m)).
Qed.

Lemma handle_message_accounts m :
  Message.sender m <> "" ->
  preserves (fun s => accounts_ok (fst s)) (handle_message m).
Proof.
  intros Hsender. unfold handle_message. apply preserves_try_except.
  destruct (String.eqb _ "ORDER_REQUEST");
    [apply handle_store_order_accounts|].
  destruct (String.eqb _ "DELIVERY_COMPLETE");
    [by apply handle_delivery_complete_accounts|].
  destruct (String.eqb _ "PRODUCTION_COMPLETE");
    [unfold _handle_production_complete; accounts_auto|].
  destruct (String.eqb _ "TRUCK_AVAILABLE");
    [by apply handle_truck_available_accounts|apply preserves_ret].
Qed.

Lemma process_messages_accounts id b a :
  Forall (fun m => Message.sender m <> "") (MessageBus.queue b id) ->
  accounts_ok a ->
  accounts_ok (fst (snd (BaseAgent.process_messages id handle_message (a, b)))).
Proof.
  intros Hq Hok. rewrite process_messages_feed.
  assert (forall ms s, Forall (fun m => Message.sender m <> "") ms ->
            accounts_ok (fst s) ->
            accounts_ok (fst (snd (for_each ms (feed id handle_message) s))))
    as Hloop.
  { induction ms as [|m ms IH]; intros s Hms Hs; [exact Hs|].
    apply Forall_cons in Hms as [Hm Hms]. cbn [for_each]. unfold bind at 1.
    assert (accounts_ok (fst (snd (feed id handle_message m s)))) as H1.
    { unfold feed.
      apply (preserves_bind (fun s => accounts_ok (fst s))); [| |exact Hs].
      - apply preserves_modify. intros [a0 b0] H0. exact H0.
      - intros _. by apply preserves_try_except, handle_message_accounts. }
    destruct (feed id handle_message m s) as [[[]|e] s1]; cbn [fst snd] in *.
    - by apply IH.
    - exact H1. }
  by apply Hloop.
Qed.

Lemma check_and_reorder_accounts :
  preserves (fun s => accounts_ok (fst s)) _check_and_reorder_from_factory.
Proof.
  unfold _check_and_reorder_from_factory. apply preserves_self; intros a0.
  apply preserves_for_each. intros [p q]. apply preserves_self; intros a.
  destruct (q <=? reorder_threshold a)%Z; [|apply preserves_ret].
  cbv zeta. destruct (negb _); [|apply preserves_ret].
  unfold _place_factory_order. apply preserves_self; intros a1.
  apply preserves_bind.
  - intros [a2 b2] H2. exact H2.
  - intros now_ms. accounts_auto.
Qed.

Lemma pending_body_counts K c p oid o a b :
  pending_loop_inv K c p a -> In oid K -> Order.requester o <> "" ->
  exists r a' b',
    process_pending_order oid o (a, b) = (Ok r, (a', b'))
    /\ pending_loop_inv K (c + (if r : bool then 1 else 0)) p a'.
Proof.
  intros (Hid & HK & Hreq & Hav & Hf & Hr & Hc & Hp) Hin Ho.
  destruct (Z_lt_le_dec (get_inventory_level a (Order.product_id o))
              (Order.quantity o)) as [Hshort|Hcov].
  - exists true, (after_rejection a),
      (MessageBus.publish (rejection_msg a o) b).
    split; [by apply reject_body|].
    unfold pending_loop_inv, after_rejection. cbn.
    repeat split; try assumption; lia.
  - destruct (available_trucks a) as [|truck_id rest] eqn:Eav.
    + exists false, a, b. split; [by apply wait_body|].
      unfold pending_loop_inv. rewrite Eav, Z.add_0_r. by repeat split.
    + apply Forall_cons in Hav as [Htruck Hrest].
      exists true, (after_fulfilment oid o a),
        (MessageBus.publish (dispatch_order_msg a o truck_id) b).
      split; [by apply (fulfil_body oid o a b truck_id rest)|].
      unfold pending_loop_inv, after_fulfilment. cbn. rewrite Eav. cbn.
      repeat split; try assumption; try lia.
      * rewrite <- HK. apply PyDict_keys_set_in. by rewrite HK.
      * by apply (PyDict_set_Forall (fun o => Order.requester o <> "")).
Qed.

Lemma pending_loop_counts K p (items : list (string * Order.t)) :
  NoDup (map fst items) ->
  (forall kv, In kv items -> In (fst kv) K /\ Order.requester (snd kv) <> "") ->
  forall rm c a b,
    pending_loop_inv K c p a ->
    exists added a' b',
      process_pending_loop items rm (a, b) = (Ok (rm ++ added), (a', b'))
      /\ pending_loop_inv K (c + Z.of_nat (length added)) p a'
      /\ NoDup added
      /\ forall k, In k added -> In k (map fst items).
Proof.
  induction items as [|[oid o] items IH]; intros Hnd Hitems rm c a b Hinv;
    cbn [process_pending_loop].
  - exists [], a, b. cbn [length Z.of_nat]. rewrite app_nil_r, Z.add_0_r.
    split; [reflexivity|]. split; [exact Hinv|].
    split; [constructor|by intros k []].
  - cbn [map fst] in Hnd. apply NoDup_cons in Hnd as [Hfresh Hnd].
    rewrite list_elem_of_In in Hfresh.
    destruct (Hitems (oid, o) (or_introl eq_refl)) as [HinK Hreq].
    destruct (pending_body_counts K c p oid o a b Hinv HinK Hreq)
      as (r & a1 & b1 & Hbody & Hinv1).
    unfold bind. rewrite Hbody.
    destruct (IH Hnd (fun kv Hkv => Hitems kv (or_intror Hkv))
                (if r then rm ++ [oid] else rm)
                (c + (if r then 1 else 0))%Z a1 b1 Hinv1)
      as (added & a' & b' & Hloop & Hinv' & Hnd' & Hsub).
    rewrite Hloop. destruct r.
    + exists (oid :: added), a', b'. rewrite <- app_assoc. cbn [app].
      split; [reflexivity|]. split.
      { cbn [length]. replace (c + Z.of_nat (S (length added)))%Z
          with (c + 1 + Z.of_nat (length added))%Z by lia. exact Hinv'. }
      split.
      { apply NoDup_cons. split; [|exact Hnd'].
        rewrite list_elem_of_In. intros Hin. apply Hfresh. by apply Hsub. }
      intros k [<-|Hk]; [by left|right; by apply Hsub].
    + exists added, a', b'. split; [reflexivity|]. split.
      { by rewrite Z.add_0_r in Hinv'. }
      split; [exact Hnd'|]. intros k Hk. right. by apply Hsub.
Qed.

Lemma remove_loop_counts (rm : list string) : forall a b,
  NoDup rm ->
  NoDup (PyDict.keys (pending_store_orders a)) ->
  (forall k, In k rm -> In k (PyDict.keys (pending_store_orders a))) ->
  exists a',
    for_each rm
      (fun order_id =>
         upd (fun a =>
           set_pending_store_orders
             (PyDict.del order_id (pending_store_orders a)) a)) (a, b)
    = (Ok tt, (a', b))
    /\ agent_id a' = agent_id a
    /\ available_trucks a' = available_trucks a
    /\ orders_fulfilled a' = orders_fulfilled a
    /\ orders_rejected a' = orders_rejected a
    /\ orders_processed a' = orders_processed a
    /\ NoDup (PyDict.keys (pending_store_orders a'))
    /\ (Forall (fun kv => Order.requester (snd kv) <> "")
          (pending_store_orders a) ->
        Forall (fun kv => Order.requester (snd kv) <> "")
          (pending_store_orders a'))
    /\ (length (pending_store_orders a') + length rm
        = length (pending_store_orders a))%nat.
Proof.
  induction rm as [|k rm IH]; intros a b Hrm Hnd Hin; cbn [for_each].
  - exists a. cbn [length]. rewrite Nat.add_0_r.
    split; [reflexivity|]. by repeat split.
  - apply NoDup_cons in Hrm as [Hk Hrm]. rewrite list_elem_of_In in Hk.
    destruct (PyDict_del_keys k (pending_store_orders a) Hnd
                (Hin k (or_introl eq_refl))) as (Hnd1 & Hlen1 & Hkeys1).
    unfold bind at 1, upd at 1, modify at 1. cbn beta iota.
    destruct (IH (set_pending_store_orders
                    (PyDict.del k (pending_store_orders a)) a) b Hrm)
      as (a' & Hrun & H1 & H2 & H3 & H4 & H5 & H6 & H7 & H8).
    { exact Hnd1. }
    { intros k' Hk'. cbn. apply Hkeys1. split; [apply Hin; by right|].
      intros ->. contradiction. }
    exists a'. rewrite Hrun. cbn in *.
    repeat split; try assumption.
    + intros Hall. apply H7. by apply PyDict_del_Forall.
    + lia.
Qed.

Lemma process_pending_orders_accounts a b :
  accounts_ok a -> accounts_ok (fst (snd (_process_pending_orders (a, b)))).
Proof.
  intros (Hid & Hnd & Hreq & Hav & Hf & Hr & Hsum).
  unfold _process_pending_orders. unfold bind at 1, self at 1.
  cbn beta iota.
  destruct (pending_loop_counts (PyDict.keys (pending_store_orders a))
              (orders_processed a) (pending_store_orders a)) with
    (rm := @nil string) (c := (orders_fulfilled a + orders_rejected a)%Z)
    (a := a) (b := b)
    as (added & a1 & b1 & Hloop & Hinv1 & Hnd1 & Hsub).
  { exact Hnd. }
  { intros [k o] Hkv. split.
    - unfold PyDict.keys. apply in_map_iff. by exists (k, o).
    - rewrite Forall_forall in Hreq. apply (Hreq (k, o)).
      by apply list_elem_of_In. }
  { by repeat split. }
  unfold bind. rewrite Hloop. cbn [app].
  destruct Hinv1 as (Hid1 & HK1 & Hreq1 & Hav1 & Hf1 & Hr1 & Hc1 & Hp1).
  destruct (remove_loop_counts added a1 b1 Hnd1)
    as (a2 & Hrun & H1 & H2 & H3 & H4 & H5 & H6 & H7 & H8).
  { by rewrite HK1. }
  { intros k Hk. rewrite HK1. by apply Hsub. }
  rewrite Hrun. cbn [fst snd]. unfold accounts_ok.
  rewrite H1, H2, H3, H4, H5.
  repeat split; try assumption; [by apply H7|].
  assert (length (pending_store_orders a1) = length (pending_store_orders a))
    as Hlen.
  { rewrite <- (length_map fst (pending_store_orders a1)).
    rewrite <- (length_map fst (pending_store_orders a)).
    unfold PyDict.keys in HK1. by rewrite HK1. }
  lia.
Qed.

Lemma step_accounts a b :
  accounts_ok a ->
  Forall (fun m => Message.sender m <> "") (MessageBus.queue b (agent_id a)) ->
  accounts_ok (fst (snd (step (a, b)))).
Proof.
  intros Hok Hq. unfold step. unfold bind at 1. unfold self at 1.
  cbn beta iota. unfold bind at 1.
  pose proof (process_messages_accounts (agent_id a) b a Hq Hok) as H1.
  destruct (BaseAgent.process_messages (agent_id a) handle_message (a, b))
    as [[[]|e] [a1 b1]]; cbn [fst snd] in *; [|exact H1].
  unfold bind at 1.
  pose proof (check_and_reorder_accounts (a1, b1) H1) as H2.
  destruct (_check_and_reorder_from_factory (a1, b1))
    as [[[]|e] [a2 b2]]; cbn [fst snd] in *; [|exact H2].
  by apply process_pending_orders_accounts.
Qed.

Lemma truck_name_nonempty id i : truck_name id i <> "".
Proof. unfold truck_name. discriminate. Qed.

Lemma warehouse_run_accounts a : warehouse_run a -> accounts_ok a.
Proof.
  induction 1 as [id loc inv thr qty n Hid|a b m _ IH Hm|a b _ IH Hq].
  - unfold accounts_ok, init. cbn.
    repeat split; try lia; try constructor; [exact Hid|].
    apply Forall_forall. intros x Hx. apply list_elem_of_In in Hx.
    apply in_map_iff in Hx as (i & <- & _). apply truck_name_nonempty.
  - by apply (handle_message_accounts m Hm (a, b)).
  - by apply step_accounts.
Qed.

(** X12. In every state a distributor reaches from its constructor by
    handling messages and by ticks, the orders counted as fulfilled or
    rejected plus the orders still pending never exceed the orders counted
    as processed, no counter is negative, and the fulfilment rate reported
    by [get_performance_metrics] lies between 0 and 1. *)
Theorem order_counters_account_for_every_order a :
  warehouse_run a ->
  let m := get_performance_metrics a in
  (metrics_orders_fulfilled m + metrics_orders_rejected m
   + Z.of_nat (metrics_pending_store_orders m)
   <= metrics_orders_processed m)%Z
  /\ (0 <= metrics_orders_fulfilled m)%Z
  /\ (0 <= metrics_orders_rejected m)%Z
  /\ (0 <= fulfillment_rate m)%Q /\ (fulfillment_rate m <= 1)%Q.
Proof.
  intros Hrun. apply warehouse_run_accounts in Hrun
    as (_ & _ & _ & _ & Hf & Hr & Hsum).
  cbn [get_performance_metrics metrics_orders_fulfilled metrics_orders_rejected
       metrics_pending_store_orders metrics_orders_processed fulfillment_rate].
  repeat split; try assumption.
  - apply Qle_shift_div_l.
    + change 0%Q with (inject_Z 0). rewrite <- Zlt_Qlt. lia.
    + rewrite Qmult_0_l. change 0%Q with (inject_Z 0). rewrite <- Zle_Qle. lia.
  - apply Qle_shift_div_r.
    + change 0%Q with (inject_Z 0). rewrite <- Zlt_Qlt. lia.
    + rewrite Qmult_1_l. rewrite <- Zle_Qle. lia.
Qed.

Lemma order_counters_account_for_every_order_witness :
  let m := get_performance_metrics audited_warehouse in
  metrics_orders_processed m = 2%Z
  /\ metrics_orders_fulfilled m = 1%Z
  /\ metrics_pending_store_orders m = 0%nat
  /\ (fulfillment_rate m <= 1)%Q.
Proof.
  split; [reflexivity|]. split; [reflexivity|]. split; [reflexivity|].
  apply (order_counters_account_for_every_order audited_warehouse).
  unfold audited_warehouse. apply run_step.
  - apply run_init. discriminate.
  - vm_compute. repeat constructor; discriminate.
Defined.

End WarehouseAccounts.

(** ** Producer invariants *)
Section FactoryInvariants.
Import FactoryAgent.

Lemma Order_init_quantity oid pid q r o :
  Order.init oid pid (VInt q) r = Ok o ->
  Order.quantity o = q /\ (0 < q)%Z.
Proof.
  unfold Order.init. intros Hinit.
  destruct oid as [oid|]; [|discriminate].
  destruct (String.eqb oid ""); [discriminate|].
  destruct pid as [pid|]; [|discriminate].
  destruct (String.eqb pid ""); [discriminate|].
  destruct (Z.leb_spec q 0); [discriminate|].
  destruct r as [r|]; [|discriminate].
  destruct (String.eqb r ""); [discriminate|].
  injection Hinit as <-. by split.
Qed.

Lemma notify_production_complete_agent o a b :
  fst (snd (_notify_production_complete o (a, b))) = a.
Proof.
  unfold _notify_production_complete, bind, self. cbn beta iota.
  unfold BaseAgent.send_message.
  destruct (Message.init _ _ _ _); [|reflexivity].
  unfold lift. by destruct (Order.update_status _ _).
Qed.

Lemma PyDict_get_Some_In {V} k (v : V) d :
  PyDict.get k d = Some v -> In (k, v) d.
Proof.
  induction d as [|[k0 v0] d IH]; cbn; [discriminate|].
  destruct (String.eqb_spec k k0) as [->|Hne].
  - intros [= ->]. by left.
  - intros Hget. right. by apply IH.
Qed.

Lemma PyDict_del_length_get {V} k (v : V) d :
  PyDict.get k d = Some v -> S (length (PyDict.del k d)) = length d.
Proof.
  induction d as [|[k0 v0] d IH]; cbn; [discriminate|].
  destruct (String.eqb k k0); [reflexivity|].
  intros Hget. cbn. by rewrite IH.
Qed.

Lemma PyDict_set_length_le {V} k (v : V) d :
  (length d <= length (PyDict.set k v d) <= S (length d))%nat.
Proof.
  induction d as [|[k0 v0] d IH]; cbn; [lia|].
  destruct (String.eqb k k0); cbn; lia.
Qed.

Lemma start_loop_fields queue : forall cap a,
  production_capacity (start_loop cap queue a) = production_capacity a
  /\ orders_received (start_loop cap queue a) = orders_received a
  /\ orders_completed (start_loop cap queue a) = orders_completed a.
Proof.
  induction queue as [|o rest IH]; intros cap a; cbn [start_loop];
    [by repeat split|].
  destruct (0 <? cap)%Z; [|by repeat split].
  match goal with
  | |- context [start_loop _ rest ?a1] =>
    destruct (IH (cap - 1)%Z a1) as (H1 & H2 & H3)
  end.
  rewrite H1, H2, H3. by repeat split.
Qed.

Lemma start_jobs_length now lead orders : forall active,
  (length active <= length (start_jobs now lead orders active)
   <= length active + length orders)%nat.
Proof.
  unfold start_jobs.
  induction orders as [|o orders IH]; intros active; cbn [fold_left length];
    [lia|].
  pose proof (PyDict_set_length_le (Order.order_id o)
                (started_job now lead o) active).
  specialize (IH (PyDict.set (Order.order_id o) (started_job now lead o)
                    active)).
  lia.
Qed.

Section Generic.
Variable P : t -> Prop.
Hypothesis Htick :
  forall a, P a -> P (set_current_time_step (current_time_step a + 1)%Z a).
Hypothesis Hserve :
  forall a o, P a -> (0 < Order.quantity o)%Z ->
    (Order.quantity o <= get_inventory_level a (Order.product_id o))%Z ->
    P (debit_goods a o).
Hypothesis Hqueue :
  forall a o, P a -> (0 < Order.quantity o)%Z -> P (queue_order a o).
Hypothesis Hretire :
  forall a oid info, P a ->
    PyDict.get oid (active_production a) = Some info ->
    P (credit_goods a info) /\ P (retire a (oid, info)).
Hypothesis Hstart :
  forall a, P a ->
    P (start_loop
         (production_capacity a - Z.of_nat (length (active_production a)))%Z
         (production_queue a) a).

Lemma handle_factory_order_inv m a b :
  P a -> P (fst (snd (_handle_factory_order m (a, b)))).
Proof.
  intros Ha. unfold _handle_factory_order.
  destruct (Message.data_get_default m "quantity" (VInt 0)) as [| |q];
    try exact Ha.
  destruct (_ && _); [|exact Ha].
  unfold bind at 1, lift at 1.
  destruct (Order.init _ _ _ _) as [o|e] eqn:Hinit; [|exact Ha].
  apply Order_init_quantity in Hinit as [Hq Hpos].
  unfold bind at 1, self at 1. cbn beta iota.
  destruct (Z.leb_spec q (get_inventory_level a (Order.product_id o))).
  - unfold _fulfill_from_inventory. unfold bind at 1, upd at 1, modify at 1.
    cbn beta iota. fold (debit_goods a o). unfold bind at 1.
    pose proof (notify_production_complete_agent o (debit_goods a o) b) as Hn.
    destruct (_notify_production_complete o (debit_goods a o, b))
      as [[o'|e] [a1 b1]]; cbn [fst snd] in *; subst a1;
      apply Hserve; try assumption; lia.
  - unfold upd, modify. cbn [fst snd]. apply Hqueue; [exact Ha|lia].
Qed.

Lemma factory_handle_message_inv m a b :
  P a -> P (fst (snd (handle_message m (a, b)))).
Proof.
  intros Ha. unfold handle_message, try_except.
  destruct (String.eqb _ _); [|exact Ha].
  pose proof (handle_factory_order_inv m a b Ha) as H.
  by destruct (_handle_factory_order m (a, b)) as [[[]|e] s].
Qed.

Lemma factory_process_messages_inv a b :
  P a ->
  P (fst (snd (BaseAgent.process_messages (agent_id a) handle_message (a, b)))).
Proof.
  intros Ha. rewrite process_messages_feed.
  generalize (snd (MessageBus.deliver_messages (agent_id a) b)).
  generalize (agent_id a) at 2. intros id.
  generalize (MessageBus.queue b (agent_id a)). intros ms. revert a Ha.
  induction ms as [|m ms IH]; intros a Ha b0; [exact Ha|].
  cbn [for_each]. unfold bind at 1.
  assert (P (fst (snd (feed id handle_message m (a, b0))))) as H1.
  { unfold feed, bind, modify, try_except. cbn beta iota.
    pose proof (factory_handle_message_inv m a
                  (MessageBus.log (Handled id m) b0) Ha) as H.
    by destruct (handle_message m (a, MessageBus.log (Handled id m) b0))
      as [[[]|e] s]. }
  destruct (feed id handle_message m (a, b0)) as [[[]|e] [a1 b1]];
    cbn [fst snd] in *; [by apply IH|exact H1].
Qed.

Lemma complete_order_inv oid a b :
  P a -> P (fst (snd (complete_order oid (a, b)))).
Proof.
  intros Ha. unfold complete_order. unfold bind at 1, self at 1.
  cbn beta iota.
  destruct (PyDict.get oid (active_production a)) as [info|] eqn:Hget;
    [|exact Ha].
  destruct (Hretire a oid info Ha Hget) as [Hc Hr].
  unfold bind at 1, upd at 1, modify at 1. cbn beta iota.
  fold (credit_goods a info). unfold bind at 1.
  pose proof (notify_production_complete_agent (order info)
                (credit_goods a info) b) as Hn.
  destruct (_notify_production_complete (order info) (credit_goods a info, b))
    as [[o'|e] [a1 b1]]; cbn [fst snd] in *; subst a1; [|exact Hc].
  exact Hr.
Qed.

Lemma check_production_completion_inv a b :
  P a -> P (fst (snd (_check_production_completion (a, b)))).
Proof.
  intros Ha. unfold _check_production_completion, bind, self. cbn beta iota.
  generalize (completed_orders a). intros ids. revert a b Ha.
  induction ids as [|oid ids IH]; intros a b Ha; [exact Ha|].
  cbn [for_each]. unfold bind at 1.
  pose proof (complete_order_inv oid a b Ha) as H1.
  destruct (complete_order oid (a, b)) as [[[]|e] [a1 b1]];
    cbn [fst snd] in *; [by apply IH|exact H1].
Qed.

Lemma factory_step_inv a b : P a -> P (fst (snd (step (a, b)))).
Proof.
  intros Ha. unfold step. unfold bind at 1, upd at 1, modify at 1.
  cbn beta iota. apply Htick in Ha.
  set (a1 := set_current_time_step (current_time_step a + 1)%Z a) in *.
  unfold bind at 1, self at 1. cbn beta iota. unfold bind at 1.
  pose proof (factory_process_messages_inv a1 b Ha) as H1.
  destruct (BaseAgent.process_messages (agent_id a1) handle_message (a1, b))
    as [[[]|e] [a2 b2]]; cbn [fst snd] in *; [|exact H1].
  unfold bind at 1.
  pose proof (check_production_completion_inv a2 b2 H1) as H2.
  destruct (_check_production_completion (a2, b2)) as [[[]|e] [a3 b3]];
    cbn [fst snd] in *; [|exact H2].
  unfold _start_new_production, upd, modify. cbn [fst snd].
  by apply Hstart.
Qed.

End Generic.

Lemma jobs_within_step n cap a b :
  jobs_within n cap a -> jobs_within n cap (fst (snd (step (a, b)))).
Proof.
  apply factory_step_inv; clear a b.
  - intros a H. exact H.
  - intros a o H _ _. exact H.
  - intros a o H _. exact H.
  - intros a oid info (Hcap & Hle & Hlen) Hget. split; [by repeat split|].
    unfold jobs_within, retire. cbn.
    pose proof (PyDict_del_length_get oid info _ Hget). repeat split; [done..|lia].
  - intros a (Hcap & Hle & Hlen). unfold jobs_within.
    destruct (start_loop_fields (production_queue a)
                (production_capacity a
                 - Z.of_nat (length (active_production a)))%Z a) as (-> & _).
    destruct (start_loop_spec (production_queue a)
                (production_capacity a
                 - Z.of_nat (length (active_production a)))%Z a)
      as (_ & -> & _).
    repeat split; [done..|].
    match goal with
    | |- context [start_jobs ?now ?lead ?os ?act] =>
      pose proof (start_jobs_length now lead os act) as Hjobs;
      pose proof (length_take_le os
                    (Z.to_nat (production_capacity a
                               - Z.of_nat (length (active_production a)))))
    end.
    rewrite length_take in Hjobs. lia.
Qed.

Lemma books_step a b : books_ok a -> books_ok (fst (snd (step (a, b)))).
Proof.
  apply factory_step_inv; clear a b.
  - intros a H. exact H.
  - intros a o H _ _. exact H.
  - intros a o [Hc Hsum] _. unfold books_ok, queue_order. cbn.
    rewrite length_app. cbn. lia.
  - intros a oid info [Hc Hsum] Hget. split; [by split|].
    unfold books_ok, retire. cbn.
    pose proof (PyDict_del_length_get oid info _ Hget). lia.
  - intros a [Hc Hsum]. unfold books_ok.
    destruct (start_loop_fields (production_queue a)
                (production_capacity a
                 - Z.of_nat (length (active_production a)))%Z a)
      as (_ & -> & ->).
    destruct (start_loop_spec (production_queue a)
                (production_capacity a
                 - Z.of_nat (length (active_production a)))%Z a)
      as (-> & -> & _).
    split; [done|].
    match goal with
    | |- context [start_jobs ?now ?lead ?os ?act] =>
      pose proof (start_jobs_length now lead os act) as Hjobs
    end.
    rewrite length_take in Hjobs. rewrite length_drop. lia.
Qed.

Lemma books_handle_message m a b :
  books_ok a -> books_ok (fst (snd (handle_message m (a, b)))).
Proof.
  apply factory_handle_message_inv; clear a b.
  - intros a o H _ _. exact H.
  - intros a o [Hc Hsum] _. unfold books_ok, queue_order. cbn.
    rewrite length_app. cbn. lia.
Qed.

Lemma goods_ok_level a p : goods_ok a -> (0 <= get_inventory_level a p)%Z.
Proof.
  intros (Hinv & _). unfold get_inventory_level.
  destruct (finished_goods_inventory a !! p) as [q|] eqn:Hp; cbn; [|lia].
  by apply (Hinv p q).
Qed.

Lemma goods_ok_debit a o :
  goods_ok a -> (0 < Order.quantity o)%Z ->
  (Order.quantity o <= get_inventory_level a (Order.product_id o))%Z ->
  goods_ok (debit_goods a o).
Proof.
  intros (Hinv & Hq & Hact) _ Hcov. unfold goods_ok, debit_goods. cbn.
  repeat split; [|done..]. apply map_Forall_insert_2; [lia|exact Hinv].
Qed.

Lemma goods_ok_queue a o :
  goods_ok a -> (0 < Order.quantity o)%Z -> goods_ok (queue_order a o).
Proof.
  intros (Hinv & Hq & Hact) Hpos. unfold goods_ok, queue_order. cbn.
  repeat split; [done| |done]. apply Forall_app. split; [done|].
  by constructor.
Qed.

Lemma goods_step a b : goods_ok a -> goods_ok (fst (snd (step (a, b)))).
Proof.
  apply factory_step_inv; clear a b.
  - intros a H. exact H.
  - apply goods_ok_debit.
  - apply goods_ok_queue.
  - intros a oid info Hok Hget.
    pose proof (goods_ok_level a (Order.product_id (order info)) Hok) as Hlvl.
    destruct Hok as (Hinv & Hq & Hact).
    assert (0 < Order.quantity (order info))%Z as Hpos.
    { apply PyDict_get_Some_In in Hget. rewrite Forall_forall in Hact.
      apply list_elem_of_In in Hget. exact (Hact _ Hget). }
    assert (map_Forall (fun _ q => (0 <= q)%Z)
              (<[Order.product_id (order info) :=
                   (get_inventory_level a (Order.product_id (order info))
                    + Order.quantity (order info))%Z]>
                 (finished_goods_inventory a))) as Hinv'.
    { apply map_Forall_insert_2; [lia|exact Hinv]. }
    split; [by repeat split|].
    unfold goods_ok, retire. cbn. repeat split; [done..|].
    by apply PyDict_del_Forall.
  - intros a (Hinv & Hq & Hact). unfold goods_ok.
    destruct (start_loop_spec (production_queue a)
                (production_capacity a
                 - Z.of_nat (length (active_production a)))%Z a)
      as (-> & -> & _ & ->).
    repeat split; [done|by apply Forall_drop|].
    generalize (Z.to_nat (production_capacity a
                          - Z.of_nat (length (active_production a)))).
    intros k. apply (Forall_take _ k) in Hq. revert Hq.
    generalize (take k (production_queue a)). intros os.
    generalize dependent (active_production a). unfold start_jobs.
    induction os as [|o os IH]; intros act Hact Hos; [exact Hact|].
    apply Forall_cons in Hos as [Ho Hos]. cbn [fold_left].
    apply IH; [|exact Hos].
    by apply (PyDict_set_Forall
                (fun info => (0 < Order.quantity (order info))%Z)).
Qed.

Lemma goods_handle_message m a b :
  goods_ok a -> goods_ok (fst (snd (handle_message m (a, b)))).
Proof.
  apply factory_handle_message_inv; [apply goods_ok_debit|apply goods_ok_queue].
Qed.

(** X17. A tick never pushes the number of jobs in production above the
    capacity: the capacity is unchanged, and the producer ends the tick
    with at most as many jobs as its capacity, or as many as it had when
    that was already more. So a producer that starts within its capacity
    reports a non-negative [available_capacity] and a utilisation of at
    most 1 after every tick, whatever its mailbox held and whether or not
    the tick raised. *)
Theorem production_never_exceeds_capacity a b :
  let a' := fst (snd (step (a, b))) in
  production_capacity a' = production_capacity a
  /\ (Z.of_nat (length (active_production a'))
      <= Z.max (production_capacity a)
               (Z.of_nat (length (active_production a))))%Z
  /\ ((Z.of_nat (length (active_production a)) <= production_capacity a)%Z ->
      (0 <= available_capacity (get_production_status a'))%Z
      /\ (status_capacity_utilization (get_production_status a') <= 1)%Q).
Proof.
  intros a'.
  destruct (jobs_within_step
              (Z.max (production_capacity a)
                 (Z.of_nat (length (active_production a))))
              (production_capacity a) a b) as (Hcap & _ & Hlen).
  { unfold jobs_within. repeat split; lia. }
  fold a' in Hcap, Hlen. split; [exact Hcap|]. split; [exact Hlen|].
  intros Hfits.
  cbn [get_production_status available_capacity status_capacity_utilization].
  rewrite Hcap. split; [lia|].
  apply Qle_shift_div_r.
  - change 0%Q with (inject_Z 0). rewrite <- Zlt_Qlt. lia.
  - rewrite Qmult_1_l. rewrite <- Zle_Qle. lia.
Qed.

Lemma production_never_exceeds_capacity_witness :
  let a' := fst (snd (step (factory_after 0))) in
  length (active_production a') = 2%nat
  /\ length (production_queue a') = 1%nat
  /\ (0 <= available_capacity (get_production_status a'))%Z.
Proof.
  split; [reflexivity|]. split; [reflexivity|].
  destruct (production_never_exceeds_capacity
              (fst (factory_after 0)) (snd (factory_after 0)))
    as (_ & _ & Hfits).
  apply Hfits. vm_compute. discriminate.
Defined.

(** X18. The producer's counters account for the orders it holds. A new
    producer has balanced books, and handling a message or running a tick
    keeps them balanced: the orders completed, in production and queued
    never add up to more than the orders received, and the completion
    rate reported by [get_performance_metrics] lies between 0 and 1. *)
Theorem producer_counters_account_for_orders :
  (forall id loc cap time inv, books_ok (init id loc cap time inv))
  /\ forall a b,
       books_ok a ->
       (forall m, books_ok (fst (snd (handle_message m (a, b)))))
       /\ books_ok (fst (snd (step (a, b))))
       /\ let r := get_performance_metrics (fst (snd (step (a, b)))) in
          (metrics_orders_completed r + Z.of_nat (orders_in_production r)
           + Z.of_nat (orders_in_queue r) <= metrics_orders_received r)%Z
          /\ (0 <= completion_rate r)%Q /\ (completion_rate r <= 1)%Q.
Proof.
  split; [intros; unfold books_ok; cbn; lia|].
  intros a b Hok.
  split; [intros m; by apply books_handle_message|].
  pose proof (books_step a b Hok) as Hstep.
  split; [exact Hstep|].
  destruct Hstep as [Hc Hsum].
  cbn [get_performance_metrics metrics_orders_completed orders_in_production
       orders_in_queue metrics_orders_received completion_rate].
  split; [exact Hsum|]. split.
  - apply Qle_shift_div_l.
    + change 0%Q with (inject_Z 0). rewrite <- Zlt_Qlt. lia.
    + rewrite Qmult_0_l. change 0%Q with (inject_Z 0). rewrite <- Zle_Qle. lia.
  - apply Qle_shift_div_r.
    + change 0%Q with (inject_Z 0). rewrite <- Zlt_Qlt. lia.
    + rewrite Qmult_1_l. rewrite <- Zle_Qle. lia.
Qed.

Lemma producer_counters_account_for_orders_witness :
  let r := get_performance_metrics (fst (snd (step (factory_after 0)))) in
  metrics_orders_received r = 3%Z
  /\ orders_in_production r = 2%nat
  /\ orders_in_queue r = 1%nat
  /\ (completion_rate r <= 1)%Q.
Proof.
  split; [reflexivity|]. split; [reflexivity|]. split; [reflexivity|].
  destruct producer_counters_account_for_orders as [Hinit Hkeep].
  destruct (Hkeep (fst (factory_after 0)) (snd (factory_after 0)))
    as (_ & _ & _ & _ & Hrate).
  - apply (Hinit "factory_1" factory_loc 2%Z 3%Z ∅).
  - exact Hrate.
Defined.

(** X19. Finished goods never go negative. If no level of finished goods
    is negative and every order queued or in production asks for a
    positive quantity, the same holds after handling any message and
    after a tick, whatever its outcome, so [get_inventory_level] is
    non-negative for every product; adding a non-negative quantity with
    [add_product_to_inventory] keeps it as well. A new producer whose
    initial levels are non-negative is in that condition. *)
Theorem finished_goods_never_negative :
  (forall id loc cap time inv,
     map_Forall (fun _ q => (0 <= q)%Z) inv ->
     goods_ok (init id loc cap time inv))
  /\ forall a b,
       goods_ok a ->
       (forall m, goods_ok (fst (snd (handle_message m (a, b)))))
       /\ goods_ok (fst (snd (step (a, b))))
       /\ (forall p, (0 <= get_inventory_level (fst (snd (step (a, b)))) p)%Z)
       /\ (forall p q, (0 <= q)%Z -> goods_ok (add_product_to_inventory p q a)).
Proof.
  split.
  { intros id loc cap time inv Hinv. unfold goods_ok. cbn.
    by repeat split. }
  intros a b Hok.
  split; [intros m; by apply goods_handle_message|].
  pose proof (goods_step a b Hok) as Hstep.
  split; [exact Hstep|]. split; [intros p; by apply goods_ok_level|].
  intros p q Hq. pose proof (goods_ok_level a p Hok) as Hlvl.
  destruct Hok as (Hinv & Hqueue & Hact).
  unfold goods_ok, add_product_to_inventory. cbn.
  repeat split; [|done..]. apply map_Forall_insert_2; [lia|exact Hinv].
Qed.

Lemma finished_goods_never_negative_witness :
  get_inventory_level (fst (snd (step (stocked_factory,
    MessageBus.publish (factory_order_msg "order_1") (MessageBus.init 0)))))
    "p1" = 400%Z
  /\ goods_ok (fst (snd (step (stocked_factory,
       MessageBus.publish (factory_order_msg "order_1")
         (MessageBus.init 0))))).
Proof.
  split; [reflexivity|].
  destruct finished_goods_never_negative as [Hinit Hkeep].
  destruct (Hkeep stocked_factory
              (MessageBus.publish (factory_order_msg "order_1")
                 (MessageBus.init 0))) as (_ & Hstep & _).
  - apply (Hinit "factory_1" factory_loc 2%Z 3%Z). 
    apply map_Forall_singleton. lia.
  - exact Hstep.
Defined.

End FactoryInvariants.

Section CityMapFacts.
Import CachedCityMap.

Lemma cache_key_sym id1 id2 :
  id1 <> id2 -> cache_key id1 id2 = cache_key id2 id1.
Proof.
  intros Hne. unfold cache_key, String.ltb.
  rewrite (String.compare_antisym id1 id2).
  destruct (String.compare id2 id1) eqn:Hcmp; cbn; try reflexivity.
  apply String.compare_eq_iff in Hcmp. congruence.
Qed.

Lemma square_of_difference_sym (a b : Q) : ((a - b) ^ 2 = (b - a) ^ 2)%Q.
Proof.
  destruct a as [na da], b as [nb db].
  unfold Qpower, Qpower_positive, pow_pos, Qminus, Qplus, Qopp, Qmult. cbn.
  f_equal; [ring | f_equal; lia].
Qed.

Lemma distance_to_sym ph a b :
  Location.distance_to ph a b = Location.distance_to ph b a.
Proof.
  unfold Location.distance_to.
  by rewrite (square_of_difference_sym (Location.x a)),
             (square_of_difference_sym (Location.y a)).
Qed.

(** X21. The distance between two locations does not depend on the order
    in which they are named: in every state of the map and of its memo
    table, [calculate_distance] returns the same result, or raises the
    same error, and leaves the same map behind for both orders. *)
Theorem distance_is_symmetric id1 id2 cm :
  calculate_distance id1 id2 cm = calculate_distance id2 id1 cm.
Proof.
  unfold calculate_distance.
  destruct (PyDict.get id1 (locations cm)) as [loc1|] eqn:H1;
    destruct (PyDict.get id2 (locations cm)) as [loc2|] eqn:H2;
    try reflexivity.
  destruct (String.eqb_spec id1 id2) as [->|Hne].
  - by rewrite String.eqb_refl.
  - rewrite (proj2 (String.eqb_neq id2 id1)) by congruence.
    cbv zeta. rewrite (cache_key_sym id1 id2 Hne).
    by rewrite (distance_to_sym (pow_half cm) loc1 loc2).
Qed.

Lemma list_to_map_get {V} (d : PyDict.t V) k :
  (list_to_map d : gmap string V) !! k = PyDict.get k d.
Proof.
  induction d as [|[k0 v0] d IH]; cbn; [apply lookup_empty|].
  destruct (String.eqb_spec k k0) as [->|Hne].
  - apply lookup_insert_eq.
  - rewrite lookup_insert_ne by congruence. exact IH.
Qed.

Lemma PyDict_set_fresh {V} k (v : V) d :
  PyDict.get k d = None -> PyDict.set k v d = d ++ [(k, v)].
Proof.
  induction d as [|[k0 v0] d IH]; cbn; [reflexivity|].
  destruct (String.eqb k k0); [discriminate|].
  intros Hget. by rewrite IH.
Qed.

Lemma PyDict_get_keys {V} k (d : PyDict.t V) :
  In k (PyDict.keys d) <-> PyDict.get k d <> None.
Proof.
  unfold PyDict.keys. induction d as [|[k0 v0] d IH]; cbn; [tauto|].
  destruct (String.eqb_spec k k0) as [->|Hne].
  - split; [discriminate|by left].
  - rewrite <- IH. split; [intros [?|?]; [congruence|done]|by right].
Qed.

Lemma same_map_refl cm : cache_ok cm -> same_map cm cm.
Proof. by repeat split. Qed.

Lemma same_map_trans cm1 cm2 cm3 :
  same_map cm1 cm2 -> same_map cm2 cm3 -> same_map cm1 cm3.
Proof.
  intros (H1 & H2 & _) (H3 & H4 & H5). repeat split; [congruence..|exact H5].
Qed.

Lemma calculate_distance_ok id1 id2 l1 l2 cm :
  cache_ok cm ->
  PyDict.get id1 (locations cm) = Some l1 ->
  PyDict.get id2 (locations cm) = Some l2 ->
  id1 <> id2 ->
  exists cm',
    calculate_distance id1 id2 cm
    = (Ok (Location.distance_to (pow_half cm) l1 l2), cm')
    /\ same_map cm cm'.
Proof.
  intros Hc H1 H2 Hne. unfold calculate_distance. rewrite H1, H2.
  rewrite (proj2 (String.eqb_neq id1 id2) Hne). cbv zeta.
  destruct (_distance_cache cm !! cache_key id1 id2) as [d|] eqn:Hhit.
  - exists cm. split; [|by apply same_map_refl]. do 2 f_equal.
    unfold cache_key in Hhit.
    destruct (String.ltb id2 id1);
      destruct (Hc _ _ _ Hhit) as (l1' & l2' & G1 & G2 & ->).
    + rewrite H2 in G1. rewrite H1 in G2. injection G1 as <-.
      injection G2 as <-. apply distance_to_sym.
    + rewrite H1 in G1. rewrite H2 in G2. injection G1 as <-.
      by injection G2 as <-.
  - eexists. split; [reflexivity|]. repeat split. cbn.
    intros k1 k2 d Hk. cbn in Hk.
    destruct (decide (cache_key id1 id2 = (k1, k2))) as [Heq|Hother].
    + rewrite Heq, lookup_insert_eq in Hk. injection Hk as <-.
      unfold cache_key in Heq. destruct (String.ltb id2 id1);
        injection Heq as <- <-.
      * exists l2, l1. repeat split; [done..|apply distance_to_sym].
      * by exists l1, l2.
    + rewrite lookup_insert_ne in Hk by exact Hother. by apply Hc.
Qed.

Lemma calculate_distance_same id1 id2 cm :
  cache_ok cm -> same_map cm (snd (calculate_distance id1 id2 cm)).
Proof.
  intros Hc.
  destruct (PyDict.get id1 (locations cm)) as [l1|] eqn:H1;
    [destruct (PyDict.get id2 (locations cm)) as [l2|] eqn:H2|].
  - destruct (String.eqb_spec id1 id2) as [Heq|Hne].
    + unfold calculate_distance. rewrite H1, H2.
      rewrite (proj2 (String.eqb_eq id1 id2) Heq). by apply same_map_refl.
    + destruct (calculate_distance_ok id1 id2 l1 l2 cm Hc H1 H2 Hne)
        as (cm' & -> & Hsame). exact Hsame.
  - unfold calculate_distance. rewrite H1, H2. by apply same_map_refl.
  - unfold calculate_distance. rewrite H1. by apply same_map_refl.
Qed.

Lemma calculate_distance_view id1 id2 cm :
  cache_ok cm ->
  fst (calculate_distance id1 id2 cm)
  = CityMap.calculate_distance (map_view cm) (Some id1) (Some id2).
Proof.
  intros Hc. unfold CityMap.calculate_distance, CityMap.get_location, map_view.
  cbn [CityMap.locations]. rewrite !list_to_map_get.
  destruct (PyDict.get id1 (locations cm)) as [l1|] eqn:H1;
    [destruct (PyDict.get id2 (locations cm)) as [l2|] eqn:H2|].
  - cbn [opt_eqb]. destruct (String.eqb_spec id1 id2) as [Heq|Hne].
    + unfold calculate_distance. rewrite H1, H2.
      by rewrite (proj2 (String.eqb_eq id1 id2) Heq).
    + destruct (calculate_distance_ok id1 id2 l1 l2 cm Hc H1 H2 Hne)
        as (cm' & -> & _). reflexivity.
  - unfold calculate_distance. by rewrite H1, H2.
  - unfold calculate_distance. by rewrite H1.
Qed.

Lemma keys_ok_get cm loc :
  keys_ok cm -> In loc (PyDict.values (locations cm)) ->
  PyDict.get (Location.location_id loc) (locations cm) = Some loc.
Proof.
  intros [Hnd Hkeys] Hin. unfold PyDict.values in Hin.
  apply in_map_iff in Hin as ([k l] & <- & Hin). cbn.
  rewrite Forall_forall in Hkeys.
  pose proof (Hkeys (k, l) (proj2 (list_elem_of_In _ _) Hin)) as Hk.
  cbn in Hk. subst k. by apply PyDict_get_In.
Qed.

Lemma candidates_spec location_id location_type cm loc :
  In loc (candidates location_id location_type cm)
  <-> In loc (PyDict.values (locations cm))
      /\ Location.location_id loc <> location_id
      /\ match location_type with
         | Some ty => ty = "" \/ Location.location_type loc = ty
         | None => True
         end.
Proof.
  unfold candidates. rewrite filter_In, negb_true_iff, String.eqb_neq.
  destruct location_type as [ty|]; [|tauto].
  destruct (String.eqb_spec ty "") as [->|Hne]; [tauto|].
  rewrite filter_In, String.eqb_eq. tauto.
Qed.

Lemma candidates_located location_id location_type cm :
  keys_ok cm ->
  Forall (fun loc =>
            PyDict.get (Location.location_id loc) (locations cm) = Some loc
            /\ location_id <> Location.location_id loc)
    (candidates location_id location_type cm).
Proof.
  intros Hk. apply Forall_forall. intros loc Hin.
  apply list_elem_of_In, candidates_spec in Hin as (Hin & Hne & _).
  split; [by apply keys_ok_get|congruence].
Qed.

Lemma nearest_loop_ok location_id ref (rest : list Location.t) :
  forall nearest cm,
    cache_ok cm ->
    PyDict.get location_id (locations cm) = Some ref ->
    Forall (fun loc =>
              PyDict.get (Location.location_id loc) (locations cm) = Some loc
              /\ location_id <> Location.location_id loc) rest ->
    exists found cm',
      nearest_loop location_id nearest
        (Location.distance_to (pow_half cm) ref nearest) rest cm
      = (Ok found, cm')
      /\ same_map cm cm'
      /\ In found (nearest :: rest)
      /\ forall loc, In loc (nearest :: rest) ->
           (Location.distance_to (pow_half cm) ref found
            <= Location.distance_to (pow_half cm) ref loc)%Q.
Proof.
  induction rest as [|loc rest IH]; intros nearest cm Hc Href Hall;
    cbn [nearest_loop].
  - exists nearest, cm. split; [reflexivity|].
    split; [by apply same_map_refl|]. split; [by left|].
    intros loc [<-|[]]. apply Qle_refl.
  - apply Forall_cons in Hall as [[Hloc Hne] Hall].
    destruct (calculate_distance_ok location_id (Location.location_id loc)
                ref loc cm Hc Href Hloc Hne) as (cm1 & Hcalc & Hsame1).
    unfold bind at 1. rewrite Hcalc. cbn beta iota.
    pose proof Hsame1 as (Hlocs & Hph & Hc1).
    assert (PyDict.get location_id (locations cm1) = Some ref) as Href1
      by by rewrite Hlocs.
    assert (Forall (fun loc =>
              PyDict.get (Location.location_id loc) (locations cm1) = Some loc
              /\ location_id <> Location.location_id loc) rest) as Hall1
      by by rewrite Hlocs.
    destruct (Qle_bool (Location.distance_to (pow_half cm) ref nearest)
                (Location.distance_to (pow_half cm) ref loc)) eqn:Hcmp;
      cbn [negb].
    + apply Qle_bool_iff in Hcmp.
      destruct (IH nearest cm1 Hc1 Href1 Hall1)
        as (found & cm' & Hloop & Hsame & Hin & Hmin).
      rewrite Hph in Hloop, Hmin. exists found, cm'.
      split; [exact Hloop|]. split; [by apply (same_map_trans cm cm1)|].
      split; [destruct Hin as [<-|Hin]; [by left|by right; right]|].
      intros l [<-|[<-|Hl]].
      * apply Hmin. by left.
      * eapply Qle_trans; [apply Hmin; by left|exact Hcmp].
      * apply Hmin. by right.
    + assert (Location.distance_to (pow_half cm) ref loc
              < Location.distance_to (pow_half cm) ref nearest)%Q as Hlt.
      { apply Qnot_le_lt. intros Hle. apply Qle_bool_iff in Hle. congruence. }
      destruct (IH loc cm1 Hc1 Href1 Hall1)
        as (found & cm' & Hloop & Hsame & Hin & Hmin).
      rewrite Hph in Hloop, Hmin. exists found, cm'.
      split; [exact Hloop|]. split; [by apply (same_map_trans cm cm1)|].
      split; [by right|].
      intros l [<-|[<-|Hl]].
      * eapply Qle_trans; [apply Hmin; by left|by apply Qlt_le_weak].
      * apply Hmin. by left.
      * apply Hmin. by right.
Qed.

Lemma radius_loop_ok location_id radius ref (cands : list Location.t) :
  forall within cm,
    cache_ok cm ->
    PyDict.get location_id (locations cm) = Some ref ->
    Forall (fun loc =>
              PyDict.get (Location.location_id loc) (locations cm) = Some loc
              /\ location_id <> Location.location_id loc) cands ->
    exists cm',
      radius_loop location_id radius cands within cm
      = (Ok (within
             ++ List.filter
                  (fun loc =>
                     Qle_bool (Location.distance_to (pow_half cm) ref loc)
                       radius) cands), cm')
      /\ same_map cm cm'.
Proof.
  induction cands as [|loc rest IH]; intros within cm Hc Href Hall;
    cbn [radius_loop List.filter].
  - exists cm. rewrite app_nil_r. split; [reflexivity|by apply same_map_refl].
  - apply Forall_cons in Hall as [[Hloc Hne] Hall].
    destruct (calculate_distance_ok location_id (Location.location_id loc)
                ref loc cm Hc Href Hloc Hne) as (cm1 & Hcalc & Hsame1).
    unfold bind at 1. rewrite Hcalc. cbn beta iota.
    pose proof Hsame1 as (Hlocs & Hph & Hc1).
    destruct (IH (if Qle_bool (Location.distance_to (pow_half cm) ref loc)
                       radius
                  then within ++ [loc] else within) cm1 Hc1)
      as (cm' & Hloop & Hsame); [by rewrite Hlocs..|].
    rewrite Hph in Hloop. exists cm'.
    split; [|by apply (same_map_trans cm cm1)]. rewrite Hloop.
    destruct (Qle_bool _ radius); [by rewrite <- app_assoc|reflexivity].
Qed.

Lemma same_map_keys cm cm' : same_map cm cm' -> keys_ok cm -> keys_ok cm'.
Proof. intros (Hlocs & _) Hk. unfold keys_ok. by rewrite Hlocs. Qed.

Lemma has_location_get location_id cm :
  has_location location_id cm = true
  <-> exists loc, PyDict.get location_id (locations cm) = Some loc.
Proof.
  unfold has_location. destruct (PyDict.get location_id (locations cm)).
  - split; [by eexists|done].
  - split; [done|by intros [? ?]].
Qed.

Lemma find_nearest_location_same location_id location_type cm :
  cache_ok cm -> keys_ok cm ->
  same_map cm (snd (find_nearest_location location_id location_type cm)).
Proof.
  intros Hc Hk. unfold find_nearest_location.
  destruct (has_location location_id cm) eqn:Hhas; cbn [negb];
    [|by apply same_map_refl].
  apply has_location_get in Hhas as [ref Href].
  pose proof (candidates_located location_id location_type cm Hk) as Hall.
  destruct (candidates location_id location_type cm) as [|first rest];
    [by apply same_map_refl|].
  apply Forall_cons in Hall as [[Hfirst Hne] Hall].
  destruct (calculate_distance_ok location_id (Location.location_id first)
              ref first cm Hc Href Hfirst Hne) as (cm1 & Hcalc & Hsame1).
  unfold bind at 1. rewrite Hcalc. cbn beta iota.
  pose proof Hsame1 as (Hlocs & Hph & Hc1).
  destruct (nearest_loop_ok location_id ref rest first cm1 Hc1)
    as (found & cm' & Hloop & Hsame & _); [by rewrite Hlocs..|].
  rewrite Hph in Hloop. unfold bind. rewrite Hloop. cbn.
  by apply (same_map_trans cm cm1).
Qed.

Lemma find_locations_within_radius_same location_id radius location_type cm :
  cache_ok cm -> keys_ok cm ->
  same_map cm
    (snd (find_locations_within_radius location_id radius location_type cm)).
Proof.
  intros Hc Hk. unfold find_locations_within_radius.
  destruct (has_location location_id cm) eqn:Hhas; cbn [negb];
    [|by apply same_map_refl].
  apply has_location_get in Hhas as [ref Href].
  destruct (radius_loop_ok location_id radius ref
              (candidates location_id location_type cm) [] cm Hc Href
              (candidates_located location_id location_type cm Hk))
    as (cm' & -> & Hsame). exact Hsame.
Qed.

Lemma cache_ok_empty locs ph : cache_ok (mk locs ∅ ph).
Proof. intros k1 k2 d Hk. cbn in Hk. by rewrite lookup_empty in Hk. Qed.

Lemma add_location_ok location :
  preserves (fun cm => cache_ok cm /\ keys_ok cm) (add_location location).
Proof.
  intros cm [Hc [Hnd Hkeys]]. unfold add_location, has_location.
  destruct (PyDict.get (Location.location_id location) (locations cm))
    eqn:Hget; [by split|].
  cbn [snd]. split; [apply cache_ok_empty|]. unfold keys_ok. cbn.
  split; [by apply PyDict_set_NoDup|].
  rewrite (PyDict_set_fresh _ _ _ Hget). apply Forall_app. split; [done|].
  by constructor.
Qed.

Lemma remove_location_ok location_id :
  preserves (fun cm => cache_ok cm /\ keys_ok cm) (remove_location location_id).
Proof.
  intros cm [Hc [Hnd Hkeys]]. unfold remove_location.
  destruct (has_location location_id cm) eqn:Hhas; cbn [negb]; [|by split].
  apply has_location_get in Hhas as [loc Hget].
  cbn [snd]. split; [apply cache_ok_empty|]. unfold keys_ok. cbn.
  split; [|by apply PyDict_del_Forall].
  apply PyDict_del_keys; [exact Hnd|]. apply PyDict_get_keys. congruence.
Qed.

Lemma create_sample_city_ok :
  preserves (fun cm => cache_ok cm /\ keys_ok cm) create_sample_city.
Proof.
  unfold create_sample_city. apply preserves_bind.
  - apply preserves_modify. intros cm _. split; [apply cache_ok_empty|].
    split; [apply NoDup_nil_2|constructor].
  - intros _. apply preserves_for_each. intros [[[[id name] x] y] ty].
    apply preserves_bind; [apply preserves_lift|].
    intros location. apply add_location_ok.
Qed.

Lemma map_run_ok cm : map_run cm -> cache_ok cm /\ keys_ok cm.
Proof.
  induction 1 as [ph|location cm _ IH|location_id cm _ IH|id1 id2 cm _ IH
                 |location_id ty cm _ IH|location_id r ty cm _ IH|cm _ IH
                 |cm _ IH].
  - split; [apply cache_ok_empty|]. split; [apply NoDup_nil_2|constructor].
  - by apply add_location_ok.
  - by apply remove_location_ok.
  - destruct IH as [Hc Hk].
    pose proof (calculate_distance_same id1 id2 cm Hc) as Hsame.
    split; [apply Hsame|by apply (same_map_keys cm)].
  - destruct IH as [Hc Hk].
    pose proof (find_nearest_location_same location_id ty cm Hc Hk) as Hsame.
    split; [apply Hsame|by apply (same_map_keys cm)].
  - destruct IH as [Hc Hk].
    pose proof (find_locations_within_radius_same location_id r ty cm Hc Hk)
      as Hsame.
    split; [apply Hsame|by apply (same_map_keys cm)].
  - by apply create_sample_city_ok.
  - destruct IH as [Hc Hk]. split; [apply cache_ok_empty|exact Hk].
Qed.

(** X20. Adding and removing a location are inverse to each other. An
    identifier already on the map is refused with [ValueError] and the
    map, memo table included, is left as it was. A new location is filed
    last; it is then found under its identifier while every other
    identifier reads as before, and removing it again gives back exactly
    the former table of locations. Removing an identifier that is not on
    the map raises [KeyError] and changes nothing. *)
Theorem add_then_remove_restores_locations location cm :
  let id := Location.location_id location in
  let cm1 := snd (add_location location cm) in
  (has_location id cm = true ->
   add_location location cm = (Raise ValueError, cm))
  /\ (has_location id cm = false ->
      fst (add_location location cm) = Ok tt
      /\ get_location id cm1 = Some location
      /\ (forall other, other <> id ->
            get_location other cm1 = get_location other cm)
      /\ get_all_locations cm1 = get_all_locations cm ++ [location]
      /\ fst (remove_location id cm1) = Ok tt
      /\ locations (snd (remove_location id cm1)) = locations cm)
  /\ (forall other, has_location other cm = false ->
        remove_location other cm = (Raise KeyError, cm)).
Proof.
  intros id cm1. split; [|split].
  - intros Hhas. unfold add_location. fold id. by rewrite Hhas.
  - intros Hhas.
    assert (PyDict.get id (locations cm) = None) as Hget.
    { unfold has_location in Hhas.
      by destruct (PyDict.get id (locations cm)). }
    assert (add_location location cm
            = (Ok tt, mk (PyDict.set id location (locations cm)) ∅
                        (pow_half cm))) as Hadd.
    { unfold add_location. fold id. by rewrite Hhas. }
    unfold cm1. rewrite Hadd. cbn [fst snd].
    unfold get_location, get_all_locations, remove_location, has_location.
    cbn [locations pow_half]. rewrite PyDict_get_set_eq. cbn [negb fst snd].
    cbn [locations]. split; [reflexivity|]. split; [reflexivity|].
    split; [intros other Hne; by apply PyDict_get_set_ne|].
    split; [|split; [reflexivity|by apply PyDict_del_set_fresh]].
    rewrite (PyDict_set_fresh _ _ _ Hget). unfold PyDict.values.
    by rewrite map_app.
  - intros other Hhas. unfold remove_location. by rewrite Hhas.
Qed.

Lemma add_then_remove_restores_locations_witness :
  let plant := Location.mk "factory_3" "Toy Factory" 30 90 "factory" in
  get_location "factory_3" (snd (add_location plant sample_city)) = Some plant
  /\ locations (snd (remove_location "factory_3"
                       (snd (add_location plant sample_city))))
     = locations sample_city.
Proof.
  intros plant.
  destruct (add_then_remove_restores_locations plant sample_city)
    as (_ & Hnew & _).
  destruct Hnew as (_ & Hget & _ & _ & _ & Hback); [reflexivity|].
  split; [exact Hget|exact Hback].
Defined.

(** X22. The memo table never changes an answer. On every map obtained
    from an empty one through the methods of the class,
    [calculate_distance] returns what the computation without a memo
    table returns (the carriers' view of the map), it leaves the
    locations as they are, and asking again gives the same answer. *)
Theorem distance_cache_is_transparent cm id1 id2 :
  map_run cm ->
  let cm' := snd (calculate_distance id1 id2 cm) in
  fst (calculate_distance id1 id2 cm)
  = CityMap.calculate_distance (map_view cm) (Some id1) (Some id2)
  /\ map_view cm' = map_view cm
  /\ fst (calculate_distance id1 id2 cm')
     = fst (calculate_distance id1 id2 cm).
Proof.
  intros Hrun cm'. apply map_run_ok in Hrun as [Hc Hk].
  pose proof (calculate_distance_same id1 id2 cm Hc) as (Hlocs & Hph & Hc').
  fold cm' in Hlocs, Hph, Hc'.
  assert (map_view cm' = map_view cm) as Hview
    by (unfold map_view; by rewrite Hlocs, Hph).
  split; [by apply calculate_distance_view|]. split; [exact Hview|].
  by rewrite !calculate_distance_view, Hview.
Qed.

Lemma distance_cache_is_transparent_witness :
  let cm := snd (calculate_distance "store_1" "store_2" sample_city) in
  _distance_cache cm !! ("store_1", "store_2") = Some 20%Q
  /\ fst (calculate_distance "store_2" "store_1" cm) = Ok 20%Q.
Proof.
  intros cm. split; [reflexivity|].
  destruct (distance_cache_is_transparent cm "store_2" "store_1")
    as (Hview & _).
  - apply map_distance, map_sample, map_init.
  - rewrite Hview. reflexivity.
Defined.

(** X23. [find_nearest_location] returns a nearest candidate. On a map
    obtained through the methods of the class, an unknown reference
    raises [KeyError]. For a known reference the search does not raise
    and leaves the locations as they are; it returns [None] exactly when
    there is no candidate, and otherwise a candidate (a location other
    than the reference, of the type asked for) from which no candidate
    is closer to the reference. *)
Theorem nearest_location_is_nearest cm location_id location_type :
  map_run cm ->
  let candidates := candidates location_id location_type cm in
  let result := find_nearest_location location_id location_type cm in
  match get_location location_id cm with
  | None => result = (Raise KeyError, cm)
  | Some ref =>
    map_view (snd result) = map_view cm
    /\ match candidates with
       | [] => fst result = Ok None
       | _ =>
         exists nearest,
           fst result = Ok (Some nearest)
           /\ In nearest candidates
           /\ forall loc, In loc candidates ->
                (Location.distance_to (pow_half cm) ref nearest
                 <= Location.distance_to (pow_half cm) ref loc)%Q
       end
  end.
Proof.
  intros Hrun cands result. apply map_run_ok in Hrun as [Hc Hk].
  unfold get_location.
  destruct (PyDict.get location_id (locations cm)) as [ref|] eqn:Href.
  - split.
    { pose proof (find_nearest_location_same location_id location_type cm
                    Hc Hk) as (Hlocs & Hph & _).
      unfold map_view, result. by rewrite Hlocs, Hph. }
    unfold result, find_nearest_location, has_location. rewrite Href.
    cbn [negb].
    pose proof (candidates_located location_id location_type cm Hk) as Hall.
    fold cands in Hall |- *.
    destruct cands as [|first rest]; [reflexivity|].
    apply Forall_cons in Hall as [[Hfirst Hne] Hall].
    destruct (calculate_distance_ok location_id (Location.location_id first)
                ref first cm Hc Href Hfirst Hne) as (cm1 & Hcalc & Hsame1).
    unfold bind at 1. rewrite Hcalc. cbn beta iota.
    pose proof Hsame1 as (Hlocs & Hph & Hc1).
    destruct (nearest_loop_ok location_id ref rest first cm1 Hc1)
      as (found & cm' & Hloop & _ & Hin & Hmin); [by rewrite Hlocs..|].
    rewrite Hph in Hloop, Hmin. unfold bind. rewrite Hloop. cbn [fst].
    exists found. by repeat split.
  - unfold result, find_nearest_location, has_location. by rewrite Href.
Qed.

Lemma nearest_location_is_nearest_witness :
  fst (find_nearest_location "store_1" (Some "store") sample_city)
  = Ok (Some (Location.mk "store_4" "Corner Store" 15 10 "store"))
  /\ map_view (snd (find_nearest_location "store_1" (Some "store")
                      sample_city))
     = map_view sample_city.
Proof.
  split; [reflexivity|].
  pose proof (nearest_location_is_nearest sample_city "store_1" (Some "store")
                (map_sample _ (map_init _))) as Hnear.
  cbv zeta in Hnear.
  change (get_location "store_1" sample_city)
    with (Some (Location.mk "store_1" "Downtown Store" 10 20 "store"))
    in Hnear.
  exact (proj1 Hnear).
Defined.

(** X24. [find_locations_within_radius] returns exactly the candidates
    whose distance from the reference is at most the radius, in the
    order of the map. On a map obtained through the methods of the class
    an unknown reference raises [KeyError]; for a known one the search
    does not raise and leaves the locations as they are. *)
Theorem locations_within_radius_are_exact cm location_id radius
    location_type :
  map_run cm ->
  let result :=
    find_locations_within_radius location_id radius location_type cm in
  match get_location location_id cm with
  | None => result = (Raise KeyError, cm)
  | Some ref =>
    fst result
    = Ok (List.filter
            (fun loc =>
               Qle_bool (Location.distance_to (pow_half cm) ref loc) radius)
            (candidates location_id location_type cm))
    /\ map_view (snd result) = map_view cm
  end.
Proof.
  intros Hrun result. apply map_run_ok in Hrun as [Hc Hk].
  unfold get_location.
  destruct (PyDict.get location_id (locations cm)) as [ref|] eqn:Href.
  - unfold result, find_locations_within_radius, has_location. rewrite Href.
    cbn [negb].
    destruct (radius_loop_ok location_id radius ref
                (candidates location_id location_type cm) [] cm Hc Href
                (candidates_located location_id location_type cm Hk))
      as (cm' & -> & Hlocs & Hph & _).
    split; [reflexivity|]. unfold map_view. cbn [snd]. by rewrite Hlocs, Hph.
  - unfold result, find_locations_within_radius, has_location.
    by rewrite Href.
Qed.

Lemma locations_within_radius_are_exact_witness :
  map (fun loc => Location.location_id loc)
    match fst (find_locations_within_radius "store_1" 20 (Some "store")
                 sample_city) with
    | Ok found => found
    | Raise _ => []
    end
  = ["store_2"; "store_4"].
Proof.
  pose proof (locations_within_radius_are_exact sample_city "store_1" 20
                (Some "store") (map_sample _ (map_init _))) as Hexact.
  cbv zeta in Hexact.
  change (get_location "store_1" sample_city)
    with (Some (Location.mk "store_1" "Downtown Store" 10 20 "store"))
    in Hexact.
  rewrite (proj1 Hexact). reflexivity.
Defined.

Lemma py_min_spec (rest : list Q) : forall first,
  In (py_min first rest) (first :: rest)
  /\ forall v, In v (first :: rest) -> (py_min first rest <= v)%Q.
Proof.
  unfold py_min. induction rest as [|v rest IH]; intros first;
    cbn [fold_left].
  - split; [by left|]. intros v [<-|[]]. apply Qle_refl.
  - destruct (Qle_bool first v) eqn:Hcmp; cbn [negb].
    + apply Qle_bool_iff in Hcmp. destruct (IH first) as [Hin Hmin].
      split; [destruct Hin as [<-|Hin]; [by left|by right; right]|].
      intros w [<-|[<-|Hw]].
      * apply Hmin. by left.
      * eapply Qle_trans; [apply Hmin; by left|exact Hcmp].
      * apply Hmin. by right.
    + assert (v < first)%Q as Hlt.
      { apply Qnot_le_lt. intros Hle. apply Qle_bool_iff in Hle. congruence. }
      destruct (IH v) as [Hin Hmin]. split; [by right|].
      intros w [<-|[<-|Hw]].
      * eapply Qle_trans; [apply Hmin; by left|by apply Qlt_le_weak].
      * apply Hmin. by left.
      * apply Hmin. by right.
Qed.

Lemma py_max_spec (rest : list Q) : forall first,
  In (py_max first rest) (first :: rest)
  /\ forall v, In v (first :: rest) -> (v <= py_max first rest)%Q.
Proof.
  unfold py_max. induction rest as [|v rest IH]; intros first;
    cbn [fold_left].
  - split; [by left|]. intros v [<-|[]]. apply Qle_refl.
  - destruct (Qle_bool v first) eqn:Hcmp; cbn [negb].
    + apply Qle_bool_iff in Hcmp. destruct (IH first) as [Hin Hmax].
      split; [destruct Hin as [<-|Hin]; [by left|by right; right]|].
      intros w [<-|[<-|Hw]].
      * apply Hmax. by left.
      * eapply Qle_trans; [exact Hcmp|apply Hmax; by left].
      * apply Hmax. by right.
    + assert (first < v)%Q as Hlt.
      { apply Qnot_le_lt. intros Hle. apply Qle_bool_iff in Hle. congruence. }
      destruct (IH v) as [Hin Hmax]. split; [by right|].
      intros w [<-|[<-|Hw]].
      * eapply Qle_trans; [by apply Qlt_le_weak|apply Hmax; by left].
      * apply Hmax. by left.
      * apply Hmax. by right.
Qed.

(** X25. The bounding box encloses every location and is tight, and the
    centre lies inside it. For every map, each location has its
    coordinates between the bounds returned by [get_map_bounds]; on a
    map that is not empty each of the four bounds is the coordinate of
    some location; and the point returned by [get_map_center] lies
    within the bounds. *)
Theorem map_bounds_enclose_every_location cm :
  let '(min_x, min_y, max_x, max_y) := get_map_bounds cm in
  let '(center_x, center_y) := get_map_center cm in
  let xs := map Location.x (get_all_locations cm) in
  let ys := map Location.y (get_all_locations cm) in
  (forall loc, In loc (get_all_locations cm) ->
     (min_x <= Location.x loc)%Q /\ (Location.x loc <= max_x)%Q
     /\ (min_y <= Location.y loc)%Q /\ (Location.y loc <= max_y)%Q)
  /\ (get_all_locations cm <> [] ->
      In min_x xs /\ In max_x xs /\ In min_y ys /\ In max_y ys)
  /\ (min_x <= center_x)%Q /\ (center_x <= max_x)%Q
  /\ (min_y <= center_y)%Q /\ (center_y <= max_y)%Q.
Proof.
  unfold get_map_center, get_map_bounds, get_all_locations, PyDict.values.
  destruct (locations cm) as [|[k first] rest]; cbn [map snd].
  - split; [by intros loc []|]. split; [done|]. repeat split; lra.
  - set (xs := map Location.x (map snd rest)).
    set (ys := map Location.y (map snd rest)).
    destruct (py_min_spec xs (Location.x first)) as [Hin_minx Hminx].
    destruct (py_max_spec xs (Location.x first)) as [Hin_maxx Hmaxx].
    destruct (py_min_spec ys (Location.y first)) as [Hin_miny Hminy].
    destruct (py_max_spec ys (Location.y first)) as [Hin_maxy Hmaxy].
    split; [|split; [by intros _|]].
    + intros loc Hloc.
      assert (In (Location.x loc) (Location.x first :: xs)) as Hx.
      { change (Location.x first :: xs)
          with (map Location.x (first :: map snd rest)). by apply in_map. }
      assert (In (Location.y loc) (Location.y first :: ys)) as Hy.
      { change (Location.y first :: ys)
          with (map Location.y (first :: map snd rest)). by apply in_map. }
      repeat split; auto.
    + pose proof (Hminx _ (or_introl eq_refl)).
      pose proof (Hmaxx _ (or_introl eq_refl)).
      pose proof (Hminy _ (or_introl eq_refl)).
      pose proof (Hmaxy _ (or_introl eq_refl)).
      repeat split; apply Qle_shift_div_l || apply Qle_shift_div_r; lra.
Qed.

Lemma map_bounds_enclose_every_location_witness :
  get_map_bounds sample_city = (10, 10, 50, 90)%Q
  /\ get_map_center sample_city = ((10 + 50) / 2, (10 + 90) / 2)%Q
  /\ In 10%Q (map Location.x (get_all_locations sample_city)).
Proof.
  split; [reflexivity|]. split; [reflexivity|].
  pose proof (map_bounds_enclose_every_location sample_city) as Hbounds.
  change (get_map_bounds sample_city) with (10, 10, 50, 90)%Q in Hbounds.
  change (get_map_center sample_city)
    with ((10 + 50) / 2, (10 + 90) / 2)%Q in Hbounds.
  cbv zeta in Hbounds. destruct Hbounds as (_ & Htight & _).
  refine (proj1 (Htight _)). vm_compute. discriminate.
Defined.

Lemma constructed_type loc :
  constructed loc ->
  Location.location_type loc = "factory"
  \/ Location.location_type loc = "warehouse"
  \/ Location.location_type loc = "store".
Proof.
  unfold constructed, Location.init. intros Hinit.
  destruct (String.eqb (Location.location_id loc) ""); [discriminate|].
  destruct (String.eqb (Location.name loc) ""); [discriminate|].
  cbn [existsb] in Hinit.
  destruct (String.eqb_spec (Location.location_type loc) "factory");
    [by left|].
  destruct (String.eqb_spec (Location.location_type loc) "warehouse");
    [by right; left|].
  destruct (String.eqb_spec (Location.location_type loc) "store");
    [by right; right|].
  discriminate.
Qed.

(** X26. The counts by type add up. On a map whose locations are all as
    the constructor of [Location] leaves them, the total reported by
    [get_map_stats] is the sum of its factories, warehouses and stores,
    and every location is returned by [get_locations_by_type] for
    exactly one of the three types. [create_sample_city] never raises,
    whatever the map held before, and leaves 2 factories, 2 warehouses
    and 5 stores with an empty memo table. *)
Theorem map_stats_add_up :
  (forall cm,
     Forall constructed (get_all_locations cm) ->
     let s := get_map_stats cm in
     total_locations s = (factories s + warehouses s + stores s)%nat
     /\ forall loc, In loc (get_all_locations cm) ->
          In loc (get_locations_by_type (Location.location_type loc) cm))
  /\ forall cm,
       fst (create_sample_city cm) = Ok tt
       /\ Forall constructed (get_all_locations (snd (create_sample_city cm)))
       /\ get_map_stats (snd (create_sample_city cm))
          = mk_map_stats 9 2 2 5 0.
Proof.
  split.
  - intros cm Hall.
    unfold get_map_stats, get_locations_by_type, get_all_locations in *.
    cbn [total_locations factories warehouses stores].
    split.
    + rewrite <- (length_map snd (locations cm)).
      fold (PyDict.values (locations cm)).
      induction (PyDict.values (locations cm)) as [|loc locs IH];
        [reflexivity|].
      apply Forall_cons in Hall as [Hloc Hall]. specialize (IH Hall).
      cbn [List.filter length].
      destruct (constructed_type loc Hloc) as [-> | [-> | ->]]; cbn; lia.
    + intros loc Hin. apply filter_In. split; [exact Hin|].
      apply String.eqb_refl.
  - intros cm. split; [reflexivity|]. split; [|reflexivity].
    repeat (constructor; [reflexivity|]). constructor.
Qed.

Lemma map_stats_add_up_witness :
  total_locations (get_map_stats sample_city) = 9%nat
  /\ (total_locations (get_map_stats sample_city)
      = factories (get_map_stats sample_city)
        + warehouses (get_map_stats sample_city)
        + stores (get_map_stats sample_city))%nat.
Proof.
  split; [reflexivity|].
  destruct map_stats_add_up as [Hsum Hsample].
  exact (proj1 (Hsum sample_city
                  (proj1 (proj2 (Hsample (init sample_root)))))).
Defined.

End CityMapFacts.
